(** * MoFox kernel concurrency: TaskManager and Watchdog

    A shallow embedding of [src/kernel/concurrency/task_manager.py] and
    [src/kernel/concurrency/watchdog.py], and the properties of the
    specification checked against it.

    Modelling conventions.
    - Python objects that are shared and mutated in place (the [ManagedTask]
      of a manager, the [TaskInfo] of the watchdog, an [asyncio.Task]) live in
      a store and are updated there by key, so every holder of a reference
      sees the update.
    - A dict is an association list in insertion order (Python dicts iterate
      in insertion order, and [_check_waiting_tasks] depends on it).
    - Time stamps are binary64 floats, as [time.time()] returns them; every
      atomic segment of a coroutine reads the clock once, and the value read
      is an input of the segment.
    - An [async def] is cut at its suspension points: the code between two
      suspension points runs atomically on the event loop and is one
      function of the model. *)

From Stdlib Require Import ZArith List String Ascii Bool Lia PeanoNat.
From Stdlib Require Import Permutation PrimFloat.
From Stdlib Require Import DecimalString DecimalNat DecimalFacts.
Import ListNotations.

Set Warnings "-inexact-float".
Local Open Scope list_scope.
Local Open Scope Z_scope.

(** ** Python values and truthiness *)

(** [str(n)] for a non-negative counter and for an [int]. *)
Definition py_str_nat (n : nat) : string :=
  NilZero.string_of_uint (Nat.to_uint n).

Definition py_str_int (z : Z) : string :=
  NilZero.string_of_int (Z.to_int z).

(** [bool(x)] for a float: every float but zero is true. *)
Definition float_truthy (x : float) : bool := negb (PrimFloat.eqb x 0%float).

(** [bool(x)] for an [Optional[float]]. *)
Definition opt_float_truthy (x : option float) : bool :=
  match x with
  | None => false
  | Some f => float_truthy f
  end.

(** [x or d] for an [Optional[float]] [x]. *)
Definition float_or (x : option float) (d : float) : float :=
  match x with
  | Some f => if float_truthy f then f else d
  | None => d
  end.

(** [x or d] for an [Optional[str]] [x]: the empty string is false. *)
Definition str_or (x : option string) (d : string) : string :=
  match x with
  | Some EmptyString => d
  | Some s => s
  | None => d
  end.

(** [a > b] on floats. *)
Definition float_gt (a b : float) : bool := PrimFloat.ltb b a.

(** The values a unit of work may return, and the exceptions it may raise
    (an exception is identified by its message). *)
Inductive PyValue : Type :=
| PyNone
| PyInt (z : Z)
| PyStr (s : string).

Definition Exception : Type := string.

(** Task metadata: an opaque string-keyed mapping. *)
Definition Metadata : Type := list (string * PyValue).

(** ** asyncio.Task handles

    The handle of a running unit of work. The store of all handles is a
    list; a reference is an index, which also stands for [id(task)]. *)
Module Asyncio.

(** How the unit of work behind a handle ends: it returns a value, it
    raises an exception of class [Exception], or it is cancelled
    ([CancelledError]). [Raised e truth] carries the exception and its
    truth value [bool(e)], which is true unless the class of the exception
    defines [__bool__] or [__len__]. A unit of work that raises a
    [BaseException] which is not an [Exception] ([KeyboardInterrupt],
    [SystemExit]) has no outcome here: no [except] clause of
    [_execute_task] or of [_scheduler_loop] catches it, and it would end
    the scheduler coroutine. *)
Inductive Outcome : Type :=
| Returned (v : PyValue)
| Raised (e : Exception) (truth : bool)
| WasCancelled.

Record Task : Type := mkTask {
  outcome : option Outcome;       (* None while the task is pending *)
  must_cancel : bool;             (* a cancellation has been requested *)
  done_callbacks : list string    (* watchdog ids given to add_done_callback *)
}.

Definition Heap : Type := list Task.

Definition done (t : Task) : bool :=
  match outcome t with
  | Some _ => true
  | None => false
  end.

Definition cancelled (t : Task) : bool :=
  match outcome t with
  | Some WasCancelled => true
  | _ => false
  end.

Definition exception (t : Task) : option Exception :=
  match outcome t with
  | Some (Raised e _) => Some e
  | _ => None
  end.

(** [bool(task.exception())]: [None] is false. *)
Definition exception_truth (t : Task) : bool :=
  match outcome t with
  | Some (Raised _ truth) => truth
  | _ => false
  end.

(** [task.cancel()]: a settled task refuses, a pending one records the
    request. *)
Definition cancel (t : Task) : Task :=
  if done t then t
  else mkTask (outcome t) true (done_callbacks t).

Definition settle (o : Outcome) (t : Task) : Task :=
  mkTask (Some o) (must_cancel t) (done_callbacks t).

Definition add_done_callback (wid : string) (t : Task) : Task :=
  mkTask (outcome t) (must_cancel t) (done_callbacks t ++ [wid]).

Fixpoint update (r : nat) (f : Task -> Task) (h : Heap) : Heap :=
  match h, r with
  | [], _ => []
  | t :: h', O => f t :: h'
  | t :: h', S r' => t :: update r' f h'
  end.

Definition get (r : nat) (h : Heap) : option Task := nth_error h r.

(** [asyncio.create_task(coro)]: a fresh pending handle. *)
Definition create_task (h : Heap) : Heap * nat :=
  (h ++ [mkTask None false []], List.length h).

End Asyncio.

(** ** watchdog.py *)
Module Watchdog.

Inductive TaskStatus : Type :=
| PENDING | RUNNING | COMPLETED | FAILED | TIMEOUT | CANCELLED.

Record TaskInfo : Type := mkTaskInfo {
  task_id : string;
  name : string;
  task : nat;
  status : TaskStatus;
  start_time : float;
  end_time : option float;
  timeout : option float;
  metadata : Metadata;
  error : option Exception
}.

Definition set_status (s : TaskStatus) (i : TaskInfo) : TaskInfo :=
  mkTaskInfo (task_id i) (name i) (task i) s (start_time i) (end_time i)
             (timeout i) (metadata i) (error i).

Definition set_end_time (e : option float) (i : TaskInfo) : TaskInfo :=
  mkTaskInfo (task_id i) (name i) (task i) (status i) (start_time i) e
             (timeout i) (metadata i) (error i).

Definition set_error (e : option Exception) (i : TaskInfo) : TaskInfo :=
  mkTaskInfo (task_id i) (name i) (task i) (status i) (start_time i)
             (end_time i) (timeout i) (metadata i) e.

(** [TaskInfo.duration], with the clock value [now]. *)
Definition duration (now : float) (i : TaskInfo) : float :=
  PrimFloat.sub (float_or (end_time i) now) (start_time i).

Definition is_timeout (now : float) (i : TaskInfo) : bool :=
  match timeout i with
  | None => false
  | Some t => float_gt (duration now i) t
  end.

Definition is_alive (h : Asyncio.Heap) (i : TaskInfo) : bool :=
  match Asyncio.get (task i) h with
  | Some t => negb (Asyncio.done t)
  | None => false
  end.

(** A callback receives the entry id and the entry. What a callback can do
    to the scheduler goes through the handles (cancelling a unit of work),
    so a callback is its effect on the handle store; an exception it raises
    is caught by the caller and changes nothing. *)
Definition Callback : Type := string -> TaskInfo -> Asyncio.Heap -> Asyncio.Heap.

Record Stats : Type := mkStats {
  total_registered : Z;
  total_completed : Z;
  total_failed : Z;
  total_timeout : Z;
  total_cancelled : Z
}.

Record t : Type := mk {
  _tasks : list TaskInfo;
  _task_counter : nat;
  _running : bool;
  check_interval : float;
  default_timeout : float;
  enable_timeout_check : bool;
  enable_leak_detection : bool;
  _on_timeout_callbacks : list Callback;
  _on_error_callbacks : list Callback;
  _on_complete_callbacks : list Callback;
  _stats : Stats
}.

(** [Watchdog.__init__] *)
Definition init : t :=
  mk [] 0 false 1%float 300%float true true [] [] [] (mkStats 0 0 0 0 0).

Definition with_tasks (ts : list TaskInfo) (w : t) : t :=
  mk ts (_task_counter w) (_running w) (check_interval w) (default_timeout w)
     (enable_timeout_check w) (enable_leak_detection w)
     (_on_timeout_callbacks w) (_on_error_callbacks w)
     (_on_complete_callbacks w) (_stats w).

Definition with_stats (s : Stats) (w : t) : t :=
  mk (_tasks w) (_task_counter w) (_running w) (check_interval w)
     (default_timeout w) (enable_timeout_check w) (enable_leak_detection w)
     (_on_timeout_callbacks w) (_on_error_callbacks w)
     (_on_complete_callbacks w) s.

Definition with_running (b : bool) (w : t) : t :=
  mk (_tasks w) (_task_counter w) b (check_interval w) (default_timeout w)
     (enable_timeout_check w) (enable_leak_detection w)
     (_on_timeout_callbacks w) (_on_error_callbacks w)
     (_on_complete_callbacks w) (_stats w).

Definition with_check_interval (c : float) (w : t) : t :=
  mk (_tasks w) (_task_counter w) (_running w) c (default_timeout w)
     (enable_timeout_check w) (enable_leak_detection w)
     (_on_timeout_callbacks w) (_on_error_callbacks w)
     (_on_complete_callbacks w) (_stats w).

Definition with_counter (c : nat) (w : t) : t :=
  mk (_tasks w) c (_running w) (check_interval w) (default_timeout w)
     (enable_timeout_check w) (enable_leak_detection w)
     (_on_timeout_callbacks w) (_on_error_callbacks w)
     (_on_complete_callbacks w) (_stats w).

(** [add_timeout_callback] *)
Definition add_timeout_callback (cb : Callback) (w : t) : t :=
  mk (_tasks w) (_task_counter w) (_running w) (check_interval w)
     (default_timeout w) (enable_timeout_check w) (enable_leak_detection w)
     (_on_timeout_callbacks w ++ [cb]) (_on_error_callbacks w)
     (_on_complete_callbacks w) (_stats w).

(** [self._tasks.get(task_id)] *)
Definition get_task_info (id : string) (w : t) : option TaskInfo :=
  find (fun i => String.eqb (task_id i) id) (_tasks w).

(** In-place mutation of the entry stored under [id]. *)
Definition modify (id : string) (f : TaskInfo -> TaskInfo) (w : t) : t :=
  with_tasks
    (map (fun i => if String.eqb (task_id i) id then f i else i) (_tasks w)) w.

(** [self._tasks[task_id] = task_info] *)
Definition dict_set (i : TaskInfo) (ts : list TaskInfo) : list TaskInfo :=
  if existsb (fun j => String.eqb (task_id j) (task_id i)) ts
  then map (fun j => if String.eqb (task_id j) (task_id i) then i else j) ts
  else ts ++ [i].

(** [start] *)
Definition start (w : t) : t :=
  if _running w then w else with_running true w.

(** [register_task]; [r] is the handle and stands for [id(task)]. *)
Definition register_task (r : nat) (nm : option string)
           (tmo : option float) (md : option Metadata) (now : float)
           (w : t) (h : Asyncio.Heap) : t * Asyncio.Heap * string :=
  let c := S (_task_counter w) in
  let id := ("task_" ++ py_str_nat c ++ "_" ++ py_str_nat r)%string in
  let info :=
    mkTaskInfo id (str_or nm ("Task-" ++ py_str_nat c)%string) r RUNNING now
               None (Some (float_or tmo (default_timeout w)))
               (match md with Some m => m | None => [] end) None in
  let s := _stats w in
  let w1 := with_counter c w in
  let w2 := with_tasks (dict_set info (_tasks w1)) w1 in
  let w3 := with_stats
              (mkStats (total_registered s + 1) (total_completed s)
                       (total_failed s) (total_timeout s) (total_cancelled s))
              w2 in
  (w3, Asyncio.update r (Asyncio.add_done_callback id) h, id).

(** [unregister_task] *)
Definition unregister_task (id : string) (w : t) : t :=
  with_tasks
    (filter (fun i => negb (String.eqb (task_id i) id)) (_tasks w)) w.

Definition run_callbacks (cbs : list Callback) (id : string)
           (info : TaskInfo) (h : Asyncio.Heap) : Asyncio.Heap :=
  fold_left (fun h' cb => cb id info h') cbs h.

(** [_on_task_done], the completion observer of the handle [tk]. *)
Definition _on_task_done (id : string) (tk : Asyncio.Task) (now : float)
           (w : t) (h : Asyncio.Heap) : t * Asyncio.Heap :=
  match get_task_info id w with
  | None => (w, h)
  | Some _ =>
    let w1 := modify id (set_end_time (Some now)) w in
    let s := _stats w1 in
    if Asyncio.cancelled tk then
      (with_stats
         (mkStats (total_registered s) (total_completed s) (total_failed s)
                  (total_timeout s) (total_cancelled s + 1))
         (modify id (set_status CANCELLED) w1), h)
    else if Asyncio.exception_truth tk then
      let w2 :=
        modify id (fun i => set_error (Asyncio.exception tk)
                                      (set_status FAILED i)) w1 in
      let w3 := with_stats
                  (mkStats (total_registered s) (total_completed s)
                           (total_failed s + 1) (total_timeout s)
                           (total_cancelled s)) w2 in
      match get_task_info id w3 with
      | Some info => (w3, run_callbacks (_on_error_callbacks w3) id info h)
      | None => (w3, h)
      end
    else
      let w2 := modify id (set_status COMPLETED) w1 in
      let w3 := with_stats
                  (mkStats (total_registered s) (total_completed s + 1)
                           (total_failed s) (total_timeout s)
                           (total_cancelled s)) w2 in
      match get_task_info id w3 with
      | Some info => (w3, run_callbacks (_on_complete_callbacks w3) id info h)
      | None => (w3, h)
      end
  end.

(** [_handle_timeout]: mark the entry, count it, report it. The handle is
    not cancelled here. *)
Definition _handle_timeout (id : string) (w : t) (h : Asyncio.Heap)
  : t * Asyncio.Heap :=
  let w1 := modify id (set_status TIMEOUT) w in
  let s := _stats w1 in
  let w2 := with_stats
              (mkStats (total_registered s) (total_completed s)
                       (total_failed s) (total_timeout s + 1)
                       (total_cancelled s)) w1 in
  match get_task_info id w2 with
  | Some info => (w2, run_callbacks (_on_timeout_callbacks w2) id info h)
  | None => (w2, h)
  end.

Inductive Action : Type := ActTimeout | ActCleanup.

(** The first loop of [_check_tasks]: what to do with one entry. *)
Definition classify (now : float) (w : t) (h : Asyncio.Heap)
           (i : TaskInfo) : list (string * Action) :=
  if enable_timeout_check w && is_alive h i && is_timeout now i
  then [(task_id i, ActTimeout)]
  else if negb (is_alive h i) && opt_float_truthy (end_time i)
          && float_gt (PrimFloat.sub now (float_or (end_time i) now)) 60%float
  then [(task_id i, ActCleanup)]
  else [].

Definition handle_one (wh : t * Asyncio.Heap) (a : string * Action)
  : t * Asyncio.Heap :=
  match snd a with
  | ActTimeout => _handle_timeout (fst a) (fst wh) (snd wh)
  | ActCleanup => (unregister_task (fst a) (fst wh), snd wh)
  end.

(** [_check_tasks], one round of the monitor loop. *)
Definition _check_tasks (now : float) (w : t) (h : Asyncio.Heap)
  : t * Asyncio.Heap :=
  fold_left handle_one (flat_map (classify now w h) (_tasks w)) (w, h).

(** [cancel_task] of the watchdog. *)
Definition cancel_task (id : string) (w : t) (h : Asyncio.Heap)
  : t * Asyncio.Heap * bool :=
  match get_task_info id w with
  | None => (w, h, false)
  | Some info =>
    if is_alive h info then
      let s := _stats w in
      (with_stats
         (mkStats (total_registered s) (total_completed s) (total_failed s)
                  (total_timeout s) (total_cancelled s + 1))
         (modify id (set_status CANCELLED) w),
       Asyncio.update (task info) Asyncio.cancel h, true)
    else (w, h, false)
  end.

End Watchdog.

(** ** task_manager.py: data model *)

Inductive TaskPriority : Type := LOW | NORMAL | HIGH | CRITICAL.

(** [TaskPriority.value] *)
Definition priority_value (p : TaskPriority) : Z :=
  match p with
  | LOW => 0
  | NORMAL => 1
  | HIGH => 2
  | CRITICAL => 3
  end.

Definition priority_eqb (p q : TaskPriority) : bool :=
  priority_value p =? priority_value q.

(** Iterating the enumeration yields its members in definition order. *)
Definition TaskPriority_members : list TaskPriority :=
  [LOW; NORMAL; HIGH; CRITICAL].

(** [sorted(TaskPriority, key=lambda p: p.value, reverse=True)] *)
Fixpoint insert_by_value_desc (p : TaskPriority) (l : list TaskPriority)
  : list TaskPriority :=
  match l with
  | [] => [p]
  | q :: l' =>
    if priority_value q <? priority_value p then p :: q :: l'
    else q :: insert_by_value_desc p l'
  end.

Definition sorted_by_value_desc (l : list TaskPriority) : list TaskPriority :=
  fold_right insert_by_value_desc [] l.

Inductive TaskState : Type :=
| QUEUED | WAITING | RUNNING | COMPLETED | FAILED | CANCELLED | RETRYING.

Definition state_eqb (a b : TaskState) : bool :=
  match a, b with
  | QUEUED, QUEUED | WAITING, WAITING | RUNNING, RUNNING
  | COMPLETED, COMPLETED | FAILED, FAILED | CANCELLED, CANCELLED
  | RETRYING, RETRYING => true
  | _, _ => false
  end.

Module TaskConfig.

Record t : Type := mk {
  priority : TaskPriority;
  timeout : option float;
  max_retries : Z;
  retry_delay : float;
  dependencies : list string;
  metadata : Metadata;
  cancel_on_dependency_failure : bool;
  enable_watchdog : bool
}.

(** [TaskConfig()] *)
Definition default : t := mk NORMAL None 0 1%float [] [] true true.

End TaskConfig.

(** A managed task. The work itself ([coro], [args], [kwargs]) is opaque to
    the manager: how an attempt ends is an input of the model. *)
Record ManagedTask : Type := mkManagedTask {
  task_id : string;
  name : string;
  config : TaskConfig.t;
  state : TaskState;
  task : option nat;
  watchdog_id : option string;
  result : PyValue;
  error : option Exception;
  retry_count : Z;
  create_time : float;
  start_time : option float;
  end_time : option float;
  dependents : list string
}.

Definition set_state (s : TaskState) (m : ManagedTask) : ManagedTask :=
  mkManagedTask (task_id m) (name m) (config m) s (task m) (watchdog_id m)
                (result m) (error m) (retry_count m) (create_time m)
                (start_time m) (end_time m) (dependents m).

Definition set_task (r : option nat) (m : ManagedTask) : ManagedTask :=
  mkManagedTask (task_id m) (name m) (config m) (state m) r (watchdog_id m)
                (result m) (error m) (retry_count m) (create_time m)
                (start_time m) (end_time m) (dependents m).

Definition set_watchdog_id (w : option string) (m : ManagedTask) : ManagedTask :=
  mkManagedTask (task_id m) (name m) (config m) (state m) (task m) w
                (result m) (error m) (retry_count m) (create_time m)
                (start_time m) (end_time m) (dependents m).

Definition set_result (v : PyValue) (m : ManagedTask) : ManagedTask :=
  mkManagedTask (task_id m) (name m) (config m) (state m) (task m)
                (watchdog_id m) v (error m) (retry_count m) (create_time m)
                (start_time m) (end_time m) (dependents m).

Definition set_error (e : option Exception) (m : ManagedTask) : ManagedTask :=
  mkManagedTask (task_id m) (name m) (config m) (state m) (task m)
                (watchdog_id m) (result m) e (retry_count m) (create_time m)
                (start_time m) (end_time m) (dependents m).

Definition set_retry_count (n : Z) (m : ManagedTask) : ManagedTask :=
  mkManagedTask (task_id m) (name m) (config m) (state m) (task m)
                (watchdog_id m) (result m) (error m) n (create_time m)
                (start_time m) (end_time m) (dependents m).

Definition set_start_time (s : option float) (m : ManagedTask) : ManagedTask :=
  mkManagedTask (task_id m) (name m) (config m) (state m) (task m)
                (watchdog_id m) (result m) (error m) (retry_count m)
                (create_time m) s (end_time m) (dependents m).

Definition set_end_time (e : option float) (m : ManagedTask) : ManagedTask :=
  mkManagedTask (task_id m) (name m) (config m) (state m) (task m)
                (watchdog_id m) (result m) (error m) (retry_count m)
                (create_time m) (start_time m) e (dependents m).

(** [self.dependents.add(id)]; the set is kept as a duplicate-free list. *)
Definition add_dependent (id : string) (m : ManagedTask) : ManagedTask :=
  mkManagedTask (task_id m) (name m) (config m) (state m) (task m)
                (watchdog_id m) (result m) (error m) (retry_count m)
                (create_time m) (start_time m) (end_time m)
                (if existsb (String.eqb id) (dependents m) then dependents m
                 else dependents m ++ [id]).

(** [ManagedTask.is_terminal_state] *)
Definition is_terminal_state (m : ManagedTask) : bool :=
  match state m with
  | COMPLETED | FAILED | CANCELLED => true
  | _ => false
  end.

(** [ManagedTask.can_retry] *)
Definition can_retry (m : ManagedTask) : bool :=
  retry_count m <? TaskConfig.max_retries (config m).

(** ** task_manager.py: the manager *)
Module TaskManager.

Record Stats : Type := mkStats {
  total_submitted : Z;
  total_running : Z;
  total_completed : Z;
  total_failed : Z;
  total_cancelled : Z;
  total_retries : Z
}.

(** The manager. [_watchdog] tells whether the manager holds the watchdog
    ([get_watchdog() if enable_watchdog else None]). The completion and
    failure callback lists are observers and are left out. [dep_checks] is
    a history variable, not an attribute of the class: the ids
    [_check_dependencies] was called on, oldest first. *)
Record t : Type := mk {
  _tasks : list ManagedTask;
  _task_counter : nat;
  _running : bool;
  max_concurrent_tasks : Z;
  enable_watchdog : bool;
  watchdog_check_interval : float;
  _priority_queues : TaskPriority -> list string;
  _semaphore : option Z;
  _stats : Stats;
  _watchdog : bool;
  dep_checks : list string
}.

(** [TaskManager.__init__] *)
Definition init (max_concurrent : Z) (enable_wd : bool) (interval : float) : t :=
  mk [] 0 false max_concurrent enable_wd interval (fun _ => []) None
     (mkStats 0 0 0 0 0 0) enable_wd [].

Definition with_tasks (ts : list ManagedTask) (m : t) : t :=
  mk ts (_task_counter m) (_running m) (max_concurrent_tasks m)
     (enable_watchdog m) (watchdog_check_interval m) (_priority_queues m)
     (_semaphore m) (_stats m) (_watchdog m) (dep_checks m).

Definition with_counter (c : nat) (m : t) : t :=
  mk (_tasks m) c (_running m) (max_concurrent_tasks m)
     (enable_watchdog m) (watchdog_check_interval m) (_priority_queues m)
     (_semaphore m) (_stats m) (_watchdog m) (dep_checks m).

Definition with_running (b : bool) (m : t) : t :=
  mk (_tasks m) (_task_counter m) b (max_concurrent_tasks m)
     (enable_watchdog m) (watchdog_check_interval m) (_priority_queues m)
     (_semaphore m) (_stats m) (_watchdog m) (dep_checks m).

Definition with_queues (q : TaskPriority -> list string) (m : t) : t :=
  mk (_tasks m) (_task_counter m) (_running m) (max_concurrent_tasks m)
     (enable_watchdog m) (watchdog_check_interval m) q
     (_semaphore m) (_stats m) (_watchdog m) (dep_checks m).

Definition with_semaphore (s : option Z) (m : t) : t :=
  mk (_tasks m) (_task_counter m) (_running m) (max_concurrent_tasks m)
     (enable_watchdog m) (watchdog_check_interval m) (_priority_queues m)
     s (_stats m) (_watchdog m) (dep_checks m).

Definition with_stats (s : Stats) (m : t) : t :=
  mk (_tasks m) (_task_counter m) (_running m) (max_concurrent_tasks m)
     (enable_watchdog m) (watchdog_check_interval m) (_priority_queues m)
     (_semaphore m) s (_watchdog m) (dep_checks m).

Definition with_dep_checks (l : list string) (m : t) : t :=
  mk (_tasks m) (_task_counter m) (_running m) (max_concurrent_tasks m)
     (enable_watchdog m) (watchdog_check_interval m) (_priority_queues m)
     (_semaphore m) (_stats m) (_watchdog m) l.

(** [self._stats[key] += d] for each of the keys. *)
Definition add_submitted (d : Z) (m : t) : t :=
  let s := _stats m in
  with_stats (mkStats (total_submitted s + d) (total_running s)
                      (total_completed s) (total_failed s)
                      (total_cancelled s) (total_retries s)) m.

Definition add_running (d : Z) (m : t) : t :=
  let s := _stats m in
  with_stats (mkStats (total_submitted s) (total_running s + d)
                      (total_completed s) (total_failed s)
                      (total_cancelled s) (total_retries s)) m.

Definition add_completed (d : Z) (m : t) : t :=
  let s := _stats m in
  with_stats (mkStats (total_submitted s) (total_running s)
                      (total_completed s + d) (total_failed s)
                      (total_cancelled s) (total_retries s)) m.

Definition add_failed (d : Z) (m : t) : t :=
  let s := _stats m in
  with_stats (mkStats (total_submitted s) (total_running s)
                      (total_completed s) (total_failed s + d)
                      (total_cancelled s) (total_retries s)) m.

Definition add_cancelled (d : Z) (m : t) : t :=
  let s := _stats m in
  with_stats (mkStats (total_submitted s) (total_running s)
                      (total_completed s) (total_failed s)
                      (total_cancelled s + d) (total_retries s)) m.

Definition add_retries (d : Z) (m : t) : t :=
  let s := _stats m in
  with_stats (mkStats (total_submitted s) (total_running s)
                      (total_completed s) (total_failed s)
                      (total_cancelled s) (total_retries s + d)) m.

(** [self._tasks.get(task_id)] *)
Definition get_task_info (id : string) (m : t) : option ManagedTask :=
  find (fun x => String.eqb (task_id x) id) (_tasks m).

(** In-place mutation of the task stored under [id]. *)
Definition modify (id : string) (f : ManagedTask -> ManagedTask) (m : t) : t :=
  with_tasks
    (map (fun x => if String.eqb (task_id x) id then f x else x) (_tasks m)) m.

(** [self._tasks[task_id] = managed_task] *)
Definition dict_set (x : ManagedTask) (ts : list ManagedTask)
  : list ManagedTask :=
  if existsb (fun y => String.eqb (task_id y) (task_id x)) ts
  then map (fun y => if String.eqb (task_id y) (task_id x) then x else y) ts
  else ts ++ [x].

(** [_enqueue_task]: [put_nowait] on the sub-queue of the task's priority.
    The sub-queues are unbounded, so [QueueFull] is never raised. *)
Definition _enqueue_task (x : ManagedTask) (m : t) : t :=
  let p := TaskConfig.priority (config x) in
  with_queues
    (fun q => if priority_eqb q p
              then _priority_queues m q ++ [task_id x]
              else _priority_queues m q) m.

(** [Exception(f"依赖任务失败: {dep_id}")] *)
Definition dependency_failed (dep_id : string) : Exception :=
  ("依赖任务失败: " ++ dep_id)%string.

(** The [for dep_id in task.config.dependencies] loop of
    [_check_dependencies], for the task [id] whose configuration asks for
    cancellation on dependency failure iff [cancel_flag]. *)
Fixpoint check_dependencies_loop (id : string) (cancel_flag : bool)
         (deps : list string) (m : t) : t * bool :=
  match deps with
  | [] => (m, true)
  | dep_id :: deps' =>
    match get_task_info dep_id m with
    | None => (m, false)
    | Some dep_task =>
      let m1 := modify dep_id (add_dependent id) m in
      if state_eqb (state dep_task) COMPLETED
      then check_dependencies_loop id cancel_flag deps' m1
      else if state_eqb (state dep_task) FAILED && cancel_flag
      then
        (add_cancelled 1
           (modify id
              (fun x =>
                 set_error (Some (dependency_failed dep_id))
                           (set_state CANCELLED x)) m1),
         false)
      else (m1, false)
    end
  end.

(** [_check_dependencies] *)
Definition _check_dependencies (id : string) (m : t) : t * bool :=
  let m0 := with_dep_checks (dep_checks m ++ [id]) m in
  match get_task_info id m0 with
  | None => (m0, false)
  | Some x =>
    check_dependencies_loop
      id (TaskConfig.cancel_on_dependency_failure (config x))
      (TaskConfig.dependencies (config x)) m0
  end.

(** [dependent.state = QUEUED; self._enqueue_task(dependent)] *)
Definition make_ready (id : string) (m : t) : t :=
  let m1 := modify id (set_state QUEUED) m in
  match get_task_info id m1 with
  | Some x => _enqueue_task x m1
  | None => m1
  end.

(** The body of the loops of [_notify_dependents] and
    [_check_waiting_tasks] for one task id. *)
Definition recheck_if_waiting (m : t) (id : string) : t :=
  match get_task_info id m with
  | None => m
  | Some x =>
    if state_eqb (state x) WAITING then
      let '(m1, ok) := _check_dependencies id m in
      if ok then make_ready id m1 else m1
    else m
  end.

(** [_notify_dependents]. The iteration order of the [dependents] set is
    the order in which the dependents were recorded. *)
Definition _notify_dependents (id : string) (m : t) : t :=
  match get_task_info id m with
  | None => m
  | Some x => fold_left recheck_if_waiting (dependents x) m
  end.

(** [_check_waiting_tasks], over [list(self._tasks.items())]. *)
Definition _check_waiting_tasks (m : t) : t :=
  fold_left recheck_if_waiting (map task_id (_tasks m)) m.

(** The id [f"task_{self._task_counter}_{int(time.time() * 1000)}"]. *)
Definition make_task_id (counter : nat) (millis : Z) : string :=
  ("task_" ++ py_str_nat counter ++ "_" ++ py_str_int millis)%string.

(** [submit_task]. [now] is [time.time()] at the creation of the task and
    [millis] is [int(time.time() * 1000)]. The result is the exception
    raised or the id returned with the new manager. *)
Definition submit_task (nm : option string) (cfg : option TaskConfig.t)
           (now : float) (millis : Z) (m : t) : Exception + (string * t) :=
  if negb (_running m) then
    inl "TaskManager 未运行，请先调用 start()"%string
  else
    let c := S (_task_counter m) in
    let id := make_task_id c millis in
    let task_config :=
      match cfg with Some k => k | None => TaskConfig.default end in
    let managed_task :=
      mkManagedTask id (str_or nm ("Task-" ++ py_str_nat c)%string)
                    task_config QUEUED None None PyNone None 0 now None None
                    [] in
    let m1 := with_counter c m in
    let m2 := with_tasks (dict_set managed_task (_tasks m1)) m1 in
    let m3 := add_submitted 1 m2 in
    match TaskConfig.dependencies task_config with
    | [] => inr (id, make_ready id m3)
    | _ :: _ =>
      let '(m4, ok) := _check_dependencies id m3 in
      if ok then inr (id, make_ready id m4)
      else inr (id, modify id (set_state WAITING) m4)
    end.

(** [_on_task_success] *)
Definition _on_task_success (id : string) (v : PyValue) (now : float)
           (m : t) : t :=
  let m1 :=
    modify id
      (fun x => set_end_time (Some now) (set_result v (set_state COMPLETED x)))
      m in
  _notify_dependents id (add_completed 1 m1).

(** [_on_task_cancelled] *)
Definition _on_task_cancelled (id : string) (now : float) (m : t) : t :=
  let m1 :=
    modify id (fun x => set_end_time (Some now) (set_state CANCELLED x)) m in
  _notify_dependents id (add_cancelled 1 m1).

(** [_on_task_error] up to its suspension: either the task is set to
    [RETRYING] and the coroutine sleeps for [retry_delay] ([true] is
    returned), or the task has failed for good. *)
Definition _on_task_error (id : string) (e : Exception) (now : float)
           (m : t) : t * bool :=
  let m1 :=
    modify id (fun x => set_end_time (Some now) (set_error (Some e) x)) m in
  match get_task_info id m1 with
  | None => (m1, false)
  | Some x =>
    if can_retry x then
      (add_retries 1
         (modify id
            (fun y => set_state RETRYING
                        (set_retry_count (retry_count y + 1) y)) m1),
       true)
    else
      (_notify_dependents id
         (add_failed 1 (modify id (set_state FAILED) m1)),
       false)
  end.

(** [_on_task_error] after the sleep: back into the queue. *)
Definition _on_task_error_requeue (id : string) (m : t) : t :=
  let m1 :=
    modify id
      (fun x =>
         set_error None
           (set_end_time None
              (set_start_time None (set_task None (set_state QUEUED x)))))
      m in
  match get_task_info id m1 with
  | Some x => _enqueue_task x m1
  | None => m1
  end.

(** [get_tasks_by_state] *)
Definition get_tasks_by_state (s : TaskState) (m : t) : list ManagedTask :=
  filter (fun x => state_eqb (state x) s) (_tasks m).

Record StatsReport : Type := mkReport {
  r_total_submitted : Z;
  r_total_completed : Z;
  r_total_failed : Z;
  r_total_cancelled : Z;
  r_total_retries : Z;
  r_current_running : Z;
  r_current_queued : Z;
  r_current_waiting : Z;
  r_max_concurrent : Z
}.

(** [get_stats] *)
Definition get_stats (m : t) : StatsReport :=
  let s := _stats m in
  mkReport (total_submitted s) (total_completed s) (total_failed s)
           (total_cancelled s) (total_retries s)
           (Z.of_nat (List.length (get_tasks_by_state RUNNING m)))
           (Z.of_nat (List.length (get_tasks_by_state QUEUED m)))
           (Z.of_nat (List.length (get_tasks_by_state WAITING m)))
           (max_concurrent_tasks m).

End TaskManager.

(** ** The running system

    The manager, the watchdog singleton, the handles, and the position of
    the scheduler coroutine ([_scheduler_loop], created by [start]). Since
    [_scheduler_loop] awaits [_execute_task], the executor runs inside the
    scheduler coroutine and the positions of both are one program counter.
    The model follows a manager from its construction on. What it leaves
    out: [stop]; the completion and failure callbacks given to the manager
    (none is registered); a coroutine function that raises when it is
    called; a unit of work that raises a [BaseException] outside
    [Exception]. The properties of runs below are properties of the runs
    without these. *)

Inductive SchedulerPC : Type :=
| NotStarted
    (* no scheduler coroutine exists *)
| LoopTop
    (* before the test of [while self._running]: just created, or asleep in
       the [asyncio.sleep(0.1)] that ends an iteration *)
| AwaitSemaphore (id : string) (rest : list TaskPriority)
    (* in [_execute_task], blocked in [self._semaphore.acquire()] *)
| AwaitTask (id : string) (rest : list TaskPriority)
    (* in [_execute_task], suspended in [await task] *)
| RetrySleep (id : string) (rest : list TaskPriority)
    (* in [_on_task_error], asleep for [retry_delay] *)
| Exited.
    (* the loop has ended *)

Record World : Type := mkWorld {
  manager : TaskManager.t;
  watchdog : Watchdog.t;
  heap : Asyncio.Heap;
  scheduler : SchedulerPC
}.

Definition with_manager (m : TaskManager.t) (w : World) : World :=
  mkWorld m (watchdog w) (heap w) (scheduler w).

Definition with_scheduler (pc : SchedulerPC) (w : World) : World :=
  mkWorld (manager w) (watchdog w) (heap w) pc.

(** A manager just constructed, next to a fresh watchdog singleton. *)
Definition new_world (max_concurrent : Z) (enable_wd : bool)
           (interval : float) : World :=
  mkWorld (TaskManager.init max_concurrent enable_wd interval)
          Watchdog.init [] NotStarted.

(** The priorities in the order of the [for] loop of the scheduler. *)
Definition sweep_priorities : list TaskPriority :=
  sorted_by_value_desc TaskPriority_members.

(** [TaskManager.start]. [asyncio.Semaphore] raises [ValueError] on a
    negative value: the manager is then marked running and nothing else is
    set up. *)
Definition start (w : World) : World :=
  let m := manager w in
  if TaskManager._running m then w
  else
    let m1 := TaskManager.with_running true m in
    if TaskManager.max_concurrent_tasks m <? 0 then with_manager m1 w
    else
      let m2 :=
        TaskManager.with_semaphore (Some (TaskManager.max_concurrent_tasks m)) m1 in
      let wd :=
        if TaskManager._watchdog m
        then Watchdog.start
               (Watchdog.with_check_interval
                  (TaskManager.watchdog_check_interval m) (watchdog w))
        else watchdog w in
      mkWorld m2 wd (heap w) LoopTop.

(** [TaskManager.cancel_task] *)
Definition cancel_task (id : string) (w : World) : World * bool :=
  let m := manager w in
  match TaskManager.get_task_info id m with
  | None => (w, false)
  | Some x =>
    match state x, task x with
    | RUNNING, Some r =>
      (mkWorld m (watchdog w) (Asyncio.update r Asyncio.cancel (heap w))
               (scheduler w), true)
    | QUEUED, _ | WAITING, _ =>
      (with_manager
         (TaskManager.add_cancelled 1
            (TaskManager.modify id (set_state CANCELLED) m)) w, true)
    | _, _ => (w, false)
    end
  end.

(** [self._semaphore.release()] and [self._stats['total_running'] -= 1],
    the [finally] block of [_execute_task]. *)
Definition release_slot (m : TaskManager.t) : TaskManager.t :=
  TaskManager.add_running (-1)
    (TaskManager.with_semaphore
       (match TaskManager._semaphore m with
        | Some v => Some (v + 1)
        | None => None
        end) m).

(** [_execute_task] from the acquired permit to [await task]: the task is
    set running, its coroutine is wrapped in a new handle, and the handle is
    registered with the watchdog when both the manager and the task ask for
    it. The call of [managed_task.coro] returns a coroutine here, as the
    type of [coro] says; a [coro] that raises when it is
    called, or returns something [asyncio.create_task] refuses, would get
    no handle, and is not part of this definition. *)
Definition launch (id : string) (x : ManagedTask) (now : float) (w : World)
  : World :=
  let m := manager w in
  let m1 :=
    TaskManager.with_semaphore
      (match TaskManager._semaphore m with
       | Some v => Some (v - 1)
       | None => None
       end) m in
  let m2 :=
    TaskManager.add_running 1
      (TaskManager.modify id
         (fun y => set_start_time (Some now) (set_state RUNNING y)) m1) in
  let '(h1, r) := Asyncio.create_task (heap w) in
  let m3 := TaskManager.modify id (set_task (Some r)) m2 in
  if TaskManager._watchdog m && TaskConfig.enable_watchdog (config x) then
    let '(wd1, h2, wid) :=
      Watchdog.register_task r (Some (name x))
                             (TaskConfig.timeout (config x))
                             (Some (TaskConfig.metadata (config x)))
                             now (watchdog w) h1 in
    mkWorld (TaskManager.modify id (set_watchdog_id (Some wid)) m3)
            wd1 h2 (scheduler w)
  else mkWorld m3 (watchdog w) h1 (scheduler w).

(** The [for priority in sorted(...)] loop of [_scheduler_loop] from the
    priorities [ps] still to visit, up to the next suspension of the
    coroutine. A non-empty sub-queue gives up its head, which is executed:
    the coroutine suspends in [await task] (or blocks on the semaphore) with
    the lower priorities left to visit after the task. When the loop ends,
    [_check_waiting_tasks] runs and the iteration goes to sleep. *)
Fixpoint sweep (ps : list TaskPriority) (now : float) (w : World) : World :=
  match ps with
  | [] =>
    mkWorld (TaskManager._check_waiting_tasks (manager w)) (watchdog w)
            (heap w) LoopTop
  | p :: ps' =>
    match TaskManager._priority_queues (manager w) p with
    | [] => sweep ps' now w
    | id :: tail =>
      let m1 :=
        TaskManager.with_queues
          (fun q => if priority_eqb q p then tail
                    else TaskManager._priority_queues (manager w) q)
          (manager w) in
      let w1 := with_manager m1 w in
      match TaskManager.get_task_info id m1 with
      | None => sweep ps' now w1
      | Some x =>
        match TaskManager._semaphore m1 with
        | Some v =>
          if 0 <? v
          then with_scheduler (AwaitTask id ps') (launch id x now w1)
          else with_scheduler (AwaitSemaphore id ps') w1
        | None => with_scheduler (AwaitSemaphore id ps') w1
        end
      end
    end
  end.

(** The done-callbacks of a settled handle: the watchdog's
    [_on_task_done] for every entry that observes it. *)
Definition run_done_callbacks (tk : Asyncio.Task) (now : float)
           (wd : Watchdog.t) (h : Asyncio.Heap) : Watchdog.t * Asyncio.Heap :=
  fold_left
    (fun wh wid => Watchdog._on_task_done wid tk now (fst wh) (snd wh))
    (Asyncio.done_callbacks tk) (wd, h).

(** The handle of the task [id] settles with outcome [o], and its
    done-callbacks run. *)
Definition settle_handle (id : string) (o : Asyncio.Outcome) (now : float)
           (w : World) : Watchdog.t * Asyncio.Heap :=
  match TaskManager.get_task_info id (manager w) with
  | None => (watchdog w, heap w)
  | Some x =>
    match task x with
    | None => (watchdog w, heap w)
    | Some r =>
      let h1 := Asyncio.update r (Asyncio.settle o) (heap w) in
      match Asyncio.get r h1 with
      | None => (watchdog w, h1)
      | Some tk => run_done_callbacks tk now (watchdog w) h1
      end
    end
  end.

(** The handle awaited by the executor settles with outcome [o]: its
    done-callbacks run, then [_execute_task] resumes after [await task]
    with the branch for [o], releases the permit and returns into the
    scheduler's [for] loop; a failure that can be retried suspends again in
    the retry sleep, with the permit still held. *)
Definition settle (o : Asyncio.Outcome) (now : float) (w : World) : World :=
  match scheduler w with
  | AwaitTask id rest =>
    let '(wd1, h2) := settle_handle id o now w in
    match o with
    | Asyncio.Returned v =>
      sweep rest now
        (mkWorld
           (release_slot (TaskManager._on_task_success id v now (manager w)))
           wd1 h2 (scheduler w))
    | Asyncio.WasCancelled =>
      sweep rest now
        (mkWorld
           (release_slot (TaskManager._on_task_cancelled id now (manager w)))
           wd1 h2 (scheduler w))
    | Asyncio.Raised e _ =>
      let '(m1, retry) := TaskManager._on_task_error id e now (manager w) in
      if retry then mkWorld m1 wd1 h2 (RetrySleep id rest)
      else sweep rest now (mkWorld (release_slot m1) wd1 h2 (scheduler w))
    end
  | _ => w
  end.

(** The retry sleep is over. *)
Definition retry_wake (now : float) (w : World) : World :=
  match scheduler w with
  | RetrySleep id rest =>
    sweep rest now
      (with_manager
         (release_slot (TaskManager._on_task_error_requeue id (manager w))) w)
  | _ => w
  end.

(** The scheduler coroutine runs for the first time, or wakes up from the
    sleep that ends an iteration. *)
Definition scheduler_wake (now : float) (w : World) : World :=
  match scheduler w with
  | LoopTop =>
    if TaskManager._running (manager w) then sweep sweep_priorities now w
    else with_scheduler Exited w
  | _ => w
  end.

(** One round of the watchdog's [_monitor_loop]. *)
Definition watchdog_tick (now : float) (w : World) : World :=
  if Watchdog._running (watchdog w) then
    let '(wd1, h1) := Watchdog._check_tasks now (watchdog w) (heap w) in
    mkWorld (manager w) wd1 h1 (scheduler w)
  else w.

(** What can happen to the system: calls of the public interface by client
    coroutines, and the resumptions of the scheduler coroutine and of the
    monitor loop. *)
Inductive Event : Type :=
| Start
| Submit (nm : option string) (cfg : option TaskConfig.t) (now : float)
         (millis : Z)
| Cancel (id : string)
| SchedulerWake (now : float)
| Settle (o : Asyncio.Outcome) (now : float)
| RetryWake (now : float)
| WatchdogTick (now : float).

Definition step (w : World) (ev : Event) : World :=
  match ev with
  | Start => start w
  | Submit nm cfg now millis =>
    match TaskManager.submit_task nm cfg now millis (manager w) with
    | inl _ => w
    | inr (_, m1) => with_manager m1 w
    end
  | Cancel id => fst (cancel_task id w)
  | SchedulerWake now => scheduler_wake now w
  | Settle o now => settle o now w
  | RetryWake now => retry_wake now w
  | WatchdogTick now => watchdog_tick now w
  end.

Definition run (w : World) (evs : list Event) : World := fold_left step evs w.

(** The worlds passed through, the first one included. *)
Fixpoint history (w : World) (evs : list Event) : list World :=
  match evs with
  | [] => [w]
  | ev :: evs' => w :: history (step w ev) evs'
  end.

(** ** wait_for_task

    The coroutine polls the task every 0.1s. Each test of the loop condition
    sees the task as it is at that moment; when the task is not terminal yet
    the body reads the clock. An observation is the task at one test of the
    condition with the clock value read in that round, and the observations
    are those of the successive rounds. *)

Inductive WaitResult : Type :=
| WaitReturned (v : PyValue)            (* return managed_task.result *)
| WaitValueError                        (* the task does not exist *)
| WaitTimeoutError                      (* raise asyncio.TimeoutError() *)
| WaitRaised (e : option Exception)     (* raise managed_task.error *)
| WaitCancelledError                    (* raise asyncio.CancelledError() *)
| WaitPolling.                          (* still in the loop *)

(** The code after the loop. *)
Definition wait_outcome (x : ManagedTask) : WaitResult :=
  match state x with
  | COMPLETED => WaitReturned (result x)
  | FAILED => WaitRaised (error x)
  | _ => WaitCancelledError
  end.

(** [timeout and (time.time() - start_time) > timeout] *)
Definition deadline_passed (timeout : option float) (start_time now : float)
  : bool :=
  match timeout with
  | None => false
  | Some f => float_truthy f && float_gt (PrimFloat.sub now start_time) f
  end.

Fixpoint wait_loop (timeout : option float) (start_time : float)
         (obs : list (ManagedTask * float)) : WaitResult :=
  match obs with
  | [] => WaitPolling
  | (x, now) :: obs' =>
    if is_terminal_state x then wait_outcome x
    else if deadline_passed timeout start_time now then WaitTimeoutError
    else wait_loop timeout start_time obs'
  end.

(** [wait_for_task] on the manager [m], entered at [start_time]. *)
Definition wait_for_task (id : string) (timeout : option float)
           (m : TaskManager.t) (start_time : float)
           (obs : list (ManagedTask * float)) : WaitResult :=
  match TaskManager.get_task_info id m with
  | None => WaitValueError
  | Some _ => wait_loop timeout start_time obs
  end.

(** ** Observations on runs *)

(** The number of tasks in state [RUNNING], as [get_stats] counts them. *)
Definition running_count (w : World) : nat :=
  List.length (TaskManager.get_tasks_by_state RUNNING (manager w)).

Definition peak_running (ws : list World) : nat :=
  fold_right Nat.max 0%nat (map running_count ws).

(** The number of tasks that are in none of the terminal states. *)
Definition non_terminal_count (m : TaskManager.t) : Z :=
  Z.of_nat
    (List.length
       (filter (fun x => negb (is_terminal_state x)) (TaskManager._tasks m))).

(** Whether the event [ev], arriving in [w], is the end of a failing
    attempt of the task [id]: the handle the executor awaits for [id]
    settles with an exception. *)
Definition is_failed_attempt (w : World) (ev : Event) (id : string) : bool :=
  match ev, scheduler w with
  | Settle (Asyncio.Raised _ _) _, AwaitTask id' _ => String.eqb id' id
  | _, _ => false
  end.

(** The number of failing attempts of [id] during the run of [evs] from
    [w]. *)
Fixpoint failed_attempts (w : World) (evs : list Event) (id : string) : nat :=
  match evs with
  | [] => 0%nat
  | ev :: evs' =>
    ((if is_failed_attempt w ev id then 1 else 0)
     + failed_attempts (step w ev) evs' id)%nat
  end.

(** The state of the task stored under [id], if any. *)
Definition state_of (id : string) (w : World) : option TaskState :=
  option_map state (TaskManager.get_task_info id (manager w)).

(** ** Scenarios

    Runs of a manager that the properties below refer to. Clock values are
    in seconds; all submissions of a scenario fall into the same
    millisecond, so the ids differ by the counter only. *)

(** A configuration with the given priority, timeout, retries and
    dependencies, the other attributes as in [TaskConfig()]. *)
Definition config_of (p : TaskPriority) (tmo : option float) (retries : Z)
           (deps : list string) : TaskConfig.t :=
  TaskConfig.mk p tmo retries 1%float deps [] true true.

Definition submit_plain : Event := Submit None None 1%float 1000.

Definition submit_with (c : TaskConfig.t) : Event :=
  Submit None (Some c) 1%float 1000.

(** Ten tasks that sleep for 200ms and return, submitted to a manager with
    [max_concurrent_tasks = 3]. The scheduler wakes up and dispatches, the
    work settles 200ms later, and the scheduler sleeps for 100ms, ten times
    over. *)
Definition cap_world : World := new_world 3 true 1%float.

Definition finish (t : float) : Event := Settle (Asyncio.Returned PyNone) t.

Definition cap_events : list Event :=
  Start :: repeat submit_plain 10
  ++ [SchedulerWake 2.0%float; finish 2.2%float;
      SchedulerWake 2.3%float; finish 2.5%float;
      SchedulerWake 2.6%float; finish 2.8%float;
      SchedulerWake 2.9%float; finish 3.1%float;
      SchedulerWake 3.2%float; finish 3.4%float;
      SchedulerWake 3.5%float; finish 3.7%float;
      SchedulerWake 3.8%float; finish 4.0%float;
      SchedulerWake 4.1%float; finish 4.3%float;
      SchedulerWake 4.4%float; finish 4.6%float;
      SchedulerWake 4.7%float; finish 4.9%float].

(** A task is submitted and cancelled before the scheduler has run. *)
Definition plain_world : World := new_world 5 true 1%float.

Definition cancel_queued_events : list Event :=
  [Start; submit_plain; Cancel "task_1_1000"%string].

Definition dispatch_and_finish : list Event :=
  [SchedulerWake 2%float; Settle (Asyncio.Returned (PyStr "done"%string)) 3%float].

(** A task fails for good, and then a task that depends on it is
    submitted. *)
Definition failed_dependency_events : list Event :=
  [Start; submit_plain; SchedulerWake 2%float;
   Settle (Asyncio.Raised "boom"%string true) 3%float;
   submit_with (config_of NORMAL None 0 ["task_1_1000"%string])].

(** A task is cancelled while queued, and then a task that depends on it
    is submitted. *)
Definition cancelled_dependency_events : list Event :=
  [Start; submit_plain; Cancel "task_1_1000"%string;
   submit_with (config_of NORMAL None 0 ["task_1_1000"%string])].


(** A chain: the second task depends on the first, the third on the
    second; the first is dispatched and fails. *)
Definition failing_chain_events : list Event :=
  [Start; submit_plain;
   submit_with (config_of NORMAL None 0 ["task_1_1000"%string]);
   submit_with (config_of NORMAL None 0 ["task_2_1000"%string]);
   SchedulerWake 2%float; Settle (Asyncio.Raised "boom"%string true) 3%float].

(** Two critical tasks and a low one, all ready before the scheduler runs;
    the scheduler dispatches, and the first task settles. *)
Definition priority_submissions : list Event :=
  [Start;
   submit_with (config_of CRITICAL None 0 []);
   submit_with (config_of CRITICAL None 0 []);
   submit_with (config_of LOW None 0 [])].

Definition priority_events : list Event :=
  priority_submissions
  ++ [SchedulerWake 2%float; Settle (Asyncio.Returned PyNone) 3%float].

(** A task with a timeout of 0.3s whose work sleeps for 5s, under a
    watchdog that checks every 50ms: dispatched at 2.0, still running when
    the monitor loop looks at 2.35. *)
Definition timeout_world : World := new_world 5 true 0.05%float.

Definition timeout_events : list Event :=
  [Start; submit_with (config_of NORMAL (Some 0.3%float) 0 []);
   SchedulerWake 2%float; WatchdogTick 2.35%float].

Definition timeout_finish : list Event :=
  [Settle (Asyncio.Returned (PyStr "completed"%string)) 7%float].

(** A submission that names a dependency id that no task has. *)
Definition unknown_dependency_config : TaskConfig.t :=
  config_of NORMAL None 0 ["no_such_task"%string].

(** A task with [max_retries = 2] whose work always raises. *)
Definition retry_exhausted_events : list Event :=
  [Start; submit_with (config_of NORMAL None 2 []);
   SchedulerWake 2%float; Settle (Asyncio.Raised "nope"%string true) 3%float;
   RetryWake 4%float;
   SchedulerWake 5%float; Settle (Asyncio.Raised "nope"%string true) 6%float;
   RetryWake 7%float;
   SchedulerWake 8%float].

(** ** Relations and invariants

    The vocabulary of the proofs below. *)

Import TaskManager.

(** [evolves allowed x x'] relates a task before and after an operation
    that keeps its identity, configuration and retry count and either keeps
    its state or moves it to a state that [allowed] admits for this task. *)
Definition evolves (allowed : string -> TaskState -> bool)
           (x x' : ManagedTask) : Prop :=
  task_id x' = task_id x
  /\ config x' = config x
  /\ retry_count x' = retry_count x
  /\ (state x' = state x \/ allowed (task_id x) (state x') = true).

(** Every task of [m] evolves into the task at its place in [m']. *)
Definition tasks_evolve (allowed : string -> TaskState -> bool) (m m' : t)
  : Prop :=
  Forall2 (evolves allowed) (_tasks m) (_tasks m').

(** The states that submission, cancellation by the client and the
    dependency check can produce. *)
Definition passive (_ : string) (s : TaskState) : bool :=
  match s with
  | QUEUED | WAITING | CANCELLED => true
  | _ => false
  end.

(** Every state but [FAILED]. *)
Definition not_failed (_ : string) (s : TaskState) : bool :=
  negb (state_eqb s FAILED).

(** Whether the scheduler coroutine is suspended in [await task] for the
    task [id]. *)
Definition awaits (pc : SchedulerPC) (id : string) : bool :=
  match pc with
  | AwaitTask i _ => String.eqb i id
  | _ => false
  end.

(** The passive states, and [RUNNING] for the task the scheduler awaits. *)
Definition dispatching (pc : SchedulerPC) (id : string) (s : TaskState)
  : bool :=
  passive id s || (state_eqb s RUNNING && awaits pc id).

(** The attributes that only [__init__] and [start] write. *)
Definition settings (m : t) : bool * Z * bool :=
  (_running m, max_concurrent_tasks m, _watchdog m).

(** No task is in state [RUNNING]. *)
Definition no_running (m : t) : Prop :=
  forall x, In x (_tasks m) -> state x <> RUNNING.

(** The keys of the table, in insertion order. *)
Definition ids (m : t) : list string := map task_id (_tasks m).

(** [m'] has the keys and the settings of [m]. *)
Definition same_frame (m m' : t) : Prop :=
  ids m' = ids m /\ settings m' = settings m.

(** The invariant of the scheduler: the keys of the table are distinct, a
    task is [RUNNING] only while the scheduler coroutine awaits it, and a
    manager that has never been started has no tasks. *)
Record scheduler_inv (w : World) : Prop := mk_scheduler_inv {
  inv_ids : NoDup (ids (manager w));
  inv_running :
    forall x, In x (_tasks (manager w)) -> state x = RUNNING ->
              awaits (scheduler w) (task_id x) = true;
  inv_stopped : _running (manager w) = false -> _tasks (manager w) = []
}.

(** What is known of a task when [cnt] failing attempts of it have been
    seen: its retry count is within bounds and counts failing attempts, and
    a failed task has used up its retries and has failed once more. *)
Definition retry_ok (cnt : string -> nat) (x : ManagedTask) : Prop :=
  0 <= retry_count x
  /\ retry_count x <= Z.max 0 (TaskConfig.max_retries (config x))
  /\ retry_count x <= Z.of_nat (cnt (task_id x))
  /\ (state x = FAILED ->
      TaskConfig.max_retries (config x) <= retry_count x
      /\ retry_count x + 1 <= Z.of_nat (cnt (task_id x))).

Definition retries_ok (cnt : string -> nat) (m : t) : Prop :=
  forall x, In x (_tasks m) -> retry_ok cnt x.

(** ** Further operations of the watchdog and of the manager *)

(** What [unregister_task] returns: whether the id was tracked. *)
Definition unregister_task_result (id : string) (w : Watchdog.t) : bool :=
  match Watchdog.get_task_info id w with
  | Some _ => true
  | None => false
  end.

(** [TaskManager._cancel_all_running_tasks]: [cancel_task] for every task of
    [list(self._tasks.items())] that is [RUNNING] when its turn comes.
    [cancel_task] never suspends, so the loop is one atomic segment. *)
Definition cancel_if_running (w : World) (id : string) : World :=
  match get_task_info id (manager w) with
  | Some x => if state_eqb (state x) RUNNING then fst (cancel_task id w) else w
  | None => w
  end.

Definition _cancel_all_running_tasks (w : World) : World :=
  fold_left cancel_if_running (ids (manager w)) w.

(** The entries that one round of [_check_tasks] reports as timed out: the
    live entries past their timeout, when the timeout check is enabled. *)
Definition timed_out (now : float) (w : Watchdog.t) (h : Asyncio.Heap)
           (i : Watchdog.TaskInfo) : bool :=
  Watchdog.enable_timeout_check w && Watchdog.is_alive h i
  && Watchdog.is_timeout now i.




(** A watchdog that tracks one pending handle, for the examples. *)
Definition one_entry_watchdog : Watchdog.t * Asyncio.Heap * string :=
  let '(h, r) := Asyncio.create_task [] in
  Watchdog.register_task r None (Some 0.5%float) None 1%float Watchdog.init h.

(** The ids of the watchdog's table, in its order. *)
Definition wd_ids (w : Watchdog.t) : list string :=
  map Watchdog.task_id (Watchdog._tasks w).

(** The second test of the first loop of [_check_tasks]: the handle has
    settled, an end time is recorded and it is more than 60 seconds ago. *)
Definition cleanup_due (now : float) (h : Asyncio.Heap)
           (i : Watchdog.TaskInfo) : bool :=
  negb (Watchdog.is_alive h i) && opt_float_truthy (Watchdog.end_time i)
  && float_gt (PrimFloat.sub now (float_or (Watchdog.end_time i) now))
              60%float.

Definition is_timeout_action (a : string * Watchdog.Action) : bool :=
  match snd a with
  | Watchdog.ActTimeout => true
  | Watchdog.ActCleanup => false
  end.

(** ** Where a task is, and how its state moves

    The scheduler coroutine holds at most one task id at a time: the one it
    has taken from a queue. The other ids it will come to are in the
    priority queues. *)

Inductive Position : Type :=
| Idle
| AtSemaphore (id : string)
| Executing (id : string)
| Sleeping (id : string).

Definition position (pc : SchedulerPC) : Position :=
  match pc with
  | AwaitSemaphore id _ => AtSemaphore id
  | AwaitTask id _ => Executing id
  | RetrySleep id _ => Sleeping id
  | NotStarted | LoopTop | Exited => Idle
  end.

(** The content of the four priority queues. *)
Definition queued_ids (m : t) : list string :=
  _priority_queues m CRITICAL ++ _priority_queues m HIGH
  ++ _priority_queues m NORMAL ++ _priority_queues m LOW.

Definition held_id (pos : Position) : list string :=
  match pos with
  | Idle => []
  | AtSemaphore id | Executing id | Sleeping id => [id]
  end.

(** The ids the scheduler holds or will take from a queue. *)
Definition pending (q : list string) (pos : Position) : list string :=
  held_id pos ++ q.

(** What the properties below look at in a task. *)
Record Facts : Type := mkFacts {
  f_state : TaskState;
  f_deps : list string;
  f_result : PyValue;
  f_error : option Exception
}.

Definition facts (x : ManagedTask) : Facts :=
  mkFacts (state x) (TaskConfig.dependencies (config x)) (result x) (error x).

Definition View : Type := string -> option Facts.

Definition view (m : t) : View :=
  fun id => option_map facts (get_task_info id m).

(** The state changes the code makes to a task that is in the table. *)
Definition edge (s s' : TaskState) : bool :=
  match s, s' with
  | WAITING, QUEUED | WAITING, CANCELLED
  | QUEUED, RUNNING | QUEUED, CANCELLED
  | CANCELLED, RUNNING
  | RUNNING, COMPLETED | RUNNING, FAILED | RUNNING, CANCELLED
  | RUNNING, RETRYING
  | RETRYING, QUEUED => true
  | _, _ => false
  end.

Inductive moves : TaskState -> TaskState -> Prop :=
| moves_refl (s : TaskState) : moves s s
| moves_edge (s s' s'' : TaskState) :
    edge s s' = true -> moves s' s'' -> moves s s''.

Definition final (s : TaskState) : bool :=
  match s with
  | COMPLETED | FAILED => true
  | _ => false
  end.

(** Every task stays in the table, keeps its dependencies, moves along the
    edges, and is frozen once it is [COMPLETED] or [FAILED]; no task
    appears. *)
Definition vmoves (st st' : View) : Prop :=
  forall id a, st id = Some a ->
               exists a', st' id = Some a'
                          /\ f_deps a' = f_deps a
                          /\ moves (f_state a) (f_state a')
                          /\ (final (f_state a) = true -> a' = a).

Definition vstep (st st' : View) : Prop :=
  vmoves st st' /\ (forall id, st id = None -> st' id = None).

(** The view changes at [id] only. *)
Definition changes_at (id : string) (a a' : Facts) (st st' : View) : Prop :=
  st id = Some a /\ st' id = Some a' /\ f_deps a' = f_deps a
  /\ forall k, k <> id -> st' k = st k.

Definition deps_completed (st : View) (a : Facts) : Prop :=
  forall d, In d (f_deps a) -> option_map f_state (st d) = Some COMPLETED.

(** The scheduler's bookkeeping: no id is held or queued twice, every such
    id is a task of the table, the task being executed is the one in state
    [RUNNING], the task in its retry sleep is the one in state [RETRYING],
    a queued id belongs to a task that is [QUEUED] or [CANCELLED], the
    dependencies of a task that is held, queued, completed or failed are all
    [COMPLETED], and a task in state [QUEUED] is held or queued. The last
    part is not asked of the task [ex]: [submit_task] creates a task in
    state [QUEUED] before it decides where the task goes. *)
Record qinv (ex : option string) (st : View) (q : list string)
       (pos : Position) : Prop := mk_qinv {
  q_nodup : NoDup (pending q pos);
  q_known : forall id, In id (pending q pos) -> st id <> None;
  q_running : forall id a, st id = Some a ->
                           (f_state a = RUNNING <-> pos = Executing id);
  q_retrying : forall id a, st id = Some a ->
                            (f_state a = RETRYING <-> pos = Sleeping id);
  q_queued : forall id a, st id = Some a ->
                          In id q \/ pos = AtSemaphore id ->
                          f_state a = QUEUED \/ f_state a = CANCELLED;
  q_deps : forall id a, st id = Some a ->
                        In id (pending q pos) \/ final (f_state a) = true ->
                        deps_completed st a;
  q_kept : forall id a, st id = Some a -> f_state a = QUEUED ->
                        Some id <> ex -> In id (pending q pos)
}.

(** Every id of the table was made by [submit_task] from a counter value
    that has been used. *)
Definition issued (m : t) : Prop :=
  forall id, view m id <> None ->
             exists c ms, (c <= _task_counter m)%nat /\ id = make_task_id c ms.

Record system_inv (w : World) : Prop := mk_system_inv {
  sys_q : qinv None (view (manager w)) (queued_ids (manager w))
               (position (scheduler w));
  sys_issued : issued (manager w)
}.

(** What an operation of the manager has to keep: the bookkeeping, now for
    the position [pos'], the tasks of the table, and the id counter. *)
Definition keeps_inv (pos' : Position) (m m' : t) : Prop :=
  qinv None (view m') (queued_ids m') pos'
  /\ vstep (view m) (view m')
  /\ _task_counter m' = _task_counter m.

(** ** Permits and counters *)

(** The id counter, the counter of submissions, the semaphore and the
    counter of running tasks. *)
Definition ledger (m : t) : nat * Z * option Z * Z :=
  (_task_counter m, total_submitted (_stats m), _semaphore m,
   total_running (_stats m)).

(** The number of permits the scheduler coroutine holds: one from the
    acquisition in [_execute_task] to its [finally] block, the retry sleep
    included. *)
Definition held (pos : Position) : Z :=
  match pos with
  | Executing _ | Sleeping _ => 1
  | Idle | AtSemaphore _ => 0
  end.

Definition permits_inv (w : World) : Prop :=
  total_running (_stats (manager w)) = held (position (scheduler w))
  /\ match _semaphore (manager w) with
     | Some v =>
       v = max_concurrent_tasks (manager w) - held (position (scheduler w))
     | None => held (position (scheduler w)) = 0
     end.

Record books (w : World) : Prop := mk_books {
  b_permits : permits_inv w;
  b_size : List.length (_tasks (manager w)) = _task_counter (manager w);
  b_submitted :
    total_submitted (_stats (manager w))
    = Z.of_nat (_task_counter (manager w))
}.

(** A manager whose semaphore gives no permit: no task is being executed,
    and every task is [QUEUED], [WAITING] or [CANCELLED]. *)
Record blocked (w : World) : Prop := mk_blocked {
  bl_max : max_concurrent_tasks (manager w) <= 0;
  bl_semaphore :
    match _semaphore (manager w) with
    | Some v => v <= 0
    | None => True
    end;
  bl_position : forall id rest, scheduler w <> AwaitTask id rest
                                /\ scheduler w <> RetrySleep id rest;
  bl_passive : forall x, In x (_tasks (manager w)) ->
                         passive (task_id x) (state x) = true
}.

(** A task and a second one that depends on it; the first is dispatched
    and returns, and the scheduler wakes up again. *)
Definition dependent_runs_events : list Event :=
  [Start; submit_plain;
   submit_with (config_of NORMAL None 0 ["task_1_1000"%string]);
   SchedulerWake 2%float; Settle (Asyncio.Returned PyNone) 3%float;
   SchedulerWake 4%float].

(** A manager constructed with [max_concurrent_tasks = 0]. *)
Definition no_permit_world : World := new_world 0 true 1%float.

Definition no_permit_events : list Event :=
  [Start; submit_plain; submit_plain; SchedulerWake 2%float;
   Settle (Asyncio.Returned PyNone) 3%float; SchedulerWake 4%float].


(** ** Counting tasks *)

(** The number of tasks in state [s], as [get_stats] counts them, and the
    sum of the retry counts of all tasks. *)
Definition count_state (s : TaskState) (m : t) : Z :=
  Z.of_nat (List.length (get_tasks_by_state s m)).

Definition retry_sum (m : t) : Z :=
  fold_right Z.add 0 (map retry_count (_tasks m)).

(** The counters of completed and failed tasks and of retries. *)
Definition tally (m : t) : Z * Z * Z :=
  (total_completed (_stats m), total_failed (_stats m),
   total_retries (_stats m)).

Record counted (m : t) : Prop := mk_counted {
  c_completed : total_completed (_stats m) = count_state COMPLETED m;
  c_failed : total_failed (_stats m) = count_state FAILED m;
  c_retries : total_retries (_stats m) = retry_sum m
}.

(** A task that is [COMPLETED] or [FAILED] in [st] is the same in [st']. *)
Definition frozen (st st' : View) : Prop :=
  forall id b, st id = Some b -> final (f_state b) = true -> st' id = Some b.

(** ** Waiting tasks *)

(** The states the dependency check and a cancellation by the client give a
    task that has not been dispatched. *)
Definition rechecked (_ : string) (s : TaskState) : bool :=
  match s with
  | QUEUED | CANCELLED => true
  | _ => false
  end.

(** [d] is the id of a task of the table in state [COMPLETED]. *)
Definition completed_in (m : t) (d : string) : Prop :=
  option_map state (get_task_info d m) = Some COMPLETED.

(** The task [x] has a dependency that is not a completed task. *)
Definition unmet (m : t) (x : ManagedTask) : Prop :=
  exists d, In d (TaskConfig.dependencies (config x)) /\ ~ completed_in m d.

Definition waiting_have_cause (m : t) : Prop :=
  forall id x, get_task_info id m = Some x -> state x = WAITING -> unmet m x.

(** The scheduler coroutine sleeps between two rounds of its loop. *)
Definition rested (w : World) : Prop :=
  scheduler w = LoopTop -> waiting_have_cause (manager w).

(** A task depends on a task whose work is cancelled: it is left
    waiting. *)
Definition waiting_events : list Event :=
  [Start; submit_plain;
   submit_with (config_of NORMAL None 0 ["task_1_1000"%string]);
   SchedulerWake 2%float; Settle Asyncio.WasCancelled 3%float].

(** ** Tasks the scheduler has done with *)

(** The operation from [m] to [m'] leaves the task [id] as it is and does
    not put its id into a queue. *)
Definition spares (id : string) (m m' : t) : Prop :=
  view m' id = view m id
  /\ (In id (queued_ids m') -> In id (queued_ids m)).

(** The task [id] is [CANCELLED], and its id is neither in a queue nor in
    the hands of the scheduler. *)
Definition aside (id : string) (w : World) : Prop :=
  option_map f_state (view (manager w) id) = Some CANCELLED
  /\ ~ In id (pending (queued_ids (manager w)) (position (scheduler w))).

(** A task is dispatched and its work is cancelled; later the client
    cancels it again and the scheduler runs a round. *)
Definition cancelled_run_events : list Event :=
  [Start; submit_plain; SchedulerWake 2%float;
   Settle Asyncio.WasCancelled 3%float].

Definition after_cancellation_events : list Event :=
  [Cancel "task_1_1000"%string; submit_plain; SchedulerWake 4%float].

(** A task is dispatched. *)
Definition dispatched_events : list Event :=
  [Start; submit_plain; SchedulerWake 2%float].

(** ** The counter of cancellations *)

(** By how much [total_cancelled] exceeds the number of tasks in state
    [CANCELLED]. *)
Definition cancelled_slack (m : t) : Z :=
  total_cancelled (_stats m) - count_state CANCELLED m.

(** The operation from [m] to [m'] keeps the keys of the table and counts
    every task it cancels. *)
Definition pays (m m' : t) : Prop :=
  ids m' = ids m /\ cancelled_slack m <= cancelled_slack m'.

(** The tasks that are neither [COMPLETED], [FAILED] nor [CANCELLED]. *)
Definition unfinished (m : t) : list ManagedTask :=
  filter (fun x => negb (is_terminal_state x)) (_tasks m).

(** ** Notification of the dependents *)




(** ** One event *)

(** What one event does to the state of a task that is in the table:
    nothing, one edge, or an enqueueing followed by the dispatch, from
    [WAITING] or [RETRYING] through [QUEUED] to [RUNNING]. *)
Definition event_move (s s' : TaskState) : bool :=
  state_eqb s s' || edge s s'
  || match s, s' with
     | WAITING, RUNNING | RETRYING, RUNNING => true
     | _, _ => false
     end.

(** The parts of an event: a dependency check, a dispatch, the end of an
    attempt, the end of a retry sleep, a cancellation by the client. *)
Definition rechecks (s s' : TaskState) : bool :=
  state_eqb s s'
  || match s, s' with
     | WAITING, QUEUED | WAITING, CANCELLED => true
     | _, _ => false
     end.

Definition launches (s s' : TaskState) : bool :=
  state_eqb s s'
  || match s, s' with
     | QUEUED, RUNNING | CANCELLED, RUNNING => true
     | _, _ => false
     end.

Definition exits (s s' : TaskState) : bool :=
  state_eqb s s'
  || match s, s' with
     | RUNNING, COMPLETED | RUNNING, FAILED | RUNNING, CANCELLED
     | RUNNING, RETRYING => true
     | _, _ => false
     end.

Definition requeues (s s' : TaskState) : bool :=
  state_eqb s s'
  || match s, s' with
     | RETRYING, QUEUED => true
     | _, _ => false
     end.

Definition cancels (s s' : TaskState) : bool :=
  state_eqb s s'
  || match s, s' with
     | QUEUED, CANCELLED | WAITING, CANCELLED => true
     | _, _ => false
     end.

(** An end of an attempt followed by the notification. *)
Definition exits_notifying (s s' : TaskState) : bool :=
  exits s s' || rechecks s s'.

(** Every task of [st] is in [st'], in a state related by [R]. *)
Definition vrel (R : TaskState -> TaskState -> bool) (st st' : View) : Prop :=
  forall id a, st id = Some a ->
               exists a', st' id = Some a' /\ R (f_state a) (f_state a') = true.

(** * Properties *)

Arguments dependency_failed : simpl never.

(** ** Basic facts about the table of tasks *)

Lemma sweep_priorities_eq : sweep_priorities = [CRITICAL; HIGH; NORMAL; LOW].
Proof. reflexivity. Qed.

Lemma state_eqb_eq (a b : TaskState) : state_eqb a b = true <-> a = b.
Proof. destruct a, b; simpl; split; intro H; try reflexivity; discriminate. Qed.

Lemma state_eqb_refl (a : TaskState) : state_eqb a a = true.
Proof. destruct a; reflexivity. Qed.

Lemma get_task_info_id (id : string) (m : t) (x : ManagedTask) :
  get_task_info id m = Some x -> task_id x = id.
Proof.
  unfold get_task_info. intros H. apply find_some in H.
  destruct H as [_ H]. now apply String.eqb_eq in H.
Qed.

Lemma get_task_info_In (id : string) (m : t) (x : ManagedTask) :
  get_task_info id m = Some x -> In x (_tasks m).
Proof. unfold get_task_info. intros H. now apply find_some in H. Qed.

Lemma find_map_id (id : string) (g : ManagedTask -> ManagedTask)
      (l : list ManagedTask) :
  (forall x, task_id (g x) = task_id x) ->
  find (fun x => String.eqb (task_id x) id) (map g l)
  = option_map g (find (fun x => String.eqb (task_id x) id) l).
Proof.
  intros Hg. induction l as [|a l IH]; simpl; [reflexivity|].
  rewrite Hg. destruct (String.eqb (task_id a) id); [reflexivity|exact IH].
Qed.

(** Reading the table after an in-place mutation. *)
Lemma get_modify (id k : string) (f : ManagedTask -> ManagedTask) (m : t) :
  (forall x, task_id (f x) = task_id x) ->
  get_task_info id (modify k f m)
  = option_map (fun x => if String.eqb id k then f x else x)
               (get_task_info id m).
Proof.
  intros Hf. unfold get_task_info, modify. simpl.
  rewrite find_map_id.
  - destruct (find _ (_tasks m)) as [x|] eqn:E; simpl; [|reflexivity].
    apply find_some in E. destruct E as [_ E]. apply String.eqb_eq in E.
    now rewrite E.
  - intros x. destruct (String.eqb (task_id x) k); [apply Hf|reflexivity].
Qed.

(** ** Waiting with a zero timeout *)

Lemma wait_loop_zero_timeout (start_time : float)
      (obs : list (ManagedTask * float)) :
  wait_loop (Some 0%float) start_time obs
  = match find (fun o => is_terminal_state (fst o)) obs with
    | Some o => wait_outcome (fst o)
    | None => WaitPolling
    end.
Proof.
  induction obs as [|[x now] obs IH]; simpl; [reflexivity|].
  destruct (is_terminal_state x); [reflexivity|].
  unfold deadline_passed. simpl. exact IH.
Qed.

Lemma wait_outcome_not_timeout (x : ManagedTask) :
  wait_outcome x <> WaitTimeoutError.
Proof. unfold wait_outcome. destruct (state x); discriminate. Qed.

(** C10. [wait_for_task] called with [timeout = 0] never raises the deadline
    timeout error: the deadline test is guarded by the truth value of the
    timeout, which is false for zero. Whatever the clock shows, the call
    goes on polling until a round finds the task in a terminal state, and
    ends with what that state prescribes; it raises [ValueError] when the
    task does not exist. *)
Theorem wait_for_task_zero_timeout_polls_until_terminal
        (id : string) (m : TaskManager.t) (start_time : float)
        (obs : list (ManagedTask * float)) :
  wait_for_task id (Some 0%float) m start_time obs <> WaitTimeoutError
  /\ wait_for_task id (Some 0%float) m start_time obs
     = match TaskManager.get_task_info id m with
       | None => WaitValueError
       | Some _ =>
         match find (fun o => is_terminal_state (fst o)) obs with
         | Some o => wait_outcome (fst o)
         | None => WaitPolling
         end
       end.
Proof.
  unfold wait_for_task. rewrite wait_loop_zero_timeout.
  split; [|reflexivity].
  destruct (get_task_info id m); [|discriminate].
  destruct (find _ obs) as [o|]; [apply wait_outcome_not_timeout|discriminate].
Qed.

(** ** Submission *)

Lemma submit_task_running
      (nm : option string) (cfg : option TaskConfig.t) (now : float)
      (millis : Z) (m : TaskManager.t) :
  _running m = true ->
  exists m',
    submit_task nm cfg now millis m
    = inr (make_task_id (S (_task_counter m)) millis, m').
Proof.
  intros R. unfold submit_task. rewrite R. cbn [negb]. cbv zeta.
  destruct (TaskConfig.dependencies _); [eauto|].
  destruct (_check_dependencies _ _) as [m4 ok]. destruct ok; eauto.
Qed.

Lemma submit_task_not_running
      (nm : option string) (cfg : option TaskConfig.t) (now : float)
      (millis : Z) (m : TaskManager.t) :
  _running m = false ->
  exists e, submit_task nm cfg now millis m = inl e.
Proof.
  intros R. unfold submit_task. rewrite R. cbn [negb]. eauto.
Qed.

(** C9, as the code has it. [submit_task] raises in exactly one situation:
    the manager is not running. A submission to a running manager returns
    the id built from the incremented counter, whatever dependency ids it
    names. *)
Theorem submit_task_fails_iff_not_running
        (nm : option string) (cfg : option TaskConfig.t) (now : float)
        (millis : Z) (m : TaskManager.t) :
  ((exists e, submit_task nm cfg now millis m = inl e)
   <-> _running m = false)
  /\ (_running m = true
      <-> exists m',
          submit_task nm cfg now millis m
          = inr (make_task_id (S (_task_counter m)) millis, m')).
Proof.
  destruct (_running m) eqn:R.
  - destruct (submit_task_running nm cfg now millis m R) as [m' H].
    split; split.
    + intros [e He]. rewrite H in He. discriminate.
    + discriminate.
    + intros _. exists m'. exact H.
    + reflexivity.
  - destruct (submit_task_not_running nm cfg now millis m R) as [e H].
    split; split.
    + reflexivity.
    + intros _. exists e. exact H.
    + discriminate.
    + intros [m' H']. rewrite H in H'. discriminate.
Qed.

(** ** The dependency check *)

Lemma get_modify_add_dependent (id k u : string) (m : t) :
  get_task_info id (modify k (add_dependent u) m)
  = option_map (fun x => if String.eqb id k then add_dependent u x else x)
               (get_task_info id m).
Proof. apply get_modify. reflexivity. Qed.

(** Recording a dependent changes neither the state of a task nor the
    counters. *)
Lemma state_after_add_dependent (id k u : string) (m : t) :
  option_map state (get_task_info id (modify k (add_dependent u) m))
  = option_map state (get_task_info id m).
Proof.
  rewrite get_modify_add_dependent.
  destruct (get_task_info id m) as [x|]; simpl; [|reflexivity].
  destruct (String.eqb id k); reflexivity.
Qed.

Lemma error_after_add_dependent (id k u : string) (m : t) :
  option_map error (get_task_info id (modify k (add_dependent u) m))
  = option_map error (get_task_info id m).
Proof.
  rewrite get_modify_add_dependent.
  destruct (get_task_info id m) as [x|]; simpl; [|reflexivity].
  destruct (String.eqb id k); reflexivity.
Qed.

Lemma check_dependencies_loop_skips_completed
      (id : string) (flag : bool) (pre rest : list string) (m : t) :
  (forall p, In p pre ->
             option_map state (get_task_info p m) = Some COMPLETED) ->
  exists m1,
    check_dependencies_loop id flag (pre ++ rest) m
    = check_dependencies_loop id flag rest m1
    /\ _stats m1 = _stats m
    /\ (forall k, option_map state (get_task_info k m1)
                  = option_map state (get_task_info k m))
    /\ (forall k, option_map error (get_task_info k m1)
                  = option_map error (get_task_info k m)).
Proof.
  revert m. induction pre as [|p pre IH]; intros m Hpre.
  - exists m. simpl. repeat split; reflexivity.
  - simpl.
    assert (Hp : option_map state (get_task_info p m) = Some COMPLETED)
      by (apply Hpre; now left).
    destruct (get_task_info p m) as [y|] eqn:Ey; [|discriminate].
    simpl in Hp. injection Hp as Hp. rewrite Hp. simpl.
    destruct (IH (modify p (add_dependent id) m)) as [m1 [E [S1 [S2 S3]]]].
    { intros q Hq. rewrite state_after_add_dependent. apply Hpre. now right. }
    exists m1. split; [exact E|]. split; [exact S1|]. split.
    + intros k. rewrite S2. apply state_after_add_dependent.
    + intros k. rewrite S3. apply error_after_add_dependent.
Qed.

(** C3, as the code has it. For a task [T] in [WAITING] whose configuration
    has [cancel_on_dependency_failure] set: when the dependency check
    reaches a declared dependency [D] (every dependency declared before [D]
    is [COMPLETED]) whose state [s] is [FAILED] or [CANCELLED], the check
    fails. If [D] is [FAILED], [T] is [CANCELLED] with the error that names
    [D], and the cancelled counter goes up by one. If [D] is [CANCELLED],
    [T] stays in [WAITING] with the error it had, and the counter is as it
    was. *)
Theorem check_dependencies_on_failed_or_cancelled_dependency
        (m : TaskManager.t) (T D : string) (x : ManagedTask)
        (pre post : list string) (s : TaskState) :
  get_task_info T m = Some x ->
  state x = WAITING ->
  TaskConfig.cancel_on_dependency_failure (config x) = true ->
  TaskConfig.dependencies (config x) = pre ++ D :: post ->
  (forall p, In p pre ->
             option_map state (get_task_info p m) = Some COMPLETED) ->
  option_map state (get_task_info D m) = Some s ->
  s = FAILED \/ s = CANCELLED ->
  snd (_check_dependencies T m) = false
  /\ option_map state (get_task_info T (fst (_check_dependencies T m)))
     = Some (if state_eqb s FAILED then CANCELLED else WAITING)
  /\ option_map error (get_task_info T (fst (_check_dependencies T m)))
     = Some (if state_eqb s FAILED then Some (dependency_failed D)
             else error x)
  /\ total_cancelled (_stats (fst (_check_dependencies T m)))
     = total_cancelled (_stats m) + (if state_eqb s FAILED then 1 else 0).
Proof.
  intros HT HW Hflag Hdeps Hpre HD Hs.
  unfold _check_dependencies.
  change (get_task_info T (with_dep_checks (dep_checks m ++ [T]) m))
    with (get_task_info T m).
  rewrite HT, Hflag, Hdeps.
  destruct (check_dependencies_loop_skips_completed
              T true pre (D :: post)
              (with_dep_checks (dep_checks m ++ [T]) m))
    as [m1 [E [S1 [S2 S3]]]].
  { intros p Hp. apply Hpre in Hp. exact Hp. }
  rewrite E. cbn [check_dependencies_loop].
  assert (HD1 : option_map state (get_task_info D m1) = Some s).
  { rewrite S2. exact HD. }
  destruct (get_task_info D m1) as [d|] eqn:Ed; [|discriminate].
  simpl in HD1. injection HD1 as HD1. rewrite HD1.
  assert (HT1 : option_map state (get_task_info T m1) = Some WAITING).
  { rewrite S2.
    change (get_task_info T (with_dep_checks (dep_checks m ++ [T]) m))
      with (get_task_info T m).
    rewrite HT. simpl. now rewrite HW. }
  assert (HE1 : option_map error (get_task_info T m1) = Some (error x)).
  { rewrite S3.
    change (get_task_info T (with_dep_checks (dep_checks m ++ [T]) m))
      with (get_task_info T m).
    now rewrite HT. }
  assert (S0 : total_cancelled (_stats m1) = total_cancelled (_stats m)).
  { rewrite S1. reflexivity. }
  destruct Hs as [Hs|Hs]; subst s; cbn [state_eqb andb fst snd].
  - split; [reflexivity|].
    change (get_task_info T (add_cancelled 1 ?mm)) with (get_task_info T mm).
    rewrite get_modify by reflexivity. rewrite String.eqb_refl.
    rewrite get_modify_add_dependent.
    destruct (get_task_info T m1) as [x1|]; [|discriminate].
    cbn [option_map]. split; [reflexivity|]. split; [reflexivity|].
    cbn [add_cancelled with_stats _stats total_cancelled].
    change (_stats (modify ?a ?b ?mm)) with (_stats mm).
    change (_stats (modify ?a ?b ?mm)) with (_stats mm).
    now rewrite S0.
  - split; [reflexivity|].
    rewrite state_after_add_dependent, error_after_add_dependent.
    split; [exact HT1|]. split; [exact HE1|].
    change (_stats (modify ?a ?b ?mm)) with (_stats mm).
    rewrite S0. lia.
Qed.

(** ** How the operations of the manager change the tasks *)

Lemma evolves_refl (a : string -> TaskState -> bool) (x : ManagedTask) :
  evolves a x x.
Proof. unfold evolves. auto. Qed.

Lemma evolves_trans (a : string -> TaskState -> bool) (x y z : ManagedTask) :
  evolves a x y -> evolves a y z -> evolves a x z.
Proof.
  unfold evolves. intros [I1 [C1 [R1 S1]]] [I2 [C2 [R2 S2]]].
  repeat split; try congruence.
  destruct S2 as [S2|S2]; [|right; now rewrite <- I1].
  destruct S1 as [S1|S1]; [left; congruence|right; now rewrite S2].
Qed.

Lemma evolves_weaken (a b : string -> TaskState -> bool) (x y : ManagedTask) :
  (forall id s, a id s = true -> b id s = true) ->
  evolves a x y -> evolves b x y.
Proof.
  unfold evolves. intros H [I [C [R S]]]. repeat split; auto.
  destruct S; auto.
Qed.

Lemma passive_not_failed (id : string) (s : TaskState) :
  passive id s = true -> not_failed id s = true.
Proof. destruct s; simpl; auto. Qed.

Lemma passive_dispatching (pc : SchedulerPC) (id : string) (s : TaskState) :
  passive id s = true -> dispatching pc id s = true.
Proof. unfold dispatching. intros ->. reflexivity. Qed.

Lemma dispatching_not_failed (pc : SchedulerPC) (id : string) (s : TaskState) :
  dispatching pc id s = true -> not_failed id s = true.
Proof. unfold dispatching. destruct s; simpl; auto. Qed.

Lemma Forall2_refl_on {A : Type} (R : A -> A -> Prop) (l : list A) :
  (forall x, R x x) -> Forall2 R l l.
Proof. intros H. induction l; constructor; auto. Qed.

Lemma Forall2_trans_on {A : Type} (R : A -> A -> Prop) (l1 l2 l3 : list A) :
  (forall x y z, R x y -> R y z -> R x z) ->
  Forall2 R l1 l2 -> Forall2 R l2 l3 -> Forall2 R l1 l3.
Proof.
  intros HT H12. revert l3. induction H12; intros l3 H23; inversion H23; subst.
  - constructor.
  - constructor; eauto.
Qed.

Lemma Forall2_map_r {A : Type} (R : A -> A -> Prop) (g : A -> A) (l : list A) :
  (forall x, R x (g x)) -> Forall2 R l (map g l).
Proof. intros H. induction l; simpl; constructor; auto. Qed.

Lemma Forall2_In_r {A : Type} (R : A -> A -> Prop) (l l' : list A) (y : A) :
  Forall2 R l l' -> In y l' -> exists x, In x l /\ R x y.
Proof.
  induction 1 as [|a b l l' Hab _ IH]; simpl; [contradiction|].
  intros [E|Hy].
  - subst. exists a. auto.
  - destruct (IH Hy) as [x [Hx HR]]. exists x. auto.
Qed.

Lemma tasks_evolve_refl (a : string -> TaskState -> bool) (m : t) :
  tasks_evolve a m m.
Proof. apply Forall2_refl_on. apply evolves_refl. Qed.

Lemma tasks_evolve_trans (a : string -> TaskState -> bool) (m1 m2 m3 : t) :
  tasks_evolve a m1 m2 -> tasks_evolve a m2 m3 -> tasks_evolve a m1 m3.
Proof. apply Forall2_trans_on. apply evolves_trans. Qed.

Lemma tasks_evolve_weaken (a b : string -> TaskState -> bool) (m m' : t) :
  (forall id s, a id s = true -> b id s = true) ->
  tasks_evolve a m m' -> tasks_evolve b m m'.
Proof.
  intros H. unfold tasks_evolve. apply Forall2_impl.
  intros x y. now apply evolves_weaken.
Qed.

Lemma tasks_evolve_same (a : string -> TaskState -> bool) (m m' : t) :
  _tasks m' = _tasks m -> tasks_evolve a m m'.
Proof.
  intros E. unfold tasks_evolve. rewrite E. apply Forall2_refl_on.
  apply evolves_refl.
Qed.

Lemma tasks_evolve_modify (a : string -> TaskState -> bool) (id : string)
      (f : ManagedTask -> ManagedTask) (m : t) :
  (forall x, task_id x = id -> evolves a x (f x)) ->
  tasks_evolve a m (modify id f m).
Proof.
  intros H. unfold tasks_evolve, modify. simpl. apply Forall2_map_r.
  intros x. destruct (String.eqb (task_id x) id) eqn:E.
  - apply H. now apply String.eqb_eq.
  - apply evolves_refl.
Qed.

Lemma tasks_evolve_ids (a : string -> TaskState -> bool) (m m' : t) :
  tasks_evolve a m m' -> map task_id (_tasks m') = map task_id (_tasks m).
Proof.
  unfold tasks_evolve. induction 1 as [|x y l l' Hxy _ IH]; simpl.
  - reflexivity.
  - destruct Hxy as [I _]. now rewrite I, IH.
Qed.

Ltac solve_evolves :=
  let E := fresh "E" in
  intros ? E; unfold evolves; simpl; repeat split;
  first
    [ reflexivity
    | left; reflexivity
    | right; unfold dispatching, not_failed, passive, awaits; simpl;
      rewrite ?E, ?String.eqb_refl; reflexivity ].

(** Peels the in-place mutations and the counter updates off the manager on
    the right, one at a time. *)
Ltac evolve_chain :=
  lazymatch goal with
  | |- tasks_evolve ?a ?m (modify ?id ?f ?Y) =>
    apply (tasks_evolve_trans a m Y (modify id f Y));
    [ evolve_chain | apply tasks_evolve_modify; solve_evolves ]
  | |- tasks_evolve ?a ?m (add_running _ ?Y) =>
    change (tasks_evolve a m Y); evolve_chain
  | |- tasks_evolve ?a ?m (add_cancelled _ ?Y) =>
    change (tasks_evolve a m Y); evolve_chain
  | |- tasks_evolve ?a ?m (add_completed _ ?Y) =>
    change (tasks_evolve a m Y); evolve_chain
  | |- tasks_evolve ?a ?m (add_failed _ ?Y) =>
    change (tasks_evolve a m Y); evolve_chain
  | |- tasks_evolve ?a ?m (add_retries _ ?Y) =>
    change (tasks_evolve a m Y); evolve_chain
  | |- tasks_evolve ?a ?m (add_submitted _ ?Y) =>
    change (tasks_evolve a m Y); evolve_chain
  | |- tasks_evolve ?a ?m (with_semaphore _ ?Y) =>
    change (tasks_evolve a m Y); evolve_chain
  | |- tasks_evolve ?a ?m (with_running _ ?Y) =>
    change (tasks_evolve a m Y); evolve_chain
  | |- tasks_evolve ?a ?m (with_counter _ ?Y) =>
    change (tasks_evolve a m Y); evolve_chain
  | |- tasks_evolve ?a ?m (with_queues _ ?Y) =>
    change (tasks_evolve a m Y); evolve_chain
  | |- tasks_evolve ?a ?m (with_dep_checks _ ?Y) =>
    change (tasks_evolve a m Y); evolve_chain
  | |- tasks_evolve ?a ?m (_enqueue_task _ ?Y) =>
    change (tasks_evolve a m Y); evolve_chain
  | |- tasks_evolve ?a ?m (release_slot ?Y) =>
    change (tasks_evolve a m Y); evolve_chain
  | |- tasks_evolve _ _ _ => apply tasks_evolve_refl
  end.

Lemma check_dependencies_loop_evolves (id : string) (flag : bool)
      (deps : list string) (m : t) :
  tasks_evolve passive m (fst (check_dependencies_loop id flag deps m)).
Proof.
  revert m. induction deps as [|d deps IH]; intros m; simpl.
  - apply tasks_evolve_refl.
  - destruct (get_task_info d m) as [y|]; [|apply tasks_evolve_refl].
    assert (H1 : tasks_evolve passive m (modify d (add_dependent id) m))
      by evolve_chain.
    destruct (state_eqb (state y) COMPLETED).
    + eapply tasks_evolve_trans; [exact H1|apply IH].
    + destruct (state_eqb (state y) FAILED && flag); simpl; [|exact H1].
      evolve_chain.
Qed.

Lemma check_dependencies_evolves (id : string) (m : t) :
  tasks_evolve passive m (fst (_check_dependencies id m)).
Proof.
  unfold _check_dependencies.
  change (get_task_info id (with_dep_checks (dep_checks m ++ [id]) m))
    with (get_task_info id m).
  destruct (get_task_info id m) as [x|]; simpl.
  - eapply tasks_evolve_trans;
      [|apply check_dependencies_loop_evolves].
    apply tasks_evolve_same. reflexivity.
  - apply tasks_evolve_same. reflexivity.
Qed.

Lemma make_ready_evolves (id : string) (m : t) :
  tasks_evolve passive m (make_ready id m).
Proof.
  unfold make_ready.
  assert (H : tasks_evolve passive m (modify id (set_state QUEUED) m))
    by evolve_chain.
  destruct (get_task_info id _); [|exact H].
  eapply tasks_evolve_trans; [exact H|]. apply tasks_evolve_same. reflexivity.
Qed.

Lemma recheck_if_waiting_evolves (m : t) (id : string) :
  tasks_evolve passive m (recheck_if_waiting m id).
Proof.
  unfold recheck_if_waiting.
  destruct (get_task_info id m) as [x|]; [|apply tasks_evolve_refl].
  destruct (state_eqb (state x) WAITING); [|apply tasks_evolve_refl].
  pose proof (check_dependencies_evolves id m) as H.
  destruct (_check_dependencies id m) as [m1 ok]. simpl in H.
  destruct ok; [|exact H].
  eapply tasks_evolve_trans; [exact H|apply make_ready_evolves].
Qed.

Lemma fold_recheck_evolves (ids : list string) (m : t) :
  tasks_evolve passive m (fold_left recheck_if_waiting ids m).
Proof.
  revert m. induction ids as [|id ids IH]; intros m; simpl.
  - apply tasks_evolve_refl.
  - eapply tasks_evolve_trans; [apply recheck_if_waiting_evolves|apply IH].
Qed.

Lemma notify_dependents_evolves (id : string) (m : t) :
  tasks_evolve passive m (_notify_dependents id m).
Proof.
  unfold _notify_dependents.
  destruct (get_task_info id m); [apply fold_recheck_evolves|].
  apply tasks_evolve_refl.
Qed.

Lemma check_waiting_tasks_evolves (m : t) :
  tasks_evolve passive m (_check_waiting_tasks m).
Proof. apply fold_recheck_evolves. Qed.

(** Launching a task moves it to [RUNNING] and touches no other task. *)
Lemma launch_evolves (id : string) (x : ManagedTask) (now : float)
      (w : World) (rest : list TaskPriority) :
  tasks_evolve (dispatching (AwaitTask id rest)) (manager w)
               (manager (launch id x now w)).
Proof.
  unfold launch.
  destruct (Asyncio.create_task (heap w)) as [h1 r].
  destruct (_watchdog (manager w) && TaskConfig.enable_watchdog (config x)).
  - destruct (Watchdog.register_task _ _ _ _ _ _ _) as [[wd1 h2] wid].
    cbn [manager]. evolve_chain.
  - cbn [manager]. evolve_chain.
Qed.

(** A sweep moves tasks to passive states, and the task it dispatches, if
    any, to [RUNNING]. *)
Lemma sweep_evolves (ps : list TaskPriority) (now : float) (w : World) :
  tasks_evolve (dispatching (scheduler (sweep ps now w))) (manager w)
               (manager (sweep ps now w)).
Proof.
  revert w. induction ps as [|p ps IH]; intros w; simpl.
  - eapply tasks_evolve_weaken; [|apply check_waiting_tasks_evolves].
    intros id s. apply passive_dispatching.
  - destruct (_priority_queues (manager w) p) as [|id tail]; [apply IH|].
    match goal with
    | |- context [get_task_info id ?m1] =>
      destruct (get_task_info id m1) as [x|] eqn:G
    end.
    + simpl.
      destruct (_semaphore (manager w)) as [v|]; simpl;
        [destruct (0 <? v)|]; simpl.
      * match goal with
        | |- context [launch id x now ?w1] =>
          pose proof (launch_evolves id x now w1 ps) as L
        end.
        exact L.
      * apply tasks_evolve_same. reflexivity.
      * apply tasks_evolve_same. reflexivity.
    + match goal with
      | |- context [sweep ps now ?w1] => pose proof (IH w1) as H
      end.
      exact H.
Qed.

(** ** What the operations leave alone *)

Lemma check_dependencies_loop_settings (id : string) (flag : bool)
      (deps : list string) (m : t) :
  settings (fst (check_dependencies_loop id flag deps m)) = settings m.
Proof.
  revert m. induction deps as [|d deps IH]; intros m; simpl; [reflexivity|].
  destruct (get_task_info d m) as [y|]; [|reflexivity].
  destruct (state_eqb (state y) COMPLETED); [now rewrite IH|].
  destruct (state_eqb (state y) FAILED && flag); reflexivity.
Qed.

Lemma check_dependencies_settings (id : string) (m : t) :
  settings (fst (_check_dependencies id m)) = settings m.
Proof.
  unfold _check_dependencies.
  destruct (get_task_info id _); [|reflexivity].
  now rewrite check_dependencies_loop_settings.
Qed.

Lemma make_ready_settings (id : string) (m : t) :
  settings (make_ready id m) = settings m.
Proof. unfold make_ready. destruct (get_task_info id _); reflexivity. Qed.

Lemma recheck_if_waiting_settings (m : t) (id : string) :
  settings (recheck_if_waiting m id) = settings m.
Proof.
  unfold recheck_if_waiting.
  destruct (get_task_info id m) as [x|]; [|reflexivity].
  destruct (state_eqb (state x) WAITING); [|reflexivity].
  pose proof (check_dependencies_settings id m) as H.
  destruct (_check_dependencies id m) as [m1 ok]. simpl in H.
  destruct ok; [|exact H]. now rewrite make_ready_settings.
Qed.

Lemma fold_recheck_settings (ids : list string) (m : t) :
  settings (fold_left recheck_if_waiting ids m) = settings m.
Proof.
  revert m. induction ids as [|id ids IH]; intros m; simpl; [reflexivity|].
  now rewrite IH, recheck_if_waiting_settings.
Qed.

Lemma notify_dependents_settings (id : string) (m : t) :
  settings (_notify_dependents id m) = settings m.
Proof.
  unfold _notify_dependents.
  destruct (get_task_info id m); [apply fold_recheck_settings|reflexivity].
Qed.

Lemma on_task_error_requeue_settings (id : string) (m : t) :
  settings (_on_task_error_requeue id m) = settings m.
Proof.
  unfold _on_task_error_requeue. destruct (get_task_info id _); reflexivity.
Qed.

Lemma launch_settings (id : string) (x : ManagedTask) (now : float)
      (w : World) :
  settings (manager (launch id x now w)) = settings (manager w).
Proof.
  unfold launch.
  destruct (Asyncio.create_task (heap w)) as [h1 r].
  destruct (_watchdog (manager w) && TaskConfig.enable_watchdog (config x)).
  - destruct (Watchdog.register_task _ _ _ _ _ _ _) as [[wd1 h2] wid].
    reflexivity.
  - reflexivity.
Qed.

Lemma sweep_settings (ps : list TaskPriority) (now : float) (w : World) :
  settings (manager (sweep ps now w)) = settings (manager w).
Proof.
  revert w. induction ps as [|p ps IH]; intros w; simpl.
  - apply fold_recheck_settings.
  - destruct (_priority_queues (manager w) p) as [|id tail]; [apply IH|].
    match goal with
    | |- context [get_task_info id ?m1] =>
      destruct (get_task_info id m1) as [x|] eqn:G
    end.
    + simpl.
      destruct (_semaphore (manager w)) as [v|]; simpl;
        [destruct (0 <? v)|]; simpl; try reflexivity.
      now rewrite launch_settings.
    + now rewrite IH.
Qed.

(** ** Tasks in state RUNNING *)

Lemma no_running_evolves (m m' : t) :
  tasks_evolve passive m m' -> no_running m -> no_running m'.
Proof.
  intros H N y Hy R.
  destruct (Forall2_In_r _ _ _ _ H Hy) as [x [Hx [_ [_ [_ S]]]]].
  destruct S as [S|S].
  - apply (N x Hx). congruence.
  - rewrite R in S. discriminate.
Qed.

Lemma no_running_modify (id : string) (f : ManagedTask -> ManagedTask)
      (m : t) :
  (forall x, In x (_tasks m) -> state x = RUNNING -> task_id x = id) ->
  (forall x, state (f x) <> RUNNING) ->
  no_running (modify id f m).
Proof.
  intros H Hf y Hy R. unfold modify in Hy. simpl in Hy.
  apply in_map_iff in Hy. destruct Hy as [x [E Hx]].
  destruct (String.eqb (task_id x) id) eqn:Eid; subst y.
  - now apply (Hf x).
  - apply String.eqb_neq in Eid. apply Eid. now apply H.
Qed.

Lemma modify_keeps_ids (id : string) (f : ManagedTask -> ManagedTask)
      (m : t) :
  (forall x, task_id (f x) = task_id x) ->
  map task_id (_tasks (modify id f m)) = map task_id (_tasks m).
Proof.
  intros Hf. unfold modify. simpl. rewrite map_map. apply map_ext.
  intros x. destruct (String.eqb (task_id x) id); [apply Hf|reflexivity].
Qed.

Lemma modify_running_ids (id : string) (f : ManagedTask -> ManagedTask)
      (m : t) :
  (forall x, task_id (f x) = task_id x) ->
  (forall x, In x (_tasks m) -> state x = RUNNING -> task_id x = id) ->
  forall y, In y (_tasks (modify id f m)) -> state y = RUNNING ->
            task_id y = id.
Proof.
  intros Hf H y Hy R. unfold modify in Hy. simpl in Hy.
  apply in_map_iff in Hy. destruct Hy as [x [E Hx]].
  destruct (String.eqb (task_id x) id) eqn:Eid; subst y.
  - rewrite Hf. now apply String.eqb_eq.
  - now apply H.
Qed.

(** After a sweep that starts with no task running, the only task that can
    be running is the one the scheduler awaits. *)
Lemma sweep_running (ps : list TaskPriority) (now : float) (w : World) :
  no_running (manager w) ->
  forall x, In x (_tasks (manager (sweep ps now w))) -> state x = RUNNING ->
            awaits (scheduler (sweep ps now w)) (task_id x) = true.
Proof.
  intros N y Hy R.
  destruct (Forall2_In_r _ _ _ _ (sweep_evolves ps now w) Hy)
    as [x [Hx [I [_ [_ S]]]]].
  destruct S as [S|S].
  - exfalso. apply (N x Hx). congruence.
  - rewrite R in S. unfold dispatching in S. simpl in S. now rewrite I.
Qed.

(** ** The table: insertion *)

Lemma dict_set_In (x y : ManagedTask) (l : list ManagedTask) :
  In y (dict_set x l) -> y = x \/ In y l.
Proof.
  unfold dict_set.
  destruct (existsb _ l).
  - intros H. apply in_map_iff in H. destruct H as [z [E Hz]].
    destruct (String.eqb (task_id z) (task_id x)); subst; auto.
  - intros H. apply in_app_or in H. destruct H as [H|[H|[]]]; auto.
Qed.

Lemma NoDup_snoc {A : Type} (a : A) (l : list A) :
  ~ In a l -> NoDup l -> NoDup (l ++ [a]).
Proof.
  intros Ha N. induction N as [|b l Hb N IH]; simpl.
  - constructor; [intros []|constructor].
  - constructor.
    + intros H. apply in_app_or in H. destruct H as [H|[H|[]]].
      * contradiction.
      * subst. apply Ha. now left.
    + apply IH. intros H. apply Ha. now right.
Qed.

Lemma dict_set_ids (x : ManagedTask) (l : list ManagedTask) :
  NoDup (map task_id l) -> NoDup (map task_id (dict_set x l)).
Proof.
  intros N. unfold dict_set.
  destruct (existsb _ l) eqn:E.
  - rewrite map_map.
    replace (map (fun y => task_id (if String.eqb (task_id y) (task_id x)
                                    then x else y)) l)
      with (map task_id l); [exact N|].
    apply map_ext. intros y.
    destruct (String.eqb (task_id y) (task_id x)) eqn:Ey; [|reflexivity].
    now apply String.eqb_eq in Ey.
  - rewrite map_app. simpl.
    apply NoDup_snoc; [|exact N].
    intros H. apply in_map_iff in H. destruct H as [y [Ey Hy]].
    assert (F : existsb (fun z => String.eqb (task_id z) (task_id x)) l
                = true).
    { apply existsb_exists. exists y. split; [exact Hy|].
      now apply String.eqb_eq. }
    rewrite F in E. discriminate.
Qed.

(** What a successful submission does to the table: the new task is put
    into it, and then tasks only move to passive states. *)
Lemma submit_task_evolves
      (nm : option string) (cfg : option TaskConfig.t) (now : float)
      (millis : Z) (m m' : t) (id : string) :
  submit_task nm cfg now millis m = inr (id, m') ->
  exists x0 m0,
    state x0 = QUEUED /\ retry_count x0 = 0
    /\ _tasks m0 = dict_set x0 (_tasks m)
    /\ tasks_evolve passive m0 m'
    /\ settings m' = settings m
    /\ _running m = true.
Proof.
  unfold submit_task. destruct (_running m) eqn:R; [|discriminate].
  cbn [negb]. cbv zeta.
  match goal with
  | |- context [dict_set ?x _] => set (x0 := x)
  end.
  match goal with
  | |- context [add_submitted 1 ?mm] => set (m0 := add_submitted 1 mm)
  end.
  intros H. exists x0, m0.
  split; [reflexivity|]. split; [reflexivity|]. split; [reflexivity|].
  destruct (TaskConfig.dependencies _).
  - injection H as _ H. subst m'.
    split; [apply make_ready_evolves|].
    split; [|reflexivity].
    rewrite make_ready_settings. unfold settings. simpl. now rewrite R.
  - pose proof (check_dependencies_evolves (make_task_id (S (_task_counter m)) millis) m0) as He.
    pose proof (check_dependencies_settings (make_task_id (S (_task_counter m)) millis) m0) as Hs.
    destruct (_check_dependencies _ m0) as [m4 ok]. simpl in He, Hs.
    assert (S0 : settings m0 = settings m).
    { unfold settings. simpl. now rewrite R. }
    destruct ok; injection H as _ H; subst m'.
    + split; [eapply tasks_evolve_trans; [exact He|apply make_ready_evolves]|].
      split; [|reflexivity]. rewrite make_ready_settings. congruence.
    + split; [|split; [|reflexivity]].
      * eapply tasks_evolve_trans; [exact He|]. evolve_chain.
      * rewrite <- S0, <- Hs. reflexivity.
Qed.

(** ** The executor's branches *)

Lemma same_frame_trans (m1 m2 m3 : t) :
  same_frame m1 m2 -> same_frame m2 m3 -> same_frame m1 m3.
Proof. intros [A B] [C D]. split; congruence. Qed.

Lemma same_frame_evolves (a : string -> TaskState -> bool) (m m' : t) :
  tasks_evolve a m m' -> settings m' = settings m -> same_frame m m'.
Proof. intros H S. split; [now apply tasks_evolve_ids in H|exact S]. Qed.

Lemma same_frame_modify (id : string) (f : ManagedTask -> ManagedTask)
      (m : t) :
  (forall x, task_id (f x) = task_id x) -> same_frame m (modify id f m).
Proof. intros Hf. split; [now apply modify_keeps_ids|reflexivity]. Qed.

Lemma notify_dependents_frame (id : string) (m : t) :
  same_frame m (_notify_dependents id m).
Proof.
  eapply same_frame_evolves;
    [apply notify_dependents_evolves|apply notify_dependents_settings].
Qed.

Lemma on_task_success_frame (id : string) (v : PyValue) (now : float)
      (m : t) :
  same_frame m (_on_task_success id v now m).
Proof.
  unfold _on_task_success.
  eapply same_frame_trans; [|apply notify_dependents_frame].
  apply (same_frame_modify id _ m). reflexivity.
Qed.

Lemma on_task_cancelled_frame (id : string) (now : float) (m : t) :
  same_frame m (_on_task_cancelled id now m).
Proof.
  unfold _on_task_cancelled.
  eapply same_frame_trans; [|apply notify_dependents_frame].
  apply (same_frame_modify id _ m). reflexivity.
Qed.

Lemma on_task_error_frame (id : string) (e : Exception) (now : float)
      (m : t) :
  same_frame m (fst (_on_task_error id e now m)).
Proof.
  unfold _on_task_error.
  assert (H1 : same_frame m
                 (modify id
                    (fun x => set_end_time (Some now) (set_error (Some e) x))
                    m))
    by (apply same_frame_modify; reflexivity).
  destruct (get_task_info id _) as [x|]; [|exact H1].
  destruct (can_retry x); simpl.
  - eapply same_frame_trans; [exact H1|].
    apply (same_frame_modify id _ _). reflexivity.
  - eapply same_frame_trans; [exact H1|].
    eapply same_frame_trans; [|apply notify_dependents_frame].
    apply (same_frame_modify id _ _). reflexivity.
Qed.

Lemma on_task_error_requeue_evolves (id : string) (m : t) :
  tasks_evolve passive m (_on_task_error_requeue id m).
Proof.
  unfold _on_task_error_requeue.
  destruct (get_task_info id _); evolve_chain.
Qed.

Lemma on_task_success_no_running (id : string) (v : PyValue) (now : float)
      (m : t) :
  (forall x, In x (_tasks m) -> state x = RUNNING -> task_id x = id) ->
  no_running (_on_task_success id v now m).
Proof.
  intros H. unfold _on_task_success.
  eapply no_running_evolves; [apply notify_dependents_evolves|].
  apply (no_running_modify id _ m H). intros x. discriminate.
Qed.

Lemma on_task_cancelled_no_running (id : string) (now : float) (m : t) :
  (forall x, In x (_tasks m) -> state x = RUNNING -> task_id x = id) ->
  no_running (_on_task_cancelled id now m).
Proof.
  intros H. unfold _on_task_cancelled.
  eapply no_running_evolves; [apply notify_dependents_evolves|].
  apply (no_running_modify id _ m H). intros x. discriminate.
Qed.

Lemma get_task_info_none (id : string) (m : t) (x : ManagedTask) :
  get_task_info id m = None -> In x (_tasks m) -> task_id x <> id.
Proof.
  unfold get_task_info. intros H Hx E.
  apply (find_none _ _ H) in Hx. apply String.eqb_neq in Hx. contradiction.
Qed.

Lemma on_task_error_no_running (id : string) (e : Exception) (now : float)
      (m : t) :
  (forall x, In x (_tasks m) -> state x = RUNNING -> task_id x = id) ->
  no_running (fst (_on_task_error id e now m)).
Proof.
  intros H. unfold _on_task_error.
  set (m1 := modify id
               (fun x => set_end_time (Some now) (set_error (Some e) x)) m).
  assert (H1 : forall y, In y (_tasks m1) -> state y = RUNNING ->
                         task_id y = id).
  { apply modify_running_ids; [reflexivity|exact H]. }
  destruct (get_task_info id m1) as [x|] eqn:G.
  - destruct (can_retry x); simpl.
    + apply (no_running_modify id _ m1 H1). intros y. discriminate.
    + eapply no_running_evolves; [apply notify_dependents_evolves|].
      apply (no_running_modify id _ m1 H1). intros y. discriminate.
  - simpl. intros y Hy R.
    apply (get_task_info_none id m1 y G Hy). now apply H1.
Qed.

(** ** The scheduler runs one task at a time *)

Lemma frame_stopped (m m' : t) :
  same_frame m m' ->
  (_running m = false -> _tasks m = []) ->
  _running m' = false -> _tasks m' = [].
Proof.
  intros [I S] H R.
  assert (R0 : _running m = false).
  { unfold settings in S. injection S as S _ _. congruence. }
  unfold ids in I. rewrite (H R0) in I. simpl in I.
  destruct (_tasks m'); [reflexivity|discriminate].
Qed.

Lemma inv_no_running (w : World) :
  scheduler_inv w ->
  (forall id, awaits (scheduler w) id = false) ->
  no_running (manager w).
Proof.
  intros I H x Hx R. pose proof (inv_running w I x Hx R) as A.
  rewrite H in A. discriminate.
Qed.

Lemma inv_running_ids (w : World) (id : string) (rest : list TaskPriority) :
  scheduler_inv w ->
  scheduler w = AwaitTask id rest ->
  forall x, In x (_tasks (manager w)) -> state x = RUNNING -> task_id x = id.
Proof.
  intros I P x Hx R. pose proof (inv_running w I x Hx R) as A.
  rewrite P in A. simpl in A. apply String.eqb_eq in A. congruence.
Qed.

(** A sweep from a manager in which no task is running re-establishes the
    invariant. *)
Lemma sweep_inv (ps : list TaskPriority) (now : float) (w : World) :
  NoDup (ids (manager w)) ->
  no_running (manager w) ->
  (_running (manager w) = false -> _tasks (manager w) = []) ->
  scheduler_inv (sweep ps now w).
Proof.
  intros N R S.
  assert (F : same_frame (manager w) (manager (sweep ps now w))).
  { eapply same_frame_evolves; [apply sweep_evolves|apply sweep_settings]. }
  constructor.
  - destruct F as [F _]. now rewrite F.
  - now apply sweep_running.
  - now apply (frame_stopped (manager w)).
Qed.

(** An operation that changes tasks only to passive states and leaves the
    scheduler where it is keeps the invariant. *)
Lemma passive_inv (w : World) (m' : t) (wd : Watchdog.t) (h : Asyncio.Heap) :
  scheduler_inv w ->
  tasks_evolve passive (manager w) m' ->
  settings m' = settings (manager w) ->
  scheduler_inv (mkWorld m' wd h (scheduler w)).
Proof.
  intros I E S.
  assert (F : same_frame (manager w) m') by (eapply same_frame_evolves; eauto).
  constructor; simpl.
  - destruct F as [F _]. rewrite F. apply (inv_ids w I).
  - intros y Hy R.
    destruct (Forall2_In_r _ _ _ _ E Hy) as [x [Hx [Hi [_ [_ St]]]]].
    destruct St as [St|St]; [|rewrite R in St; discriminate].
    rewrite Hi. apply (inv_running w I x Hx). congruence.
  - apply (frame_stopped (manager w)); [exact F|apply (inv_stopped w I)].
Qed.

Lemma step_scheduler_inv (w : World) (ev : Event) :
  scheduler_inv w -> scheduler_inv (step w ev).
Proof.
  intros I. destruct ev as [|nm cfg now millis|id|now|o now|now|now]; simpl.
  - (* Start *)
    unfold start. destruct (_running (manager w)) eqn:R; [exact I|].
    pose proof (inv_stopped w I R) as T.
    destruct (max_concurrent_tasks (manager w) <? 0);
      constructor; simpl; unfold ids; simpl; rewrite ?T; simpl;
        try constructor; try contradiction; try discriminate.
  - (* Submit *)
    destruct (submit_task nm cfg now millis (manager w)) as [e|[id m']] eqn:S;
      [exact I|].
    destruct (submit_task_evolves _ _ _ _ _ _ _ S)
      as [x0 [m0 [Q [_ [T [E [St Run]]]]]]].
    constructor; simpl.
    + apply tasks_evolve_ids in E. unfold ids. rewrite E, T.
      apply dict_set_ids. apply (inv_ids w I).
    + intros y Hy R.
      destruct (Forall2_In_r _ _ _ _ E Hy) as [x [Hx [Hi [_ [_ Sx]]]]].
      destruct Sx as [Sx|Sx]; [|rewrite R in Sx; discriminate].
      rewrite T in Hx. apply dict_set_In in Hx. destruct Hx as [Hx|Hx].
      * subst x. rewrite Q in Sx. congruence.
      * rewrite Hi. apply (inv_running w I x Hx). congruence.
    + intros F. unfold settings in St. injection St as St _ _. congruence.
  - (* Cancel *)
    unfold cancel_task.
    destruct (get_task_info id (manager w)) as [x|]; [|exact I].
    destruct (state x), (task x); simpl; try exact I;
      try (apply (passive_inv w); [exact I|evolve_chain|reflexivity]).
  - (* SchedulerWake *)
    unfold scheduler_wake. destruct (scheduler w) eqn:P; try exact I.
    assert (N : no_running (manager w)).
    { apply inv_no_running; [exact I|]. intros id. now rewrite P. }
    destruct (_running (manager w)).
    + apply sweep_inv; [apply (inv_ids w I)|exact N|apply (inv_stopped w I)].
    + constructor; simpl.
      * apply (inv_ids w I).
      * intros x Hx R. exfalso. now apply (N x Hx).
      * apply (inv_stopped w I).
  - (* Settle *)
    unfold settle. destruct (scheduler w) as [| |? ?|id rest|? ?|] eqn:P;
      try exact I.
    destruct (settle_handle id o now w) as [wd1 h2].
    pose proof (inv_running_ids w id rest I P) as RI.
    destruct o as [v|e|].
    + pose proof (on_task_success_frame id v now (manager w)) as F.
      apply sweep_inv; simpl.
      * destruct F as [F _]. unfold ids in *. simpl. rewrite F.
        apply (inv_ids w I).
      * intros x Hx. now apply (on_task_success_no_running id v now _ RI).
      * apply (frame_stopped (manager w)); [exact F|apply (inv_stopped w I)].
    + pose proof (on_task_error_frame id e now (manager w)) as F.
      pose proof (on_task_error_no_running id e now (manager w) RI) as N.
      destruct (_on_task_error id e now (manager w)) as [m1 retry].
      simpl in F, N. destruct retry.
      * constructor; simpl.
        -- destruct F as [F _]. rewrite F. apply (inv_ids w I).
        -- intros x Hx R. exfalso. now apply (N x Hx).
        -- apply (frame_stopped (manager w)); [exact F|apply (inv_stopped w I)].
      * apply sweep_inv; simpl.
        -- destruct F as [F _]. unfold ids in *. simpl. rewrite F.
           apply (inv_ids w I).
        -- exact N.
        -- apply (frame_stopped (manager w)); [exact F|apply (inv_stopped w I)].
    + pose proof (on_task_cancelled_frame id now (manager w)) as F.
      apply sweep_inv; simpl.
      * destruct F as [F _]. unfold ids in *. simpl. rewrite F.
        apply (inv_ids w I).
      * intros x Hx. now apply (on_task_cancelled_no_running id now _ RI).
      * apply (frame_stopped (manager w)); [exact F|apply (inv_stopped w I)].
  - (* RetryWake *)
    unfold retry_wake. destruct (scheduler w) as [| |? ?|? ?|id rest|] eqn:P;
      try exact I.
    assert (N : no_running (manager w)).
    { apply inv_no_running; [exact I|]. intros k. now rewrite P. }
    pose proof (on_task_error_requeue_evolves id (manager w)) as E.
    assert (F : same_frame (manager w) (_on_task_error_requeue id (manager w))).
    { eapply same_frame_evolves; [exact E|].
      apply on_task_error_requeue_settings. }
    apply sweep_inv; simpl.
    + destruct F as [F _]. unfold ids in *. simpl. rewrite F.
      apply (inv_ids w I).
    + intros x Hx. apply (no_running_evolves _ _ E N x). exact Hx.
    + apply (frame_stopped (manager w)); [exact F|apply (inv_stopped w I)].
  - (* WatchdogTick *)
    unfold watchdog_tick. destruct (Watchdog._running (watchdog w)); [|exact I].
    destruct (Watchdog._check_tasks now (watchdog w) (heap w)) as [wd1 h1].
    constructor; simpl;
      [apply (inv_ids w I)|apply (inv_running w I)|apply (inv_stopped w I)].
Qed.

Lemma new_world_inv (max_concurrent : Z) (enable_wd : bool) (interval : float) :
  scheduler_inv (new_world max_concurrent enable_wd interval).
Proof.
  constructor; simpl.
  - constructor.
  - intros x [].
  - reflexivity.
Qed.

Lemma run_scheduler_inv (evs : list Event) (w : World) :
  scheduler_inv w -> scheduler_inv (run w evs).
Proof.
  revert w. induction evs as [|ev evs IH]; intros w I; simpl; [exact I|].
  apply IH. now apply step_scheduler_inv.
Qed.

(** ** Retries *)

Lemma retry_ok_mono (cnt cnt' : string -> nat) (x : ManagedTask) :
  (forall id, (cnt id <= cnt' id)%nat) -> retry_ok cnt x -> retry_ok cnt' x.
Proof.
  intros H [A [B [C D]]]. pose proof (H (task_id x)) as Hx.
  split; [lia|]. split; [lia|]. split; [lia|].
  intros F. apply D in F. lia.
Qed.

Lemma retries_ok_mono (cnt cnt' : string -> nat) (m : t) :
  (forall id, (cnt id <= cnt' id)%nat) ->
  retries_ok cnt m -> retries_ok cnt' m.
Proof. intros H R x Hx. apply (retry_ok_mono cnt); auto. Qed.

Lemma retry_ok_evolves (cnt : string -> nat) (x y : ManagedTask) :
  evolves not_failed x y -> retry_ok cnt x -> retry_ok cnt y.
Proof.
  intros [I [C [R S]]] [A [B [D E]]]. unfold retry_ok.
  rewrite I, C, R.
  split; [assumption|]. split; [assumption|]. split; [assumption|].
  intros F. destruct S as [S|S].
  - apply E. congruence.
  - rewrite F in S. discriminate.
Qed.

Lemma retries_ok_evolves (cnt : string -> nat) (m m' : t) :
  tasks_evolve not_failed m m' -> retries_ok cnt m -> retries_ok cnt m'.
Proof.
  intros H R y Hy.
  destruct (Forall2_In_r _ _ _ _ H Hy) as [x [Hx E]].
  apply (retry_ok_evolves cnt x y E). now apply R.
Qed.

Lemma retries_ok_passive (cnt : string -> nat) (m m' : t) :
  tasks_evolve passive m m' -> retries_ok cnt m -> retries_ok cnt m'.
Proof.
  intros H. apply retries_ok_evolves.
  eapply tasks_evolve_weaken; [|exact H]. apply passive_not_failed.
Qed.

Lemma retries_ok_sweep (cnt : string -> nat) (ps : list TaskPriority)
      (now : float) (w : World) :
  retries_ok cnt (manager w) -> retries_ok cnt (manager (sweep ps now w)).
Proof.
  apply retries_ok_evolves.
  eapply tasks_evolve_weaken; [|apply sweep_evolves].
  apply dispatching_not_failed.
Qed.

Lemma NoDup_map_eq {A B : Type} (f : A -> B) (l : list A) (x y : A) :
  NoDup (map f l) -> In x l -> In y l -> f x = f y -> x = y.
Proof.
  induction l as [|a l IH]; simpl; intros N Hx Hy E; [contradiction|].
  inversion N as [|? ? Ha N']; subst.
  destruct Hx as [Hx|Hx], Hy as [Hy|Hy]; subst.
  - reflexivity.
  - exfalso. apply Ha. rewrite E. now apply in_map.
  - exfalso. apply Ha. rewrite <- E. now apply in_map.
  - now apply IH.
Qed.

Lemma modify_In (id : string) (f : ManagedTask -> ManagedTask) (m : t)
      (y : ManagedTask) :
  In y (_tasks (modify id f m)) ->
  (exists x, In x (_tasks m) /\ task_id x = id /\ y = f x)
  \/ (In y (_tasks m) /\ task_id y <> id).
Proof.
  unfold modify. simpl. intros H. apply in_map_iff in H.
  destruct H as [x [E Hx]].
  destruct (String.eqb (task_id x) id) eqn:Ei.
  - left. exists x. apply String.eqb_eq in Ei. auto.
  - right. subst y. apply String.eqb_neq in Ei. auto.
Qed.

(** The end of a failing attempt of [id]: the count of failing attempts of
    [id] goes up by one, and the task is retried or has failed for good. *)
Lemma on_task_error_retries (cnt : string -> nat) (id : string)
      (e : Exception) (now : float) (m : t) :
  NoDup (ids m) ->
  retries_ok cnt m ->
  retries_ok (fun k => (cnt k + if String.eqb id k then 1 else 0)%nat)
             (fst (_on_task_error id e now m)).
Proof.
  intros N R.
  set (cnt' := fun k => (cnt k + if String.eqb id k then 1 else 0)%nat).
  assert (M : forall k, (cnt k <= cnt' k)%nat) by (intros k; unfold cnt'; lia).
  unfold _on_task_error.
  set (m1 := modify id
               (fun x => set_end_time (Some now) (set_error (Some e) x)) m).
  assert (R1 : retries_ok cnt m1).
  { apply (retries_ok_evolves cnt m); [|exact R]. unfold m1. evolve_chain. }
  assert (N1 : NoDup (ids m1)).
  { unfold ids, m1. rewrite modify_keeps_ids; [exact N|reflexivity]. }
  destruct (get_task_info id m1) as [x|] eqn:G.
  - pose proof (get_task_info_In id m1 x G) as Hx.
    pose proof (get_task_info_id id m1 x G) as Ix.
    destruct (R1 x Hx) as [A [B [C D]]].
    destruct (can_retry x) eqn:CR; simpl.
    + unfold can_retry in CR. apply Z.ltb_lt in CR.
      intros y Hy.
      change (_tasks (add_retries 1 ?mm)) with (_tasks mm) in Hy.
      apply modify_In in Hy. destruct Hy as [[z [Hz [Iz Ey]]]|[Hy Iy]].
      * assert (z = x)
          by (apply (NoDup_map_eq task_id (_tasks m1)); auto; congruence).
        subst z y. unfold retry_ok. simpl. unfold cnt'. rewrite Ix.
        rewrite String.eqb_refl. rewrite Ix in C.
        split; [lia|]. split; [lia|]. split; [lia|]. discriminate.
      * apply (retry_ok_mono cnt); auto.
    + unfold can_retry in CR. apply Z.ltb_ge in CR.
      apply (retries_ok_passive cnt' _ _ (notify_dependents_evolves _ _)).
      intros y Hy.
      change (_tasks (add_failed 1 ?mm)) with (_tasks mm) in Hy.
      apply modify_In in Hy. destruct Hy as [[z [Hz [Iz Ey]]]|[Hy Iy]].
      * assert (z = x)
          by (apply (NoDup_map_eq task_id (_tasks m1)); auto; congruence).
        subst z y. unfold retry_ok. simpl. unfold cnt'. rewrite Ix.
        rewrite String.eqb_refl. rewrite Ix in C.
        split; [lia|]. split; [lia|]. split; [lia|]. intros _. lia.
      * apply (retry_ok_mono cnt); auto.
  - simpl. apply (retries_ok_mono cnt); auto.
Qed.

Lemma on_task_success_evolves (id : string) (v : PyValue) (now : float)
      (m : t) :
  tasks_evolve not_failed m (_on_task_success id v now m).
Proof.
  unfold _on_task_success.
  eapply tasks_evolve_trans;
    [|eapply tasks_evolve_weaken;
      [apply passive_not_failed|apply notify_dependents_evolves]].
  evolve_chain.
Qed.

Lemma on_task_cancelled_evolves (id : string) (now : float) (m : t) :
  tasks_evolve not_failed m (_on_task_cancelled id now m).
Proof.
  unfold _on_task_cancelled.
  eapply tasks_evolve_trans;
    [|eapply tasks_evolve_weaken;
      [apply passive_not_failed|apply notify_dependents_evolves]].
  evolve_chain.
Qed.

Lemma dict_set_retries (cnt : string -> nat) (x0 : ManagedTask) (m m0 : t) :
  state x0 = QUEUED -> retry_count x0 = 0 ->
  _tasks m0 = dict_set x0 (_tasks m) ->
  retries_ok cnt m -> retries_ok cnt m0.
Proof.
  intros Q Z0 T R y Hy. rewrite T in Hy. apply dict_set_In in Hy.
  destruct Hy as [Hy|Hy]; [|now apply R].
  subst y. unfold retry_ok. rewrite Z0, Q.
  split; [lia|]. split; [lia|]. split; [lia|]. discriminate.
Qed.

(** Every event that is not the end of a failing attempt leaves the
    bookkeeping of retries as it is. *)
Lemma step_retries_other (cnt : string -> nat) (w : World) (ev : Event) :
  (forall id, is_failed_attempt w ev id = false) ->
  retries_ok cnt (manager w) -> retries_ok cnt (manager (step w ev)).
Proof.
  intros NF R. destruct ev as [|nm cfg now millis|id|now|o now|now|now]; simpl.
  - unfold start. destruct (_running (manager w)); [exact R|].
    destruct (max_concurrent_tasks (manager w) <? 0); exact R.
  - destruct (submit_task nm cfg now millis (manager w)) as [e|[id m']] eqn:S;
      [exact R|].
    destruct (submit_task_evolves _ _ _ _ _ _ _ S)
      as [x0 [m0 [Q [Z0 [T [E _]]]]]].
    simpl. apply (retries_ok_passive cnt m0 m' E).
    now apply (dict_set_retries cnt x0 (manager w)).
  - unfold cancel_task.
    destruct (get_task_info id (manager w)) as [x|]; [|exact R].
    destruct (state x), (task x); simpl; try exact R;
      apply (retries_ok_passive cnt (manager w)); try exact R; evolve_chain.
  - unfold scheduler_wake. destruct (scheduler w); try exact R.
    destruct (_running (manager w)); [|exact R].
    now apply retries_ok_sweep.
  - unfold settle. destruct (scheduler w) as [| |? ?|id rest|? ?|] eqn:P;
      try exact R.
    destruct (settle_handle id o now w) as [wd1 h2].
    destruct o as [v|e|].
    + apply retries_ok_sweep. simpl.
      apply (retries_ok_evolves cnt (manager w)); [|exact R].
      apply on_task_success_evolves.
    + specialize (NF id). unfold is_failed_attempt in NF. rewrite P in NF.
      rewrite String.eqb_refl in NF. discriminate.
    + apply retries_ok_sweep. simpl.
      apply (retries_ok_evolves cnt (manager w)); [|exact R].
      apply on_task_cancelled_evolves.
  - unfold retry_wake. destruct (scheduler w); try exact R.
    apply retries_ok_sweep. simpl.
    apply (retries_ok_passive cnt (manager w)); [|exact R].
    apply on_task_error_requeue_evolves.
  - unfold watchdog_tick. destruct (Watchdog._running (watchdog w)); [|exact R].
    destruct (Watchdog._check_tasks now (watchdog w) (heap w)). exact R.
Qed.

Lemma step_retries (cnt : string -> nat) (w : World) (ev : Event) :
  scheduler_inv w ->
  retries_ok cnt (manager w) ->
  retries_ok
    (fun id => (cnt id + if is_failed_attempt w ev id then 1 else 0)%nat)
    (manager (step w ev)).
Proof.
  intros I R.
  destruct ev as [|nm cfg now millis|id|now|o now|now|now];
    try (apply (retries_ok_mono cnt); [intros; lia|];
         apply step_retries_other; [reflexivity|exact R]).
  destruct (scheduler w) as [| |? ?|id rest|? ?|] eqn:P;
    try (apply (retries_ok_mono cnt); [intros; lia|];
         apply step_retries_other;
         [intros k; unfold is_failed_attempt; rewrite ?P; now destruct o
         |exact R]).
  destruct o as [v|e|];
    try (apply (retries_ok_mono cnt); [intros; lia|];
         apply step_retries_other;
         [intros k; unfold is_failed_attempt; rewrite ?P; reflexivity
         |exact R]).
  unfold is_failed_attempt. rewrite P. simpl. unfold settle. rewrite P.
  destruct (settle_handle id (Asyncio.Raised e truth) now w) as [wd1 h2].
  pose proof (on_task_error_retries cnt id e now (manager w)
                                    (inv_ids w I) R) as H.
  destruct (_on_task_error id e now (manager w)) as [m1 retry].
  simpl in H. destruct retry; [exact H|].
  apply retries_ok_sweep. exact H.
Qed.

Lemma run_retries (evs : list Event) (cnt : string -> nat) (w : World) :
  scheduler_inv w ->
  retries_ok cnt (manager w) ->
  retries_ok (fun id => (cnt id + failed_attempts w evs id)%nat)
             (manager (run w evs)).
Proof.
  revert cnt w. induction evs as [|ev evs IH]; intros cnt w I R; simpl.
  - apply (retries_ok_mono cnt); [intros; lia|exact R].
  - pose proof (IH _ (step w ev) (step_scheduler_inv w ev I)
                   (step_retries cnt w ev I R)) as H.
    eapply retries_ok_mono; [|exact H]. intros id. simpl. lia.
Qed.

Lemma modify_In_other (id : string) (f : ManagedTask -> ManagedTask) (m : t)
      (y : ManagedTask) :
  (forall x, task_id (f x) = task_id x) ->
  In y (_tasks (modify id f m)) -> task_id y <> id -> In y (_tasks m).
Proof.
  intros Hf Hy Ny. apply modify_In in Hy.
  destruct Hy as [[x [Hx [Ix E]]]|[Hy _]]; [|exact Hy].
  exfalso. apply Ny. subst y. now rewrite Hf.
Qed.

(** The end of a failing attempt of [id] moves the other tasks to passive
    states only. *)
Lemma on_task_error_others (id : string) (e : Exception) (now : float)
      (m : t) (y : ManagedTask) :
  In y (_tasks (fst (_on_task_error id e now m))) ->
  task_id y <> id ->
  exists x, In x (_tasks m) /\ evolves passive x y.
Proof.
  unfold _on_task_error.
  set (m1 := modify id
               (fun x => set_end_time (Some now) (set_error (Some e) x)) m).
  assert (B : forall z, In z (_tasks m1) -> task_id z <> id ->
                        In z (_tasks m)).
  { intros z Hz Nz. unfold m1 in Hz.
    eapply modify_In_other; [|exact Hz|exact Nz]. reflexivity. }
  destruct (get_task_info id m1) as [x|]; [destruct (can_retry x)|];
    cbn [fst]; intros Hy Ny.
  - change (_tasks (add_retries 1 ?mm)) with (_tasks mm) in Hy.
    apply modify_In_other in Hy; [|reflexivity|exact Ny].
    exists y. split; [now apply B|apply evolves_refl].
  - destruct (Forall2_In_r _ _ _ _ (notify_dependents_evolves _ _) Hy)
      as [y1 [Hy1 E1]].
    change (_tasks (add_failed 1 ?mm)) with (_tasks mm) in Hy1.
    assert (N1 : task_id y1 <> id).
    { destruct E1 as [I1 _]. congruence. }
    apply modify_In_other in Hy1; [|reflexivity|exact N1].
    exists y1. split; [now apply B|exact E1].
  - exists y. split; [now apply B|apply evolves_refl].
Qed.

(** Where the tasks after an event come from, when the event is not the end
    of a failing attempt: from a task that was there, or from the task just
    submitted. *)
Lemma step_other_origin (w : World) (ev : Event) (y : ManagedTask) :
  (forall id, is_failed_attempt w ev id = false) ->
  In y (_tasks (manager (step w ev))) ->
  exists x, (In x (_tasks (manager w)) \/ state x = QUEUED)
            /\ evolves not_failed x y.
Proof.
  intros NF.
  assert (G : forall m', tasks_evolve not_failed (manager w) m' ->
                         In y (_tasks m') ->
                         exists x, (In x (_tasks (manager w))
                                    \/ state x = QUEUED)
                                   /\ evolves not_failed x y).
  { intros m' E Hy. destruct (Forall2_In_r _ _ _ _ E Hy) as [x [Hx Ex]].
    exists x. auto. }
  assert (P0 : forall m', tasks_evolve passive (manager w) m' ->
                          tasks_evolve not_failed (manager w) m').
  { intros m'. apply tasks_evolve_weaken. apply passive_not_failed. }
  assert (S0 : forall ps now w0,
             tasks_evolve not_failed (manager w) (manager w0) ->
             tasks_evolve not_failed (manager w) (manager (sweep ps now w0))).
  { intros ps now w0 E. eapply tasks_evolve_trans; [exact E|].
    eapply tasks_evolve_weaken; [|apply sweep_evolves].
    apply dispatching_not_failed. }
  destruct ev as [|nm cfg now millis|id|now|o now|now|now]; simpl.
  - apply G. unfold start. destruct (_running (manager w)); [evolve_chain|].
    destruct (max_concurrent_tasks (manager w) <? 0);
      cbn [manager with_manager]; evolve_chain.
  - destruct (submit_task nm cfg now millis (manager w)) as [e|[id m']] eqn:S;
      [apply G; apply tasks_evolve_refl|].
    destruct (submit_task_evolves _ _ _ _ _ _ _ S)
      as [x0 [m0 [Q [Z0 [T [E _]]]]]].
    simpl. intros Hy.
    destruct (Forall2_In_r _ _ _ _ E Hy) as [x [Hx Ex]].
    exists x. split.
    + rewrite T in Hx. apply dict_set_In in Hx.
      destruct Hx as [Hx|Hx]; [right; now subst|now left].
    + eapply evolves_weaken; [|exact Ex]. apply passive_not_failed.
  - apply G. unfold cancel_task.
    destruct (get_task_info id (manager w)) as [x|]; [|apply tasks_evolve_refl].
    destruct (state x), (task x); simpl; evolve_chain.
  - apply G. unfold scheduler_wake.
    destruct (scheduler w); try apply tasks_evolve_refl.
    destruct (_running (manager w)); [|apply tasks_evolve_refl].
    apply S0. apply tasks_evolve_refl.
  - apply G. unfold settle.
    destruct (scheduler w) as [| |? ?|id rest|? ?|] eqn:P;
      try apply tasks_evolve_refl.
    destruct (settle_handle id o now w) as [wd1 h2].
    destruct o as [v|e|].
    + apply S0. simpl. apply on_task_success_evolves.
    + specialize (NF id). unfold is_failed_attempt in NF. rewrite P in NF.
      rewrite String.eqb_refl in NF. discriminate.
    + apply S0. simpl. apply on_task_cancelled_evolves.
  - apply G. unfold retry_wake.
    destruct (scheduler w); try apply tasks_evolve_refl.
    apply S0. simpl. apply P0. apply on_task_error_requeue_evolves.
  - apply G. unfold watchdog_tick.
    destruct (Watchdog._running (watchdog w)); [|apply tasks_evolve_refl].
    destruct (Watchdog._check_tasks now (watchdog w) (heap w)).
    apply tasks_evolve_refl.
Qed.

(** A task is in state [FAILED] after an event only if it was so before, or
    if the event is the end of a failing attempt of that task. *)
Lemma step_enters_failed (w : World) (ev : Event) (y : ManagedTask) :
  In y (_tasks (manager (step w ev))) ->
  state y = FAILED ->
  (exists x, In x (_tasks (manager w)) /\ task_id x = task_id y
             /\ state x = FAILED)
  \/ is_failed_attempt w ev (task_id y) = true.
Proof.
  intros Hy F.
  destruct (is_failed_attempt w ev (task_id y)) eqn:A; [now right|left].
  assert (C : (forall id, is_failed_attempt w ev id = false)
              \/ exists e truth now id rest,
                  ev = Settle (Asyncio.Raised e truth) now
                  /\ scheduler w = AwaitTask id rest).
  { unfold is_failed_attempt.
    destruct ev as [|nm cfg now millis|id|now|o now|now|now]; auto.
    destruct o as [v|e truth|]; auto.
    destruct (scheduler w) as [| |? ?|id rest|? ?|] eqn:P; auto.
    right. exists e, truth, now, id, rest. auto. }
  destruct C as [NF|[e [truth [now [id [rest [Eev P]]]]]]].
  - destruct (step_other_origin w ev y NF Hy) as [x [Hx [I [_ [_ S]]]]].
    assert (Sx : state x = FAILED).
    { destruct S as [S|S]; [congruence|]. rewrite F in S. discriminate. }
    destruct Hx as [Hx|Hx]; [|congruence].
    exists x. auto.
  - subst ev. unfold is_failed_attempt in A. rewrite P in A.
    apply String.eqb_neq in A.
    simpl in Hy. unfold settle in Hy. rewrite P in Hy.
    destruct (settle_handle id (Asyncio.Raised e truth) now w) as [wd1 h2].
    pose proof (on_task_error_others id e now (manager w)) as O.
    destruct (_on_task_error id e now (manager w)) as [m1 retry].
    simpl in O.
    assert (Y : exists y1, In y1 (_tasks m1) /\ task_id y1 = task_id y
                           /\ state y1 = FAILED).
    { destruct retry.
      - exists y. auto.
      - destruct (Forall2_In_r _ _ _ _ (sweep_evolves _ _ _) Hy)
          as [y1 [Hy1 [I1 [_ [_ S1]]]]].
        exists y1. split; [exact Hy1|]. split; [congruence|].
        destruct S1 as [S1|S1]; [congruence|].
        rewrite F in S1. unfold dispatching in S1. simpl in S1. discriminate. }
    destruct Y as [y1 [Hy1 [I1 F1]]].
    destruct (O y1 Hy1) as [x [Hx [Ix [_ [_ Sx]]]]]; [congruence|].
    exists x. split; [exact Hx|]. split; [congruence|].
    destruct Sx as [Sx|Sx]; [congruence|].
    rewrite F1 in Sx. discriminate.
Qed.

Lemma run_app (w : World) (evs1 evs2 : list Event) :
  run w (evs1 ++ evs2) = run (run w evs1) evs2.
Proof. unfold run. apply fold_left_app. Qed.

(** C5. In every run of a manager, for every task whose [max_retries] is
    non-negative: [retry_count <= max_retries]; and if the task is [FAILED]
    then [retry_count = max_retries], at least [max_retries + 1] attempts
    of the task have ended in failure, and the task was [FAILED] before the
    last event or the last event is the end of a failing attempt of this
    task. *)
Theorem retry_count_bounded_and_failed_only_after_all_retries
        (max_concurrent : Z) (enable_wd : bool) (interval : float)
        (evs : list Event) (ev : Event) (x : ManagedTask) :
  let w0 := new_world max_concurrent enable_wd interval in
  In x (_tasks (manager (run w0 (evs ++ [ev])))) ->
  0 <= TaskConfig.max_retries (config x) ->
  retry_count x <= TaskConfig.max_retries (config x)
  /\ (state x = FAILED ->
      retry_count x = TaskConfig.max_retries (config x)
      /\ TaskConfig.max_retries (config x) + 1
         <= Z.of_nat (failed_attempts w0 (evs ++ [ev]) (task_id x))
      /\ ((exists x0, In x0 (_tasks (manager (run w0 evs)))
                      /\ task_id x0 = task_id x /\ state x0 = FAILED)
          \/ is_failed_attempt (run w0 evs) ev (task_id x) = true)).
Proof.
  intros w0 Hx M.
  assert (R : retries_ok (fun id => (0 + failed_attempts w0 (evs ++ [ev]) id)%nat)
                         (manager (run w0 (evs ++ [ev])))).
  { apply run_retries; [apply new_world_inv|]. intros y []. }
  destruct (R x Hx) as [A [B [C D]]].
  split; [lia|]. intros F. destruct (D F) as [D1 D2].
  split; [lia|]. split; [simpl in D2; lia|].
  rewrite run_app in Hx. simpl in Hx.
  apply step_enters_failed; assumption.
Qed.

(** ** The order of dispatch *)

Lemma launch_queues (id : string) (x : ManagedTask) (now : float) (w : World) :
  _priority_queues (manager (launch id x now w))
  = _priority_queues (manager w).
Proof.
  unfold launch.
  destruct (Asyncio.create_task (heap w)) as [h1 r].
  destruct (_watchdog (manager w) && TaskConfig.enable_watchdog (config x)).
  - destruct (Watchdog.register_task _ _ _ _ _ _ _) as [[wd1 h2] wid].
    reflexivity.
  - reflexivity.
Qed.

Lemma launch_state (id : string) (x : ManagedTask) (now : float) (w : World) :
  get_task_info id (manager w) = Some x ->
  option_map state (get_task_info id (manager (launch id x now w)))
  = Some RUNNING.
Proof.
  intros G. unfold launch.
  destruct (Asyncio.create_task (heap w)) as [h1 r].
  destruct (_watchdog (manager w) && TaskConfig.enable_watchdog (config x)).
  - destruct (Watchdog.register_task _ _ _ _ _ _ _) as [[wd1 h2] wid].
    cbn [manager].
    rewrite get_modify by reflexivity. rewrite get_modify by reflexivity.
    change (get_task_info id (add_running 1 ?mm)) with (get_task_info id mm).
    rewrite get_modify by reflexivity.
    change (get_task_info id (with_semaphore ?s ?mm))
      with (get_task_info id mm).
    rewrite G. simpl. now rewrite String.eqb_refl.
  - cbn [manager].
    rewrite get_modify by reflexivity.
    change (get_task_info id (add_running 1 ?mm)) with (get_task_info id mm).
    rewrite get_modify by reflexivity.
    change (get_task_info id (with_semaphore ?s ?mm))
      with (get_task_info id mm).
    rewrite G. simpl. now rewrite String.eqb_refl.
Qed.

Lemma sweep_skips_empty (before ps : list TaskPriority) (now : float)
      (w : World) :
  (forall q, In q before -> _priority_queues (manager w) q = []) ->
  sweep (before ++ ps) now w = sweep ps now w.
Proof.
  induction before as [|q before IH]; intros H; [reflexivity|].
  cbn [app sweep]. rewrite (H q (or_introl eq_refl)).
  apply IH. intros q' Hq'. apply H. now right.
Qed.

(** C6, as the code has it. A dequeue pops the head of the first non-empty
    sub-queue among the levels the current sweep has not visited yet: with
    the levels [before] empty and [id] at the head of level [p], the sweep
    dispatches [id] and leaves the tail of level [p] and the other
    sub-queues as they are; when the task has returned, the sweep goes on
    with the levels [rest] below [p] only. A sweep visits the levels from
    [CRITICAL] down to [LOW]; and [_enqueue_task] appends at the tail of
    the sub-queue, so a sub-queue gives up its ids in the order in which
    they were enqueued. *)
Theorem sweep_dispatches_head_of_first_nonempty_level
        (before rest : list TaskPriority) (p : TaskPriority) (now : float)
        (w : World) (id : string) (tail : list string) (x : ManagedTask)
        (v : Z) :
  (forall q, In q before -> _priority_queues (manager w) q = []) ->
  _priority_queues (manager w) p = id :: tail ->
  get_task_info id (manager w) = Some x ->
  _semaphore (manager w) = Some v ->
  0 < v ->
  let w' := sweep (before ++ p :: rest) now w in
  scheduler w' = AwaitTask id rest
  /\ option_map state (get_task_info id (manager w')) = Some RUNNING
  /\ (forall q,
         _priority_queues (manager w') q
         = if priority_eqb q p then tail else _priority_queues (manager w) q)
  /\ (forall r later,
         step w' (Settle (Asyncio.Returned r) later)
         = sweep rest later
             (mkWorld
                (release_slot (_on_task_success id r later (manager w')))
                (fst (settle_handle id (Asyncio.Returned r) later w'))
                (snd (settle_handle id (Asyncio.Returned r) later w'))
                (scheduler w')))
  /\ (forall y,
         _priority_queues (_enqueue_task y (manager w))
                          (TaskConfig.priority (config y))
         = _priority_queues (manager w) (TaskConfig.priority (config y))
           ++ [task_id y])
  /\ sweep_priorities = [CRITICAL; HIGH; NORMAL; LOW].
Proof.
  intros Hb Hp Hx Hs Hv w'.
  assert (E : w' = with_scheduler
                     (AwaitTask id rest)
                     (launch id x now
                        (with_manager
                           (with_queues
                              (fun q => if priority_eqb q p then tail
                                        else _priority_queues (manager w) q)
                              (manager w)) w))).
  { unfold w'. rewrite sweep_skips_empty by exact Hb.
    cbn [sweep]. rewrite Hp.
    change (get_task_info id (with_queues ?f (manager w)))
      with (get_task_info id (manager w)).
    rewrite Hx.
    change (_semaphore (with_queues ?f (manager w)))
      with (_semaphore (manager w)).
    rewrite Hs. apply Z.ltb_lt in Hv. now rewrite Hv. }
  rewrite E. split; [reflexivity|]. split; [|split; [|split; [|split]]].
  - apply launch_state. exact Hx.
  - intros q. cbn [manager with_scheduler]. rewrite launch_queues. reflexivity.
  - intros r later. cbn [step]. unfold settle at 1.
    cbn [scheduler with_scheduler].
    destruct (settle_handle id (Asyncio.Returned r) later _) as [wd1 h2].
    reflexivity.
  - intros y. unfold _enqueue_task. cbn [_priority_queues with_queues].
    unfold priority_eqb. now rewrite Z.eqb_refl.
  - reflexivity.
Qed.

(** The theorem above at the first dispatch of the scenario with two
    critical tasks and a low one. *)
Lemma sweep_dispatch_witness :
  let w := run plain_world priority_submissions in
  let w' := sweep ([] ++ CRITICAL :: [HIGH; NORMAL; LOW]) 2%float w in
  scheduler w' = AwaitTask "task_1_1000" [HIGH; NORMAL; LOW]
  /\ option_map state (get_task_info "task_1_1000" (manager w'))
     = Some RUNNING
  /\ (forall q,
         _priority_queues (manager w') q
         = if priority_eqb q CRITICAL then ["task_2_1000"%string]
           else _priority_queues (manager w) q)
  /\ (forall r later,
         step w' (Settle (Asyncio.Returned r) later)
         = sweep [HIGH; NORMAL; LOW] later
             (mkWorld
                (release_slot
                   (_on_task_success "task_1_1000" r later (manager w')))
                (fst (settle_handle "task_1_1000" (Asyncio.Returned r) later
                                    w'))
                (snd (settle_handle "task_1_1000" (Asyncio.Returned r) later
                                    w'))
                (scheduler w')))
  /\ (forall y,
         _priority_queues (_enqueue_task y (manager w))
                          (TaskConfig.priority (config y))
         = _priority_queues (manager w) (TaskConfig.priority (config y))
           ++ [task_id y])
  /\ sweep_priorities = [CRITICAL; HIGH; NORMAL; LOW].
Proof.
  cbv zeta.
  eapply (sweep_dispatches_head_of_first_nonempty_level
            [] [HIGH; NORMAL; LOW] CRITICAL 2%float
            (run plain_world priority_submissions)
            "task_1_1000" ["task_2_1000"%string] _ 5).
  - intros q [].
  - reflexivity.
  - reflexivity.
  - reflexivity.
  - reflexivity.
Defined.

(** C6, counterexample. Two critical tasks and a low one are ready. When the
    first critical task has settled, the scheduler dispatches the low task,
    while the second critical task is still at the head of its
    sub-queue. *)
Lemma low_priority_dispatched_before_ready_critical :
  let w := run plain_world priority_events in
  scheduler w = AwaitTask "task_3_1000" []
  /\ state_of "task_3_1000" w = Some RUNNING
  /\ option_map (fun x => TaskConfig.priority (config x))
                (get_task_info "task_3_1000" (manager w)) = Some LOW
  /\ _priority_queues (manager w) CRITICAL = ["task_2_1000"%string]
  /\ state_of "task_2_1000" w = Some QUEUED
  /\ option_map (fun x => TaskConfig.priority (config x))
                (get_task_info "task_2_1000" (manager w)) = Some CRITICAL.
Proof. vm_compute. repeat split. Qed.

(** ** Concurrency *)

(** C1, on the code. The scheduler awaits the executor, so it dispatches a
    task only when the one before has settled. With
    [max_concurrent_tasks = 3] and ten sleeping tasks submitted, all ten
    complete one after the other: the peak count of [RUNNING] tasks over the
    run is 1, not 3. *)
Theorem ten_tasks_under_cap_three_run_one_at_a_time :
  max_concurrent_tasks (manager (run cap_world cap_events)) = 3
  /\ total_submitted (_stats (manager (run cap_world cap_events))) = 10
  /\ total_completed (_stats (manager (run cap_world cap_events))) = 10
  /\ peak_running (history cap_world cap_events) = 1%nat.
Proof. vm_compute. repeat split. Qed.

(** ** Terminal states *)

(** C2, on the code. A task cancelled while queued is [CANCELLED] and counted
    as cancelled, but its id stays in the sub-queue: when the scheduler pops
    it, [_execute_task] sets the task to [RUNNING], and the task goes on to
    [COMPLETED]. *)
Theorem cancelled_task_is_run_when_dequeued :
  let w := run plain_world cancel_queued_events in
  state_of "task_1_1000" w = Some CANCELLED
  /\ option_map is_terminal_state (get_task_info "task_1_1000" (manager w))
     = Some true
  /\ _priority_queues (manager w) NORMAL = ["task_1_1000"%string]
  /\ state_of "task_1_1000" (step w (SchedulerWake 2%float)) = Some RUNNING
  /\ state_of "task_1_1000" (run w dispatch_and_finish) = Some COMPLETED.
Proof. vm_compute. repeat split. Qed.

(** ** Statistics *)

(** C8, on the code. The task of the scenario above ends up counted in two
    terminal counters: one task was submitted, one is counted as completed
    and one as cancelled, and no task is in a non-terminal state. In the
    scenario of a submission that depends on a failed task, the dependency
    check counts the new task as cancelled and [submit_task] then sets it to
    [WAITING]: it is counted as cancelled and is non-terminal. *)
Theorem statistics_are_not_conserved :
  (let m := manager (run plain_world
                         (cancel_queued_events ++ dispatch_and_finish)) in
   let r := get_stats m in
   r_total_submitted r = 1
   /\ r_total_completed r = 1
   /\ r_total_failed r = 0
   /\ r_total_cancelled r = 1
   /\ non_terminal_count m = 0
   /\ r_total_submitted r
      <> r_total_completed r + r_total_failed r + r_total_cancelled r
         + non_terminal_count m)
  /\ (let m := manager (run plain_world failed_dependency_events) in
      let r := get_stats m in
      r_total_submitted r = 2
      /\ r_total_completed r = 0
      /\ r_total_failed r = 1
      /\ r_total_cancelled r = 1
      /\ non_terminal_count m = 1
      /\ option_map state (get_task_info "task_2_1000" m) = Some WAITING
      /\ r_total_submitted r
         <> r_total_completed r + r_total_failed r + r_total_cancelled r
            + non_terminal_count m).
Proof. vm_compute. repeat split; discriminate. Qed.

(** ** Notification of dependents *)


(** ** Submission with an unknown dependency *)

(** C9, counterexample. A running manager accepts a submission that names a
    dependency id that no task has: [submit_task] returns the new id, and
    the task is left in [WAITING]. *)
Lemma submit_task_accepts_unknown_dependency :
  let m := manager (run plain_world [Start]) in
  _running m = true
  /\ get_task_info "no_such_task" m = None
  /\ In "no_such_task"%string
        (TaskConfig.dependencies unknown_dependency_config)
  /\ exists m',
      submit_task None (Some unknown_dependency_config) 1%float 1000 m
      = inr ("task_1_1000"%string, m')
      /\ option_map state (get_task_info "task_1_1000" m') = Some WAITING.
Proof.
  cbv zeta. split; [reflexivity|]. split; [reflexivity|].
  split; [left; reflexivity|].
  eexists. split; [reflexivity|]. vm_compute. reflexivity.
Qed.

(** ** A cancelled dependency *)

(** C3, counterexample. [task_2_1000] is [WAITING], asks for cancellation on
    dependency failure, and its only dependency [task_1_1000] is
    [CANCELLED]: the dependency check fails and leaves [task_2_1000] in
    [WAITING] with no error, and the cancelled counter as it was. *)
Lemma cancelled_dependency_leaves_task_waiting :
  let m := manager (run plain_world cancelled_dependency_events) in
  let r := _check_dependencies "task_2_1000" m in
  option_map state (get_task_info "task_1_1000" m) = Some CANCELLED
  /\ option_map state (get_task_info "task_2_1000" m) = Some WAITING
  /\ option_map (fun x => TaskConfig.cancel_on_dependency_failure (config x))
                (get_task_info "task_2_1000" m) = Some true
  /\ option_map (fun x => TaskConfig.dependencies (config x))
                (get_task_info "task_2_1000" m)
     = Some ["task_1_1000"%string]
  /\ snd r = false
  /\ option_map state (get_task_info "task_2_1000" (fst r)) = Some WAITING
  /\ option_map error (get_task_info "task_2_1000" (fst r)) = Some None
  /\ total_cancelled (_stats (fst r)) = total_cancelled (_stats m).
Proof. vm_compute. repeat split. Qed.

(** The theorem on failed dependencies at the scenario in which the
    dependent is submitted after its dependency has failed. *)
Lemma check_dependencies_failed_dependency_witness :
  let m := manager (run plain_world failed_dependency_events) in
  snd (_check_dependencies "task_2_1000" m) = false
  /\ option_map state
                (get_task_info "task_2_1000"
                               (fst (_check_dependencies "task_2_1000" m)))
     = Some CANCELLED
  /\ option_map error
                (get_task_info "task_2_1000"
                               (fst (_check_dependencies "task_2_1000" m)))
     = Some (Some (dependency_failed "task_1_1000"))
  /\ total_cancelled (_stats (fst (_check_dependencies "task_2_1000" m)))
     = total_cancelled (_stats m) + 1.
Proof.
  cbv zeta.
  eapply (check_dependencies_on_failed_or_cancelled_dependency
            (manager (run plain_world failed_dependency_events))
            "task_2_1000" "task_1_1000" _ [] [] FAILED).
  - vm_compute. reflexivity.
  - reflexivity.
  - reflexivity.
  - reflexivity.
  - intros p [].
  - vm_compute. reflexivity.
  - left. reflexivity.
Defined.

(** ** Retries exhausted *)

(** The theorem on retries at the scenario of a task with [max_retries = 2]
    whose work always raises, at its third failure. *)
Lemma retry_exhausted_witness :
  let last := Settle (Asyncio.Raised "nope"%string true) 9%float in
  let w0 := plain_world in
  exists x,
    In x (_tasks (manager (run w0 (retry_exhausted_events ++ [last]))))
    /\ task_id x = "task_1_1000"%string
    /\ state x = FAILED
    /\ TaskConfig.max_retries (config x) = 2
    /\ retry_count x <= TaskConfig.max_retries (config x)
    /\ (state x = FAILED ->
        retry_count x = TaskConfig.max_retries (config x)
        /\ TaskConfig.max_retries (config x) + 1
           <= Z.of_nat (failed_attempts w0 (retry_exhausted_events ++ [last])
                                        (task_id x))
        /\ ((exists x0,
                In x0 (_tasks (manager (run w0 retry_exhausted_events)))
                /\ task_id x0 = task_id x /\ state x0 = FAILED)
            \/ is_failed_attempt (run w0 retry_exhausted_events) last
                                 (task_id x) = true)).
Proof.
  cbv zeta.
  eexists. split; [vm_compute; left; reflexivity|].
  split; [reflexivity|]. split; [reflexivity|]. split; [reflexivity|].
  eapply (retry_count_bounded_and_failed_only_after_all_retries
            5 true 1%float retry_exhausted_events
            (Settle (Asyncio.Raised "nope"%string true) 9%float)).
  - vm_compute. left. reflexivity.
  - vm_compute. discriminate.
Defined.

(** C5, counterexample. [TaskConfig] takes any integer as [max_retries]. A
    task submitted with [max_retries = -1] has its [retry_count], which is
    0, above its [max_retries] from the submission on, and its first
    failing attempt makes it [FAILED] with a [retry_count] that is not its
    [max_retries]. *)
Lemma negative_max_retries_exceeded_from_submission :
  let submitted :=
    [Start; submit_with (config_of NORMAL None (-1) [])] in
  let failed :=
    submitted
    ++ [SchedulerWake 2%float; Settle (Asyncio.Raised "boom"%string true) 3%float]
  in
  (exists x,
      get_task_info "task_1_1000" (manager (run plain_world submitted))
      = Some x
      /\ ~ retry_count x <= TaskConfig.max_retries (config x))
  /\ (exists x,
         get_task_info "task_1_1000" (manager (run plain_world failed))
         = Some x
         /\ state x = FAILED
         /\ retry_count x = 0
         /\ TaskConfig.max_retries (config x) = -1
         /\ ~ retry_count x <= TaskConfig.max_retries (config x)
         /\ retry_count x <> TaskConfig.max_retries (config x)).
Proof.
  cbv zeta. split.
  - eexists. split; [vm_compute; reflexivity|]. vm_compute. now intros H.
  - eexists. split; [vm_compute; reflexivity|].
    repeat split; vm_compute; try reflexivity; try discriminate;
      now intros H.
Qed.

(** ** Timeouts *)

(** No operation of the manager or of the watchdog's own loop registers a
    timeout callback. *)
Lemma on_task_done_callbacks (id : string) (tk : Asyncio.Task) (now : float)
      (wd : Watchdog.t) (h : Asyncio.Heap) :
  Watchdog._on_timeout_callbacks (fst (Watchdog._on_task_done id tk now wd h))
  = Watchdog._on_timeout_callbacks wd.
Proof.
  unfold Watchdog._on_task_done.
  destruct (Watchdog.get_task_info id wd); [|reflexivity].
  destruct (Asyncio.cancelled tk); [reflexivity|].
  destruct (Asyncio.exception_truth tk).
  - destruct (Watchdog.get_task_info id _); reflexivity.
  - destruct (Watchdog.get_task_info id _); reflexivity.
Qed.

Lemma handle_timeout_callbacks (id : string) (wd : Watchdog.t)
      (h : Asyncio.Heap) :
  Watchdog._on_timeout_callbacks (fst (Watchdog._handle_timeout id wd h))
  = Watchdog._on_timeout_callbacks wd.
Proof.
  unfold Watchdog._handle_timeout.
  destruct (Watchdog.get_task_info id _); reflexivity.
Qed.

Lemma check_tasks_callbacks (now : float) (wd : Watchdog.t)
      (h : Asyncio.Heap) :
  Watchdog._on_timeout_callbacks (fst (Watchdog._check_tasks now wd h))
  = Watchdog._on_timeout_callbacks wd.
Proof.
  unfold Watchdog._check_tasks.
  generalize (flat_map (Watchdog.classify now wd h) (Watchdog._tasks wd)).
  intros acts.
  change wd with (fst (wd, h)) at 2. generalize (wd, h).
  induction acts as [|a acts IH]; intros wh; simpl; [reflexivity|].
  rewrite IH. unfold Watchdog.handle_one.
  destruct (snd a); [apply handle_timeout_callbacks|reflexivity].
Qed.

Lemma run_done_callbacks_callbacks (tk : Asyncio.Task) (now : float)
      (wd : Watchdog.t) (h : Asyncio.Heap) :
  Watchdog._on_timeout_callbacks (fst (run_done_callbacks tk now wd h))
  = Watchdog._on_timeout_callbacks wd.
Proof.
  unfold run_done_callbacks.
  change wd with (fst (wd, h)) at 2. generalize (wd, h).
  induction (Asyncio.done_callbacks tk) as [|k ks IH]; intros wh; simpl;
    [reflexivity|].
  rewrite IH. apply on_task_done_callbacks.
Qed.

Lemma settle_handle_callbacks (id : string) (o : Asyncio.Outcome)
      (now : float) (w : World) :
  Watchdog._on_timeout_callbacks (fst (settle_handle id o now w))
  = Watchdog._on_timeout_callbacks (watchdog w).
Proof.
  unfold settle_handle.
  destruct (get_task_info id (manager w)) as [x|]; [|reflexivity].
  destruct (task x) as [r|]; [|reflexivity].
  destruct (Asyncio.get r _); [|reflexivity].
  apply run_done_callbacks_callbacks.
Qed.

Lemma launch_callbacks (id : string) (x : ManagedTask) (now : float)
      (w : World) :
  Watchdog._on_timeout_callbacks (watchdog (launch id x now w))
  = Watchdog._on_timeout_callbacks (watchdog w).
Proof.
  unfold launch.
  destruct (Asyncio.create_task (heap w)) as [h1 r].
  destruct (_watchdog (manager w) && TaskConfig.enable_watchdog (config x));
    reflexivity.
Qed.

Lemma sweep_callbacks (ps : list TaskPriority) (now : float) (w : World) :
  Watchdog._on_timeout_callbacks (watchdog (sweep ps now w))
  = Watchdog._on_timeout_callbacks (watchdog w).
Proof.
  revert w. induction ps as [|p ps IH]; intros w; cbn [sweep]; [reflexivity|].
  destruct (_priority_queues (manager w) p) as [|id tail]; [apply IH|].
  match goal with
  | |- context [get_task_info id ?m1] =>
    destruct (get_task_info id m1) as [x|]
  end.
  - match goal with
    | |- context [_semaphore ?m1] => destruct (_semaphore m1) as [v|]
    end; [destruct (0 <? v)|]; try reflexivity.
    cbn [watchdog with_scheduler]. now rewrite launch_callbacks.
  - now rewrite IH.
Qed.

Lemma step_callbacks (w : World) (ev : Event) :
  Watchdog._on_timeout_callbacks (watchdog (step w ev))
  = Watchdog._on_timeout_callbacks (watchdog w).
Proof.
  destruct ev as [|nm cfg now millis|id|now|o now|now|now]; simpl.
  - unfold start. destruct (_running (manager w)); [reflexivity|].
    destruct (max_concurrent_tasks (manager w) <? 0); [reflexivity|].
    destruct (_watchdog (manager w)); [|reflexivity].
    cbn [watchdog]. unfold Watchdog.start.
    destruct (Watchdog._running _); reflexivity.
  - destruct (submit_task nm cfg now millis (manager w)) as [e|[id m']];
      reflexivity.
  - unfold cancel_task.
    destruct (get_task_info id (manager w)) as [x|]; [|reflexivity].
    destruct (state x), (task x); reflexivity.
  - unfold scheduler_wake. destruct (scheduler w); try reflexivity.
    destruct (_running (manager w)); [apply sweep_callbacks|reflexivity].
  - unfold settle. destruct (scheduler w) as [| |? ?|id rest|? ?|];
      try reflexivity.
    pose proof (settle_handle_callbacks id o now w) as H.
    destruct (settle_handle id o now w) as [wd1 h2]. simpl in H.
    destruct o as [v|e|].
    + now rewrite sweep_callbacks.
    + destruct (_on_task_error id e now (manager w)) as [m1 retry].
      destruct retry; [exact H|now rewrite sweep_callbacks].
    + now rewrite sweep_callbacks.
  - unfold retry_wake. destruct (scheduler w); try reflexivity.
    now rewrite sweep_callbacks.
  - unfold watchdog_tick. destruct (Watchdog._running (watchdog w));
      [|reflexivity].
    pose proof (check_tasks_callbacks now (watchdog w) (heap w)) as H.
    destruct (Watchdog._check_tasks now (watchdog w) (heap w)) as [wd1 h1].
    exact H.
Qed.

Lemma run_callbacks_unchanged (evs : list Event) (w : World) :
  Watchdog._on_timeout_callbacks (watchdog (run w evs))
  = Watchdog._on_timeout_callbacks (watchdog w).
Proof.
  revert w. induction evs as [|ev evs IH]; intros w; simpl; [reflexivity|].
  rewrite IH. apply step_callbacks.
Qed.

(** C4, on the code. [_handle_timeout] counts the timeout and touches the
    handles only through the registered timeout callbacks. No event of a
    run registers one: the set is as empty as the watchdog's constructor
    left it, [TaskManager.start] included. In the scenario the entry of the
    task that has outrun its timeout is marked [TIMEOUT] and counted, no
    cancellation of its handle is requested, the task stays [RUNNING], and
    when its work returns it is [COMPLETED]. *)
Theorem timeout_is_reported_and_nothing_is_cancelled :
  (forall id wd h,
      Watchdog.total_timeout
        (Watchdog._stats (fst (Watchdog._handle_timeout id wd h)))
      = Watchdog.total_timeout (Watchdog._stats wd) + 1
      /\ snd (Watchdog._handle_timeout id wd h)
         = match Watchdog.get_task_info
                   id (fst (Watchdog._handle_timeout id wd h)) with
           | Some info =>
             Watchdog.run_callbacks (Watchdog._on_timeout_callbacks wd)
                                    id info h
           | None => h
           end)
  /\ (forall max_concurrent enable_wd interval evs,
         Watchdog._on_timeout_callbacks
           (watchdog (run (new_world max_concurrent enable_wd interval) evs))
         = [])
  /\ (let w := run timeout_world timeout_events in
      option_map Watchdog.status
                 (Watchdog.get_task_info "task_1_0" (watchdog w))
      = Some Watchdog.TIMEOUT
      /\ Watchdog.total_timeout (Watchdog._stats (watchdog w)) = 1
      /\ option_map watchdog_id (get_task_info "task_1_1000" (manager w))
         = Some (Some "task_1_0"%string)
      /\ option_map task (get_task_info "task_1_1000" (manager w))
         = Some (Some 0%nat)
      /\ option_map Asyncio.must_cancel (Asyncio.get 0 (heap w)) = Some false
      /\ option_map Asyncio.outcome (Asyncio.get 0 (heap w)) = Some None
      /\ state_of "task_1_1000" w = Some RUNNING
      /\ state_of "task_1_1000" (run w timeout_finish) = Some COMPLETED
      /\ total_cancelled (_stats (manager (run w timeout_finish))) = 0).
Proof.
  split; [|split].
  - intros id wd h. unfold Watchdog._handle_timeout.
    set (w2 := Watchdog.with_stats _ _).
    destruct (Watchdog.get_task_info id w2) as [info|] eqn:G; cbn [fst snd];
      rewrite ?G; split; reflexivity.
  - intros. rewrite run_callbacks_unchanged. reflexivity.
  - vm_compute. repeat split.
Qed.

(** * Further properties of the code *)

(** ** The watchdog's table *)

Lemma wd_find_dict_set (x : Watchdog.TaskInfo) (l : list Watchdog.TaskInfo) :
  find (fun i => String.eqb (Watchdog.task_id i) (Watchdog.task_id x))
       (Watchdog.dict_set x l)
  = Some x.
Proof.
  unfold Watchdog.dict_set.
  destruct (existsb _ l) eqn:E.
  - induction l as [|a l IH]; simpl in *; [discriminate|].
    destruct (String.eqb (Watchdog.task_id a) (Watchdog.task_id x)) eqn:A.
    + simpl. now rewrite String.eqb_refl.
    + simpl. rewrite A. apply IH. exact E.
  - induction l as [|a l IH]; simpl in *.
    + now rewrite String.eqb_refl.
    + destruct (String.eqb (Watchdog.task_id a) (Watchdog.task_id x)) eqn:A;
        [discriminate|].
      apply IH. exact E.
Qed.

Lemma wd_find_map_id (id : string)
      (g : Watchdog.TaskInfo -> Watchdog.TaskInfo)
      (l : list Watchdog.TaskInfo) :
  (forall i, Watchdog.task_id (g i) = Watchdog.task_id i) ->
  find (fun i => String.eqb (Watchdog.task_id i) id) (map g l)
  = option_map g (find (fun i => String.eqb (Watchdog.task_id i) id) l).
Proof.
  intros Hg. induction l as [|a l IH]; simpl; [reflexivity|].
  rewrite Hg. destruct (String.eqb (Watchdog.task_id a) id);
                [reflexivity|exact IH].
Qed.

Lemma wd_get_modify (id k : string)
      (f : Watchdog.TaskInfo -> Watchdog.TaskInfo) (w : Watchdog.t) :
  (forall i, Watchdog.task_id (f i) = Watchdog.task_id i) ->
  Watchdog.get_task_info id (Watchdog.modify k f w)
  = option_map (fun i => if String.eqb id k then f i else i)
               (Watchdog.get_task_info id w).
Proof.
  intros Hf. unfold Watchdog.get_task_info, Watchdog.modify. simpl.
  rewrite wd_find_map_id.
  - destruct (find _ (Watchdog._tasks w)) as [i|] eqn:E; simpl; [|reflexivity].
    apply find_some in E. destruct E as [_ E]. apply String.eqb_eq in E.
    now rewrite E.
  - intros i. destruct (String.eqb (Watchdog.task_id i) k);
                [apply Hf|reflexivity].
Qed.

(** X1. Registration and lookup. [register_task] returns an id under which
    the watchdog then holds an entry for the handle with status [RUNNING],
    the registration time as start time, no end time, and the given timeout,
    or [default_timeout] when the timeout is [None] or zero; the counter of
    registered tasks and the id counter go up by one, and the callbacks are
    left as they are. *)
Theorem register_task_then_lookup
        (r : nat) (nm : option string) (tmo : option float)
        (md : option Metadata) (now : float) (w : Watchdog.t)
        (h : Asyncio.Heap) :
  let w' := fst (fst (Watchdog.register_task r nm tmo md now w h)) in
  let id := snd (Watchdog.register_task r nm tmo md now w h) in
  Watchdog.get_task_info id w'
  = Some (Watchdog.mkTaskInfo
            id (str_or nm ("Task-" ++ py_str_nat (S (Watchdog._task_counter w)))%string)
            r Watchdog.RUNNING now None
            (Some (float_or tmo (Watchdog.default_timeout w)))
            (match md with Some m => m | None => [] end) None)
  /\ float_or None (Watchdog.default_timeout w) = Watchdog.default_timeout w
  /\ float_or (Some 0%float) (Watchdog.default_timeout w)
     = Watchdog.default_timeout w
  /\ Watchdog.total_registered (Watchdog._stats w')
     = Watchdog.total_registered (Watchdog._stats w) + 1
  /\ Watchdog._task_counter w' = S (Watchdog._task_counter w)
  /\ Watchdog._on_timeout_callbacks w' = Watchdog._on_timeout_callbacks w.
Proof.
  cbv zeta. unfold Watchdog.register_task. cbn [fst snd].
  split; [|repeat split].
  unfold Watchdog.get_task_info. cbn [Watchdog._tasks Watchdog.with_stats
                                      Watchdog.with_tasks].
  match goal with
  | |- find _ (Watchdog.dict_set ?x _) = _ =>
    exact (wd_find_dict_set x _)
  end.
Qed.

Lemma wd_get_unregister_same (id : string) (w : Watchdog.t) :
  Watchdog.get_task_info id (Watchdog.unregister_task id w) = None.
Proof.
  unfold Watchdog.get_task_info, Watchdog.unregister_task.
  cbn [Watchdog._tasks Watchdog.with_tasks].
  induction (Watchdog._tasks w) as [|a l IH]; simpl; [reflexivity|].
  destruct (String.eqb (Watchdog.task_id a) id) eqn:A; simpl;
    [exact IH|]. now rewrite A.
Qed.

Lemma wd_get_unregister_other (id k : string) (w : Watchdog.t) :
  k <> id ->
  Watchdog.get_task_info k (Watchdog.unregister_task id w)
  = Watchdog.get_task_info k w.
Proof.
  intros Hk.
  unfold Watchdog.get_task_info, Watchdog.unregister_task.
  cbn [Watchdog._tasks Watchdog.with_tasks].
  induction (Watchdog._tasks w) as [|a l IH]; simpl; [reflexivity|].
  destruct (String.eqb (Watchdog.task_id a) id) eqn:A; simpl.
  - apply String.eqb_eq in A.
    destruct (String.eqb (Watchdog.task_id a) k) eqn:B; [|exact IH].
    apply String.eqb_eq in B. congruence.
  - destruct (String.eqb (Watchdog.task_id a) k); [reflexivity|exact IH].
Qed.

(** X2. Unregistration and lookup. After [unregister_task] the id is not
    tracked any more, every other id is looked up as before, and the call
    reports [True] exactly when the id was tracked; unregistering an id that
    is not tracked changes nothing. *)
Theorem unregister_task_then_lookup (id : string) (w : Watchdog.t) :
  Watchdog.get_task_info id (Watchdog.unregister_task id w) = None
  /\ (forall k, k <> id ->
                Watchdog.get_task_info k (Watchdog.unregister_task id w)
                = Watchdog.get_task_info k w)
  /\ (unregister_task_result id w = true
      <-> exists i, In i (Watchdog._tasks w) /\ Watchdog.task_id i = id)
  /\ (unregister_task_result id w = false ->
      Watchdog.unregister_task id w = w).
Proof.
  split; [apply wd_get_unregister_same|].
  split; [intros k; apply wd_get_unregister_other|].
  unfold unregister_task_result, Watchdog.get_task_info.
  split.
  - destruct (find _ (Watchdog._tasks w)) as [i|] eqn:F.
    + split; [|reflexivity]. intros _. apply find_some in F.
      destruct F as [Hi Ei]. apply String.eqb_eq in Ei. eauto.
    + split; [discriminate|]. intros [i [Hi Ei]].
      apply (find_none _ _ F) in Hi. apply String.eqb_neq in Hi.
      contradiction.
  - destruct (find _ (Watchdog._tasks w)) as [i|] eqn:F; [discriminate|].
    intros _. unfold Watchdog.unregister_task.
    assert (E : filter (fun i => negb (String.eqb (Watchdog.task_id i) id))
                       (Watchdog._tasks w) = Watchdog._tasks w).
    { pose proof (find_none _ _ F) as N.
      induction (Watchdog._tasks w) as [|a l IH]; simpl; [reflexivity|].
      rewrite (N a (or_introl eq_refl)). simpl. f_equal. apply IH.
      - simpl in F. destruct (String.eqb (Watchdog.task_id a) id);
                      [discriminate|exact F].
      - intros x Hx. apply N. now right. }
    rewrite E. destruct w; reflexivity.
Qed.

Lemma wd_get_with_stats (id : string) (s : Watchdog.Stats) (w : Watchdog.t) :
  Watchdog.get_task_info id (Watchdog.with_stats s w)
  = Watchdog.get_task_info id w.
Proof. reflexivity. Qed.





Lemma wd_get_In (id : string) (w : Watchdog.t) (i : Watchdog.TaskInfo) :
  Watchdog.get_task_info id w = Some i -> In i (Watchdog._tasks w).
Proof.
  unfold Watchdog.get_task_info. intros F. now apply find_some in F.
Qed.

(** X4. A cancellation through the watchdog is counted twice. When
    [Watchdog.cancel_task] succeeds, the entry is marked [CANCELLED], the
    handle gets a cancellation request and the counter of cancelled tasks
    goes up by one; when the handle then settles as cancelled,
    [_on_task_done] counts the same entry once more. *)
Theorem watchdog_cancel_task_is_counted_twice
        (id : string) (w w1 : Watchdog.t) (h h1 : Asyncio.Heap)
        (tk : Asyncio.Task) (now : float) :
  Watchdog.cancel_task id w h = (w1, h1, true) ->
  Asyncio.cancelled tk = true ->
  (exists i, Watchdog.get_task_info id w = Some i
             /\ Watchdog.get_task_info id w1
                = Some (Watchdog.set_status Watchdog.CANCELLED i)
             /\ option_map Asyncio.must_cancel
                           (Asyncio.get (Watchdog.task i) h1)
                = Some true)
  /\ Watchdog.total_cancelled (Watchdog._stats w1)
     = Watchdog.total_cancelled (Watchdog._stats w) + 1
  /\ Watchdog.total_cancelled
       (Watchdog._stats (fst (Watchdog._on_task_done id tk now w1 h1)))
     = Watchdog.total_cancelled (Watchdog._stats w) + 2.
Proof.
  intros C K. unfold Watchdog.cancel_task in C.
  destruct (Watchdog.get_task_info id w) as [i|] eqn:G; [|discriminate].
  destruct (Watchdog.is_alive h i) eqn:A; [|discriminate].
  inversion C; subst w1 h1; clear C.
  assert (G1 : Watchdog.get_task_info
                 id (Watchdog.modify id (Watchdog.set_status Watchdog.CANCELLED) w)
               = Some (Watchdog.set_status Watchdog.CANCELLED i)).
  { rewrite wd_get_modify by reflexivity. rewrite G, String.eqb_refl.
    reflexivity. }
  split; [|split].
  - exists i. split; [reflexivity|]. split.
    + rewrite wd_get_with_stats. exact G1.
    + unfold Watchdog.is_alive in A. unfold Asyncio.get in *.
      remember (Watchdog.task i) as r eqn:Er. clear Er G G1.
      revert r A. induction h as [|t0 h IH]; intros r A.
      * destruct r; discriminate.
      * destruct r as [|r]; simpl in *.
        -- unfold Asyncio.cancel. destruct (Asyncio.done t0);
             [discriminate|reflexivity].
        -- apply IH. exact A.
  - reflexivity.
  - unfold Watchdog._on_task_done. rewrite wd_get_with_stats, G1, K.
    cbn [fst Watchdog._stats Watchdog.with_stats Watchdog.modify
         Watchdog.with_tasks Watchdog.total_cancelled]. lia.
Qed.

Lemma watchdog_cancel_task_is_counted_twice_witness :
  let '(w, h, id) := one_entry_watchdog in
  let tk := Asyncio.mkTask (Some Asyncio.WasCancelled) true [id] in
  Watchdog.total_cancelled
    (Watchdog._stats
       (fst (Watchdog._on_task_done
               id tk 2%float (fst (fst (Watchdog.cancel_task id w h)))
               (snd (fst (Watchdog.cancel_task id w h))))))
  = Watchdog.total_cancelled (Watchdog._stats w) + 2.
Proof.
  destruct one_entry_watchdog as [[w h] id] eqn:E.
  vm_compute in E. inversion E; subst w h id; clear E.
  cbv zeta.
  match goal with
  | |- context [Watchdog._on_task_done ?id ?tk _ (fst (fst ?c)) (snd (fst ?c))] =>
    match c with
    | Watchdog.cancel_task _ ?w ?h =>
      apply (proj2 (proj2 (watchdog_cancel_task_is_counted_twice
                             id w (fst (fst c)) h (snd (fst c)) tk
                             2%float eq_refl eq_refl)))
    end
  end.
Defined.

(** ** One round of the monitor loop *)

Lemma wd_handle_timeout_fst (id : string) (w : Watchdog.t) (h : Asyncio.Heap) :
  fst (Watchdog._handle_timeout id w h)
  = Watchdog.with_stats
      (Watchdog.mkStats
         (Watchdog.total_registered (Watchdog._stats w))
         (Watchdog.total_completed (Watchdog._stats w))
         (Watchdog.total_failed (Watchdog._stats w))
         (Watchdog.total_timeout (Watchdog._stats w) + 1)
         (Watchdog.total_cancelled (Watchdog._stats w)))
      (Watchdog.modify id (Watchdog.set_status Watchdog.TIMEOUT) w).
Proof.
  unfold Watchdog._handle_timeout.
  destruct (Watchdog.get_task_info id _); reflexivity.
Qed.

Lemma wd_handle_one_get (k : string) (w : Watchdog.t) (h : Asyncio.Heap)
      (a : string * Watchdog.Action) :
  Watchdog.get_task_info k (fst (Watchdog.handle_one (w, h) a))
  = if String.eqb k (fst a)
    then match snd a with
         | Watchdog.ActTimeout =>
           option_map (Watchdog.set_status Watchdog.TIMEOUT)
                      (Watchdog.get_task_info k w)
         | Watchdog.ActCleanup => None
         end
    else Watchdog.get_task_info k w.
Proof.
  destruct a as [id act]. unfold Watchdog.handle_one. cbn [fst snd].
  destruct act.
  - rewrite wd_handle_timeout_fst, wd_get_with_stats.
    rewrite wd_get_modify by reflexivity.
    destruct (String.eqb k id); destruct (Watchdog.get_task_info k w);
      reflexivity.
  - cbn [fst]. destruct (String.eqb k id) eqn:E.
    + apply String.eqb_eq in E. subst k. apply wd_get_unregister_same.
    + apply String.eqb_neq in E. now apply wd_get_unregister_other.
Qed.

Lemma wd_fold_handle_get (k : string) (acts : list (string * Watchdog.Action))
      (w : Watchdog.t) (h : Asyncio.Heap) :
  NoDup (map fst acts) ->
  Watchdog.get_task_info k (fst (fold_left Watchdog.handle_one acts (w, h)))
  = match find (fun a => String.eqb k (fst a)) acts with
    | None => Watchdog.get_task_info k w
    | Some (_, Watchdog.ActTimeout) =>
      option_map (Watchdog.set_status Watchdog.TIMEOUT)
                 (Watchdog.get_task_info k w)
    | Some (_, Watchdog.ActCleanup) => None
    end.
Proof.
  revert w h. induction acts as [|a acts IH]; intros w h N; [reflexivity|].
  inversion N as [|? ? Na N']; subst.
  cbn [fold_left find].
  destruct (Watchdog.handle_one (w, h) a) as [w1 h1] eqn:H1.
  rewrite (IH w1 h1 N').
  assert (G1 := wd_handle_one_get k w h a). rewrite H1 in G1.
  cbn [fst] in G1. rewrite G1.
  destruct (String.eqb k (fst a)) eqn:E.
  - apply String.eqb_eq in E.
    assert (F : find (fun a0 => String.eqb k (fst a0)) acts = None).
    { destruct (find _ acts) as [b|] eqn:F; [|reflexivity].
      apply find_some in F. destruct F as [Hb Eb].
      apply String.eqb_eq in Eb. exfalso. apply Na. rewrite <- E, Eb.
      now apply in_map. }
    rewrite F. destruct a as [ida act]; cbn [snd]. now destruct act.
  - reflexivity.
Qed.

Lemma wd_classify_fst (now : float) (w : Watchdog.t) (h : Asyncio.Heap)
      (i : Watchdog.TaskInfo) (a : string * Watchdog.Action) :
  In a (Watchdog.classify now w h i) -> fst a = Watchdog.task_id i.
Proof.
  unfold Watchdog.classify.
  destruct (_ && _ && Watchdog.is_timeout now i);
    [intros [<-|[]]; reflexivity|].
  destruct (_ && _ && float_gt _ _); [intros [<-|[]]; reflexivity|].
  intros [].
Qed.

Lemma wd_classify_cases (now : float) (w : Watchdog.t) (h : Asyncio.Heap)
      (i : Watchdog.TaskInfo) :
  Watchdog.classify now w h i
  = if timed_out now w h i then [(Watchdog.task_id i, Watchdog.ActTimeout)]
    else if cleanup_due now h i
         then [(Watchdog.task_id i, Watchdog.ActCleanup)]
         else [].
Proof. reflexivity. Qed.

Lemma wd_flat_classify_ids (now : float) (w : Watchdog.t) (h : Asyncio.Heap)
      (l : list Watchdog.TaskInfo) (k : string) :
  In k (map fst (flat_map (Watchdog.classify now w h) l)) ->
  In k (map Watchdog.task_id l).
Proof.
  intros Hk. apply in_map_iff in Hk. destruct Hk as [a [<- Ha]].
  apply in_flat_map in Ha. destruct Ha as [i [Hi Ha]].
  apply wd_classify_fst in Ha. rewrite Ha. now apply in_map.
Qed.

Lemma wd_flat_classify_NoDup (now : float) (w : Watchdog.t)
      (h : Asyncio.Heap) (l : list Watchdog.TaskInfo) :
  NoDup (map Watchdog.task_id l) ->
  NoDup (map fst (flat_map (Watchdog.classify now w h) l)).
Proof.
  induction l as [|i l IH]; intros N; [constructor|].
  inversion N as [|? ? Ni N']; subst. cbn [flat_map].
  rewrite map_app, wd_classify_cases.
  destruct (timed_out now w h i); [|destruct (cleanup_due now h i)];
    cbn [map app fst]; try (now apply IH);
    (constructor; [|now apply IH]);
    intros Hk; apply Ni; eapply wd_flat_classify_ids; exact Hk.
Qed.

Lemma wd_flat_classify_find (now : float) (w : Watchdog.t)
      (h : Asyncio.Heap) (l : list Watchdog.TaskInfo)
      (i : Watchdog.TaskInfo) :
  NoDup (map Watchdog.task_id l) -> In i l ->
  find (fun a => String.eqb (Watchdog.task_id i) (fst a))
       (flat_map (Watchdog.classify now w h) l)
  = hd_error (Watchdog.classify now w h i).
Proof.
  induction l as [|j l IH]; intros N Hi; [destruct Hi|].
  inversion N as [|? ? Nj N']; subst. cbn [flat_map].
  destruct Hi as [->|Hi].
  - rewrite wd_classify_cases.
    destruct (timed_out now w h i); [|destruct (cleanup_due now h i)];
      cbn [app find fst hd_error]; rewrite ?String.eqb_refl; try reflexivity.
    destruct (find _ _) as [b|] eqn:F; [|reflexivity].
    apply find_some in F. destruct F as [Hb Eb].
    apply String.eqb_eq in Eb. exfalso. apply Nj. rewrite Eb.
    eapply wd_flat_classify_ids. apply in_map. exact Hb.
  - assert (D : String.eqb (Watchdog.task_id i) (Watchdog.task_id j) = false).
    { apply String.eqb_neq. intros E. apply Nj. rewrite <- E.
      now apply in_map. }
    rewrite wd_classify_cases.
    destruct (timed_out now w h j); [|destruct (cleanup_due now h j)];
      cbn [app find fst]; rewrite ?D; now apply IH.
Qed.

Lemma wd_get_of_In (w : Watchdog.t) (i : Watchdog.TaskInfo) :
  NoDup (wd_ids w) -> In i (Watchdog._tasks w) ->
  Watchdog.get_task_info (Watchdog.task_id i) w = Some i.
Proof.
  unfold wd_ids, Watchdog.get_task_info.
  induction (Watchdog._tasks w) as [|j l IH]; intros N Hi; [destruct Hi|].
  inversion N as [|? ? Nj N']; subst. cbn [find].
  destruct Hi as [->|Hi].
  - now rewrite String.eqb_refl.
  - destruct (String.eqb (Watchdog.task_id j) (Watchdog.task_id i)) eqn:E.
    + apply String.eqb_eq in E. exfalso. apply Nj. rewrite E.
      now apply in_map.
    + now apply IH.
Qed.

Lemma wd_handle_one_frame (wh : Watchdog.t * Asyncio.Heap)
      (a : string * Watchdog.Action) :
  Watchdog.enable_timeout_check (fst (Watchdog.handle_one wh a))
  = Watchdog.enable_timeout_check (fst wh)
  /\ Watchdog._stats (fst (Watchdog.handle_one wh a))
     = (if is_timeout_action a
        then Watchdog.mkStats
               (Watchdog.total_registered (Watchdog._stats (fst wh)))
               (Watchdog.total_completed (Watchdog._stats (fst wh)))
               (Watchdog.total_failed (Watchdog._stats (fst wh)))
               (Watchdog.total_timeout (Watchdog._stats (fst wh)) + 1)
               (Watchdog.total_cancelled (Watchdog._stats (fst wh)))
        else Watchdog._stats (fst wh)).
Proof.
  destruct wh as [w h], a as [id act].
  unfold Watchdog.handle_one, is_timeout_action. cbn [fst snd].
  destruct act.
  - rewrite wd_handle_timeout_fst. split; reflexivity.
  - split; reflexivity.
Qed.

Lemma wd_fold_handle_frame (acts : list (string * Watchdog.Action))
      (wh : Watchdog.t * Asyncio.Heap) :
  let w' := fst (fold_left Watchdog.handle_one acts wh) in
  Watchdog.enable_timeout_check w' = Watchdog.enable_timeout_check (fst wh)
  /\ Watchdog.total_timeout (Watchdog._stats w')
     = Watchdog.total_timeout (Watchdog._stats (fst wh))
       + Z.of_nat (List.length (filter is_timeout_action acts))
  /\ Watchdog.total_registered (Watchdog._stats w')
     = Watchdog.total_registered (Watchdog._stats (fst wh))
  /\ Watchdog.total_completed (Watchdog._stats w')
     = Watchdog.total_completed (Watchdog._stats (fst wh))
  /\ Watchdog.total_failed (Watchdog._stats w')
     = Watchdog.total_failed (Watchdog._stats (fst wh))
  /\ Watchdog.total_cancelled (Watchdog._stats w')
     = Watchdog.total_cancelled (Watchdog._stats (fst wh)).
Proof.
  cbv zeta. revert wh. induction acts as [|a acts IH]; intros wh.
  - cbn [fold_left filter List.length]. repeat split; lia.
  - cbn [fold_left filter].
    destruct (IH (Watchdog.handle_one wh a)) as (E & T & R & C & F & K).
    destruct (wd_handle_one_frame wh a) as [E1 S1].
    rewrite E, T, R, C, F, K, E1, S1.
    destruct (is_timeout_action a);
      cbn [List.length Watchdog.total_timeout Watchdog.total_registered
           Watchdog.total_completed Watchdog.total_failed
           Watchdog.total_cancelled];
      rewrite ?Nat2Z.inj_succ; repeat split; lia.
Qed.

Lemma wd_flat_classify_count (now : float) (w : Watchdog.t)
      (h : Asyncio.Heap) (l : list Watchdog.TaskInfo) :
  List.length (filter is_timeout_action
                      (flat_map (Watchdog.classify now w h) l))
  = List.length (filter (timed_out now w h) l).
Proof.
  induction l as [|i l IH]; [reflexivity|].
  cbn [flat_map filter]. rewrite filter_app, length_app, IH.
  rewrite wd_classify_cases.
  destruct (timed_out now w h i); [reflexivity|].
  destruct (cleanup_due now h i); reflexivity.
Qed.

(** X5. What a round of the monitor loop counts. [_check_tasks] adds to the
    counter of timed-out tasks the number of entries whose handle has not
    settled and whose running time exceeds their timeout; the status of an
    entry plays no part, so an entry already marked [TIMEOUT] or
    [CANCELLED] is counted again. With the timeout check disabled nothing
    is counted. The other counters are not touched. *)
Theorem check_tasks_counts_live_entries_past_their_timeout
        (now : float) (w : Watchdog.t) (h : Asyncio.Heap) :
  let w' := fst (Watchdog._check_tasks now w h) in
  Watchdog.total_timeout (Watchdog._stats w')
  = Watchdog.total_timeout (Watchdog._stats w)
    + Z.of_nat (List.length (filter (timed_out now w h) (Watchdog._tasks w)))
  /\ (forall s i,
         timed_out now w h (Watchdog.set_status s i) = timed_out now w h i)
  /\ (Watchdog.enable_timeout_check w = false ->
      Watchdog.total_timeout (Watchdog._stats w')
      = Watchdog.total_timeout (Watchdog._stats w))
  /\ Watchdog.total_registered (Watchdog._stats w')
     = Watchdog.total_registered (Watchdog._stats w)
  /\ Watchdog.total_completed (Watchdog._stats w')
     = Watchdog.total_completed (Watchdog._stats w)
  /\ Watchdog.total_failed (Watchdog._stats w')
     = Watchdog.total_failed (Watchdog._stats w)
  /\ Watchdog.total_cancelled (Watchdog._stats w')
     = Watchdog.total_cancelled (Watchdog._stats w).
Proof.
  cbv zeta. unfold Watchdog._check_tasks.
  destruct (wd_fold_handle_frame
              (flat_map (Watchdog.classify now w h) (Watchdog._tasks w))
              (w, h)) as (_ & T & R & C & F & K).
  cbn [fst] in *. rewrite wd_flat_classify_count in T.
  split; [exact T|]. split; [reflexivity|].
  split; [|now repeat split].
  intros D. rewrite T.
  assert (Z : forall l, filter (timed_out now w h) l = []).
  { induction l as [|i l IH]; [reflexivity|].
    cbn [filter]. unfold timed_out at 1. rewrite D. exact IH. }
  rewrite Z. cbn [List.length]. lia.
Qed.

(** X6. What a round of the monitor loop does to the table. In a table
    without duplicate ids, [_check_tasks] removes exactly the entries whose
    handle has settled and whose end time is more than 60 seconds ago; an
    entry whose handle is live and past its timeout is kept, with status
    [TIMEOUT] when [enable_timeout_check] is on, and is as eligible for the
    next round as before; every other entry is kept as it is. In particular an entry with a live handle is
    never removed. *)
Theorem check_tasks_marks_timeouts_and_removes_old_settled_entries
        (now : float) (w : Watchdog.t) (h : Asyncio.Heap)
        (i : Watchdog.TaskInfo) :
  NoDup (wd_ids w) ->
  In i (Watchdog._tasks w) ->
  let w' := fst (Watchdog._check_tasks now w h) in
  Watchdog.get_task_info (Watchdog.task_id i) w'
  = (if timed_out now w h i
     then Some (Watchdog.set_status Watchdog.TIMEOUT i)
     else if cleanup_due now h i then None else Some i)
  /\ (Watchdog.is_alive h i = true ->
      Watchdog.get_task_info (Watchdog.task_id i) w' <> None)
  /\ (forall now2 h2,
         timed_out now2 w' h2 (Watchdog.set_status Watchdog.TIMEOUT i)
         = timed_out now2 w h2 i).
Proof.
  intros N Hi. cbv zeta. unfold Watchdog._check_tasks.
  assert (G : Watchdog.get_task_info
                (Watchdog.task_id i)
                (fst (fold_left Watchdog.handle_one
                                (flat_map (Watchdog.classify now w h)
                                          (Watchdog._tasks w)) (w, h)))
              = (if timed_out now w h i
                 then Some (Watchdog.set_status Watchdog.TIMEOUT i)
                 else if cleanup_due now h i then None else Some i)).
  { rewrite wd_fold_handle_get
      by (apply wd_flat_classify_NoDup; exact N).
    rewrite (wd_flat_classify_find now w h _ i N Hi).
    rewrite (wd_get_of_In w i N Hi), wd_classify_cases.
    destruct (timed_out now w h i); [reflexivity|].
    destruct (cleanup_due now h i); reflexivity. }
  split; [exact G|]. split.
  - intros A. rewrite G. unfold cleanup_due. rewrite A.
    destruct (timed_out now w h i); discriminate.
  - intros now2 h2. unfold timed_out.
    destruct (wd_fold_handle_frame
                (flat_map (Watchdog.classify now w h) (Watchdog._tasks w))
                (w, h)) as (E & _).
    cbn [fst] in E. rewrite E. reflexivity.
Qed.

Lemma check_tasks_marks_timeouts_witness :
  let '(w, h, id) := one_entry_watchdog in
  exists i,
    In i (Watchdog._tasks w)
    /\ Watchdog.get_task_info
         (Watchdog.task_id i) (fst (Watchdog._check_tasks 2%float w h))
       = Some (Watchdog.set_status Watchdog.TIMEOUT i).
Proof.
  destruct one_entry_watchdog as [[w h] id] eqn:E.
  vm_compute in E. inversion E; subst w h id; clear E.
  eexists. split; [left; reflexivity|].
  match goal with
  | |- Watchdog.get_task_info (Watchdog.task_id ?i)
         (fst (Watchdog._check_tasks ?now ?w ?h)) = _ =>
    rewrite (proj1 (check_tasks_marks_timeouts_and_removes_old_settled_entries
                      now w h i
                      ltac:(repeat constructor; simpl; tauto)
                      (or_introl eq_refl)))
  end.
  reflexivity.
Defined.

(** ** The dependency check, when it succeeds *)

Lemma In_dependents_add (u : string) (y : ManagedTask) :
  In u (dependents (add_dependent u y)).
Proof.
  unfold add_dependent. cbn [dependents].
  destruct (existsb (String.eqb u) (dependents y)) eqn:E.
  - apply existsb_exists in E. destruct E as [v [Hv Ev]].
    apply String.eqb_eq in Ev. now subst v.
  - apply in_or_app. right. now left.
Qed.

Lemma In_dependents_keep (u v : string) (y : ManagedTask) :
  In u (dependents y) -> In u (dependents (add_dependent v y)).
Proof.
  unfold add_dependent. cbn [dependents]. intros H.
  destruct (existsb (String.eqb v) (dependents y)); [exact H|].
  apply in_or_app. now left.
Qed.

Lemma check_dependencies_loop_true_iff
      (id : string) (flag : bool) (deps : list string) (m : t) :
  snd (check_dependencies_loop id flag deps m) = true
  <-> (forall d, In d deps ->
                 option_map state (get_task_info d m) = Some COMPLETED).
Proof.
  revert m. induction deps as [|d deps IH]; intros m; simpl.
  - split; [intros _ d []|reflexivity].
  - destruct (get_task_info d m) as [y|] eqn:G.
    + destruct (state_eqb (state y) COMPLETED) eqn:S.
      * rewrite IH. apply state_eqb_eq in S.
        split; intros H d0.
        -- intros [<-|Hd]; [rewrite G; simpl; now rewrite S|].
           rewrite <- (state_after_add_dependent d0 d id). now apply H.
        -- intros Hd. rewrite state_after_add_dependent. apply H. now right.
      * assert (F : snd (if state_eqb (state y) FAILED && flag
                         then (add_cancelled 1
                                 (modify id
                                    (fun x =>
                                       set_error (Some (dependency_failed d))
                                                 (set_state CANCELLED x))
                                    (modify d (add_dependent id) m)), false)
                         else (modify d (add_dependent id) m, false))
                    = false)
          by (destruct (state_eqb (state y) FAILED && flag); reflexivity).
        rewrite F. split; [discriminate|]. intros H.
        specialize (H d (or_introl eq_refl)). rewrite G in H. simpl in H.
        injection H as H. apply state_eqb_eq in H. congruence.
    + split; [discriminate|]. intros H.
      specialize (H d (or_introl eq_refl)). rewrite G in H. discriminate.
Qed.

Lemma check_dependencies_loop_dependents_grow
      (id : string) (flag : bool) (deps : list string) (m : t)
      (k u : string) (y : ManagedTask) :
  get_task_info k m = Some y -> In u (dependents y) ->
  exists y', get_task_info k (fst (check_dependencies_loop id flag deps m))
             = Some y'
             /\ In u (dependents y').
Proof.
  revert m y. induction deps as [|d deps IH]; intros m y G Hu; simpl.
  - eauto.
  - destruct (get_task_info d m) as [z|] eqn:Gd; [|simpl; eauto].
    assert (G1 : exists y1,
               get_task_info k (modify d (add_dependent id) m) = Some y1
               /\ In u (dependents y1)).
    { rewrite get_modify_add_dependent, G. simpl.
      destruct (String.eqb k d); eexists; split; try reflexivity;
        [now apply In_dependents_keep|exact Hu]. }
    destruct G1 as [y1 [G1 Hu1]].
    destruct (state_eqb (state z) COMPLETED); [now apply (IH _ y1)|].
    destruct (state_eqb (state z) FAILED && flag); simpl; [|eauto].
    change (get_task_info k (add_cancelled 1 ?X)) with (get_task_info k X).
    rewrite get_modify by reflexivity. rewrite G1. simpl.
    destruct (String.eqb k id); eexists; split; try reflexivity; exact Hu1.
Qed.

Lemma check_dependencies_loop_true_frame
      (id : string) (flag : bool) (deps : list string) (m : t) :
  snd (check_dependencies_loop id flag deps m) = true ->
  let m' := fst (check_dependencies_loop id flag deps m) in
  _stats m' = _stats m
  /\ (forall q, _priority_queues m' q = _priority_queues m q)
  /\ (forall k, option_map state (get_task_info k m')
                = option_map state (get_task_info k m))
  /\ (forall d, In d deps ->
                exists y, get_task_info d m' = Some y
                          /\ In id (dependents y)).
Proof.
  cbv zeta. revert m. induction deps as [|d deps IH]; intros m; simpl.
  - intros _. repeat split. intros d [].
  - destruct (get_task_info d m) as [z|] eqn:Gd; [|discriminate].
    destruct (state_eqb (state z) COMPLETED) eqn:S.
    + intros T. destruct (IH _ T) as (E1 & E2 & E3 & E4).
      split; [exact E1|]. split; [exact E2|]. split.
      * intros k. rewrite E3. apply state_after_add_dependent.
      * intros d0 [<-|Hd]; [|now apply E4].
        eapply check_dependencies_loop_dependents_grow.
        -- rewrite get_modify_add_dependent, Gd, String.eqb_refl.
           reflexivity.
        -- apply In_dependents_add.
    + destruct (state_eqb (state z) FAILED && flag); discriminate.
Qed.

(** X7. When the dependency check succeeds. [_check_dependencies] answers
    [True] exactly when the task is known and every dependency it declares
    is a known task in state [COMPLETED]. A successful check changes no
    state, no counter and no queue, and leaves the task recorded among the
    dependents of each of its dependencies. *)
Theorem check_dependencies_succeeds_iff_all_dependencies_completed
        (id : string) (m : TaskManager.t) :
  let m' := fst (_check_dependencies id m) in
  let ok := snd (_check_dependencies id m) in
  (ok = true
   <-> exists x,
      get_task_info id m = Some x
      /\ forall d, In d (TaskConfig.dependencies (config x)) ->
                   option_map state (get_task_info d m) = Some COMPLETED)
  /\ (ok = true ->
      _stats m' = _stats m
      /\ (forall q, _priority_queues m' q = _priority_queues m q)
      /\ (forall k, option_map state (get_task_info k m')
                    = option_map state (get_task_info k m))
      /\ (forall x d,
             get_task_info id m = Some x ->
             In d (TaskConfig.dependencies (config x)) ->
             exists y, get_task_info d m' = Some y
                       /\ In id (dependents y))).
Proof.
  cbv zeta. unfold _check_dependencies.
  change (get_task_info id (with_dep_checks (dep_checks m ++ [id]) m))
    with (get_task_info id m).
  destruct (get_task_info id m) as [x|] eqn:G.
  - set (m0 := with_dep_checks (dep_checks m ++ [id]) m).
    split.
    + rewrite check_dependencies_loop_true_iff. split.
      * intros H. exists x. split; [reflexivity|exact H].
      * intros [x' [E H]]. injection E as <-. exact H.
    + intros T.
      destruct (check_dependencies_loop_true_frame _ _ _ _ T)
        as (E1 & E2 & E3 & E4).
      split; [exact E1|]. split; [exact E2|]. split; [exact E3|].
      intros x' d E. injection E as <-. apply E4.
  - cbn [fst snd]. split; [|discriminate].
    split; [discriminate|]. intros [x [E _]]. discriminate.
Qed.

(** ** Cancelling *)

(** The cases of [cancel_task], the handles aside. *)
Lemma cancel_task_cases (id : string) (w : World) :
  let w' := fst (cancel_task id w) in
  let ok := snd (cancel_task id w) in
  (ok = true
   <-> exists x,
      get_task_info id (manager w) = Some x
      /\ (state x = QUEUED \/ state x = WAITING
          \/ (state x = RUNNING /\ task x <> None)))
  /\ (ok = false -> w' = w)
  /\ (forall q, _priority_queues (manager w') q
                = _priority_queues (manager w) q)
  /\ watchdog w' = watchdog w
  /\ scheduler w' = scheduler w
  /\ (forall k, k <> id ->
                get_task_info k (manager w') = get_task_info k (manager w))
  /\ (forall x, get_task_info id (manager w) = Some x ->
                state x = RUNNING -> manager w' = manager w)
  /\ (forall x, get_task_info id (manager w) = Some x ->
                state x = QUEUED \/ state x = WAITING ->
                heap w' = heap w
                /\ get_task_info id (manager w')
                   = Some (set_state CANCELLED x)
                /\ total_cancelled (_stats (manager w'))
                   = total_cancelled (_stats (manager w)) + 1).
Proof.
  cbv zeta. unfold cancel_task.
  destruct (get_task_info id (manager w)) as [x|] eqn:G.
  - assert (Hset : get_task_info
                     id (modify id (set_state CANCELLED) (manager w))
                   = Some (set_state CANCELLED x)).
    { rewrite get_modify by reflexivity. rewrite G, String.eqb_refl.
      reflexivity. }
    assert (Hoth : forall k, k <> id ->
                get_task_info k (modify id (set_state CANCELLED) (manager w))
                = get_task_info k (manager w)).
    { intros k Hk. rewrite get_modify by reflexivity.
      apply String.eqb_neq in Hk. rewrite Hk.
      now destruct (get_task_info k (manager w)). }
    destruct (state x) eqn:S; [| |destruct (task x) as [r|] eqn:R| | | |];
      cbn [fst snd manager watchdog scheduler heap with_manager].
    all: split;
      [split;
       [first [discriminate
              |intros _; exists x; split; [reflexivity|]; rewrite ?S;
               first [now left|now (right; left)
                     |right; right; split; [reflexivity|congruence]]]
       |first [reflexivity
              |intros [x' [E H]]; injection E as <-;
               destruct H as [H|[H|[H1 H2]]]; congruence]]|].
    all: split; [first [discriminate|reflexivity]|].
    all: split; [reflexivity|].
    all: split; [reflexivity|].
    all: split; [reflexivity|].
    all: split; [first [exact Hoth|reflexivity]|].
    all: split; [intros x' E; injection E as <-; intros S';
                 first [congruence|reflexivity]|].
    all: intros x' E; injection E as <-; intros [S'|S'];
      try congruence; (split; [reflexivity|]); (split; [exact Hset|]);
        reflexivity.
  - cbn [fst snd]. split.
    + split; [discriminate|]. intros [x [E _]]. discriminate.
    + repeat split; try discriminate.
Qed.

Lemma asyncio_get_update (r r' : nat) (f : Asyncio.Task -> Asyncio.Task)
      (h : Asyncio.Heap) :
  Asyncio.get r' (Asyncio.update r f h)
  = if Nat.eqb r' r then option_map f (Asyncio.get r' h)
    else Asyncio.get r' h.
Proof.
  unfold Asyncio.get. revert r r'.
  induction h as [|t0 h IH]; intros r r'.
  - destruct r, r'; cbn [Asyncio.update nth_error option_map];
      now destruct (Nat.eqb _ _).
  - destruct r as [|r], r' as [|r']; cbn [Asyncio.update nth_error Nat.eqb];
      try reflexivity.
    apply IH.
Qed.

Lemma asyncio_cancel_idempotent (t0 : Asyncio.Task) :
  Asyncio.cancel (Asyncio.cancel t0) = Asyncio.cancel t0.
Proof.
  unfold Asyncio.cancel. destruct (Asyncio.done t0) eqn:D.
  - now rewrite D.
  - unfold Asyncio.done in *. cbn [Asyncio.outcome].
    destruct (Asyncio.outcome t0); [discriminate|reflexivity].
Qed.

Lemma cancel_if_running_frame (w : World) (id : string) :
  manager (cancel_if_running w id) = manager w
  /\ watchdog (cancel_if_running w id) = watchdog w
  /\ scheduler (cancel_if_running w id) = scheduler w
  /\ (heap (cancel_if_running w id) = heap w
      \/ exists x r,
        get_task_info id (manager w) = Some x /\ state x = RUNNING
        /\ task x = Some r
        /\ heap (cancel_if_running w id)
           = Asyncio.update r Asyncio.cancel (heap w)).
Proof.
  unfold cancel_if_running, cancel_task.
  destruct (get_task_info id (manager w)) as [x|] eqn:G;
    [|repeat split; now left].
  destruct (state x) eqn:S; cbn [state_eqb]; try (repeat split; now left).
  destruct (task x) as [r|] eqn:R; cbn [fst manager watchdog scheduler heap];
    [|repeat split; now left].
  repeat split. right. exists x, r. repeat split; assumption.
Qed.

Lemma cancel_if_running_hits (w : World) (id : string) (x : ManagedTask)
      (r : nat) :
  get_task_info id (manager w) = Some x -> state x = RUNNING ->
  task x = Some r ->
  heap (cancel_if_running w id) = Asyncio.update r Asyncio.cancel (heap w).
Proof.
  intros G S R. unfold cancel_if_running, cancel_task.
  rewrite G, S, R. reflexivity.
Qed.

Lemma fold_cancel_if_running_frame (l : list string) (w : World) :
  let w' := fold_left cancel_if_running l w in
  manager w' = manager w
  /\ watchdog w' = watchdog w
  /\ scheduler w' = scheduler w
  /\ (forall r, Asyncio.get r (heap w') = Asyncio.get r (heap w)
                \/ Asyncio.get r (heap w')
                   = option_map Asyncio.cancel (Asyncio.get r (heap w))).
Proof.
  cbv zeta. revert w. induction l as [|id l IH]; intros w; cbn [fold_left].
  - repeat split. intros r. now left.
  - destruct (IH (cancel_if_running w id)) as (M & W & S & H).
    destruct (cancel_if_running_frame w id) as (M1 & W1 & S1 & H1).
    rewrite M, W, S. repeat split; try assumption.
    intros r. destruct H1 as [H1|(x & r0 & _ & _ & _ & H1)].
    + rewrite <- H1. apply H.
    + destruct (H r) as [E|E]; rewrite E, H1, asyncio_get_update;
        destruct (Nat.eqb r r0); auto.
      right. destruct (Asyncio.get r (heap w)); cbn [option_map];
               [|reflexivity].
      now rewrite asyncio_cancel_idempotent.
Qed.

(** X9. [_cancel_all_running_tasks] only asks. The sweep over the tasks
    leaves the manager exactly as it was: no task changes state (a running
    task is still [RUNNING]) and no counter moves; the watchdog and the
    scheduler are not touched. The handle of every running task gets a
    cancellation request, and no handle is changed in any other way. *)
Theorem cancel_all_running_tasks_only_requests_cancellation (w : World) :
  let w' := _cancel_all_running_tasks w in
  manager w' = manager w
  /\ watchdog w' = watchdog w
  /\ scheduler w' = scheduler w
  /\ (forall r, Asyncio.get r (heap w') = Asyncio.get r (heap w)
                \/ Asyncio.get r (heap w')
                   = option_map Asyncio.cancel (Asyncio.get r (heap w)))
  /\ (forall id x r,
         get_task_info id (manager w) = Some x -> state x = RUNNING ->
         task x = Some r ->
         Asyncio.get r (heap w')
         = option_map Asyncio.cancel (Asyncio.get r (heap w))).
Proof.
  cbv zeta. unfold _cancel_all_running_tasks.
  destruct (fold_cancel_if_running_frame (ids (manager w)) w)
    as (M & W & S & H).
  split; [exact M|]. split; [exact W|]. split; [exact S|].
  split; [exact H|].
  intros id x r G Sx R.
  assert (Hin : In id (ids (manager w))).
  { pose proof (get_task_info_In _ _ _ G) as I.
    pose proof (get_task_info_id _ _ _ G) as E. subst id.
    unfold ids. now apply in_map. }
  clear M W S H. revert Hin. generalize (ids (manager w)) as l.
  assert (Gen : forall l w0,
             manager w0 = manager w ->
             In id l ->
             Asyncio.get r (heap (fold_left cancel_if_running l w0))
             = option_map Asyncio.cancel (Asyncio.get r (heap w0))).
  { induction l as [|a l IH]; intros w0 M0 Hin; [destruct Hin|].
    cbn [fold_left].
    destruct (cancel_if_running_frame w0 a) as (M1 & _ & _ & H1).
    destruct (String.eqb a id) eqn:E.
    - apply String.eqb_eq in E. subst a.
      destruct (fold_cancel_if_running_frame l (cancel_if_running w0 id))
        as (_ & _ & _ & H2).
      cbv zeta in H2.
      assert (Hh : heap (cancel_if_running w0 id)
                   = Asyncio.update r Asyncio.cancel (heap w0))
        by (apply (cancel_if_running_hits w0 id x r); congruence).
      destruct (H2 r) as [E2|E2]; rewrite E2, Hh, asyncio_get_update,
                                    Nat.eqb_refl; [reflexivity|].
      destruct (Asyncio.get r (heap w0)); cbn [option_map]; [|reflexivity].
      now rewrite asyncio_cancel_idempotent.
    - destruct Hin as [->|Hin]; [now rewrite String.eqb_refl in E|].
      rewrite (IH (cancel_if_running w0 a)) by congruence.
      destruct H1 as [H1|(x1 & r1 & _ & _ & _ & H1)]; rewrite H1;
        [reflexivity|].
      rewrite asyncio_get_update. destruct (Nat.eqb r r1); [|reflexivity].
      destruct (Asyncio.get r (heap w0)); cbn [option_map]; [|reflexivity].
      now rewrite asyncio_cancel_idempotent. }
  intros l Hin. now apply Gen.
Qed.

(** ** Waiting for a task *)

Lemma wait_loop_sound (timeout : option float) (start_time : float)
      (obs : list (ManagedTask * float)) :
  match wait_loop timeout start_time obs with
  | WaitReturned v =>
    exists x now, In (x, now) obs /\ state x = COMPLETED /\ result x = v
  | WaitRaised e =>
    exists x now, In (x, now) obs /\ state x = FAILED /\ error x = e
  | WaitCancelledError =>
    exists x now, In (x, now) obs /\ state x = CANCELLED
  | WaitTimeoutError =>
    exists f x now,
    timeout = Some f /\ float_truthy f = true /\ In (x, now) obs
    /\ is_terminal_state x = false
    /\ float_gt (PrimFloat.sub now start_time) f = true
  | WaitValueError => False
  | WaitPolling =>
    forall x now, In (x, now) obs ->
                  is_terminal_state x = false
                  /\ deadline_passed timeout start_time now = false
  end.
Proof.
  induction obs as [|[x now] obs IH]; cbn [wait_loop].
  - intros x now [].
  - destruct (is_terminal_state x) eqn:T.
    + unfold wait_outcome. unfold is_terminal_state in T.
      destruct (state x) eqn:S; try discriminate;
        exists x, now; (split; [now left|]); auto.
    + destruct (deadline_passed timeout start_time now) eqn:D.
      * unfold deadline_passed in D. destruct timeout as [f|]; [|discriminate].
        apply andb_prop in D. destruct D as [D1 D2].
        exists f, x, now. repeat split; auto. now left.
      * destruct (wait_loop timeout start_time obs).
        -- destruct IH as (x0 & n0 & H & R). exists x0, n0.
           split; [now right|exact R].
        -- exact IH.
        -- destruct IH as (f & x0 & n0 & E & F & H & R). exists f, x0, n0.
           repeat split; try tauto. now right.
        -- destruct IH as (x0 & n0 & H & R). exists x0, n0.
           split; [now right|exact R].
        -- destruct IH as (x0 & n0 & H & R). exists x0, n0.
           split; [now right|exact R].
        -- intros x0 n0 [E|H]; [injection E as <- <-; auto|now apply IH].
Qed.

(** X10. What [wait_for_task] can answer. [ValueError] is raised exactly
    for an unknown id. For a known id, it returns a value only when it has
    seen the task [COMPLETED] with that value as result, raises the task's
    error only when it has seen it [FAILED], and raises [CancelledError]
    only when it has seen it [CANCELLED]. It raises [TimeoutError] only for
    a timeout other than [None] and zero, after a round in which the task
    was not terminal and more than the timeout had passed. While it polls,
    every round so far saw a task that was not terminal. *)
Theorem wait_for_task_answers_only_what_it_observed
        (id : string) (timeout : option float) (m : TaskManager.t)
        (start_time : float) (obs : list (ManagedTask * float)) :
  (wait_for_task id timeout m start_time obs = WaitValueError
   <-> get_task_info id m = None)
  /\ match wait_for_task id timeout m start_time obs with
     | WaitReturned v =>
       exists x now, In (x, now) obs /\ state x = COMPLETED /\ result x = v
     | WaitRaised e =>
       exists x now, In (x, now) obs /\ state x = FAILED /\ error x = e
     | WaitCancelledError =>
       exists x now, In (x, now) obs /\ state x = CANCELLED
     | WaitTimeoutError =>
       exists f x now,
       timeout = Some f /\ float_truthy f = true /\ In (x, now) obs
       /\ is_terminal_state x = false
       /\ float_gt (PrimFloat.sub now start_time) f = true
     | WaitValueError => get_task_info id m = None
     | WaitPolling =>
       get_task_info id m <> None
       /\ forall x now, In (x, now) obs ->
                        is_terminal_state x = false
                        /\ deadline_passed timeout start_time now = false
     end.
Proof.
  unfold wait_for_task.
  destruct (get_task_info id m) as [x|] eqn:G;
    [|split; [split|]; reflexivity].
  pose proof (wait_loop_sound timeout start_time obs) as H.
  split.
  - split; [|discriminate]. intros E. rewrite E in H. destruct H.
  - destruct (wait_loop timeout start_time obs); try exact H.
    + destruct H.
    + split; [discriminate|exact H].
Qed.

(** ** The scheduler's bookkeeping *)

Lemma moves_trans (a b c : TaskState) : moves a b -> moves b c -> moves a c.
Proof.
  induction 1 as [|s s' s'' E _ IH]; intros H; [exact H|].
  eapply moves_edge; [exact E|now apply IH].
Qed.

Lemma moves_one (a b : TaskState) : edge a b = true -> moves a b.
Proof. intros E. eapply moves_edge; [exact E|apply moves_refl]. Qed.

Lemma moves_final (a b : TaskState) : moves a b -> final a = true -> b = a.
Proof.
  induction 1 as [|s s' s'' E _ _]; intros F; [reflexivity|].
  destruct s; try discriminate; destruct s'; discriminate.
Qed.

Lemma vstep_refl (st : View) : vstep st st.
Proof.
  split; [|auto]. intros id a H. exists a.
  repeat split; auto using moves_refl.
Qed.

Lemma vstep_same (st st' : View) : (forall k, st' k = st k) -> vstep st st'.
Proof.
  intros E. split.
  - intros id a H. exists a. rewrite E.
    repeat split; auto using moves_refl.
  - intros id H. now rewrite E.
Qed.

Lemma vmoves_trans (st1 st2 st3 : View) :
  vmoves st1 st2 -> vmoves st2 st3 -> vmoves st1 st3.
Proof.
  intros A B id a H.
  destruct (A id a H) as (a2 & H2 & D2 & M2 & F2).
  destruct (B id a2 H2) as (a3 & H3 & D3 & M3 & F3).
  exists a3. split; [exact H3|]. split; [congruence|].
  split; [eapply moves_trans; eassumption|].
  intros F. pose proof (F2 F) as E. subst a2. now apply F3.
Qed.

Lemma vstep_trans (st1 st2 st3 : View) :
  vstep st1 st2 -> vstep st2 st3 -> vstep st1 st3.
Proof.
  intros [A A'] [B B']. split; [eapply vmoves_trans; eassumption|auto].
Qed.

Lemma changes_lookup (id k : string) (a a' b : Facts) (st st' : View) :
  changes_at id a a' st st' -> st' k = Some b ->
  (k = id /\ b = a') \/ (k <> id /\ st k = Some b).
Proof.
  intros (H1 & H2 & _ & H4) H.
  destruct (string_dec k id) as [->|N].
  - left. split; [reflexivity|congruence].
  - right. split; [exact N|]. now rewrite <- H4.
Qed.

Lemma changes_known (id k : string) (a a' : Facts) (st st' : View) :
  changes_at id a a' st st' -> st k <> None -> st' k <> None.
Proof.
  intros (H1 & H2 & _ & H4) H.
  destruct (string_dec k id) as [->|N]; [congruence|]. now rewrite H4.
Qed.

Lemma vstep_change (id : string) (a a' : Facts) (st st' : View) :
  changes_at id a a' st st' ->
  moves (f_state a) (f_state a') ->
  (final (f_state a) = true -> a' = a) ->
  vstep st st'.
Proof.
  intros (H1 & H2 & H3 & H4) M F. split.
  - intros k b H. destruct (string_dec k id) as [->|N].
    + assert (b = a) by congruence. subst b. exists a'. auto.
    + exists b. rewrite H4 by exact N.
      repeat split; auto using moves_refl.
  - intros k H. destruct (string_dec k id) as [->|N]; [congruence|].
    now rewrite H4.
Qed.

Lemma deps_completed_change (id : string) (a a' b : Facts) (st st' : View) :
  changes_at id a a' st st' ->
  (f_state a = COMPLETED -> f_state a' = COMPLETED) ->
  deps_completed st b -> deps_completed st' b.
Proof.
  intros (H1 & H2 & _ & H4) C D d Hd. specialize (D d Hd).
  destruct (string_dec d id) as [->|N].
  - rewrite H1 in D. rewrite H2. simpl in *. injection D as D.
    now rewrite C.
  - now rewrite H4.
Qed.

Lemma deps_completed_same (st st' : View) (b : Facts) :
  (forall k, st' k = st k) -> deps_completed st b -> deps_completed st' b.
Proof. intros E D d Hd. rewrite E. now apply D. Qed.

Lemma qinv_same (ex : option string) (st st' : View) (q q' : list string)
      (pos : Position) :
  (forall k, st' k = st k) -> Permutation q q' ->
  qinv ex st q pos -> qinv ex st' q' pos.
Proof.
  intros E P I.
  assert (PP : Permutation (pending q pos) (pending q' pos))
    by (unfold pending; now apply Permutation_app_head).
  constructor.
  - eapply Permutation_NoDup; [exact PP|apply (q_nodup _ _ _ _ I)].
  - intros id H. rewrite E. apply (q_known _ _ _ _ I).
    eapply Permutation_in; [symmetry; exact PP|exact H].
  - intros id a H. rewrite E in H. now apply (q_running _ _ _ _ I).
  - intros id a H. rewrite E in H. now apply (q_retrying _ _ _ _ I).
  - intros id a H [Q|Q]; rewrite E in H; apply (q_queued _ _ _ _ I id a H);
      [left|now right].
    eapply Permutation_in; [symmetry; exact P|exact Q].
  - intros id a H C. rewrite E in H.
    apply (deps_completed_same st); [exact E|].
    apply (q_deps _ _ _ _ I id a H). destruct C as [C|C]; [left|now right].
    eapply Permutation_in; [symmetry; exact PP|exact C].
  - intros id a H S N. rewrite E in H.
    eapply Permutation_in; [exact PP|]. now apply (q_kept _ _ _ _ I id a).
Qed.

(** The scheduler takes the id at the head of a queue. *)
Lemma qinv_pop (ex : option string) (st : View) (q : list string)
      (id : string) :
  qinv ex st (id :: q) Idle -> qinv ex st q (AtSemaphore id).
Proof.
  intros I. constructor.
  - exact (q_nodup _ _ _ _ I).
  - exact (q_known _ _ _ _ I).
  - intros k a H. pose proof (q_running _ _ _ _ I k a H) as [A B].
    split; [intros R; now apply A in R|discriminate].
  - intros k a H. pose proof (q_retrying _ _ _ _ I k a H) as [A B].
    split; [intros R; now apply A in R|discriminate].
  - intros k a H Q. apply (q_queued _ _ _ _ I k a H). left.
    destruct Q as [Q|Q]; [now right|]. injection Q as ->. now left.
  - exact (q_deps _ _ _ _ I).
  - exact (q_kept _ _ _ _ I).
Qed.

(** A task that is neither executed nor asleep is cancelled, or is set
    waiting; it can be [WAITING] only when its id is neither held nor
    queued. *)
Lemma qinv_passive (ex : option string) (st st' : View) (q : list string)
      (pos : Position) (id : string) (a a' : Facts) :
  qinv ex st q pos -> changes_at id a a' st st' ->
  ex = None \/ ex = Some id ->
  f_state a <> RUNNING -> f_state a <> RETRYING -> f_state a <> COMPLETED ->
  f_state a <> FAILED ->
  (f_state a' = CANCELLED
   \/ (f_state a' = WAITING /\ ~ In id (pending q pos))) ->
  qinv None st' q pos.
Proof.
  intros I Ch Ex N1 N2 N3 N4 T.
  pose proof Ch as (H1 & H2 & H3 & H4).
  assert (NR : f_state a' <> RUNNING) by (destruct T as [T|[T _]]; congruence).
  assert (NT : f_state a' <> RETRYING) by (destruct T as [T|[T _]]; congruence).
  assert (NQ : f_state a' <> QUEUED) by (destruct T as [T|[T _]]; congruence).
  assert (NF : final (f_state a') = false)
    by (destruct T as [T|[T _]]; now rewrite T).
  constructor.
  - exact (q_nodup _ _ _ _ I).
  - intros k H. eapply changes_known; [exact Ch|].
    now apply (q_known _ _ _ _ I).
  - intros k b H.
    destruct (changes_lookup _ _ _ _ _ _ _ Ch H) as [[-> ->]|[N H']].
    + pose proof (q_running _ _ _ _ I id a H1) as [A B].
      split; [intros R; contradiction|intros E; now apply B in E].
    + now apply (q_running _ _ _ _ I).
  - intros k b H.
    destruct (changes_lookup _ _ _ _ _ _ _ Ch H) as [[-> ->]|[N H']].
    + pose proof (q_retrying _ _ _ _ I id a H1) as [A B].
      split; [intros R; contradiction|intros E; now apply B in E].
    + now apply (q_retrying _ _ _ _ I).
  - intros k b H Q.
    destruct (changes_lookup _ _ _ _ _ _ _ Ch H) as [[-> ->]|[N H']].
    + destruct T as [T|[T NP]]; [now right|].
      exfalso. apply NP. unfold pending.
      destruct Q as [Q|Q]; [apply in_or_app; now right|].
      rewrite Q. now left.
    + now apply (q_queued _ _ _ _ I k b H').
  - intros k b H C.
    destruct (changes_lookup _ _ _ _ _ _ _ Ch H) as [[-> ->]|[N H']].
    + destruct C as [C|C]; [|congruence].
      eapply deps_completed_change; [exact Ch|congruence|].
      intros d Hd. rewrite H3 in Hd. revert d Hd.
      apply (q_deps _ _ _ _ I id a H1). now left.
    + eapply deps_completed_change; [exact Ch|congruence|].
      now apply (q_deps _ _ _ _ I k b H').
  - intros k b H S _.
    destruct (changes_lookup _ _ _ _ _ _ _ Ch H) as [[-> ->]|[N H']];
      [contradiction|].
    apply (q_kept _ _ _ _ I k b H' S).
    destruct Ex as [->| ->]; [discriminate|congruence].
Qed.

(** The task the scheduler holds is set running. *)
Lemma qinv_launch (st st' : View) (q : list string) (id : string)
      (a a' : Facts) :
  qinv None st q (AtSemaphore id) -> changes_at id a a' st st' ->
  f_state a' = RUNNING ->
  qinv None st' q (Executing id).
Proof.
  intros I Ch T. pose proof Ch as (H1 & H2 & H3 & H4).
  assert (S0 : f_state a = QUEUED \/ f_state a = CANCELLED)
    by (apply (q_queued _ _ _ _ I id a H1); now right).
  constructor.
  - exact (q_nodup _ _ _ _ I).
  - intros k H. eapply changes_known; [exact Ch|]. now apply (q_known _ _ _ _ I).
  - intros k b H. destruct (changes_lookup _ _ _ _ _ _ _ Ch H) as [[-> ->]|[N H']].
    + split; auto.
    + pose proof (q_running _ _ _ _ I k b H') as [A B].
      split; [intros R; now apply A in R|intros E; congruence].
  - intros k b H. destruct (changes_lookup _ _ _ _ _ _ _ Ch H) as [[-> ->]|[N H']].
    + split; [congruence|discriminate].
    + pose proof (q_retrying _ _ _ _ I k b H') as [A B].
      split; [intros R; now apply A in R|discriminate].
  - intros k b H [Q|Q]; [|discriminate].
    destruct (changes_lookup _ _ _ _ _ _ _ Ch H) as [[-> ->]|[N H']].
    + exfalso. pose proof (q_nodup _ _ _ _ I) as ND. inversion ND. contradiction.
    + apply (q_queued _ _ _ _ I k b H'). now left.
  - intros k b H C.
    eapply deps_completed_change;
      [exact Ch|destruct S0 as [S0|S0]; congruence|].
    destruct (changes_lookup _ _ _ _ _ _ _ Ch H) as [[-> ->]|[N H']].
    + intros d Hd. rewrite H3 in Hd. revert d Hd.
      apply (q_deps _ _ _ _ I id a H1). left. now left.
    + apply (q_deps _ _ _ _ I k b H'). exact C.
  - intros k b H S _.
    destruct (changes_lookup _ _ _ _ _ _ _ Ch H) as [[-> ->]|[N H']];
      [congruence|].
    now apply (q_kept _ _ _ _ I k b H' S).
Qed.

(** The task being executed ends in a terminal state. *)
Lemma qinv_finish (st st' : View) (q : list string) (id : string)
      (a a' : Facts) :
  qinv None st q (Executing id) -> changes_at id a a' st st' ->
  f_state a' = COMPLETED \/ f_state a' = FAILED \/ f_state a' = CANCELLED ->
  qinv None st' q Idle.
Proof.
  intros I Ch T. pose proof Ch as (H1 & H2 & H3 & H4).
  assert (S0 : f_state a = RUNNING)
    by (now apply (q_running _ _ _ _ I id a H1)).
  pose proof (q_nodup _ _ _ _ I) as ND. inversion ND as [|? ? NI ND']; subst.
  constructor.
  - exact ND'.
  - intros k H. eapply changes_known; [exact Ch|].
    apply (q_known _ _ _ _ I). now right.
  - intros k b H. split; [|discriminate].
    destruct (changes_lookup _ _ _ _ _ _ _ Ch H) as [[-> ->]|[N H']].
    + destruct T as [T|[T|T]]; congruence.
    + intros R. apply (q_running _ _ _ _ I k b H') in R. congruence.
  - intros k b H. split; [|discriminate].
    destruct (changes_lookup _ _ _ _ _ _ _ Ch H) as [[-> ->]|[N H']].
    + destruct T as [T|[T|T]]; congruence.
    + intros R. now apply (q_retrying _ _ _ _ I k b H') in R.
  - intros k b H [Q|Q]; [|discriminate].
    destruct (changes_lookup _ _ _ _ _ _ _ Ch H) as [[-> ->]|[N H']].
    + contradiction.
    + apply (q_queued _ _ _ _ I k b H'). now left.
  - intros k b H C.
    eapply deps_completed_change; [exact Ch|congruence|].
    destruct (changes_lookup _ _ _ _ _ _ _ Ch H) as [[-> ->]|[N H']].
    + intros d Hd. rewrite H3 in Hd. revert d Hd.
      apply (q_deps _ _ _ _ I id a H1). left. now left.
    + apply (q_deps _ _ _ _ I k b H').
      destruct C as [C|C]; [left; now right|now right].
  - intros k b H S _.
    destruct (changes_lookup _ _ _ _ _ _ _ Ch H) as [[-> ->]|[N H']];
      [destruct T as [T|[T|T]]; congruence|].
    destruct (q_kept _ _ _ _ I k b H' S) as [E|E];
      [discriminate|congruence|exact E].
Qed.

(** The task being executed has failed and will be retried. *)
Lemma qinv_retry (st st' : View) (q : list string) (id : string)
      (a a' : Facts) :
  qinv None st q (Executing id) -> changes_at id a a' st st' ->
  f_state a' = RETRYING ->
  qinv None st' q (Sleeping id).
Proof.
  intros I Ch T. pose proof Ch as (H1 & H2 & H3 & H4).
  assert (S0 : f_state a = RUNNING)
    by (now apply (q_running _ _ _ _ I id a H1)).
  constructor.
  - exact (q_nodup _ _ _ _ I).
  - intros k H. eapply changes_known; [exact Ch|]. now apply (q_known _ _ _ _ I).
  - intros k b H. split; [|discriminate].
    destruct (changes_lookup _ _ _ _ _ _ _ Ch H) as [[-> ->]|[N H']].
    + congruence.
    + intros R. apply (q_running _ _ _ _ I k b H') in R. congruence.
  - intros k b H.
    destruct (changes_lookup _ _ _ _ _ _ _ Ch H) as [[-> ->]|[N H']].
    + split; auto.
    + split; [|congruence].
      intros R. now apply (q_retrying _ _ _ _ I k b H') in R.
  - intros k b H [Q|Q]; [|discriminate].
    destruct (changes_lookup _ _ _ _ _ _ _ Ch H) as [[-> ->]|[N H']].
    + exfalso. pose proof (q_nodup _ _ _ _ I) as ND. inversion ND. contradiction.
    + apply (q_queued _ _ _ _ I k b H'). now left.
  - intros k b H C.
    eapply deps_completed_change; [exact Ch|congruence|].
    destruct (changes_lookup _ _ _ _ _ _ _ Ch H) as [[-> ->]|[N H']].
    + intros d Hd. rewrite H3 in Hd. revert d Hd.
      apply (q_deps _ _ _ _ I id a H1). left. now left.
    + apply (q_deps _ _ _ _ I k b H'). exact C.
  - intros k b H S _.
    destruct (changes_lookup _ _ _ _ _ _ _ Ch H) as [[-> ->]|[N H']];
      [congruence|].
    now apply (q_kept _ _ _ _ I k b H' S).
Qed.

(** The retry sleep is over and the task goes back into a queue. *)
Lemma qinv_requeue (st st' : View) (q : list string) (id : string)
      (a a' : Facts) :
  qinv None st q (Sleeping id) -> changes_at id a a' st st' ->
  f_state a' = QUEUED ->
  qinv None st' (id :: q) Idle.
Proof.
  intros I Ch T. pose proof Ch as (H1 & H2 & H3 & H4).
  assert (S0 : f_state a = RETRYING)
    by (now apply (q_retrying _ _ _ _ I id a H1)).
  constructor.
  - exact (q_nodup _ _ _ _ I).
  - intros k H. eapply changes_known; [exact Ch|]. now apply (q_known _ _ _ _ I).
  - intros k b H. split; [|discriminate].
    destruct (changes_lookup _ _ _ _ _ _ _ Ch H) as [[-> ->]|[N H']].
    + congruence.
    + intros R. now apply (q_running _ _ _ _ I k b H') in R.
  - intros k b H. split; [|discriminate].
    destruct (changes_lookup _ _ _ _ _ _ _ Ch H) as [[-> ->]|[N H']].
    + congruence.
    + intros R. apply (q_retrying _ _ _ _ I k b H') in R. congruence.
  - intros k b H [Q|Q]; [|discriminate].
    destruct (changes_lookup _ _ _ _ _ _ _ Ch H) as [[-> ->]|[N H']].
    + now left.
    + apply (q_queued _ _ _ _ I k b H'). left.
      destruct Q as [Q|Q]; [congruence|exact Q].
  - intros k b H C.
    eapply deps_completed_change; [exact Ch|congruence|].
    destruct (changes_lookup _ _ _ _ _ _ _ Ch H) as [[-> ->]|[N H']].
    + intros d Hd. rewrite H3 in Hd. revert d Hd.
      apply (q_deps _ _ _ _ I id a H1). left. now left.
    + apply (q_deps _ _ _ _ I k b H'). exact C.
  - intros k b H S _.
    destruct (changes_lookup _ _ _ _ _ _ _ Ch H) as [[-> ->]|[N H']];
      [now left|].
    now apply (q_kept _ _ _ _ I k b H' S).
Qed.

(** A task whose dependencies are all completed is queued. *)
Lemma qinv_ready (ex : option string) (st st' : View) (q : list string)
      (pos : Position) (id : string) (a a' : Facts) :
  qinv ex st q pos -> changes_at id a a' st st' ->
  ex = None \/ ex = Some id ->
  f_state a <> RUNNING -> f_state a <> RETRYING -> f_state a <> COMPLETED ->
  f_state a' = QUEUED ->
  ~ In id (pending q pos) ->
  deps_completed st a ->
  qinv None st' (id :: q) pos.
Proof.
  intros I Ch Ex N1 N2 N3 T NP D. pose proof Ch as (H1 & H2 & H3 & H4).
  assert (PP : Permutation (id :: pending q pos) (pending (id :: q) pos))
    by (unfold pending; apply Permutation_middle).
  constructor.
  - eapply Permutation_NoDup; [exact PP|].
    constructor; [exact NP|exact (q_nodup _ _ _ _ I)].
  - intros k H. apply (Permutation_in _ (Permutation_sym PP)) in H.
    destruct H as [<-|H]; [congruence|].
    eapply changes_known; [exact Ch|]. now apply (q_known _ _ _ _ I).
  - intros k b H. destruct (changes_lookup _ _ _ _ _ _ _ Ch H) as [[-> ->]|[N H']].
    + pose proof (q_running _ _ _ _ I id a H1) as [A B].
      split; [congruence|intros E; now apply B in E].
    + now apply (q_running _ _ _ _ I).
  - intros k b H. destruct (changes_lookup _ _ _ _ _ _ _ Ch H) as [[-> ->]|[N H']].
    + pose proof (q_retrying _ _ _ _ I id a H1) as [A B].
      split; [congruence|intros E; now apply B in E].
    + now apply (q_retrying _ _ _ _ I).
  - intros k b H Q. destruct (changes_lookup _ _ _ _ _ _ _ Ch H) as [[-> ->]|[N H']].
    + now left.
    + apply (q_queued _ _ _ _ I k b H').
      destruct Q as [[Q|Q]|Q]; [congruence|now left|now right].
  - intros k b H C.
    eapply deps_completed_change; [exact Ch|congruence|].
    destruct (changes_lookup _ _ _ _ _ _ _ Ch H) as [[-> ->]|[N H']].
    + intros d Hd. rewrite H3 in Hd. now apply D.
    + apply (q_deps _ _ _ _ I k b H').
      destruct C as [C|C]; [|now right]. left.
      apply (Permutation_in _ (Permutation_sym PP)) in C.
      destruct C as [C|C]; [congruence|exact C].
  - intros k b H S _. apply (Permutation_in _ PP).
    destruct (changes_lookup _ _ _ _ _ _ _ Ch H) as [[-> ->]|[N H']];
      [now left|].
    right. apply (q_kept _ _ _ _ I k b H' S).
    destruct Ex as [->| ->]; [discriminate|congruence].
Qed.

(** A new task enters the table. *)
Lemma qinv_new (st st' : View) (q : list string) (pos : Position)
      (id : string) (a' : Facts) :
  qinv None st q pos -> st id = None -> st' id = Some a' ->
  (forall k, k <> id -> st' k = st k) ->
  f_state a' = QUEUED \/ f_state a' = CANCELLED \/ f_state a' = WAITING ->
  qinv (Some id) st' q pos.
Proof.
  intros I H1 H2 H4 T.
  assert (NP : ~ In id (pending q pos)).
  { intros H. now apply (q_known _ _ _ _ I) in H. }
  assert (L : forall k b, st' k = Some b ->
                          (k = id /\ b = a') \/ (k <> id /\ st k = Some b)).
  { intros k b H. destruct (string_dec k id) as [->|N].
    - left. split; [reflexivity|congruence].
    - right. split; [exact N|]. now rewrite <- H4. }
  assert (DC : forall b, deps_completed st b -> deps_completed st' b).
  { intros b D d Hd. specialize (D d Hd).
    destruct (string_dec d id) as [->|N]; [now rewrite H1 in D|].
    now rewrite H4. }
  constructor.
  - exact (q_nodup _ _ _ _ I).
  - intros k H. destruct (string_dec k id) as [->|N]; [congruence|].
    rewrite H4 by exact N. now apply (q_known _ _ _ _ I).
  - intros k b H. destruct (L k b H) as [[-> ->]|[N H']].
    + split; [destruct T as [T|[T|T]]; congruence|].
      intros E. exfalso. apply NP. rewrite E. now left.
    + now apply (q_running _ _ _ _ I).
  - intros k b H. destruct (L k b H) as [[-> ->]|[N H']].
    + split; [destruct T as [T|[T|T]]; congruence|].
      intros E. exfalso. apply NP. rewrite E. now left.
    + now apply (q_retrying _ _ _ _ I).
  - intros k b H Q. destruct (L k b H) as [[-> ->]|[N H']].
    + exfalso. apply NP. unfold pending.
      destruct Q as [Q|Q]; [apply in_or_app; now right|].
      rewrite Q. now left.
    + now apply (q_queued _ _ _ _ I k b H').
  - intros k b H C. destruct (L k b H) as [[-> ->]|[N H']].
    + exfalso. destruct C as [C|C]; [contradiction|].
      destruct T as [T|[T|T]]; rewrite T in C; discriminate.
    + apply DC. now apply (q_deps _ _ _ _ I k b H').
  - intros k b H S N. destruct (L k b H) as [[-> ->]|[N' H']];
      [congruence|].
    now apply (q_kept _ _ _ _ I k b H' S).
Qed.

(** A change of the view that keeps the state and the dependencies of
    every task keeps the bookkeeping. *)
Lemma qinv_core (ex : option string) (st st' : View) (q : list string)
      (pos : Position) :
  (forall k, option_map f_state (st' k) = option_map f_state (st k)) ->
  (forall k, option_map f_deps (st' k) = option_map f_deps (st k)) ->
  qinv ex st q pos -> qinv ex st' q pos.
Proof.
  intros ES ED I.
  assert (L : forall k b, st' k = Some b ->
                          exists a, st k = Some a
                                    /\ f_state a = f_state b
                                    /\ f_deps a = f_deps b).
  { intros k b H. pose proof (ES k) as E1. pose proof (ED k) as E2.
    rewrite H in E1, E2. destruct (st k) as [a|]; [|discriminate].
    exists a. simpl in E1, E2. split; [reflexivity|]. split; congruence. }
  constructor.
  - exact (q_nodup _ _ _ _ I).
  - intros k H E. apply (q_known _ _ _ _ I k H).
    pose proof (ES k) as E1. rewrite E in E1.
    destruct (st k); [discriminate|reflexivity].
  - intros k b H. destruct (L k b H) as (a & Ha & S & D). rewrite <- S.
    now apply (q_running _ _ _ _ I).
  - intros k b H. destruct (L k b H) as (a & Ha & S & D). rewrite <- S.
    now apply (q_retrying _ _ _ _ I).
  - intros k b H Q. destruct (L k b H) as (a & Ha & S & D). rewrite <- S.
    now apply (q_queued _ _ _ _ I k a Ha).
  - intros k b H C. destruct (L k b H) as (a & Ha & S & D).
    rewrite <- S in C. pose proof (q_deps _ _ _ _ I k a Ha C) as DC.
    intros d Hd. rewrite ES. apply DC. now rewrite D.
  - intros k b H Sq N. destruct (L k b H) as (a & Ha & S & D).
    apply (q_kept _ _ _ _ I k a Ha); [congruence|exact N].
Qed.

Lemma changes_core (id : string) (a a' : Facts) (st st' : View) :
  changes_at id a a' st st' -> f_state a' = f_state a ->
  (forall k, option_map f_state (st' k) = option_map f_state (st k))
  /\ (forall k, option_map f_deps (st' k) = option_map f_deps (st k)).
Proof.
  intros (H1 & H2 & H3 & H4) S.
  split; intros k; (destruct (string_dec k id) as [->|N];
                    [rewrite H1, H2; simpl; congruence|now rewrite H4]).
Qed.

(** ** The operations of the manager and the bookkeeping *)

Lemma view_modify (id k : string) (f : ManagedTask -> ManagedTask) (m : t) :
  (forall x, task_id (f x) = task_id x) ->
  view (modify id f m) k
  = if String.eqb k id
    then option_map (fun x => facts (f x)) (get_task_info k m)
    else view m k.
Proof.
  intros Hf. unfold view. rewrite get_modify by exact Hf.
  destruct (String.eqb k id); destruct (get_task_info k m); reflexivity.
Qed.

Lemma view_modify_same (id : string) (f : ManagedTask -> ManagedTask)
      (m : t) :
  (forall x, task_id (f x) = task_id x) ->
  (forall x, facts (f x) = facts x) ->
  forall k, view (modify id f m) k = view m k.
Proof.
  intros Hf Hs k. rewrite view_modify by exact Hf. unfold view.
  destruct (String.eqb k id); [|reflexivity].
  destruct (get_task_info k m); simpl; [now rewrite Hs|reflexivity].
Qed.

Lemma changes_modify (id : string) (f : ManagedTask -> ManagedTask) (m : t)
      (x : ManagedTask) :
  (forall y, task_id (f y) = task_id y) ->
  config (f x) = config x ->
  get_task_info id m = Some x ->
  changes_at id (facts x) (facts (f x)) (view m) (view (modify id f m)).
Proof.
  intros Hf Hc G. unfold changes_at.
  split; [unfold view; now rewrite G|].
  split; [rewrite view_modify by exact Hf; now rewrite String.eqb_refl, G|].
  split; [unfold facts; cbn [f_deps]; now rewrite Hc|].
  intros k N. rewrite view_modify by exact Hf.
  apply String.eqb_neq in N. now rewrite N.
Qed.

Lemma view_modify_unknown (id : string) (f : ManagedTask -> ManagedTask)
      (m : t) :
  (forall y, task_id (f y) = task_id y) ->
  get_task_info id m = None ->
  forall k, view (modify id f m) k = view m k.
Proof.
  intros Hf G k. rewrite view_modify by exact Hf.
  destruct (String.eqb k id) eqn:E; [|reflexivity].
  apply String.eqb_eq in E. subst k. unfold view. now rewrite G.
Qed.

Lemma changes_ext (id : string) (a a' : Facts) (st0 st st' : View) :
  (forall k, st k = st0 k) ->
  changes_at id a a' st st' -> changes_at id a a' st0 st'.
Proof.
  intros E (H1 & H2 & H3 & H4). unfold changes_at.
  rewrite <- E. repeat split; auto. intros k N. rewrite <- E. now apply H4.
Qed.

Lemma perm_snoc_front (q r : list string) (x : string) :
  Permutation ((q ++ [x]) ++ r) (x :: q ++ r).
Proof.
  rewrite <- app_assoc. simpl. symmetry. apply Permutation_middle.
Qed.

Lemma perm_under (a l l0 : list string) (x : string) :
  Permutation l (x :: l0) -> Permutation (a ++ l) (x :: a ++ l0).
Proof.
  intros P. transitivity (a ++ x :: l0).
  - now apply Permutation_app_head.
  - symmetry. apply Permutation_middle.
Qed.

Lemma enqueue_perm (x : ManagedTask) (m : t) :
  Permutation (queued_ids (_enqueue_task x m)) (task_id x :: queued_ids m).
Proof.
  unfold queued_ids, _enqueue_task.
  destruct (TaskConfig.priority (config x));
    cbn [_priority_queues with_queues priority_eqb priority_value
         Z.eqb Pos.eqb].
  - do 3 apply perm_under. symmetry. apply Permutation_cons_append.
  - do 2 apply perm_under. apply perm_snoc_front.
  - apply perm_under. apply perm_snoc_front.
  - apply perm_snoc_front.
Qed.

Lemma pop_perm (p : TaskPriority) (id : string) (tail : list string)
      (m : t) :
  _priority_queues m p = id :: tail ->
  Permutation
    (queued_ids m)
    (id :: queued_ids
             (with_queues
                (fun q => if priority_eqb q p then tail
                          else _priority_queues m q) m)).
Proof.
  intros Q. unfold queued_ids.
  destruct p;
    cbn [_priority_queues with_queues priority_eqb priority_value
         Z.eqb Pos.eqb]; rewrite Q.
  - do 3 apply perm_under. reflexivity.
  - do 2 apply perm_under. reflexivity.
  - apply perm_under. reflexivity.
  - reflexivity.
Qed.

Lemma qinv_not_pending (ex : option string) (st : View) (q : list string)
      (pos : Position) (id : string) (a : Facts) :
  qinv ex st q pos -> st id = Some a ->
  f_state a = WAITING \/ final (f_state a) = true ->
  ~ In id (pending q pos).
Proof.
  intros I H S P. unfold pending in P. apply in_app_or in P.
  assert (C : f_state a = QUEUED \/ f_state a = CANCELLED
              \/ f_state a = RUNNING \/ f_state a = RETRYING).
  { destruct P as [P|P].
    - destruct pos as [|k|k|k]; simpl in P; [destruct P| | |];
        destruct P as [<-|[]].
      + destruct (q_queued _ _ _ _ I k a H (or_intror eq_refl)); auto.
      + right. right. left. now apply (q_running _ _ _ _ I k a H).
      + right. right. right. now apply (q_retrying _ _ _ _ I k a H).
    - destruct (q_queued _ _ _ _ I id a H (or_introl P)); auto. }
  destruct S as [S|S];
    destruct C as [C|[C|[C|C]]]; rewrite C in S; discriminate.
Qed.

(** The dependency check either leaves every task as it is, up to the
    recorded dependents, or cancels the task it checks. *)
Lemma check_dependencies_loop_view
      (id : string) (flag : bool) (deps : list string) (m : t) :
  let m' := fst (check_dependencies_loop id flag deps m) in
  (forall p, _priority_queues m' p = _priority_queues m p)
  /\ _task_counter m' = _task_counter m
  /\ ((forall k, view m' k = view m k)
      \/ (snd (check_dependencies_loop id flag deps m) = false
          /\ exists a a',
            changes_at id a a' (view m) (view m')
            /\ f_state a' = CANCELLED)).
Proof.
  cbv zeta. revert m. induction deps as [|d deps IH]; intros m; simpl.
  - split; [reflexivity|]. split; [reflexivity|]. now left.
  - destruct (get_task_info d m) as [y|] eqn:Gd;
      [|split; [reflexivity|]; split; [reflexivity|]; now left].
    assert (V1 : forall k, view (modify d (add_dependent id) m) k = view m k)
      by (apply view_modify_same; reflexivity).
    destruct (state_eqb (state y) COMPLETED).
    + destruct (IH (modify d (add_dependent id) m)) as (Q & C & V).
      split; [exact Q|]. split; [exact C|].
      destruct V as [V|(F & a & a' & Ch & S)].
      * left. intros k. now rewrite V.
      * right. split; [exact F|]. exists a, a'. split; [|exact S].
        eapply changes_ext; [exact V1|exact Ch].
    + destruct (state_eqb (state y) FAILED && flag); cbn [fst snd].
      * split; [reflexivity|]. split; [reflexivity|].
        destruct (get_task_info id (modify d (add_dependent id) m))
          as [x|] eqn:G.
        -- right. split; [reflexivity|].
           exists (facts x),
             (facts (set_error (Some (dependency_failed d))
                               (set_state CANCELLED x))).
           split; [|reflexivity].
           eapply changes_ext; [exact V1|].
           change (view (add_cancelled 1 ?X)) with (view X).
           apply (changes_modify
                    id (fun x0 => set_error (Some (dependency_failed d))
                                            (set_state CANCELLED x0)) _ x);
             [reflexivity|reflexivity|exact G].
        -- left. intros k.
           change (view (add_cancelled 1 ?X) k) with (view X k).
           rewrite view_modify_unknown; [apply V1|reflexivity|exact G].
      * split; [reflexivity|]. split; [reflexivity|]. now left.
Qed.

Lemma check_dependencies_view (id : string) (m : t) :
  let m' := fst (_check_dependencies id m) in
  (forall p, _priority_queues m' p = _priority_queues m p)
  /\ _task_counter m' = _task_counter m
  /\ ((forall k, view m' k = view m k)
      \/ (snd (_check_dependencies id m) = false
          /\ exists a a',
            changes_at id a a' (view m) (view m')
            /\ f_state a' = CANCELLED)).
Proof.
  cbv zeta. unfold _check_dependencies.
  change (get_task_info id (with_dep_checks (dep_checks m ++ [id]) m))
    with (get_task_info id m).
  destruct (get_task_info id m) as [x|].
  - apply (check_dependencies_loop_view
             id _ _ (with_dep_checks (dep_checks m ++ [id]) m)).
  - split; [reflexivity|]. split; [reflexivity|]. now left.
Qed.

Lemma check_dependencies_true_view (id : string) (m : t) :
  snd (_check_dependencies id m) = true ->
  exists a, view m id = Some a /\ deps_completed (view m) a.
Proof.
  unfold _check_dependencies.
  change (get_task_info id (with_dep_checks (dep_checks m ++ [id]) m))
    with (get_task_info id m).
  destruct (get_task_info id m) as [x|] eqn:G; [|discriminate].
  intros T0.
  pose proof (proj1 (check_dependencies_loop_true_iff _ _ _ _) T0) as T.
  exists (facts x). split; [unfold view; now rewrite G|].
  intros d Hd. specialize (T d Hd).
  change (get_task_info d (with_dep_checks (dep_checks m ++ [id]) m))
    with (get_task_info d m) in T.
  unfold view. destruct (get_task_info d m); [exact T|discriminate].
Qed.

Lemma make_ready_view (id : string) (m : t) (x : ManagedTask) :
  get_task_info id m = Some x ->
  changes_at id (facts x) (facts (set_state QUEUED x))
             (view m) (view (make_ready id m))
  /\ Permutation (queued_ids (make_ready id m)) (id :: queued_ids m)
  /\ _task_counter (make_ready id m) = _task_counter m.
Proof.
  intros G. unfold make_ready.
  assert (G1 : get_task_info id (modify id (set_state QUEUED) m)
               = Some (set_state QUEUED x)).
  { rewrite get_modify by reflexivity. now rewrite G, String.eqb_refl. }
  rewrite G1.
  split; [|split; [|reflexivity]].
  - change (view (_enqueue_task ?y ?mm)) with (view mm).
    apply changes_modify; [reflexivity|reflexivity|exact G].
  - pose proof (enqueue_perm (set_state QUEUED x)
                             (modify id (set_state QUEUED) m)) as P.
    cbn [task_id set_state] in P.
    rewrite (get_task_info_id _ _ _ G) in P. exact P.
Qed.

Lemma keeps_inv_refl (pos : Position) (m : t) :
  qinv None (view m) (queued_ids m) pos -> keeps_inv pos m m.
Proof. intros I. split; [exact I|]. split; [apply vstep_refl|reflexivity]. Qed.

Lemma keeps_inv_trans (pos1 pos2 : Position) (m0 m1 m2 : t) :
  keeps_inv pos1 m0 m1 -> keeps_inv pos2 m1 m2 -> keeps_inv pos2 m0 m2.
Proof.
  intros (I1 & V1 & C1) (I2 & V2 & C2).
  split; [exact I2|]. split; [eapply vstep_trans; eassumption|congruence].
Qed.

Lemma queued_ids_ext (m m' : t) :
  (forall p, _priority_queues m' p = _priority_queues m p) ->
  queued_ids m' = queued_ids m.
Proof. intros E. unfold queued_ids. now rewrite !E. Qed.

Lemma recheck_if_waiting_keeps (pos : Position) (m : t) (id : string) :
  qinv None (view m) (queued_ids m) pos ->
  keeps_inv pos m (recheck_if_waiting m id).
Proof.
  intros I. unfold recheck_if_waiting.
  destruct (get_task_info id m) as [x|] eqn:G; [|now apply keeps_inv_refl].
  destruct (state_eqb (state x) WAITING) eqn:S; [|now apply keeps_inv_refl].
  apply state_eqb_eq in S.
  assert (A : view m id = Some (facts x)) by (unfold view; now rewrite G).
  assert (NP : ~ In id (pending (queued_ids m) pos)).
  { eapply qinv_not_pending; [exact I|exact A|now left]. }
  pose proof (check_dependencies_view id m) as CV.
  pose proof (check_dependencies_true_view id m) as CT.
  destruct (_check_dependencies id m) as [m1 ok]. cbn [fst snd] in CV, CT.
  destruct CV as (Q & C & V).
  pose proof (queued_ids_ext _ _ Q) as QE.
  destruct ok.
  - destruct V as [V|[F _]]; [|discriminate].
    destruct (CT eq_refl) as (a & Ha & D).
    assert (a = facts x) by congruence. subst a.
    assert (I1 : qinv None (view m1) (queued_ids m1) pos).
    { eapply qinv_same; [exact V| |exact I]. now rewrite QE. }
    destruct (get_task_info id m1) as [x1|] eqn:G1.
    + assert (F1 : facts x1 = facts x).
      { pose proof (V id) as E. unfold view in E. rewrite G, G1 in E.
        cbn [option_map] in E. congruence. }
      destruct (make_ready_view id m1 x1 G1) as (Ch & P & Cn).
      assert (S1 : f_state (facts x1) = WAITING) by (rewrite F1; exact S).
      split; [|split].
      * eapply qinv_same; [reflexivity|symmetry; exact P|].
        eapply (qinv_ready None (view m1)); try exact Ch; try exact I1;
          try (rewrite S1; discriminate); try reflexivity.
        -- now left.
        -- now rewrite QE.
        -- rewrite F1. eapply deps_completed_same; [exact V|exact D].
      * eapply vstep_trans; [apply vstep_same; exact V|].
        eapply vstep_change; [exact Ch| |].
        -- rewrite S1. now apply moves_one.
        -- rewrite S1. discriminate.
      * congruence.
    + exfalso. pose proof (V id) as E. unfold view in E.
      rewrite G, G1 in E. discriminate.
  - destruct V as [V|(_ & a & a' & Ch & T)].
    + split; [|split; [apply vstep_same; exact V|exact C]].
      eapply qinv_same; [exact V| |exact I]. now rewrite QE.
    + assert (a = facts x) by (destruct Ch as [Ch _]; congruence). subst a.
      split; [|split; [|exact C]].
      * rewrite QE.
        eapply qinv_passive; try exact Ch; try exact I;
          try (cbn [facts f_state]; rewrite S; discriminate);
          now left.
      * eapply vstep_change; [exact Ch| |].
        -- cbn [facts f_state]. rewrite S, T. now apply moves_one.
        -- cbn [facts f_state]. rewrite S. discriminate.
Qed.

Lemma fold_recheck_keeps (pos : Position) (l : list string) (m : t) :
  qinv None (view m) (queued_ids m) pos ->
  keeps_inv pos m (fold_left recheck_if_waiting l m).
Proof.
  revert m. induction l as [|id l IH]; intros m I; cbn [fold_left].
  - now apply keeps_inv_refl.
  - pose proof (recheck_if_waiting_keeps pos m id I) as K.
    eapply keeps_inv_trans; [exact K|]. apply IH. apply K.
Qed.

Lemma notify_dependents_keeps (pos : Position) (id : string) (m : t) :
  qinv None (view m) (queued_ids m) pos ->
  keeps_inv pos m (_notify_dependents id m).
Proof.
  intros I. unfold _notify_dependents.
  destruct (get_task_info id m); [now apply fold_recheck_keeps|].
  now apply keeps_inv_refl.
Qed.

Lemma check_waiting_tasks_keeps (pos : Position) (m : t) :
  qinv None (view m) (queued_ids m) pos ->
  keeps_inv pos m (_check_waiting_tasks m).
Proof. apply fold_recheck_keeps. Qed.

(** ** Task ids *)

Lemma append_underscore_inj (d1 d2 : Decimal.uint) (t1 t2 : string) :
  (NilEmpty.string_of_uint d1 ++ String "_" t1)%string
  = (NilEmpty.string_of_uint d2 ++ String "_" t2)%string ->
  NilEmpty.string_of_uint d1 = NilEmpty.string_of_uint d2.
Proof.
  revert d2.
  induction d1; intros d2; destruct d2;
    cbn [NilEmpty.string_of_uint String.append]; intros E;
      try reflexivity; try discriminate;
        injection E as E; try (f_equal; now apply IHd1).
Qed.

Lemma to_uint_nonnil (n : nat) : Nat.to_uint n <> Decimal.Nil.
Proof.
  rewrite <- (DecimalNat.Unsigned.of_to n) at 1.
  rewrite DecimalNat.Unsigned.to_of. apply DecimalFacts.unorm_nonnil.
Qed.

Lemma py_str_nat_digits (n : nat) :
  py_str_nat n = NilEmpty.string_of_uint (Nat.to_uint n).
Proof.
  unfold py_str_nat, NilZero.string_of_uint.
  pose proof (to_uint_nonnil n) as N.
  destruct (Nat.to_uint n); [contradiction|reflexivity..].
Qed.

(** Two ids made from different counter values differ, whatever the clock
    says. *)
Lemma make_task_id_inj (c1 c2 : nat) (ms1 ms2 : Z) :
  make_task_id c1 ms1 = make_task_id c2 ms2 -> c1 = c2.
Proof.
  unfold make_task_id. rewrite !py_str_nat_digits.
  cbn [String.append]. intros E. repeat injection E as E.
  apply append_underscore_inj in E.
  apply DecimalNat.Unsigned.to_uint_inj.
  assert (U : NilEmpty.uint_of_string
                (NilEmpty.string_of_uint (Nat.to_uint c1))
              = NilEmpty.uint_of_string
                  (NilEmpty.string_of_uint (Nat.to_uint c2)))
    by now rewrite E.
  rewrite !NilEmpty.usu in U. now injection U.
Qed.

Lemma get_dict_set (k : string) (x : ManagedTask) (l : list ManagedTask) :
  find (fun y => String.eqb (task_id y) k) (dict_set x l)
  = if String.eqb (task_id x) k then Some x
    else find (fun y => String.eqb (task_id y) k) l.
Proof.
  unfold dict_set.
  destruct (existsb _ l) eqn:E.
  - induction l as [|a l IH]; [discriminate|].
    cbn [existsb map find] in *.
    destruct (String.eqb (task_id a) (task_id x)) eqn:A.
    + apply String.eqb_eq in A. rewrite A.
      destruct (String.eqb (task_id x) k) eqn:B; [reflexivity|].
      clear IH E. induction l as [|b l IH]; [reflexivity|].
      cbn [map find].
      destruct (String.eqb (task_id b) (task_id x)) eqn:C.
      * rewrite B. apply String.eqb_eq in C. rewrite C, B. exact IH.
      * destruct (String.eqb (task_id b) k); [reflexivity|exact IH].
    + simpl in E. destruct (String.eqb (task_id a) k) eqn:B.
      * destruct (String.eqb (task_id x) k) eqn:C; [|reflexivity].
        apply String.eqb_eq in B, C. apply String.eqb_neq in A. congruence.
      * now apply IH.
  - induction l as [|a l IH].
    + cbn [app find]. now destruct (String.eqb (task_id x) k).
    + cbn [existsb app find] in *.
      apply orb_false_iff in E. destruct E as [A E].
      destruct (String.eqb (task_id a) k) eqn:B.
      * destruct (String.eqb (task_id x) k) eqn:C; [|reflexivity].
        apply String.eqb_eq in B, C. apply String.eqb_neq in A. congruence.
      * now apply IH.
Qed.

(** ** The executor's branches and the sweep *)

Lemma executing_known (m : t) (q : list string) (id : string) (pos : Position) :
  qinv None (view m) q pos -> In id (held_id pos) ->
  exists x, get_task_info id m = Some x.
Proof.
  intros I H.
  assert (K : view m id <> None).
  { apply (q_known _ _ _ _ I). unfold pending. apply in_or_app. now left. }
  unfold view in K. destruct (get_task_info id m) as [x|]; [eauto|].
  now contradiction K.
Qed.

Lemma on_task_success_keeps (id : string) (v : PyValue) (now : float)
      (m : t) :
  qinv None (view m) (queued_ids m) (Executing id) ->
  keeps_inv Idle m (_on_task_success id v now m).
Proof.
  intros I. unfold _on_task_success.
  destruct (executing_known m _ id _ I (or_introl eq_refl)) as [x G].
  set (f := fun x => set_end_time (Some now)
                                  (set_result v (set_state COMPLETED x))).
  pose proof (changes_modify id f m x (fun _ => eq_refl) eq_refl G) as Ch.
  assert (R : state x = RUNNING).
  { apply (q_running _ _ _ _ I id (facts x)); [|reflexivity].
    unfold view. now rewrite G. }
  assert (K1 : keeps_inv Idle m (add_completed 1 (modify id f m))).
  { split; [|split; [|reflexivity]].
    - change (qinv None (view (modify id f m)) (queued_ids m) Idle).
      eapply qinv_finish; [exact I|exact Ch|now left].
    - change (vstep (view m) (view (modify id f m))).
      eapply vstep_change; [exact Ch| |];
        cbn [facts f_state]; rewrite R; [now apply moves_one|discriminate]. }
  eapply keeps_inv_trans; [exact K1|].
  apply notify_dependents_keeps. apply K1.
Qed.

Lemma on_task_cancelled_keeps (id : string) (now : float) (m : t) :
  qinv None (view m) (queued_ids m) (Executing id) ->
  keeps_inv Idle m (_on_task_cancelled id now m).
Proof.
  intros I. unfold _on_task_cancelled.
  destruct (executing_known m _ id _ I (or_introl eq_refl)) as [x G].
  set (f := fun x => set_end_time (Some now) (set_state CANCELLED x)).
  pose proof (changes_modify id f m x (fun _ => eq_refl) eq_refl G) as Ch.
  assert (R : state x = RUNNING).
  { apply (q_running _ _ _ _ I id (facts x)); [|reflexivity].
    unfold view. now rewrite G. }
  assert (K1 : keeps_inv Idle m (add_cancelled 1 (modify id f m))).
  { split; [|split; [|reflexivity]].
    - change (qinv None (view (modify id f m)) (queued_ids m) Idle).
      eapply qinv_finish; [exact I|exact Ch|right; now right].
    - change (vstep (view m) (view (modify id f m))).
      eapply vstep_change; [exact Ch| |];
        cbn [facts f_state]; rewrite R; [now apply moves_one|discriminate]. }
  eapply keeps_inv_trans; [exact K1|].
  apply notify_dependents_keeps. apply K1.
Qed.

Lemma on_task_error_keeps (id : string) (e : Exception) (now : float)
      (m : t) :
  qinv None (view m) (queued_ids m) (Executing id) ->
  keeps_inv (if snd (_on_task_error id e now m) then Sleeping id else Idle)
            m (fst (_on_task_error id e now m)).
Proof.
  intros I. unfold _on_task_error.
  destruct (executing_known m _ id _ I (or_introl eq_refl)) as [x G].
  set (g := fun x => set_end_time (Some now) (set_error (Some e) x)).
  pose proof (changes_modify id g m x (fun _ => eq_refl) eq_refl G) as Ch1.
  assert (R : state x = RUNNING).
  { apply (q_running _ _ _ _ I id (facts x)); [|reflexivity].
    unfold view. now rewrite G. }
  assert (G1 : get_task_info id (modify id g m) = Some (g x)).
  { rewrite get_modify by reflexivity. now rewrite G, String.eqb_refl. }
  assert (K1 : keeps_inv (Executing id) m (modify id g m)).
  { split; [|split; [|reflexivity]].
    - destruct (changes_core _ _ _ _ _ Ch1 eq_refl) as [ES ED].
      change (queued_ids (modify id g m)) with (queued_ids m).
      eapply qinv_core; [exact ES|exact ED|exact I].
    - eapply vstep_change; [exact Ch1|apply moves_refl|].
      cbn [facts f_state]. rewrite R. discriminate. }
  rewrite G1.
  destruct (can_retry (g x)); cbn [fst snd].
  - set (h := fun y => set_state RETRYING
                                 (set_retry_count (retry_count y + 1) y)).
    pose proof (changes_modify id h _ (g x) (fun _ => eq_refl) eq_refl G1)
      as Ch2.
    eapply keeps_inv_trans; [exact K1|].
    split; [|split; [|reflexivity]].
    + change (qinv None (view (modify id h (modify id g m)))
                   (queued_ids (modify id g m)) (Sleeping id)).
      eapply qinv_retry; [apply K1|exact Ch2|reflexivity].
    + change (vstep (view (modify id g m))
                    (view (modify id h (modify id g m)))).
      eapply vstep_change; [exact Ch2| |];
        cbn [facts f_state g set_end_time set_error state]; rewrite R;
          [now apply moves_one|discriminate].
  - pose proof (changes_modify id (set_state FAILED) _ (g x)
                               (fun _ => eq_refl) eq_refl G1) as Ch2.
    assert (K2 : keeps_inv Idle (modify id g m)
                           (add_failed 1 (modify id (set_state FAILED)
                                                 (modify id g m)))).
    { split; [|split; [|reflexivity]].
      - change (qinv None (view (modify id (set_state FAILED) (modify id g m)))
                     (queued_ids (modify id g m)) Idle).
        eapply qinv_finish; [apply K1|exact Ch2|right; now left].
      - change (vstep (view (modify id g m))
                      (view (modify id (set_state FAILED) (modify id g m)))).
        eapply vstep_change; [exact Ch2| |];
          cbn [facts f_state g set_end_time set_error state]; rewrite R;
            [now apply moves_one|discriminate]. }
    eapply keeps_inv_trans; [exact K1|].
    eapply keeps_inv_trans; [exact K2|].
    apply notify_dependents_keeps. apply K2.
Qed.

Lemma on_task_error_requeue_keeps (id : string) (m : t) :
  qinv None (view m) (queued_ids m) (Sleeping id) ->
  keeps_inv Idle m (_on_task_error_requeue id m).
Proof.
  intros I. unfold _on_task_error_requeue.
  destruct (executing_known m _ id _ I (or_introl eq_refl)) as [x G].
  set (r := fun x =>
              set_error None
                (set_end_time None
                   (set_start_time None (set_task None (set_state QUEUED x))))).
  pose proof (changes_modify id r m x (fun _ => eq_refl) eq_refl G) as Ch.
  assert (R : state x = RETRYING).
  { apply (q_retrying _ _ _ _ I id (facts x)); [|reflexivity].
    unfold view. now rewrite G. }
  assert (G1 : get_task_info id (modify id r m) = Some (r x)).
  { rewrite get_modify by reflexivity. now rewrite G, String.eqb_refl. }
  rewrite G1.
  split; [|split; [|reflexivity]].
  - change (view (_enqueue_task (r x) (modify id r m)))
      with (view (modify id r m)).
    pose proof (enqueue_perm (r x) (modify id r m)) as P.
    cbn [task_id r set_error set_end_time set_start_time set_task set_state]
      in P.
    rewrite (get_task_info_id _ _ _ G) in P.
    eapply qinv_same; [reflexivity|symmetry; exact P|].
    change (queued_ids (modify id r m)) with (queued_ids m).
    eapply qinv_requeue; [exact I|exact Ch|reflexivity].
  - change (view (_enqueue_task (r x) (modify id r m)))
      with (view (modify id r m)).
    eapply vstep_change; [exact Ch| |];
      cbn [facts f_state]; rewrite R; [now apply moves_one|discriminate].
Qed.

Lemma changes_trans (id : string) (a b c : Facts) (st0 st1 st2 : View) :
  changes_at id a b st0 st1 -> changes_at id b c st1 st2 ->
  changes_at id a c st0 st2.
Proof.
  intros (A1 & A2 & A3 & A4) (B1 & B2 & B3 & B4). unfold changes_at.
  repeat split; try assumption; try congruence.
  intros k N. rewrite B4 by exact N. now apply A4.
Qed.

Lemma launch_view (id : string) (x x0 : ManagedTask) (now : float)
      (w : World) :
  get_task_info id (manager w) = Some x0 ->
  (exists a', changes_at id (facts x0) a' (view (manager w))
                         (view (manager (launch id x now w)))
              /\ f_state a' = RUNNING)
  /\ queued_ids (manager (launch id x now w)) = queued_ids (manager w)
  /\ _task_counter (manager (launch id x now w)) = _task_counter (manager w).
Proof.
  intros G. unfold launch.
  destruct (Asyncio.create_task (heap w)) as [h1 r].
  set (f1 := fun y => set_start_time (Some now) (set_state RUNNING y)).
  set (m1 := with_semaphore _ (manager w)).
  assert (C1 : changes_at id (facts x0) (facts (f1 x0)) (view (manager w))
                          (view (modify id f1 m1))).
  { apply (changes_modify id f1 m1 x0); [reflexivity|reflexivity|exact G]. }
  assert (G1 : get_task_info id (modify id f1 m1) = Some (f1 x0)).
  { rewrite get_modify by reflexivity.
    change (get_task_info id m1) with (get_task_info id (manager w)).
    now rewrite G, String.eqb_refl. }
  set (m2 := add_running 1 (modify id f1 m1)).
  assert (C2 : changes_at id (facts (f1 x0))
                          (facts (set_task (Some r) (f1 x0)))
                          (view (modify id f1 m1))
                          (view (modify id (set_task (Some r)) m2))).
  { apply (changes_modify id (set_task (Some r)) m2 (f1 x0));
      [reflexivity|reflexivity|exact G1]. }
  assert (G2 : get_task_info id (modify id (set_task (Some r)) m2)
               = Some (set_task (Some r) (f1 x0))).
  { rewrite get_modify by reflexivity.
    change (get_task_info id m2) with (get_task_info id (modify id f1 m1)).
    now rewrite G1, String.eqb_refl. }
  destruct (_watchdog (manager w) && TaskConfig.enable_watchdog (config x)).
  - destruct (Watchdog.register_task _ _ _ _ _ _ _) as [[wd1 h2] wid].
    cbn [manager]. split; [|split; reflexivity].
    eexists. split.
    + eapply changes_trans; [exact C1|].
      eapply changes_trans; [exact C2|].
      apply (changes_modify id (set_watchdog_id (Some wid)) _ _);
        [reflexivity|reflexivity|exact G2].
    + reflexivity.
  - cbn [manager]. split; [|split; reflexivity].
    eexists. split.
    + eapply changes_trans; [exact C1|exact C2].
    + reflexivity.
Qed.

Lemma sweep_keeps (ps : list TaskPriority) (now : float) (w : World) :
  qinv None (view (manager w)) (queued_ids (manager w)) Idle ->
  keeps_inv (position (scheduler (sweep ps now w)))
            (manager w) (manager (sweep ps now w)).
Proof.
  revert w. induction ps as [|p ps IH]; intros w I; cbn [sweep].
  - cbn [manager scheduler position]. now apply check_waiting_tasks_keeps.
  - destruct (_priority_queues (manager w) p) as [|id tail] eqn:Q;
      [now apply IH|].
    set (m1 := with_queues _ (manager w)).
    assert (I1 : qinv None (view m1) (queued_ids m1) (AtSemaphore id)).
    { apply qinv_pop. change (view m1) with (view (manager w)).
      eapply qinv_same; [reflexivity|exact (pop_perm p id tail _ Q)|exact I]. }
    destruct (get_task_info id m1) as [x|] eqn:G.
    + assert (K : keeps_inv (Executing id) (manager w)
                            (manager (launch id x now (with_manager m1 w)))).
      { destruct (launch_view id x x now (with_manager m1 w) G)
          as ((a' & Ch & T) & QE & CE).
        cbn [manager with_manager] in Ch, QE, CE.
        assert (S0 : f_state (facts x) = QUEUED
                     \/ f_state (facts x) = CANCELLED).
        { apply (q_queued _ _ _ _ I1 id); [|now right].
          unfold view. now rewrite G. }
        split; [|split; [|exact CE]].
        - rewrite QE. eapply qinv_launch; [exact I1|exact Ch|exact T].
        - change (view (manager w)) with (view m1).
          eapply vstep_change; [exact Ch| |].
          + rewrite T. destruct S0 as [S0|S0]; rewrite S0;
                         now apply moves_one.
          + destruct S0 as [S0|S0]; rewrite S0; discriminate. }
      assert (K0 : keeps_inv (AtSemaphore id) (manager w) m1).
      { split; [exact I1|]. split; [apply vstep_refl|reflexivity]. }
      destruct (_semaphore m1) as [v|]; [destruct (0 <? v)|];
        cbn [manager scheduler with_scheduler position];
        [exact K|exact K0|exact K0].
    + exfalso. apply (q_known _ _ _ _ I1 id); [now left|].
      unfold view. now rewrite G.
Qed.

(** ** Submission and cancellation *)

Lemma issued_fresh (m : t) (ms : Z) :
  issued m -> view m (make_task_id (S (_task_counter m)) ms) = None.
Proof.
  intros Is. destruct (view m _) as [a|] eqn:E; [|reflexivity].
  destruct (Is (make_task_id (S (_task_counter m)) ms)) as (c & ms' & Hc & Eq).
  - rewrite E. discriminate.
  - apply make_task_id_inj in Eq. lia.
Qed.

Lemma submit_task_keeps
      (nm : option string) (cfg : option TaskConfig.t) (now : float)
      (millis : Z) (m m' : t) (pos : Position) (id : string) :
  qinv None (view m) (queued_ids m) pos -> issued m ->
  submit_task nm cfg now millis m = inr (id, m') ->
  qinv None (view m') (queued_ids m') pos
  /\ id = make_task_id (S (_task_counter m)) millis
  /\ view m id = None
  /\ view m' id <> None
  /\ (forall k, k <> id -> view m' k = view m k)
  /\ _task_counter m' = S (_task_counter m).
Proof.
  intros I Is. pose proof (issued_fresh m millis Is) as Fr.
  unfold submit_task. destruct (_running m); [|discriminate].
  cbn [negb]. cbv zeta.
  set (id0 := make_task_id (S (_task_counter m)) millis) in *.
  match goal with
  | |- context [dict_set ?x _] => set (new := x)
  end.
  match goal with
  | |- context [add_submitted 1 ?mm] => set (m3 := add_submitted 1 mm)
  end.
  assert (V3 : forall k, view m3 k
                         = if String.eqb id0 k then Some (facts new)
                           else view m k).
  { intros k. unfold view, get_task_info.
    cbn [m3 _tasks add_submitted with_stats with_tasks with_counter].
    rewrite get_dict_set. cbn [new task_id].
    now destruct (String.eqb id0 k). }
  assert (G3 : get_task_info id0 m3 = Some new).
  { unfold get_task_info.
    cbn [m3 _tasks add_submitted with_stats with_tasks with_counter].
    rewrite get_dict_set. cbn [new task_id]. now rewrite String.eqb_refl. }
  assert (O3 : forall k, k <> id0 -> view m3 k = view m k).
  { intros k N. rewrite V3.
    destruct (String.eqb id0 k) eqn:E; [|reflexivity].
    apply String.eqb_eq in E. congruence. }
  assert (I3 : qinv (Some id0) (view m3) (queued_ids m) pos).
  { apply (qinv_new (view m) _ _ _ id0 (facts new));
      [exact I|exact Fr| |exact O3|now left].
    rewrite V3. now rewrite String.eqb_refl. }
  assert (NP : ~ In id0 (pending (queued_ids m) pos)).
  { intros H. now apply (q_known _ _ _ _ I) in H. }
  assert (A3 : view m3 id0 = Some (facts new))
    by (unfold view; now rewrite G3).
  destruct (TaskConfig.dependencies
              match cfg with Some k => k | None => TaskConfig.default end)
    as [|d ds] eqn:Deps.
  - intros H. injection H as <- <-.
    destruct (make_ready_view id0 m3 new G3) as (Ch & P & Cn).
    split; [|split; [reflexivity|]; split; [exact Fr|]; split; [|split]].
    + eapply qinv_same; [reflexivity|symmetry; exact P|].
      change (queued_ids m3) with (queued_ids m).
      eapply (qinv_ready (Some id0) (view m3)); try exact Ch; try exact I3;
        try discriminate; try reflexivity; try exact NP.
      * now right.
      * intros d Hd. cbn [facts f_deps new config] in Hd.
        rewrite Deps in Hd. destruct Hd.
    + destruct Ch as (_ & C2 & _). rewrite C2. discriminate.
    + intros k N. destruct Ch as (_ & _ & _ & C4).
      rewrite C4 by exact N. now apply O3.
    + exact Cn.
  - pose proof (check_dependencies_view id0 m3) as CV.
    pose proof (check_dependencies_true_view id0 m3) as CT.
    destruct (_check_dependencies id0 m3) as [m4 ok]. cbn [fst snd] in CV, CT.
    destruct CV as (Q & C & V).
    pose proof (queued_ids_ext _ _ Q) as QE.
    change (queued_ids m3) with (queued_ids m) in QE.
    change (_task_counter m3) with (S (_task_counter m)) in C.
    destruct ok; intros H; injection H as <- <-.
    + destruct V as [V|[F _]]; [|discriminate].
      destruct (CT eq_refl) as (a & Ha & D).
      assert (a = facts new) by congruence. subst a.
      assert (I4 : qinv (Some id0) (view m4) (queued_ids m4) pos).
      { eapply qinv_same; [exact V| |exact I3]. now rewrite QE. }
      destruct (get_task_info id0 m4) as [x4|] eqn:G4.
      2: { exfalso. pose proof (V id0) as E. unfold view in E.
           rewrite G3, G4 in E. discriminate. }
      assert (F4 : facts x4 = facts new).
      { pose proof (V id0) as E. unfold view in E. rewrite G3, G4 in E.
        cbn [option_map] in E. congruence. }
      destruct (make_ready_view id0 m4 x4 G4) as (Ch & P & Cn).
      split; [|split; [reflexivity|]; split; [exact Fr|]; split; [|split]].
      * eapply qinv_same; [reflexivity|symmetry; exact P|].
        eapply (qinv_ready (Some id0) (view m4)); try exact Ch;
          try exact I4; try (rewrite F4; discriminate); try reflexivity.
        -- now right.
        -- now rewrite QE.
        -- rewrite F4. eapply deps_completed_same; [exact V|exact D].
      * destruct Ch as (_ & C2 & _). rewrite C2. discriminate.
      * intros k N. destruct Ch as (_ & _ & _ & C4).
        rewrite C4 by exact N. rewrite V. now apply O3.
      * congruence.
    + assert (W4 : exists a4 ex,
                 view m4 id0 = Some a4
                 /\ (f_state a4 = QUEUED \/ f_state a4 = CANCELLED)
                 /\ (ex = None \/ ex = Some id0)
                 /\ qinv ex (view m4) (queued_ids m4) pos
                 /\ forall k, k <> id0 -> view m4 k = view m k).
      { destruct V as [V|(_ & a & a' & Ch & T)].
        - exists (facts new), (Some id0).
          split; [now rewrite V|]. split; [now left|]. split; [now right|].
          split; [|intros k N; rewrite V; now apply O3].
          eapply qinv_same; [exact V| |exact I3]. now rewrite QE.
        - assert (a = facts new) by (destruct Ch as [Ch _]; congruence).
          subst a. exists a', None.
          split; [now destruct Ch as (_ & C2 & _)|]. split; [now right|].
          split; [now left|]. split.
          + rewrite QE.
            eapply qinv_passive; try exact Ch; try exact I3;
              try discriminate; [now right|now left].
          + intros k N. destruct Ch as (_ & _ & _ & C4).
            rewrite C4 by exact N. now apply O3. }
      destruct W4 as (a4 & ex & A4 & S4 & Ex & I4 & O4).
      destruct (get_task_info id0 m4) as [x4|] eqn:G4.
      2: { exfalso. unfold view in A4. rewrite G4 in A4. discriminate. }
      assert (a4 = facts x4).
      { unfold view in A4. rewrite G4 in A4. cbn [option_map] in A4.
        congruence. }
      subst a4.
      pose proof (changes_modify id0 (set_state WAITING) m4 x4
                                 (fun _ => eq_refl) eq_refl G4) as Ch.
      split; [|split; [reflexivity|]; split; [exact Fr|]; split; [|split]].
      * change (queued_ids (modify id0 (set_state WAITING) m4))
          with (queued_ids m4).
        eapply qinv_passive; try exact Ch; try exact I4; try exact Ex;
          try (destruct S4 as [S4|S4]; rewrite S4; discriminate).
        right. split; [reflexivity|]. now rewrite QE.
      * destruct Ch as (_ & C2 & _). rewrite C2. discriminate.
      * intros k N. destruct Ch as (_ & _ & _ & C4).
        rewrite C4 by exact N. now apply O4.
      * exact C.
Qed.

Lemma cancel_task_keeps (id : string) (w : World) (pos : Position) :
  qinv None (view (manager w)) (queued_ids (manager w)) pos ->
  keeps_inv pos (manager w) (manager (fst (cancel_task id w)))
  /\ scheduler (fst (cancel_task id w)) = scheduler w.
Proof.
  intros I. unfold cancel_task.
  destruct (get_task_info id (manager w)) as [x|] eqn:G;
    [|split; [now apply keeps_inv_refl|reflexivity]].
  pose proof (changes_modify id (set_state CANCELLED) (manager w) x
                             (fun _ => eq_refl) eq_refl G) as Ch.
  assert (K : state x = QUEUED \/ state x = WAITING ->
              keeps_inv pos (manager w)
                        (add_cancelled 1 (modify id (set_state CANCELLED)
                                                 (manager w)))).
  { intros S. split; [|split; [|reflexivity]].
    - change (qinv None (view (modify id (set_state CANCELLED) (manager w)))
                   (queued_ids (manager w)) pos).
      eapply qinv_passive; try exact Ch; try exact I;
        try (cbn [facts f_state]; destruct S as [S|S]; rewrite S;
             discriminate); now left.
    - change (vstep (view (manager w))
                    (view (modify id (set_state CANCELLED) (manager w)))).
      eapply vstep_change; [exact Ch| |];
        cbn [facts f_state set_state state]; destruct S as [S|S]; rewrite S;
          try (now apply moves_one); discriminate. }
  destruct (state x) eqn:S; [| |destruct (task x)| | | |];
    cbn [fst manager with_manager scheduler];
    first [split; [now apply keeps_inv_refl|reflexivity]
          |split; [apply K; auto|reflexivity]].
Qed.

(** ** Every event keeps the bookkeeping *)

Lemma keeps_system (w w' : World) :
  system_inv w ->
  keeps_inv (position (scheduler w')) (manager w) (manager w') ->
  system_inv w' /\ vmoves (view (manager w)) (view (manager w')).
Proof.
  intros [I Is] (I' & [V N] & C). split; [|exact V].
  constructor; [exact I'|].
  intros id K. destruct (Is id) as (c & ms & Hc & E).
  - intros E. apply K. now apply N.
  - exists c, ms. split; [congruence|exact E].
Qed.

Lemma stopped_idle (w : World) :
  system_inv w -> _tasks (manager w) = [] -> position (scheduler w) = Idle.
Proof.
  intros [I _] T.
  assert (E : forall k, view (manager w) k = None).
  { intros k. unfold view, get_task_info. now rewrite T. }
  destruct (position (scheduler w)) as [|k|k|k] eqn:P; [reflexivity|..];
    exfalso; apply (q_known _ _ _ _ I k); try apply E; now left.
Qed.

Lemma step_system_inv (w : World) (ev : Event) :
  scheduler_inv w -> system_inv w ->
  system_inv (step w ev)
  /\ vmoves (view (manager w)) (view (manager (step w ev))).
Proof.
  intros SI Sy. pose proof Sy as [I Is].
  assert (Same : system_inv w /\ vmoves (view (manager w)) (view (manager w))).
  { split; [exact Sy|]. apply vstep_refl. }
  destruct ev as [|nm cfg now millis|id|now|o now|now|now]; cbn [step].
  - (* Start *)
    unfold start. destruct (_running (manager w)) eqn:R; [exact Same|].
    pose proof (stopped_idle w Sy (inv_stopped w SI R)) as P.
    rewrite P in I.
    destruct (max_concurrent_tasks (manager w) <? 0);
      apply keeps_system; try exact Sy;
        cbn [scheduler manager with_manager position]; rewrite ?P;
          (split; [exact I|split; [apply vstep_refl|reflexivity]]).
  - (* Submit *)
    destruct (submit_task nm cfg now millis (manager w)) as [e|[id m']]
      eqn:Sub; [exact Same|].
    destruct (submit_task_keeps _ _ _ _ _ _ _ _ I Is Sub)
      as (I' & E & Fr & Kn & O & C).
    split; [constructor|].
    + exact I'.
    + cbn [manager with_manager]. intros k K.
      destruct (string_dec k id) as [->|N].
      * exists (S (_task_counter (manager w))), millis.
        split; [lia|exact E].
      * destruct (Is k) as (c & ms & Hc & Ek); [now rewrite <- O|].
        exists c, ms. split; [lia|exact Ek].
    + cbn [manager with_manager]. intros k a H.
      assert (N : k <> id) by (intros ->; congruence).
      exists a. rewrite O by exact N.
      repeat split; auto using moves_refl.
  - (* Cancel *)
    destruct (cancel_task_keeps id w _ I) as [K P].
    apply keeps_system; [exact Sy|]. now rewrite P.
  - (* SchedulerWake *)
    unfold scheduler_wake. destruct (scheduler w) eqn:P; try exact Same.
    cbn [position] in I.
    destruct (_running (manager w)).
    + apply keeps_system; [exact Sy|]. now apply sweep_keeps.
    + apply keeps_system; [exact Sy|].
      cbn [scheduler manager with_scheduler position].
      now apply keeps_inv_refl.
  - (* Settle *)
    unfold settle. destruct (scheduler w) as [| |? ?|id rest|? ?|] eqn:P;
      try exact Same.
    cbn [position] in I.
    destruct (settle_handle id o now w) as [wd1 h2].
    destruct o as [v|e|].
    + pose proof (on_task_success_keeps id v now (manager w) I) as K1.
      apply keeps_system; [exact Sy|].
      eapply keeps_inv_trans; [exact K1|].
      match goal with
      | |- context [sweep rest now ?W0] =>
        apply (sweep_keeps rest now W0)
      end.
      apply K1.
    + pose proof (on_task_error_keeps id e now (manager w) I) as K1.
      destruct (_on_task_error id e now (manager w)) as [m1 retry].
      cbn [fst snd] in K1. destruct retry.
      * apply keeps_system; [exact Sy|]. exact K1.
      * apply keeps_system; [exact Sy|].
        eapply keeps_inv_trans; [exact K1|].
        match goal with
        | |- context [sweep rest now ?W0] =>
          apply (sweep_keeps rest now W0)
        end.
        apply K1.
    + pose proof (on_task_cancelled_keeps id now (manager w) I) as K1.
      apply keeps_system; [exact Sy|].
      eapply keeps_inv_trans; [exact K1|].
      match goal with
      | |- context [sweep rest now ?W0] =>
        apply (sweep_keeps rest now W0)
      end.
      apply K1.
  - (* RetryWake *)
    unfold retry_wake. destruct (scheduler w) as [| |? ?|? ?|id rest|] eqn:P;
      try exact Same.
    cbn [position] in I.
    pose proof (on_task_error_requeue_keeps id (manager w) I) as K1.
    apply keeps_system; [exact Sy|].
    eapply keeps_inv_trans; [exact K1|].
    match goal with
    | |- context [sweep rest now ?W0] =>
      apply (sweep_keeps rest now W0)
    end.
    apply K1.
  - (* WatchdogTick *)
    unfold watchdog_tick.
    destruct (Watchdog._running (watchdog w)); [|exact Same].
    destruct (Watchdog._check_tasks now (watchdog w) (heap w)) as [wd1 h1].
    apply keeps_system; [exact Sy|].
    cbn [scheduler manager]. now apply keeps_inv_refl.
Qed.

Lemma new_world_system_inv (max_concurrent : Z) (enable_wd : bool)
      (interval : float) :
  system_inv (new_world max_concurrent enable_wd interval).
Proof.
  constructor.
  - constructor; cbn.
    + constructor.
    + intros id [].
    + intros id a H. discriminate.
    + intros id a H. discriminate.
    + intros id a H. discriminate.
    + intros id a H. discriminate.
    + intros id a H. discriminate.
  - intros id K. now contradiction K.
Qed.

Lemma run_system_inv (evs : list Event) (w : World) :
  scheduler_inv w -> system_inv w ->
  system_inv (run w evs)
  /\ vmoves (view (manager w)) (view (manager (run w evs))).
Proof.
  revert w. induction evs as [|ev evs IH]; intros w SI Sy; cbn [run fold_left].
  - split; [exact Sy|]. apply vstep_refl.
  - destruct (step_system_inv w ev SI Sy) as [Sy1 V1].
    destruct (IH (step w ev) (step_scheduler_inv w ev SI) Sy1) as [Sy2 V2].
    split; [exact Sy2|]. eapply vmoves_trans; [exact V1|exact V2].
Qed.

(** ** Permits and counters *)

Lemma check_dependencies_loop_ledger (id : string) (flag : bool)
      (deps : list string) (m : t) :
  ledger (fst (check_dependencies_loop id flag deps m)) = ledger m.
Proof.
  revert m. induction deps as [|d deps IH]; intros m; simpl; [reflexivity|].
  destruct (get_task_info d m) as [y|]; [|reflexivity].
  destruct (state_eqb (state y) COMPLETED); [now rewrite IH|].
  destruct (state_eqb (state y) FAILED && flag); reflexivity.
Qed.

Lemma check_dependencies_ledger (id : string) (m : t) :
  ledger (fst (_check_dependencies id m)) = ledger m.
Proof.
  unfold _check_dependencies.
  destruct (get_task_info id _); [|reflexivity].
  now rewrite check_dependencies_loop_ledger.
Qed.

Lemma make_ready_ledger (id : string) (m : t) :
  ledger (make_ready id m) = ledger m.
Proof. unfold make_ready. destruct (get_task_info id _); reflexivity. Qed.

Lemma recheck_if_waiting_ledger (m : t) (id : string) :
  ledger (recheck_if_waiting m id) = ledger m.
Proof.
  unfold recheck_if_waiting.
  destruct (get_task_info id m) as [x|]; [|reflexivity].
  destruct (state_eqb (state x) WAITING); [|reflexivity].
  pose proof (check_dependencies_ledger id m) as H.
  destruct (_check_dependencies id m) as [m1 ok]. simpl in H.
  destruct ok; [|exact H]. now rewrite make_ready_ledger.
Qed.

Lemma fold_recheck_ledger (l : list string) (m : t) :
  ledger (fold_left recheck_if_waiting l m) = ledger m.
Proof.
  revert m. induction l as [|id l IH]; intros m; simpl; [reflexivity|].
  now rewrite IH, recheck_if_waiting_ledger.
Qed.

Lemma notify_dependents_ledger (id : string) (m : t) :
  ledger (_notify_dependents id m) = ledger m.
Proof.
  unfold _notify_dependents.
  destruct (get_task_info id m); [apply fold_recheck_ledger|reflexivity].
Qed.

Lemma on_task_success_ledger (id : string) (v : PyValue) (now : float)
      (m : t) :
  ledger (_on_task_success id v now m) = ledger m.
Proof. unfold _on_task_success. now rewrite notify_dependents_ledger. Qed.

Lemma on_task_cancelled_ledger (id : string) (now : float) (m : t) :
  ledger (_on_task_cancelled id now m) = ledger m.
Proof. unfold _on_task_cancelled. now rewrite notify_dependents_ledger. Qed.

Lemma on_task_error_ledger (id : string) (e : Exception) (now : float)
      (m : t) :
  ledger (fst (_on_task_error id e now m)) = ledger m.
Proof.
  unfold _on_task_error. destruct (get_task_info id _) as [x|]; [|reflexivity].
  destruct (can_retry x); cbn [fst]; [reflexivity|].
  now rewrite notify_dependents_ledger.
Qed.

Lemma on_task_error_requeue_ledger (id : string) (m : t) :
  ledger (_on_task_error_requeue id m) = ledger m.
Proof.
  unfold _on_task_error_requeue. destruct (get_task_info id _); reflexivity.
Qed.

Lemma launch_ledger (id : string) (x : ManagedTask) (now : float)
      (w : World) :
  ledger (manager (launch id x now w))
  = (_task_counter (manager w), total_submitted (_stats (manager w)),
     option_map (fun v => v - 1) (_semaphore (manager w)),
     total_running (_stats (manager w)) + 1).
Proof.
  unfold launch.
  destruct (Asyncio.create_task (heap w)) as [h1 r].
  destruct (_watchdog (manager w) && TaskConfig.enable_watchdog (config x)).
  - destruct (Watchdog.register_task _ _ _ _ _ _ _) as [[wd1 h2] wid].
    unfold ledger. cbn. now destruct (_semaphore (manager w)).
  - unfold ledger. cbn. now destruct (_semaphore (manager w)).
Qed.

Lemma ledger_parts (m m' : t) :
  ledger m' = ledger m ->
  _task_counter m' = _task_counter m
  /\ total_submitted (_stats m') = total_submitted (_stats m)
  /\ _semaphore m' = _semaphore m
  /\ total_running (_stats m') = total_running (_stats m).
Proof. unfold ledger. intros E. injection E as -> -> -> ->. now repeat split. Qed.

Lemma settings_max (m m' : t) :
  settings m' = settings m ->
  max_concurrent_tasks m' = max_concurrent_tasks m.
Proof. unfold settings. intros E. now injection E. Qed.

(** A sweep that starts with every permit available ends with one permit
    taken if it has launched a task, and with none taken otherwise. *)
Lemma sweep_permits (ps : list TaskPriority) (now : float) (w : World) :
  total_running (_stats (manager w)) = 0 ->
  match _semaphore (manager w) with
  | Some v => v = max_concurrent_tasks (manager w)
  | None => True
  end ->
  permits_inv (sweep ps now w)
  /\ _task_counter (manager (sweep ps now w)) = _task_counter (manager w)
  /\ total_submitted (_stats (manager (sweep ps now w)))
     = total_submitted (_stats (manager w)).
Proof.
  revert w. induction ps as [|p ps IH]; intros w R S; cbn [sweep].
  - unfold permits_inv. cbn [manager scheduler position held].
    destruct (ledger_parts _ _ (fold_recheck_ledger
                                  (map task_id (_tasks (manager w)))
                                  (manager w))) as (C & T & Se & Ru).
    pose proof (settings_max _ _ (fold_recheck_settings
                                    (map task_id (_tasks (manager w)))
                                    (manager w))) as M.
    unfold _check_waiting_tasks. rewrite C, T, Se, Ru, M.
    split; [|split; reflexivity]. split; [exact R|].
    destruct (_semaphore (manager w)); [lia|reflexivity].
  - destruct (_priority_queues (manager w) p) as [|id tail]; [now apply IH|].
    set (m1 := with_queues _ (manager w)).
    destruct (get_task_info id m1) as [x|].
    + change (_semaphore m1) with (_semaphore (manager w)).
      destruct (_semaphore (manager w)) as [v|] eqn:Se.
      * destruct (0 <? v) eqn:Pos.
        -- pose proof (launch_ledger id x now (with_manager m1 w)) as L.
           pose proof (settings_max _ _ (launch_settings
                                           id x now (with_manager m1 w))) as M.
           cbn [manager with_manager] in L, M.
           change (_task_counter m1) with (_task_counter (manager w)) in L.
           change (_stats m1) with (_stats (manager w)) in L.
           change (_semaphore m1) with (_semaphore (manager w)) in L.
           change (max_concurrent_tasks m1)
             with (max_concurrent_tasks (manager w)) in M.
           rewrite Se in L. unfold ledger in L. injection L as L1 L2 L3 L4.
           unfold permits_inv.
           cbn [manager scheduler with_scheduler position held].
           rewrite L1, L2, L3, L4, M. cbn [option_map].
           split; [|split; reflexivity]. split; lia.
        -- unfold permits_inv.
           cbn [manager scheduler with_scheduler with_manager position held].
           change (_semaphore m1) with (_semaphore (manager w)).
           rewrite Se. split; [|split; reflexivity].
           split; [exact R|].
           change (max_concurrent_tasks m1)
             with (max_concurrent_tasks (manager w)). lia.
      * unfold permits_inv.
        cbn [manager scheduler with_scheduler with_manager position held].
        change (_semaphore m1) with (_semaphore (manager w)).
        rewrite Se. split; [|split; reflexivity]. split; [exact R|reflexivity].
    + apply (IH (with_manager m1 w)); [exact R|exact S].
Qed.

Lemma dict_set_length_fresh (x : ManagedTask) (m : t) :
  get_task_info (task_id x) m = None ->
  List.length (dict_set x (_tasks m)) = S (List.length (_tasks m)).
Proof.
  unfold get_task_info, dict_set. intros F.
  destruct (existsb _ (_tasks m)) eqn:E.
  - exfalso. apply existsb_exists in E. destruct E as [y [Hy Ey]].
    pose proof (find_none _ _ F y Hy) as N. cbn in N. congruence.
  - rewrite length_app. cbn [List.length]. lia.
Qed.

Lemma evolve_length (a : string -> TaskState -> bool) (m m' : t) :
  tasks_evolve a m m' -> List.length (_tasks m') = List.length (_tasks m).
Proof. intros H. symmetry. exact (Forall2_length H). Qed.

Lemma ids_length (m m' : t) :
  ids m' = ids m -> List.length (_tasks m') = List.length (_tasks m).
Proof.
  unfold ids. intros E.
  rewrite <- (length_map task_id (_tasks m')), E. apply length_map.
Qed.

Lemma submit_task_books
      (nm : option string) (cfg : option TaskConfig.t) (now : float)
      (millis : Z) (m m' : t) (id : string) :
  submit_task nm cfg now millis m = inr (id, m') ->
  (get_task_info id m = None ->
   List.length (_tasks m') = S (List.length (_tasks m)))
  /\ ledger m'
     = (S (_task_counter m), total_submitted (_stats m) + 1, _semaphore m,
        total_running (_stats m))
  /\ settings m' = settings m.
Proof.
  unfold submit_task. destruct (_running m) eqn:R; [|discriminate].
  cbn [negb]. cbv zeta.
  match goal with
  | |- context [dict_set ?x _] => set (new := x)
  end.
  match goal with
  | |- context [add_submitted 1 ?mm] => set (m3 := add_submitted 1 mm)
  end.
  assert (L3 : get_task_info (task_id new) m = None ->
               List.length (_tasks m3) = S (List.length (_tasks m))).
  { intros F. exact (dict_set_length_fresh new m F). }
  assert (S3 : settings m3 = settings m).
  { unfold settings. cbn. now rewrite R. }
  destruct (TaskConfig.dependencies _).
  - intros H. injection H as <- <-.
    split; [|split].
    + intros F.
      rewrite (evolve_length _ _ _ (make_ready_evolves _ m3)). now apply L3.
    + now rewrite make_ready_ledger.
    + now rewrite make_ready_settings.
  - pose proof (check_dependencies_evolves
                  (make_task_id (S (_task_counter m)) millis) m3) as He.
    pose proof (check_dependencies_ledger
                  (make_task_id (S (_task_counter m)) millis) m3) as Hl.
    pose proof (check_dependencies_settings
                  (make_task_id (S (_task_counter m)) millis) m3) as Hs.
    destruct (_check_dependencies _ m3) as [m4 ok]. cbn [fst] in He, Hl, Hs.
    destruct ok; intros H; injection H as <- <-.
    + split; [|split].
      * intros F. rewrite (evolve_length _ _ _ (make_ready_evolves _ m4)).
        rewrite (evolve_length _ _ _ He). now apply L3.
      * now rewrite make_ready_ledger, Hl.
      * now rewrite make_ready_settings, Hs.
    + split; [|split].
      * intros F.
        change (List.length (_tasks (modify ?i ?f m4)))
          with (List.length (map (fun x => if String.eqb (task_id x) i
                                           then f x else x) (_tasks m4))).
        rewrite length_map, (evolve_length _ _ _ He). now apply L3.
      * exact Hl.
      * transitivity (settings m4); [reflexivity|now rewrite Hs].
Qed.

Lemma view_none (m : t) (id : string) :
  view m id = None -> get_task_info id m = None.
Proof. unfold view. now destruct (get_task_info id m). Qed.

Lemma step_books (w : World) (ev : Event) :
  scheduler_inv w -> system_inv w -> books w -> books (step w ev).
Proof.
  intros SI Sy B. pose proof B as [[PR PS] BS BT]. pose proof Sy as [I Is].
  destruct ev as [|nm cfg now millis|id|now|o now|now|now]; cbn [step].
  - (* Start *)
    unfold start. destruct (_running (manager w)) eqn:R; [exact B|].
    pose proof (stopped_idle w Sy (inv_stopped w SI R)) as P.
    rewrite P in PR, PS. cbn [held] in PR, PS.
    destruct (max_concurrent_tasks (manager w) <? 0).
    + constructor; [|exact BS|exact BT].
      unfold permits_inv. cbn [manager scheduler with_manager].
      rewrite P. cbn [held]. split; [exact PR|].
      change (_semaphore (with_running true (manager w)))
        with (_semaphore (manager w)).
      exact PS.
    + constructor; [|exact BS|exact BT].
      unfold permits_inv. cbn [manager scheduler position held].
      split; [exact PR|]. cbn. lia.
  - (* Submit *)
    destruct (submit_task nm cfg now millis (manager w)) as [e|[id m']]
      eqn:Sub; [exact B|].
    destruct (submit_task_keeps _ _ _ _ _ _ _ _ I Is Sub)
      as (_ & _ & Fr & _).
    destruct (submit_task_books _ _ _ _ _ _ _ Sub) as (L & Le & St).
    specialize (L (view_none _ _ Fr)).
    unfold ledger in Le. injection Le as L1 L2 L3 L4.
    constructor; cbn [manager with_manager scheduler].
    + unfold permits_inv. cbn [manager with_manager scheduler].
      rewrite L3, L4, (settings_max _ _ St). split; assumption.
    + congruence.
    + rewrite L1, L2, BT. lia.
  - (* Cancel *)
    unfold cancel_task.
    destruct (get_task_info id (manager w)) as [x|]; [|exact B].
    destruct (state x), (task x); cbn [fst]; try exact B;
      (constructor; [exact (conj PR PS)| |exact BT]);
      cbn [manager with_manager];
      first [exact BS
            |change (List.length (_tasks (add_cancelled 1 (modify ?i ?f ?mm))))
               with (List.length (map (fun x => if String.eqb (task_id x) i
                                                then f x else x) (_tasks mm)));
             now rewrite length_map].
  - (* SchedulerWake *)
    unfold scheduler_wake. destruct (scheduler w) eqn:P; try exact B.
    cbn [position held] in PR, PS.
    destruct (_running (manager w)).
    + destruct (sweep_permits sweep_priorities now w) as (A & C & T).
      * exact PR.
      * destruct (_semaphore (manager w)); [lia|exact Logic.I].
      * constructor; [exact A| |congruence].
        rewrite (evolve_length _ _ _ (sweep_evolves _ _ _)). congruence.
    + constructor; [|exact BS|exact BT].
      unfold permits_inv. cbn [manager scheduler with_scheduler position held].
      split; [exact PR|exact PS].
  - (* Settle *)
    unfold settle. destruct (scheduler w) as [| |? ?|id rest|? ?|] eqn:P;
      try exact B.
    cbn [position held] in PR, PS.
    destruct (settle_handle id o now w) as [wd1 h2].
    assert (Go : forall m1,
               ledger m1 = ledger (manager w) ->
               settings m1 = settings (manager w) ->
               List.length (_tasks m1) = List.length (_tasks (manager w)) ->
               books (sweep rest now
                            (mkWorld (release_slot m1) wd1 h2
                                     (AwaitTask id rest)))).
    { intros m1 Le St Ln.
      destruct (ledger_parts _ _ Le) as (C & T & Se & Ru).
      pose proof (settings_max _ _ St) as M.
      destruct (sweep_permits
                  rest now (mkWorld (release_slot m1) wd1 h2
                                    (AwaitTask id rest)))
        as (A & C' & T').
      - cbn. rewrite Ru. lia.
      - cbn. rewrite Se. destruct (_semaphore (manager w)); [|exact Logic.I].
        rewrite M. lia.
      - cbn [manager] in C', T'.
        change (_task_counter (release_slot m1)) with (_task_counter m1) in C'.
        change (total_submitted (_stats (release_slot m1)))
          with (total_submitted (_stats m1)) in T'.
        constructor; [exact A| |congruence].
        rewrite (evolve_length _ _ _ (sweep_evolves _ _ _)). cbn [manager].
        change (_tasks (release_slot m1)) with (_tasks m1). congruence. }
    destruct o as [v|e|].
    + apply Go.
      * apply on_task_success_ledger.
      * apply on_task_success_frame.
      * apply ids_length. apply on_task_success_frame.
    + pose proof (on_task_error_ledger id e now (manager w)) as Le.
      pose proof (on_task_error_frame id e now (manager w)) as [Fi Fs].
      destruct (_on_task_error id e now (manager w)) as [m1 retry].
      cbn [fst] in Le, Fi, Fs. destruct retry.
      * destruct (ledger_parts _ _ Le) as (C & T & Se & Ru).
        constructor; cbn [manager]; [|rewrite (ids_length _ _ Fi)|]; try congruence.
        unfold permits_inv. cbn [manager scheduler position held].
        rewrite Ru, Se, (settings_max _ _ Fs). split; assumption.
      * apply Go; [exact Le|exact Fs|now apply ids_length].
    + apply Go.
      * apply on_task_cancelled_ledger.
      * apply on_task_cancelled_frame.
      * apply ids_length. apply on_task_cancelled_frame.
  - (* RetryWake *)
    unfold retry_wake. destruct (scheduler w) as [| |? ?|? ?|id rest|] eqn:P;
      try exact B.
    cbn [position held] in PR, PS.
    pose proof (on_task_error_requeue_ledger id (manager w)) as Le.
    pose proof (on_task_error_requeue_settings id (manager w)) as St.
    pose proof (evolve_length _ _ _ (on_task_error_requeue_evolves
                                       id (manager w))) as Ln.
    destruct (ledger_parts _ _ Le) as (C & T & Se & Ru).
    pose proof (settings_max _ _ St) as M.
    match goal with
    | |- books (sweep rest now ?W0) =>
      destruct (sweep_permits rest now W0) as (A & C' & T')
    end.
    + cbn. rewrite Ru. lia.
    + cbn. rewrite Se. destruct (_semaphore (manager w)); [|exact Logic.I].
      rewrite M. lia.
    + cbn [manager with_manager] in C', T'.
      change (_task_counter (release_slot ?mm)) with (_task_counter mm) in C'.
      change (total_submitted (_stats (release_slot ?mm)))
        with (total_submitted (_stats mm)) in T'.
      constructor; [exact A| |congruence].
      rewrite (evolve_length _ _ _ (sweep_evolves _ _ _)).
      cbn [manager with_manager].
      change (_tasks (release_slot ?mm)) with (_tasks mm). congruence.
  - (* WatchdogTick *)
    unfold watchdog_tick.
    destruct (Watchdog._running (watchdog w)); [|exact B].
    destruct (Watchdog._check_tasks now (watchdog w) (heap w)) as [wd1 h1].
    constructor; [exact (conj PR PS)|exact BS|exact BT].
Qed.

Lemma new_world_books (max_concurrent : Z) (enable_wd : bool)
      (interval : float) :
  books (new_world max_concurrent enable_wd interval).
Proof. constructor; [split|..]; reflexivity. Qed.

Lemma run_invariants (evs : list Event) (w : World) :
  scheduler_inv w -> system_inv w -> books w ->
  scheduler_inv (run w evs) /\ system_inv (run w evs) /\ books (run w evs).
Proof.
  revert w. induction evs as [|ev evs IH]; intros w SI Sy B;
    cbn [run fold_left]; [auto|].
  apply IH.
  - now apply step_scheduler_inv.
  - now apply step_system_inv.
  - now apply step_books.
Qed.

Lemma reachable_invariants (max_concurrent : Z) (enable_wd : bool)
      (interval : float) (evs : list Event) :
  let w := run (new_world max_concurrent enable_wd interval) evs in
  scheduler_inv w /\ system_inv w /\ books w.
Proof.
  apply run_invariants;
    [apply new_world_inv|apply new_world_system_inv|apply new_world_books].
Qed.

(** ** A manager without permits *)

Lemma sweep_blocked (ps : list TaskPriority) (now : float) (w : World) :
  match _semaphore (manager w) with
  | Some v => v <= 0
  | None => True
  end ->
  (forall id rest, scheduler (sweep ps now w) <> AwaitTask id rest
                   /\ scheduler (sweep ps now w) <> RetrySleep id rest)
  /\ _semaphore (manager (sweep ps now w)) = _semaphore (manager w).
Proof.
  revert w. induction ps as [|p ps IH]; intros w S; cbn [sweep].
  - cbn [scheduler manager]. split; [split; discriminate|].
    unfold _check_waiting_tasks.
    now destruct (ledger_parts _ _ (fold_recheck_ledger
                                      (map task_id (_tasks (manager w)))
                                      (manager w))) as (_ & _ & Se & _).
  - destruct (_priority_queues (manager w) p) as [|id tail]; [now apply IH|].
    set (m1 := with_queues _ (manager w)).
    destruct (get_task_info id m1) as [x|].
    + change (_semaphore m1) with (_semaphore (manager w)).
      destruct (_semaphore (manager w)) as [v|] eqn:Se.
      * assert (Pos : (0 <? v) = false) by (apply Z.ltb_ge; exact S).
        rewrite Pos. cbn [scheduler manager with_scheduler with_manager].
        split; [split; discriminate|exact Se].
      * cbn [scheduler manager with_scheduler with_manager].
        split; [split; discriminate|exact Se].
    + apply (IH (with_manager m1 w)). exact S.
Qed.

Lemma passive_evolves (m m' : t) :
  tasks_evolve passive m m' ->
  (forall x, In x (_tasks m) -> passive (task_id x) (state x) = true) ->
  forall y, In y (_tasks m') -> passive (task_id y) (state y) = true.
Proof.
  intros E H y Hy.
  destruct (Forall2_In_r _ _ _ _ E Hy) as [x [Hx [Hi [_ [_ St]]]]].
  destruct St as [St|St].
  - unfold passive. rewrite St. exact (H x Hx).
  - exact St.
Qed.

Lemma step_blocked (w : World) (ev : Event) :
  blocked w -> blocked (step w ev).
Proof.
  intros B. pose proof B as [M S P T].
  destruct ev as [|nm cfg now millis|id|now|o now|now|now]; cbn [step].
  - (* Start *)
    unfold start. destruct (_running (manager w)); [exact B|].
    destruct (max_concurrent_tasks (manager w) <? 0);
      constructor; cbn; try assumption; try (split; discriminate).
  - (* Submit *)
    destruct (submit_task nm cfg now millis (manager w)) as [e|[id m']]
      eqn:Sub; [exact B|].
    destruct (submit_task_evolves _ _ _ _ _ _ _ Sub)
      as [x0 [m0 [Q [_ [Tm [E [St Run]]]]]]].
    destruct (submit_task_books _ _ _ _ _ _ _ Sub) as (_ & Le & _).
    unfold ledger in Le. injection Le as _ _ L3 _.
    constructor; cbn [manager with_manager scheduler].
    + now rewrite (settings_max _ _ St).
    + now rewrite L3.
    + exact P.
    + apply (passive_evolves m0 m' E). intros x Hx. rewrite Tm in Hx.
      apply dict_set_In in Hx. destruct Hx as [->|Hx]; [|now apply T].
      unfold passive. now rewrite Q.
  - (* Cancel *)
    unfold cancel_task.
    destruct (get_task_info id (manager w)) as [x|]; [|exact B].
    destruct (state x), (task x); cbn [fst]; try exact B;
      (constructor; cbn [manager with_manager scheduler]; try assumption);
      apply (passive_evolves (manager w)); try exact T; evolve_chain.
  - (* SchedulerWake *)
    unfold scheduler_wake. destruct (scheduler w) eqn:Pc; try exact B.
    destruct (_running (manager w)).
    + destruct (sweep_blocked sweep_priorities now w S) as [P' S'].
      constructor.
      * now rewrite (settings_max _ _ (sweep_settings _ _ _)).
      * now rewrite S'.
      * exact P'.
      * intros y Hy.
        destruct (Forall2_In_r _ _ _ _ (sweep_evolves sweep_priorities now w)
                               Hy) as [x [Hx [Hi [_ [_ St]]]]].
        destruct St as [St|St].
        -- unfold passive. rewrite St. exact (T x Hx).
        -- unfold dispatching in St. apply orb_prop in St.
           destruct St as [St|St]; [exact St|].
           apply andb_prop in St. destruct St as [_ A].
           unfold awaits in A.
           destruct (scheduler (sweep sweep_priorities now w)) eqn:Pc';
             try discriminate.
           now destruct (P' id rest).
    + constructor; cbn; try assumption. split; discriminate.
  - (* Settle *)
    unfold settle. destruct (scheduler w) as [| |? ?|id rest|? ?|] eqn:Pc;
      try exact B.
    now destruct (P id rest).
  - (* RetryWake *)
    unfold retry_wake. destruct (scheduler w) as [| |? ?|? ?|id rest|] eqn:Pc;
      try exact B.
    now destruct (P id rest).
  - (* WatchdogTick *)
    unfold watchdog_tick.
    destruct (Watchdog._running (watchdog w)); [|exact B].
    destruct (Watchdog._check_tasks now (watchdog w) (heap w)) as [wd1 h1].
    now constructor.
Qed.

Lemma run_blocked (evs : list Event) (w : World) :
  blocked w -> blocked (run w evs).
Proof.
  revert w. induction evs as [|ev evs IH]; intros w B; cbn [run fold_left];
    [exact B|].
  apply IH. now apply step_blocked.
Qed.

(** ** What holds in every run of a manager *)

Lemma moves_to_waiting (s s' : TaskState) :
  moves s s' -> s' = WAITING -> s = WAITING.
Proof.
  induction 1 as [|s s' s'' E _ IH]; intros W; [exact W|].
  specialize (IH W). subst s'. destruct s; discriminate.
Qed.

Lemma reachable_moves (max_concurrent : Z) (enable_wd : bool)
      (interval : float) (evs later : list Event) :
  vmoves
    (view (manager (run (new_world max_concurrent enable_wd interval) evs)))
    (view (manager (run (new_world max_concurrent enable_wd interval)
                        (evs ++ later)))).
Proof.
  rewrite run_app.
  destruct (reachable_invariants max_concurrent enable_wd interval evs)
    as (SI & Sy & _).
  now apply run_system_inv.
Qed.


(** X12. [COMPLETED] and [FAILED] are final. In every run of a manager, a
    task that is [COMPLETED] or [FAILED] keeps that state, its result and
    its error whatever happens afterwards. *)
Theorem completed_and_failed_tasks_are_frozen
        (max_concurrent : Z) (enable_wd : bool) (interval : float)
        (evs later : list Event) (id : string) (x : ManagedTask) :
  get_task_info
    id (manager (run (new_world max_concurrent enable_wd interval) evs))
  = Some x ->
  state x = COMPLETED \/ state x = FAILED ->
  exists x',
    get_task_info
      id (manager (run (new_world max_concurrent enable_wd interval)
                       (evs ++ later)))
    = Some x'
    /\ state x' = state x /\ result x' = result x /\ error x' = error x.
Proof.
  intros G F.
  destruct (reachable_moves max_concurrent enable_wd interval evs later
                            id (facts x)) as (a' & G' & _ & _ & Fz).
  { unfold view. now rewrite G. }
  assert (E : a' = facts x).
  { apply Fz. cbn [facts f_state]. destruct F as [F|F]; now rewrite F. }
  subst a'. unfold view in G'. revert G'.
  destruct (get_task_info id (manager (run _ (evs ++ later)))) as [x'|];
    [|discriminate].
  cbn [option_map]. intros G'. injection G' as E1 _ E3 E4.
  exists x'. auto.
Qed.

Lemma completed_and_failed_tasks_are_frozen_witness :
  exists x',
    get_task_info
      "task_1_1000"%string
      (manager (run plain_world
                    (([Start; submit_plain] ++ dispatch_and_finish)
                     ++ [Cancel "task_1_1000"%string; SchedulerWake 4%float])))
    = Some x'
    /\ state x' = COMPLETED /\ result x' = PyStr "done"%string.
Proof.
  destruct (get_task_info
              "task_1_1000"%string
              (manager (run plain_world
                            ([Start; submit_plain] ++ dispatch_and_finish))))
    as [x|] eqn:G; [|vm_compute in G; discriminate].
  assert (Q : state x = COMPLETED /\ result x = PyStr "done"%string)
    by (vm_compute in G; injection G as <-; split; reflexivity).
  destruct Q as [Q1 Q2].
  destruct (completed_and_failed_tasks_are_frozen
              5 true 1%float ([Start; submit_plain] ++ dispatch_and_finish)
              [Cancel "task_1_1000"%string; SchedulerWake 4%float]
              "task_1_1000"%string x G (or_introl Q1))
    as (x' & G' & S' & R' & _).
  exists x'. split; [exact G'|]. split; congruence.
Defined.

(** X13. Dependencies come first. In every run of a manager, a task that is
    [RUNNING], [RETRYING], [COMPLETED] or [FAILED], or whose id is in a
    priority queue, has only dependencies that are tasks of the table in
    state [COMPLETED]: no unit of work is started before everything it
    depends on has completed. *)
Theorem dependencies_are_completed_before_a_task_runs
        (max_concurrent : Z) (enable_wd : bool) (interval : float)
        (evs : list Event) (id : string) (x : ManagedTask) :
  let m := manager (run (new_world max_concurrent enable_wd interval) evs) in
  get_task_info id m = Some x ->
  state x = RUNNING \/ state x = RETRYING \/ state x = COMPLETED
  \/ state x = FAILED \/ In id (queued_ids m) ->
  forall d, In d (TaskConfig.dependencies (config x)) ->
            exists y, get_task_info d m = Some y /\ state y = COMPLETED.
Proof.
  cbv zeta. intros G S d Hd.
  destruct (reachable_invariants max_concurrent enable_wd interval evs)
    as (_ & [I _] & _).
  set (w := run (new_world max_concurrent enable_wd interval) evs) in *.
  assert (A : view (manager w) id = Some (facts x))
    by (unfold view; now rewrite G).
  assert (D : deps_completed (view (manager w)) (facts x)).
  { apply (q_deps _ _ _ _ I id _ A).
    destruct S as [S|[S|[S|[S|S]]]].
    - left. apply (q_running _ _ _ _ I id _ A) in S. rewrite S. now left.
    - left. apply (q_retrying _ _ _ _ I id _ A) in S. rewrite S. now left.
    - right. cbn [facts f_state]. now rewrite S.
    - right. cbn [facts f_state]. now rewrite S.
    - left. unfold pending. apply in_or_app. now right. }
  specialize (D d Hd). unfold view in D. revert D.
  destruct (get_task_info d (manager w)) as [y|]; [|discriminate].
  cbn. intros D. exists y. split; [reflexivity|]. congruence.
Qed.

Lemma dependencies_are_completed_witness :
  exists y,
    get_task_info "task_1_1000"%string
                  (manager (run plain_world dependent_runs_events))
    = Some y
    /\ state y = COMPLETED
    /\ option_map state
         (get_task_info "task_2_1000"%string
                        (manager (run plain_world dependent_runs_events)))
       = Some RUNNING.
Proof.
  destruct (get_task_info "task_2_1000"%string
                          (manager (run plain_world dependent_runs_events)))
    as [x|] eqn:G; [|vm_compute in G; discriminate].
  assert (Q : state x = RUNNING
              /\ TaskConfig.dependencies (config x) = ["task_1_1000"%string])
    by (vm_compute in G; injection G as <-; split; reflexivity).
  destruct Q as [Q1 Q2].
  destruct (dependencies_are_completed_before_a_task_runs
              5 true 1%float dependent_runs_events "task_2_1000"%string x
              G (or_introl Q1) "task_1_1000"%string) as (y & Gy & Sy).
  { rewrite Q2. now left. }
  exists y. split; [exact Gy|]. split; [exact Sy|].
  cbn [option_map]. now rewrite Q1.
Defined.

(** X14. The scheduler's bookkeeping. In every run of a manager, no id is
    in the priority queues twice; every queued id belongs to a task of the
    table that is [QUEUED] or [CANCELLED]; the id the scheduler coroutine
    holds is in no queue; the task the scheduler is suspended on in
    [await task] is [RUNNING], the task whose retry it sleeps for is
    [RETRYING], and the task with whose id it is blocked on the semaphore
    is [QUEUED] or [CANCELLED]; and no queued task is lost: the id of a
    task in state [QUEUED] is in a priority queue, or it is the id with
    which the scheduler is blocked on the semaphore. *)
Theorem scheduler_bookkeeping
        (max_concurrent : Z) (enable_wd : bool) (interval : float)
        (evs : list Event) :
  let w := run (new_world max_concurrent enable_wd interval) evs in
  NoDup (queued_ids (manager w))
  /\ (forall id, In id (queued_ids (manager w)) ->
                 exists x, get_task_info id (manager w) = Some x
                           /\ (state x = QUEUED \/ state x = CANCELLED))
  /\ (forall id, In id (held_id (position (scheduler w))) ->
                 ~ In id (queued_ids (manager w)))
  /\ (forall id rest, scheduler w = AwaitTask id rest ->
                      exists x, get_task_info id (manager w) = Some x
                                /\ state x = RUNNING)
  /\ (forall id rest, scheduler w = RetrySleep id rest ->
                      exists x, get_task_info id (manager w) = Some x
                                /\ state x = RETRYING)
  /\ (forall id rest, scheduler w = AwaitSemaphore id rest ->
                      exists x, get_task_info id (manager w) = Some x
                                /\ (state x = QUEUED \/ state x = CANCELLED))
  /\ (forall id x, get_task_info id (manager w) = Some x ->
                   state x = QUEUED ->
                   In id (queued_ids (manager w))
                   \/ exists rest, scheduler w = AwaitSemaphore id rest).
Proof.
  cbv zeta.
  destruct (reachable_invariants max_concurrent enable_wd interval evs)
    as (_ & [I _] & _).
  set (w := run (new_world max_concurrent enable_wd interval) evs) in *.
  pose proof (q_nodup _ _ _ _ I) as N. unfold pending in N.
  assert (Held : forall id, In id (held_id (position (scheduler w))) ->
                            exists x, get_task_info id (manager w) = Some x).
  { intros id H. now apply (executing_known _ _ id _ I). }
  split; [eapply NoDup_app_remove_l; exact N|].
  split; [|split; [|split; [|split; [|split]]]].
  - intros id H.
    assert (K : view (manager w) id <> None).
    { apply (q_known _ _ _ _ I). unfold pending. apply in_or_app. now right. }
    unfold view in K.
    destruct (get_task_info id (manager w)) as [x|] eqn:G;
      [|now contradiction K].
    exists x. split; [reflexivity|].
    apply (q_queued _ _ _ _ I id (facts x)); [|now left].
    unfold view. now rewrite G.
  - intros id H Q.
    destruct (position (scheduler w)) as [|k|k|k]; cbn [held_id] in H, N;
      try (now destruct H); (destruct H as [<-|[]]; inversion N; contradiction).
  - intros id rest P. rewrite P in I, Held. cbn [position held_id] in *.
    destruct (Held id (or_introl eq_refl)) as [x G]. exists x.
    split; [exact G|].
    apply (q_running _ _ _ _ I id (facts x)); [|reflexivity].
    unfold view. now rewrite G.
  - intros id rest P. rewrite P in I, Held. cbn [position held_id] in *.
    destruct (Held id (or_introl eq_refl)) as [x G]. exists x.
    split; [exact G|].
    apply (q_retrying _ _ _ _ I id (facts x)); [|reflexivity].
    unfold view. now rewrite G.
  - intros id rest P. rewrite P in I, Held. cbn [position held_id] in *.
    destruct (Held id (or_introl eq_refl)) as [x G]. exists x.
    split; [exact G|].
    apply (q_queued _ _ _ _ I id (facts x)); [|now right].
    unfold view. now rewrite G.
  - intros id x G Q.
    assert (A : view (manager w) id = Some (facts x))
      by (unfold view; now rewrite G).
    assert (K : In id (pending (queued_ids (manager w))
                               (position (scheduler w)))).
    { apply (q_kept _ _ _ _ I id _ A Q). discriminate. }
    unfold pending in K. apply in_app_or in K.
    destruct K as [K|K]; [|now left].
    pose proof (q_running _ _ _ _ I id _ A) as [_ R1].
    pose proof (q_retrying _ _ _ _ I id _ A) as [_ R2].
    cbn [facts f_state] in R1, R2.
    destruct (scheduler w) as [| |k r|k r|k r|]; cbn [position held_id] in *;
      try (now destruct K); destruct K as [->|[]].
    + right. eauto.
    + specialize (R1 eq_refl). congruence.
    + specialize (R2 eq_refl). congruence.
Qed.

(** X15. Fresh ids. In every run of a manager, the id that [submit_task]
    returns is not the id of any task of the table, even when several
    submissions fall into the same millisecond: the new task is added, the
    table grows by one, and every task that was in the table is still there
    with its state, result and error. *)
Theorem submit_task_issues_a_fresh_id
        (max_concurrent : Z) (enable_wd : bool) (interval : float)
        (evs : list Event) (nm : option string) (cfg : option TaskConfig.t)
        (now : float) (millis : Z) (id : string) (m' : TaskManager.t) :
  let m := manager (run (new_world max_concurrent enable_wd interval) evs) in
  submit_task nm cfg now millis m = inr (id, m') ->
  get_task_info id m = None
  /\ get_task_info id m' <> None
  /\ List.length (_tasks m') = S (List.length (_tasks m))
  /\ (forall k x, get_task_info k m = Some x ->
                  exists x', get_task_info k m' = Some x'
                             /\ state x' = state x
                             /\ result x' = result x
                             /\ error x' = error x).
Proof.
  cbv zeta. intros Sub.
  destruct (reachable_invariants max_concurrent enable_wd interval evs)
    as (_ & [I Is] & _).
  set (w := run (new_world max_concurrent enable_wd interval) evs) in *.
  destruct (submit_task_keeps _ _ _ _ _ _ _ _ I Is Sub)
    as (_ & _ & Fr & Kn & O & _).
  destruct (submit_task_books _ _ _ _ _ _ _ Sub) as (L & _ & _).
  pose proof (view_none _ _ Fr) as F.
  split; [exact F|]. split; [|split; [now apply L|]].
  - intros E. apply Kn. unfold view. now rewrite E.
  - intros k x G.
    assert (N : k <> id) by (intros ->; congruence).
    pose proof (O k N) as E. unfold view in E. rewrite G in E. revert E.
    destruct (get_task_info k m') as [x'|]; [|discriminate].
    cbn [option_map]. intros E. injection E as E1 _ E3 E4.
    exists x'. auto.
Qed.

Lemma submit_task_issues_a_fresh_id_witness :
  exists m',
    submit_task None None 1%float 1000
                (manager (run plain_world [Start; submit_plain]))
    = inr ("task_2_1000"%string, m')
    /\ get_task_info "task_2_1000"%string
                     (manager (run plain_world [Start; submit_plain]))
       = None
    /\ List.length (_tasks m') = 2%nat.
Proof.
  destruct (submit_task None None 1%float 1000
                        (manager (run plain_world [Start; submit_plain])))
    as [e|[id m']] eqn:Sub; [vm_compute in Sub; discriminate|].
  assert (E : id = "task_2_1000"%string)
    by (vm_compute in Sub; now injection Sub as <- _).
  subst id. exists m'. split; [reflexivity|].
  destruct (submit_task_issues_a_fresh_id
              5 true 1%float [Start; submit_plain] None None 1%float 1000
              "task_2_1000"%string m' Sub) as (F & _ & L & _).
  split; [exact F|]. rewrite L. reflexivity.
Defined.

(** X16. One task per submission. In every run of a manager the ids of the
    table are distinct, and the number of tasks in the table, the id
    counter and the counter [total_submitted] that [get_stats] reports are
    equal. *)
Theorem table_holds_one_task_per_submission
        (max_concurrent : Z) (enable_wd : bool) (interval : float)
        (evs : list Event) :
  let m := manager (run (new_world max_concurrent enable_wd interval) evs) in
  NoDup (ids m)
  /\ List.length (_tasks m) = _task_counter m
  /\ r_total_submitted (get_stats m) = Z.of_nat (List.length (_tasks m)).
Proof.
  cbv zeta.
  destruct (reachable_invariants max_concurrent enable_wd interval evs)
    as (SI & _ & [_ BS BT]).
  split; [exact (inv_ids _ SI)|]. split; [exact BS|].
  cbn [get_stats r_total_submitted]. now rewrite BS.
Qed.

(** X17. Permits. In every run of a manager the scheduler coroutine holds
    one permit of the semaphore exactly from the launch of a task to the
    end of [_execute_task], the retry sleep included: the counter
    [total_running] is 1 then and 0 otherwise, and the semaphore, once
    created, has [max_concurrent_tasks] permits less the one that is
    held. *)
Theorem one_permit_is_held_while_a_task_is_executed
        (max_concurrent : Z) (enable_wd : bool) (interval : float)
        (evs : list Event) :
  let w := run (new_world max_concurrent enable_wd interval) evs in
  let h := match scheduler w with
           | AwaitTask _ _ | RetrySleep _ _ => 1
           | _ => 0
           end in
  total_running (_stats (manager w)) = h
  /\ max_concurrent_tasks (manager w) = max_concurrent
  /\ (_semaphore (manager w) = None /\ h = 0
      \/ _semaphore (manager w) = Some (max_concurrent - h)).
Proof.
  cbv zeta.
  destruct (reachable_invariants max_concurrent enable_wd interval evs)
    as (_ & _ & [[PR PS] _ _]).
  assert (M : forall l w0, max_concurrent_tasks (manager (run w0 l))
                           = max_concurrent_tasks (manager w0)).
  { induction l as [|ev l IH]; intros w0; cbn [run fold_left];
      [reflexivity|].
    change (fold_left step l (step w0 ev)) with (run (step w0 ev) l).
    rewrite IH. clear IH.
    destruct ev as [|nm cfg now millis|id|now|o now|now|now]; cbn [step].
    - unfold start. destruct (_running (manager w0)); [reflexivity|].
      now destruct (max_concurrent_tasks (manager w0) <? 0).
    - destruct (submit_task nm cfg now millis (manager w0)) as [e|[id m']]
        eqn:Sub; [reflexivity|].
      destruct (submit_task_books _ _ _ _ _ _ _ Sub) as (_ & _ & St).
      exact (settings_max _ _ St).
    - unfold cancel_task.
      destruct (get_task_info id (manager w0)) as [x|]; [|reflexivity].
      now destruct (state x), (task x).
    - unfold scheduler_wake. destruct (scheduler w0); try reflexivity.
      destruct (_running (manager w0)); [|reflexivity].
      exact (settings_max _ _ (sweep_settings _ _ _)).
    - unfold settle. destruct (scheduler w0); try reflexivity.
      destruct (settle_handle id o now w0) as [wd1 h2].
      destruct o as [v|e|].
      + rewrite (settings_max _ _ (sweep_settings _ _ _)). cbn [manager].
        exact (settings_max
                 _ _ (proj2 (on_task_success_frame id v now (manager w0)))).
      + pose proof (on_task_error_frame id e now (manager w0)) as [_ Fs].
        destruct (_on_task_error id e now (manager w0)) as [m1 retry].
        cbn [fst] in Fs. destruct retry.
        * exact (settings_max _ _ Fs).
        * rewrite (settings_max _ _ (sweep_settings _ _ _)). cbn [manager].
          exact (settings_max _ _ Fs).
      + rewrite (settings_max _ _ (sweep_settings _ _ _)). cbn [manager].
        exact (settings_max
                 _ _ (proj2 (on_task_cancelled_frame id now (manager w0)))).
    - unfold retry_wake. destruct (scheduler w0); try reflexivity.
      rewrite (settings_max _ _ (sweep_settings _ _ _)).
      cbn [manager with_manager].
      exact (settings_max _ _ (on_task_error_requeue_settings _ _)).
    - unfold watchdog_tick.
      destruct (Watchdog._running (watchdog w0)); [|reflexivity].
      now destruct (Watchdog._check_tasks now (watchdog w0) (heap w0)). }
  specialize (M evs (new_world max_concurrent enable_wd interval)).
  cbn [new_world manager init max_concurrent_tasks] in M.
  set (w := run (new_world max_concurrent enable_wd interval) evs) in *.
  assert (H : held (position (scheduler w))
              = match scheduler w with
                | AwaitTask _ _ | RetrySleep _ _ => 1
                | _ => 0
                end) by now destruct (scheduler w).
  rewrite <- H. split; [exact PR|]. split; [exact M|].
  destruct (_semaphore (manager w)) as [v|].
  - right. rewrite PS, M. reflexivity.
  - left. split; [reflexivity|exact PS].
Qed.

(** X18. No permits, no work. A manager constructed with
    [max_concurrent_tasks] zero or negative accepts submissions but never
    starts a task: in every run each task of the table is [QUEUED],
    [WAITING] or [CANCELLED], and the scheduler is never suspended in
    [await task]. *)
Theorem no_task_runs_without_permits
        (max_concurrent : Z) (enable_wd : bool) (interval : float)
        (evs : list Event) :
  max_concurrent <= 0 ->
  let w := run (new_world max_concurrent enable_wd interval) evs in
  (forall x, In x (_tasks (manager w)) ->
             state x = QUEUED \/ state x = WAITING \/ state x = CANCELLED)
  /\ (forall id rest, scheduler w <> AwaitTask id rest).
Proof.
  intros M. cbv zeta.
  assert (B : blocked (new_world max_concurrent enable_wd interval)).
  { constructor; cbn; try exact M; try exact Logic.I.
    - split; discriminate.
    - intros x []. }
  pose proof (run_blocked evs _ B) as [_ _ P T].
  split.
  - intros x Hx. specialize (T x Hx). unfold passive in T.
    destruct (state x); try discriminate; auto.
  - intros id rest. now destruct (P id rest).
Qed.

Lemma no_task_runs_without_permits_witness :
  (forall x, In x (_tasks (manager (run no_permit_world no_permit_events))) ->
             state x = QUEUED \/ state x = WAITING \/ state x = CANCELLED)
  /\ List.length (_tasks (manager (run no_permit_world no_permit_events)))
     = 2%nat.
Proof.
  split; [|reflexivity].
  apply (no_task_runs_without_permits 0 true 1%float no_permit_events).
  lia.
Defined.

(** ** Counters and the tasks they count *)

Lemma check_dependencies_loop_tally (id : string) (flag : bool)
      (deps : list string) (m : t) :
  tally (fst (check_dependencies_loop id flag deps m)) = tally m.
Proof.
  revert m. induction deps as [|d deps IH]; intros m; simpl; [reflexivity|].
  destruct (get_task_info d m) as [y|]; [|reflexivity].
  destruct (state_eqb (state y) COMPLETED); [now rewrite IH|].
  destruct (state_eqb (state y) FAILED && flag); reflexivity.
Qed.

Lemma check_dependencies_tally (id : string) (m : t) :
  tally (fst (_check_dependencies id m)) = tally m.
Proof.
  unfold _check_dependencies.
  destruct (get_task_info id _); [|reflexivity].
  now rewrite check_dependencies_loop_tally.
Qed.

Lemma make_ready_tally (id : string) (m : t) :
  tally (make_ready id m) = tally m.
Proof. unfold make_ready. destruct (get_task_info id _); reflexivity. Qed.

Lemma recheck_if_waiting_tally (m : t) (id : string) :
  tally (recheck_if_waiting m id) = tally m.
Proof.
  unfold recheck_if_waiting.
  destruct (get_task_info id m) as [x|]; [|reflexivity].
  destruct (state_eqb (state x) WAITING); [|reflexivity].
  pose proof (check_dependencies_tally id m) as H.
  destruct (_check_dependencies id m) as [m1 ok]. simpl in H.
  destruct ok; [|exact H]. now rewrite make_ready_tally.
Qed.

Lemma fold_recheck_tally (l : list string) (m : t) :
  tally (fold_left recheck_if_waiting l m) = tally m.
Proof.
  revert m. induction l as [|id l IH]; intros m; simpl; [reflexivity|].
  now rewrite IH, recheck_if_waiting_tally.
Qed.

Lemma notify_dependents_tally (id : string) (m : t) :
  tally (_notify_dependents id m) = tally m.
Proof.
  unfold _notify_dependents.
  destruct (get_task_info id m); [apply fold_recheck_tally|reflexivity].
Qed.

Lemma on_task_error_requeue_tally (id : string) (m : t) :
  tally (_on_task_error_requeue id m) = tally m.
Proof.
  unfold _on_task_error_requeue. destruct (get_task_info id _); reflexivity.
Qed.

Lemma launch_tally (id : string) (x : ManagedTask) (now : float) (w : World) :
  tally (manager (launch id x now w)) = tally (manager w).
Proof.
  unfold launch.
  destruct (Asyncio.create_task (heap w)) as [h1 r].
  destruct (_watchdog (manager w) && TaskConfig.enable_watchdog (config x)).
  - destruct (Watchdog.register_task _ _ _ _ _ _ _) as [[wd1 h2] wid].
    reflexivity.
  - reflexivity.
Qed.

Lemma sweep_tally (ps : list TaskPriority) (now : float) (w : World) :
  tally (manager (sweep ps now w)) = tally (manager w).
Proof.
  revert w. induction ps as [|p ps IH]; intros w; simpl.
  - apply fold_recheck_tally.
  - destruct (_priority_queues (manager w) p) as [|id tail]; [apply IH|].
    match goal with
    | |- context [get_task_info id ?m1] =>
      destruct (get_task_info id m1) as [x|] eqn:G
    end.
    + simpl.
      destruct (_semaphore (manager w)) as [v|]; simpl;
        [destruct (0 <? v)|]; simpl; try reflexivity.
      now rewrite launch_tally.
    + now rewrite IH.
Qed.

Lemma tm_get_of_In (m : t) (x : ManagedTask) :
  NoDup (ids m) -> In x (_tasks m) -> get_task_info (task_id x) m = Some x.
Proof.
  unfold ids, get_task_info.
  induction (_tasks m) as [|y l IH]; intros N Hx; [destruct Hx|].
  inversion N as [|? ? Ny N']; subst. cbn [find].
  destruct Hx as [->|Hx].
  - now rewrite String.eqb_refl.
  - destruct (String.eqb (task_id y) (task_id x)) eqn:E.
    + apply String.eqb_eq in E. exfalso. apply Ny. rewrite E.
      now apply in_map.
    + now apply IH.
Qed.

Lemma Forall2_In_both {A : Type} (P Q : A -> A -> Prop) (l l' : list A) :
  Forall2 P l l' ->
  (forall x x', In x l -> In x' l' -> P x x' -> Q x x') ->
  Forall2 Q l l'.
Proof.
  induction 1 as [|x x' l l' Hxx' _ IH]; intros H; constructor.
  - apply H; [now left|now left|exact Hxx'].
  - apply IH. intros y y' Hy Hy'. apply H; now right.
Qed.

Lemma vmoves_frozen (st st' : View) : vmoves st st' -> frozen st st'.
Proof.
  intros V id b H F. destruct (V id b H) as (a' & H' & _ & _ & Fz).
  now rewrite H', (Fz F).
Qed.

Lemma final_eqb (s s' : TaskState) :
  final s = true -> final s' = false -> state_eqb s' s = false.
Proof. destruct s, s'; simpl; congruence. Qed.

Lemma pointwise_counts (l l' : list ManagedTask) :
  Forall2
    (fun x x' =>
       retry_count x' = retry_count x
       /\ forall s, final s = true ->
                    state_eqb (state x') s = state_eqb (state x) s) l l' ->
  (forall s, final s = true ->
             List.length (filter (fun x => state_eqb (state x) s) l')
             = List.length (filter (fun x => state_eqb (state x) s) l))
  /\ fold_right Z.add 0 (map retry_count l')
     = fold_right Z.add 0 (map retry_count l).
Proof.
  induction 1 as [|x x' l l' [R S] _ [I1 I2]]; [split; reflexivity|].
  split.
  - intros s Fs. cbn [filter]. rewrite (S s Fs).
    destruct (state_eqb (state x) s); cbn [List.length]; now rewrite I1.
  - cbn [map fold_right]. now rewrite R, I2.
Qed.

(** An operation that moves no task into [COMPLETED] or [FAILED], leaves
    the tasks in these states alone and changes no retry count keeps the
    numbers that the counters count. *)
Lemma quiet_counts (a : string -> TaskState -> bool) (m m' : t) :
  NoDup (ids m) ->
  tasks_evolve a m m' ->
  (forall id s, a id s = true -> final s = false) ->
  frozen (view m) (view m') ->
  count_state COMPLETED m' = count_state COMPLETED m
  /\ count_state FAILED m' = count_state FAILED m
  /\ retry_sum m' = retry_sum m.
Proof.
  intros N E A Fz.
  assert (N' : NoDup (ids m')).
  { unfold ids. rewrite (tasks_evolve_ids _ _ _ E). exact N. }
  assert (P : Forall2
                (fun x x' =>
                   retry_count x' = retry_count x
                   /\ forall s, final s = true ->
                                state_eqb (state x') s = state_eqb (state x) s)
                (_tasks m) (_tasks m')).
  { eapply Forall2_In_both; [exact E|].
    intros x x' Hx Hx' (I & _ & R & S). split; [exact R|]. intros s Fs.
    destruct (final (state x)) eqn:Fx.
    - pose proof (tm_get_of_In m x N Hx) as G.
      pose proof (tm_get_of_In m' x' N' Hx') as G'.
      assert (V : view m' (task_id x) = Some (facts x)).
      { apply Fz; [unfold view; now rewrite G|exact Fx]. }
      unfold view in V. rewrite <- I, G' in V. cbn [option_map] in V.
      injection V as V _ _ _. now rewrite V.
    - destruct S as [S|S]; [now rewrite S|].
      rewrite (final_eqb s (state x) Fs Fx).
      apply final_eqb; [exact Fs|]. now apply (A (task_id x)). }
  destruct (pointwise_counts _ _ P) as [C R].
  unfold count_state, get_tasks_by_state, retry_sum.
  rewrite (C COMPLETED eq_refl), (C FAILED eq_refl), R. now repeat split.
Qed.

Lemma quiet_counted (a : string -> TaskState -> bool) (m m' : t) :
  NoDup (ids m) -> counted m ->
  tasks_evolve a m m' ->
  (forall id s, a id s = true -> final s = false) ->
  frozen (view m) (view m') ->
  tally m' = tally m ->
  counted m'.
Proof.
  intros N [C1 C2 C3] E A Fz T.
  destruct (quiet_counts a m m' N E A Fz) as (Q1 & Q2 & Q3).
  unfold tally in T. injection T as T1 T2 T3.
  constructor; congruence.
Qed.

Lemma passive_not_final (id : string) (s : TaskState) :
  passive id s = true -> final s = false.
Proof. destruct s; simpl; congruence. Qed.

Lemma dispatching_not_final (pc : SchedulerPC) (id : string) (s : TaskState) :
  dispatching pc id s = true -> final s = false.
Proof.
  unfold dispatching. intros H. apply orb_prop in H.
  destruct H as [H|H]; [now apply (passive_not_final id)|].
  apply andb_prop in H. destruct H as [H _]. apply state_eqb_eq in H.
  now subst s.
Qed.

(** The one entry of the table that [modify] changes. *)
Lemma modify_split (id : string) (f : ManagedTask -> ManagedTask) (m : t)
      (x : ManagedTask) :
  NoDup (ids m) -> get_task_info id m = Some x ->
  exists l1 l2,
    _tasks m = l1 ++ x :: l2 /\ _tasks (modify id f m) = l1 ++ f x :: l2.
Proof.
  unfold ids, get_task_info, modify. cbn [_tasks with_tasks].
  induction (_tasks m) as [|y l IH]; intros N G; [discriminate|].
  inversion N as [|? ? Ny N']; subst. cbn [find map] in *.
  destruct (String.eqb (task_id y) id) eqn:E.
  - injection G as ->. exists [], l. split; [reflexivity|].
    cbn [app]. f_equal. apply String.eqb_eq in E.
    transitivity (map (fun z : ManagedTask => z) l); [|apply map_id].
    apply map_ext_in. intros z Hz.
    destruct (String.eqb (task_id z) id) eqn:Ez; [|reflexivity].
    apply String.eqb_eq in Ez. exfalso. apply Ny. rewrite E, <- Ez.
    now apply in_map.
  - destruct (IH N' G) as (l1 & l2 & E1 & E2).
    exists (y :: l1), l2. cbn [app].
    split; f_equal; assumption.
Qed.

Lemma counts_modify (id : string) (f : ManagedTask -> ManagedTask) (m : t)
      (x : ManagedTask) (s : TaskState) :
  NoDup (ids m) -> get_task_info id m = Some x ->
  count_state s (modify id f m)
  = count_state s m
    - (if state_eqb (state x) s then 1 else 0)
    + (if state_eqb (state (f x)) s then 1 else 0)
  /\ retry_sum (modify id f m)
     = retry_sum m - retry_count x + retry_count (f x).
Proof.
  intros N G. destruct (modify_split id f m x N G) as (l1 & l2 & E1 & E2).
  unfold count_state, get_tasks_by_state, retry_sum. rewrite E1, E2.
  rewrite !filter_app, !map_app, !fold_right_app. cbn [filter map fold_right].
  split.
  - rewrite !length_app.
    destruct (state_eqb (state x) s), (state_eqb (state (f x)) s);
      cbn [List.length]; lia.
  - generalize (fold_right Z.add 0 (map retry_count l2)). intros z.
    clear E1 E2. induction l1 as [|y l1 IH]; cbn [map fold_right]; lia.
Qed.

Lemma triple_eq (a a' b b' c c' : Z) :
  a = a' -> b = b' -> c = c' -> (a, b, c) = (a', b', c').
Proof. intros -> -> ->. reflexivity. Qed.

Lemma counted_ext (m m' : t) :
  _tasks m' = _tasks m -> tally m' = tally m -> counted m -> counted m'.
Proof.
  intros T Ta [C1 C2 C3]. unfold tally in Ta. injection Ta as T1 T2 T3.
  constructor; unfold count_state, get_tasks_by_state, retry_sum in *;
    rewrite T; congruence.
Qed.

Lemma ids_modify (id : string) (f : ManagedTask -> ManagedTask) (m : t) :
  (forall x, task_id (f x) = task_id x) -> ids (modify id f m) = ids m.
Proof. intros Hf. unfold ids. now apply modify_keeps_ids. Qed.

(** A change of the executed task that keeps its state. *)
Lemma touch_executing (id : string) (f : ManagedTask -> ManagedTask) (m : t)
      (x : ManagedTask) :
  qinv None (view m) (queued_ids m) (Executing id) ->
  get_task_info id m = Some x ->
  (forall y, task_id (f y) = task_id y) -> config (f x) = config x ->
  state (f x) = state x ->
  qinv None (view (modify id f m)) (queued_ids m) (Executing id).
Proof.
  intros I G Hf Hc Hs.
  pose proof (changes_modify id f m x Hf Hc G) as Ch.
  destruct (changes_core _ _ _ _ _ Ch) as [ES ED];
    [cbn [facts f_state]; exact Hs|].
  eapply qinv_core; [exact ES|exact ED|exact I].
Qed.

(** The executed task is given a terminal state. *)
Lemma mark_executing (id : string) (f : ManagedTask -> ManagedTask) (m : t)
      (x : ManagedTask) :
  qinv None (view m) (queued_ids m) (Executing id) ->
  get_task_info id m = Some x ->
  (forall y, task_id (f y) = task_id y) -> config (f x) = config x ->
  state (f x) = COMPLETED \/ state (f x) = FAILED
  \/ state (f x) = CANCELLED ->
  qinv None (view (modify id f m)) (queued_ids m) Idle.
Proof.
  intros I G Hf Hc Hs.
  pose proof (changes_modify id f m x Hf Hc G) as Ch.
  eapply qinv_finish; [exact I|exact Ch|exact Hs].
Qed.

Lemma executing_running (id : string) (m : t) (x : ManagedTask) :
  qinv None (view m) (queued_ids m) (Executing id) ->
  get_task_info id m = Some x -> state x = RUNNING.
Proof.
  intros I G. apply (q_running _ _ _ _ I id (facts x)); [|reflexivity].
  unfold view. now rewrite G.
Qed.

Lemma counted_modify (id : string) (f : ManagedTask -> ManagedTask) (m : t)
      (x : ManagedTask) (dc df dr : Z) :
  NoDup (ids m) -> get_task_info id m = Some x -> counted m ->
  dc = (if state_eqb (state (f x)) COMPLETED then 1 else 0)
       - (if state_eqb (state x) COMPLETED then 1 else 0) ->
  df = (if state_eqb (state (f x)) FAILED then 1 else 0)
       - (if state_eqb (state x) FAILED then 1 else 0) ->
  dr = retry_count (f x) - retry_count x ->
  counted (add_retries dr (add_failed df (add_completed dc (modify id f m)))).
Proof.
  intros N G [C1 C2 C3] -> -> ->.
  destruct (counts_modify id f m x COMPLETED N G) as [K1 K3].
  destruct (counts_modify id f m x FAILED N G) as [K2 _].
  constructor.
  - change (count_state COMPLETED (add_retries ?a (add_failed ?b (add_completed ?c ?mm))))
      with (count_state COMPLETED mm).
    rewrite K1. cbn. lia.
  - change (count_state FAILED (add_retries ?a (add_failed ?b (add_completed ?c ?mm))))
      with (count_state FAILED mm).
    rewrite K2. cbn. lia.
  - change (retry_sum (add_retries ?a (add_failed ?b (add_completed ?c ?mm))))
      with (retry_sum mm).
    rewrite K3. cbn. lia.
Qed.

Lemma on_task_success_counted (id : string) (v : PyValue) (now : float)
      (m : t) :
  qinv None (view m) (queued_ids m) (Executing id) ->
  NoDup (ids m) -> counted m ->
  counted (_on_task_success id v now m).
Proof.
  intros I N C. unfold _on_task_success.
  destruct (executing_known m _ id _ I (or_introl eq_refl)) as [x G].
  pose proof (executing_running id m x I G) as R.
  set (f := fun x => set_end_time (Some now)
                                  (set_result v (set_state COMPLETED x))).
  set (m2 := add_completed 1 (modify id f m)).
  assert (C2 : counted m2).
  { pose proof (counted_modify id f m x 1 0 0 N G C) as K.
    cbn [f state set_end_time set_result set_state retry_count state_eqb] in K.
    rewrite R in K. cbn [state_eqb] in K.
    eapply counted_ext; [| |apply K; lia]; [reflexivity|].
    unfold tally. cbn. apply triple_eq; lia. }
  assert (I2 : qinv None (view m2) (queued_ids m2) Idle).
  { apply (mark_executing id f m x I G); [reflexivity|reflexivity|now left]. }
  assert (N2 : NoDup (ids m2)).
  { change (ids m2) with (ids (modify id f m)).
    rewrite ids_modify by reflexivity. exact N. }
  apply (quiet_counted passive m2); try assumption.
  - apply notify_dependents_evolves.
  - apply passive_not_final.
  - apply vmoves_frozen. apply (notify_dependents_keeps Idle id m2 I2).
  - apply notify_dependents_tally.
Qed.

Lemma on_task_cancelled_counted (id : string) (now : float) (m : t) :
  qinv None (view m) (queued_ids m) (Executing id) ->
  NoDup (ids m) -> counted m ->
  counted (_on_task_cancelled id now m).
Proof.
  intros I N C. unfold _on_task_cancelled.
  destruct (executing_known m _ id _ I (or_introl eq_refl)) as [x G].
  pose proof (executing_running id m x I G) as R.
  set (f := fun x => set_end_time (Some now) (set_state CANCELLED x)).
  set (m2 := add_cancelled 1 (modify id f m)).
  assert (C2 : counted m2).
  { pose proof (counted_modify id f m x 0 0 0 N G C) as K.
    cbn [f state set_end_time set_state retry_count state_eqb] in K.
    rewrite R in K. cbn [state_eqb] in K.
    eapply counted_ext; [| |apply K; lia]; [reflexivity|].
    unfold tally. cbn. apply triple_eq; lia. }
  assert (I2 : qinv None (view m2) (queued_ids m2) Idle).
  { apply (mark_executing id f m x I G);
      [reflexivity|reflexivity|right; now right]. }
  assert (N2 : NoDup (ids m2)).
  { change (ids m2) with (ids (modify id f m)).
    rewrite ids_modify by reflexivity. exact N. }
  apply (quiet_counted passive m2); try assumption.
  - apply notify_dependents_evolves.
  - apply passive_not_final.
  - apply vmoves_frozen. apply (notify_dependents_keeps Idle id m2 I2).
  - apply notify_dependents_tally.
Qed.

Lemma on_task_error_counted (id : string) (e : Exception) (now : float)
      (m : t) :
  qinv None (view m) (queued_ids m) (Executing id) ->
  NoDup (ids m) -> counted m ->
  counted (fst (_on_task_error id e now m)).
Proof.
  intros I N C. unfold _on_task_error.
  destruct (executing_known m _ id _ I (or_introl eq_refl)) as [x G].
  pose proof (executing_running id m x I G) as R.
  set (g := fun x => set_end_time (Some now) (set_error (Some e) x)).
  set (m1 := modify id g m).
  assert (G1 : get_task_info id m1 = Some (g x)).
  { unfold m1. rewrite get_modify by reflexivity.
    now rewrite G, String.eqb_refl. }
  assert (I1 : qinv None (view m1) (queued_ids m1) (Executing id)).
  { apply (touch_executing id g m x I G); reflexivity. }
  assert (N1 : NoDup (ids m1)).
  { unfold m1. rewrite ids_modify by reflexivity. exact N. }
  assert (C1 : counted m1).
  { pose proof (counted_modify id g m x 0 0 0 N G C) as K.
    cbn [g state set_end_time set_error retry_count] in K.
    eapply counted_ext; [| |apply K; lia]; [reflexivity|].
    unfold tally. cbn. apply triple_eq; lia. }
  rewrite G1.
  assert (R1 : state (g x) = RUNNING) by exact R.
  destruct (can_retry (g x)); cbn [fst].
  - set (h := fun y => set_state RETRYING
                                 (set_retry_count (retry_count y + 1) y)).
    pose proof (counted_modify id h m1 (g x) 0 0 1 N1 G1 C1) as K.
    cbn [h state set_state set_retry_count retry_count] in K.
    rewrite R1 in K. cbn [state_eqb] in K.
    eapply counted_ext; [| |apply K; lia]; [reflexivity|].
    unfold tally. cbn. apply triple_eq; lia.
  - set (m2 := add_failed 1 (modify id (set_state FAILED) m1)).
    assert (C2 : counted m2).
    { pose proof (counted_modify id (set_state FAILED) m1 (g x) 0 1 0
                                 N1 G1 C1) as K.
      cbn [state set_state retry_count] in K.
      rewrite R1 in K. cbn [state_eqb] in K.
      eapply counted_ext; [| |apply K; lia]; [reflexivity|].
      unfold tally. cbn. apply triple_eq; lia. }
    assert (I2 : qinv None (view m2) (queued_ids m2) Idle).
    { apply (mark_executing id (set_state FAILED) m1 (g x) I1 G1);
        [reflexivity|reflexivity|right; now left]. }
    assert (N2 : NoDup (ids m2)).
    { change (ids m2) with (ids (modify id (set_state FAILED) m1)).
      rewrite ids_modify by reflexivity. exact N1. }
    apply (quiet_counted passive m2); try assumption.
    + apply notify_dependents_evolves.
    + apply passive_not_final.
    + apply vmoves_frozen. apply (notify_dependents_keeps Idle id m2 I2).
    + apply notify_dependents_tally.
Qed.

Lemma counted_release (m : t) : counted m -> counted (release_slot m).
Proof. apply counted_ext; reflexivity. Qed.

Lemma sweep_counted (ps : list TaskPriority) (now : float) (w : World) :
  qinv None (view (manager w)) (queued_ids (manager w)) Idle ->
  NoDup (ids (manager w)) -> counted (manager w) ->
  counted (manager (sweep ps now w)).
Proof.
  intros I N C.
  apply (quiet_counted (dispatching (scheduler (sweep ps now w))) (manager w));
    try assumption.
  - apply sweep_evolves.
  - apply dispatching_not_final.
  - apply vmoves_frozen. apply (sweep_keeps ps now w I).
  - apply sweep_tally.
Qed.

Lemma submit_task_counted
      (nm : option string) (cfg : option TaskConfig.t) (now : float)
      (millis : Z) (m m' : t) (id : string) :
  submit_task nm cfg now millis m = inr (id, m') ->
  get_task_info id m = None ->
  (forall k, k <> id -> view m' k = view m k) ->
  NoDup (ids m) -> counted m -> counted m'.
Proof.
  unfold submit_task. destruct (_running m) eqn:R; [|discriminate].
  cbn [negb]. cbv zeta.
  set (id0 := make_task_id (S (_task_counter m)) millis).
  match goal with
  | |- context [dict_set ?x _] => set (new := x)
  end.
  match goal with
  | |- context [add_submitted 1 ?mm] => set (m3 := add_submitted 1 mm)
  end.
  intros Sub F O N C.
  assert (Fid : id = id0).
  { destruct (TaskConfig.dependencies _); [now injection Sub|].
    destruct (_check_dependencies id0 m3) as [m4 ok].
    destruct ok; now injection Sub. }
  subst id.
  assert (T3 : _tasks m3 = _tasks m ++ [new]).
  { cbn [m3 _tasks add_submitted with_stats with_tasks with_counter].
    unfold dict_set.
    destruct (existsb _ (_tasks m)) eqn:E; [|reflexivity].
    exfalso. apply existsb_exists in E. destruct E as [y [Hy Ey]].
    unfold get_task_info in F. pose proof (find_none _ _ F y Hy) as Ny.
    cbn [new task_id] in Ey. cbn beta in Ny. congruence. }
  assert (N3 : NoDup (ids m3)).
  { unfold ids.
    cbn [m3 _tasks add_submitted with_stats with_tasks with_counter].
    apply dict_set_ids. exact N. }
  assert (C3 : counted m3).
  { destruct C as [C1 C2 C3].
    constructor; unfold count_state, get_tasks_by_state, retry_sum in *;
      rewrite T3; rewrite ?filter_app, ?map_app, ?fold_right_app;
        cbn [filter map fold_right]; unfold new;
        cbn [state retry_count state_eqb]; rewrite ?List.app_nil_r.
    - exact C1.
    - exact C2.
    - exact C3. }
  assert (V3 : view m3 id0 = Some (facts new)).
  { unfold view, get_task_info.
    cbn [m3 _tasks add_submitted with_stats with_tasks with_counter].
    rewrite get_dict_set. cbn [new task_id]. now rewrite String.eqb_refl. }
  assert (O3 : forall k, k <> id0 -> view m3 k = view m k).
  { intros k Nk. unfold view, get_task_info.
    cbn [m3 _tasks add_submitted with_stats with_tasks with_counter].
    rewrite get_dict_set. cbn [new task_id].
    destruct (String.eqb id0 k) eqn:E; [|reflexivity].
    apply String.eqb_eq in E. congruence. }
  assert (Fz : frozen (view m3) (view m')).
  { intros k b H Fb. destruct (string_dec k id0) as [->|Nk].
    - rewrite V3 in H. injection H as <-. discriminate.
    - rewrite O by exact Nk. now rewrite <- O3. }
  revert Sub. destruct (TaskConfig.dependencies _).
  - intros Sub. injection Sub as <-.
    apply (quiet_counted passive m3); try assumption.
    + apply make_ready_evolves.
    + apply passive_not_final.
    + apply make_ready_tally.
  - pose proof (check_dependencies_evolves id0 m3) as He.
    pose proof (check_dependencies_tally id0 m3) as Ht.
    destruct (_check_dependencies id0 m3) as [m4 ok]. cbn [fst] in He, Ht.
    destruct ok; intros Sub; injection Sub as <-.
    + apply (quiet_counted passive m3); try assumption.
      * eapply tasks_evolve_trans; [exact He|apply make_ready_evolves].
      * apply passive_not_final.
      * now rewrite make_ready_tally.
    + apply (quiet_counted passive m3); try assumption.
      * eapply tasks_evolve_trans; [exact He|]. evolve_chain.
      * apply passive_not_final.
Qed.

Lemma step_counted (w : World) (ev : Event) :
  scheduler_inv w -> system_inv w -> counted (manager w) ->
  counted (manager (step w ev)).
Proof.
  intros SI Sy C. pose proof Sy as [I Is]. pose proof (inv_ids w SI) as N.
  destruct ev as [|nm cfg now millis|id|now|o now|now|now]; cbn [step].
  - (* Start *)
    unfold start. destruct (_running (manager w)); [exact C|].
    destruct (max_concurrent_tasks (manager w) <? 0); cbn [manager with_manager];
      (eapply counted_ext; [| |exact C]; reflexivity).
  - (* Submit *)
    destruct (submit_task nm cfg now millis (manager w)) as [e|[id m']]
      eqn:Sub; [exact C|].
    destruct (submit_task_keeps _ _ _ _ _ _ _ _ I Is Sub)
      as (_ & _ & Fr & _ & O & _).
    cbn [manager with_manager].
    exact (submit_task_counted _ _ _ _ _ _ _ Sub (view_none _ _ Fr) O N C).
  - (* Cancel *)
    destruct (cancel_task_keeps id w _ I) as [(_ & [V _] & _) _].
    revert V. unfold cancel_task.
    destruct (get_task_info id (manager w)) as [x|]; [|intros _; exact C].
    destruct (state x), (task x); cbn [fst manager with_manager];
      intros V; try exact C;
        (apply (quiet_counted passive (manager w));
         [exact N|exact C|evolve_chain|apply passive_not_final
         |now apply vmoves_frozen|reflexivity]).
  - (* SchedulerWake *)
    unfold scheduler_wake. destruct (scheduler w) eqn:P; try exact C.
    cbn [position] in I.
    destruct (_running (manager w)); [|exact C].
    now apply sweep_counted.
  - (* Settle *)
    unfold settle. destruct (scheduler w) as [| |? ?|id rest|? ?|] eqn:P;
      try exact C.
    cbn [position] in I.
    destruct (settle_handle id o now w) as [wd1 h2].
    destruct o as [v|e|].
    + pose proof (on_task_success_keeps id v now (manager w) I) as (I1 & _).
      pose proof (on_task_success_frame id v now (manager w)) as [Fi _].
      apply sweep_counted; cbn [manager].
      * exact I1.
      * change (ids (release_slot ?mm)) with (ids mm). now rewrite Fi.
      * apply counted_release. now apply on_task_success_counted.
    + pose proof (on_task_error_keeps id e now (manager w) I) as (I1 & _).
      pose proof (on_task_error_frame id e now (manager w)) as [Fi _].
      pose proof (on_task_error_counted id e now (manager w) I N C) as C1.
      destruct (_on_task_error id e now (manager w)) as [m1 retry].
      cbn [fst snd] in I1, Fi, C1. destruct retry; [exact C1|].
      apply sweep_counted; cbn [manager].
      * exact I1.
      * change (ids (release_slot ?mm)) with (ids mm). now rewrite Fi.
      * now apply counted_release.
    + pose proof (on_task_cancelled_keeps id now (manager w) I) as (I1 & _).
      pose proof (on_task_cancelled_frame id now (manager w)) as [Fi _].
      apply sweep_counted; cbn [manager].
      * exact I1.
      * change (ids (release_slot ?mm)) with (ids mm). now rewrite Fi.
      * apply counted_release. now apply on_task_cancelled_counted.
  - (* RetryWake *)
    unfold retry_wake. destruct (scheduler w) as [| |? ?|? ?|id rest|] eqn:P;
      try exact C.
    cbn [position] in I.
    pose proof (on_task_error_requeue_keeps id (manager w) I) as (I1 & [V _] & _).
    pose proof (on_task_error_requeue_evolves id (manager w)) as E.
    apply sweep_counted; cbn [manager with_manager].
    + exact I1.
    + change (ids (release_slot ?mm)) with (ids mm). unfold ids.
      now rewrite (tasks_evolve_ids _ _ _ E).
    + apply counted_release.
      apply (quiet_counted passive (manager w)); try assumption.
      * apply passive_not_final.
      * now apply vmoves_frozen.
      * apply on_task_error_requeue_tally.
  - (* WatchdogTick *)
    unfold watchdog_tick.
    destruct (Watchdog._running (watchdog w)); [|exact C].
    now destruct (Watchdog._check_tasks now (watchdog w) (heap w)).
Qed.

Lemma run_counted (evs : list Event) (w : World) :
  scheduler_inv w -> system_inv w -> counted (manager w) ->
  counted (manager (run w evs)).
Proof.
  revert w. induction evs as [|ev evs IH]; intros w SI Sy C;
    cbn [run fold_left]; [exact C|].
  apply IH.
  - now apply step_scheduler_inv.
  - now apply step_system_inv.
  - now apply step_counted.
Qed.

(** X19. What the counters count. In every run of a manager, the
    [total_completed] figure of [get_stats] is the number of tasks in state
    [COMPLETED], the [total_failed] figure is the number of tasks in state
    [FAILED], and the [total_retries] figure is the sum of the retry counts
    of the tasks of the table. *)
Theorem completed_failed_and_retries_are_counted_exactly
        (max_concurrent : Z) (enable_wd : bool) (interval : float)
        (evs : list Event) :
  let m := manager (run (new_world max_concurrent enable_wd interval) evs) in
  r_total_completed (get_stats m)
  = Z.of_nat (List.length (get_tasks_by_state COMPLETED m))
  /\ r_total_failed (get_stats m)
     = Z.of_nat (List.length (get_tasks_by_state FAILED m))
  /\ r_total_retries (get_stats m)
     = fold_right Z.add 0 (map retry_count (_tasks m)).
Proof.
  cbv zeta.
  assert (C : counted (manager (run (new_world max_concurrent enable_wd
                                               interval) evs))).
  { apply run_counted.
    - apply new_world_inv.
    - apply new_world_system_inv.
    - constructor; reflexivity. }
  destruct C as [C1 C2 C3]. now repeat split.
Qed.
(** ** Waiting tasks wait for something *)

Lemma evolves_lookup (a : string -> TaskState -> bool) (m m' : t)
      (id : string) :
  tasks_evolve a m m' ->
  match get_task_info id m, get_task_info id m' with
  | Some x, Some x' => evolves a x x'
  | None, None => True
  | _, _ => False
  end.
Proof.
  unfold tasks_evolve, get_task_info.
  induction 1 as [|x x' l l' E _ IH]; cbn [find]; [exact I|].
  destruct E as (Ei & E). rewrite Ei.
  destruct (String.eqb (task_id x) id); [|exact IH].
  split; [exact Ei|exact E].
Qed.

Lemma check_dependencies_loop_rechecked (id : string) (flag : bool)
      (deps : list string) (m : t) :
  tasks_evolve rechecked m (fst (check_dependencies_loop id flag deps m)).
Proof.
  revert m. induction deps as [|d deps IH]; intros m; simpl.
  - apply tasks_evolve_refl.
  - destruct (get_task_info d m) as [y|]; [|apply tasks_evolve_refl].
    assert (H1 : tasks_evolve rechecked m (modify d (add_dependent id) m))
      by evolve_chain.
    destruct (state_eqb (state y) COMPLETED).
    + eapply tasks_evolve_trans; [exact H1|apply IH].
    + destruct (state_eqb (state y) FAILED && flag); simpl; [|exact H1].
      evolve_chain.
Qed.

Lemma check_dependencies_rechecked (id : string) (m : t) :
  tasks_evolve rechecked m (fst (_check_dependencies id m)).
Proof.
  unfold _check_dependencies.
  change (get_task_info id (with_dep_checks (dep_checks m ++ [id]) m))
    with (get_task_info id m).
  destruct (get_task_info id m) as [x|]; simpl.
  - eapply tasks_evolve_trans;
      [|apply check_dependencies_loop_rechecked].
    apply tasks_evolve_same. reflexivity.
  - apply tasks_evolve_same. reflexivity.
Qed.

Lemma make_ready_rechecked (id : string) (m : t) :
  tasks_evolve rechecked m (make_ready id m).
Proof.
  unfold make_ready.
  assert (H : tasks_evolve rechecked m (modify id (set_state QUEUED) m))
    by evolve_chain.
  destruct (get_task_info id _); [|exact H].
  eapply tasks_evolve_trans; [exact H|]. apply tasks_evolve_same. reflexivity.
Qed.

Lemma recheck_if_waiting_rechecked (m : t) (id : string) :
  tasks_evolve rechecked m (recheck_if_waiting m id).
Proof.
  unfold recheck_if_waiting.
  destruct (get_task_info id m) as [x|]; [|apply tasks_evolve_refl].
  destruct (state_eqb (state x) WAITING); [|apply tasks_evolve_refl].
  pose proof (check_dependencies_rechecked id m) as H.
  destruct (_check_dependencies id m) as [m1 ok]. simpl in H.
  destruct ok; [|exact H].
  eapply tasks_evolve_trans; [exact H|apply make_ready_rechecked].
Qed.

Lemma fold_recheck_rechecked (l : list string) (m : t) :
  tasks_evolve rechecked m (fold_left recheck_if_waiting l m).
Proof.
  revert m. induction l as [|id l IH]; intros m; simpl.
  - apply tasks_evolve_refl.
  - eapply tasks_evolve_trans; [apply recheck_if_waiting_rechecked|apply IH].
Qed.

(** No task is completed by a dependency check or a cancellation. *)
Lemma rechecked_completed (m m' : t) (d : string) :
  tasks_evolve rechecked m m' -> completed_in m' d -> completed_in m d.
Proof.
  intros E. pose proof (evolves_lookup _ _ _ d E) as L.
  unfold completed_in.
  destruct (get_task_info d m) as [y|], (get_task_info d m') as [y'|];
    try contradiction; cbn [option_map]; [|discriminate].
  destruct L as (_ & _ & _ & [S|S]); intros C; injection C as C.
  - congruence.
  - rewrite C in S. discriminate.
Qed.

(** Nor is a task made to wait. *)
Lemma rechecked_waiting (m m' : t) (id : string) (x' : ManagedTask) :
  tasks_evolve rechecked m m' ->
  get_task_info id m' = Some x' -> state x' = WAITING ->
  exists x, get_task_info id m = Some x /\ state x = WAITING
            /\ config x' = config x.
Proof.
  intros E G W. pose proof (evolves_lookup _ _ _ id E) as L.
  rewrite G in L. destruct (get_task_info id m) as [x|]; [|contradiction].
  destruct L as (_ & C & _ & [S|S]).
  - exists x. split; [reflexivity|]. split; congruence.
  - rewrite W in S. discriminate.
Qed.

Lemma unmet_rechecked (m m' : t) (x x' : ManagedTask) :
  tasks_evolve rechecked m m' -> config x' = config x ->
  unmet m x -> unmet m' x'.
Proof.
  intros E C (d & Hd & N). exists d. split; [now rewrite C|].
  intros K. apply N. eapply rechecked_completed; eassumption.
Qed.

Lemma rechecked_cause (m m' : t) :
  tasks_evolve rechecked m m' ->
  waiting_have_cause m -> waiting_have_cause m'.
Proof.
  intros E H id x' G W.
  destruct (rechecked_waiting m m' id x' E G W) as (x & Gx & Wx & C).
  eapply unmet_rechecked; [exact E|exact C|]. eapply H; eassumption.
Qed.

Lemma some_dependency_unmet (m : t) (deps : list string) :
  ~ (forall d, In d deps -> completed_in m d) ->
  exists d, In d deps /\ ~ completed_in m d.
Proof.
  induction deps as [|d deps IH]; intros N.
  - exfalso. apply N. intros d [].
  - assert (D : completed_in m d \/ ~ completed_in m d).
    { unfold completed_in.
      destruct (get_task_info d m) as [y|]; cbn [option_map];
        [|right; discriminate].
      destruct (state y); try (right; discriminate). now left. }
    destruct D as [D|D]; [|exists d; split; [now left|exact D]].
    destruct IH as (d' & Hd & N').
    + intros A. apply N. intros k [<-|Hk]; [exact D|now apply A].
    + exists d'. split; [now right|exact N'].
Qed.

(** A dependency check that answers no has met a dependency that is not a
    completed task. *)
Lemma check_dependencies_false_unmet (id : string) (m : t)
      (x : ManagedTask) :
  get_task_info id m = Some x ->
  snd (_check_dependencies id m) = false -> unmet m x.
Proof.
  intros G F. unfold _check_dependencies in F.
  change (get_task_info id (with_dep_checks (dep_checks m ++ [id]) m))
    with (get_task_info id m) in F.
  rewrite G in F.
  apply some_dependency_unmet. intros A.
  assert (T : snd (check_dependencies_loop
                     id (TaskConfig.cancel_on_dependency_failure (config x))
                     (TaskConfig.dependencies (config x))
                     (with_dep_checks (dep_checks m ++ [id]) m)) = true).
  { apply check_dependencies_loop_true_iff. intros d Hd. exact (A d Hd). }
  rewrite T in F. discriminate.
Qed.

Lemma make_ready_state (id : string) (m : t) (x : ManagedTask) :
  get_task_info id m = Some x ->
  option_map state (get_task_info id (make_ready id m)) = Some QUEUED.
Proof.
  intros G. destruct (make_ready_view id m x G) as ((_ & V & _) & _).
  unfold view in V.
  destruct (get_task_info id (make_ready id m)) as [y|]; [|discriminate].
  cbn [option_map] in *. injection V as V _ _ _. now rewrite V.
Qed.

(** After the check of [id], the task [id] waits only if one of its
    dependencies is not a completed task. *)
Lemma recheck_if_waiting_cause (m : t) (id : string) (x' : ManagedTask) :
  get_task_info id (recheck_if_waiting m id) = Some x' ->
  state x' = WAITING -> unmet (recheck_if_waiting m id) x'.
Proof.
  intros G W.
  pose proof (recheck_if_waiting_rechecked m id) as E.
  destruct (rechecked_waiting _ _ id x' E G W) as (x & Gx & Wx & C).
  eapply unmet_rechecked; [exact E|exact C|].
  revert G. unfold recheck_if_waiting. rewrite Gx, Wx. cbn [state_eqb].
  pose proof (check_dependencies_false_unmet id m x Gx) as U.
  pose proof (check_dependencies_rechecked id m) as E1.
  destruct (_check_dependencies id m) as [m1 [|]]; cbn [fst snd] in *;
    [|intros _; now apply U].
  intros G. exfalso.
  pose proof (evolves_lookup _ _ _ id E1) as L. rewrite Gx in L.
  destruct (get_task_info id m1) as [x1|] eqn:G1; [|contradiction].
  pose proof (make_ready_state id m1 x1 G1) as Q.
  rewrite G in Q. cbn [option_map] in Q. congruence.
Qed.

Lemma fold_recheck_cause (l : list string) (m : t) (id : string)
      (x' : ManagedTask) :
  In id l ->
  get_task_info id (fold_left recheck_if_waiting l m) = Some x' ->
  state x' = WAITING -> unmet (fold_left recheck_if_waiting l m) x'.
Proof.
  revert m. induction l as [|k l IH]; intros m Hin; [destruct Hin|].
  cbn [fold_left]. intros G W.
  destruct (in_dec string_dec id l) as [Hl|Hl]; [now apply IH|].
  destruct Hin as [->|Hin]; [|contradiction].
  pose proof (fold_recheck_rechecked l (recheck_if_waiting m id)) as E.
  destruct (rechecked_waiting _ _ id x' E G W) as (x1 & G1 & W1 & C).
  eapply unmet_rechecked; [exact E|exact C|].
  now apply recheck_if_waiting_cause.
Qed.

Lemma check_waiting_tasks_cause (m : t) :
  waiting_have_cause (_check_waiting_tasks m).
Proof.
  intros id x' G W. unfold _check_waiting_tasks in *.
  apply (fold_recheck_cause _ _ id); [|exact G|exact W].
  pose proof (fold_recheck_rechecked (map task_id (_tasks m)) m) as E.
  pose proof (evolves_lookup _ _ _ id E) as L. rewrite G in L.
  destruct (get_task_info id m) as [x|] eqn:Gx; [|contradiction].
  rewrite <- (get_task_info_id id m x Gx). apply in_map.
  eapply get_task_info_In; exact Gx.
Qed.

(** A round of the scheduler that goes to sleep has checked the waiting
    tasks last. *)
Lemma sweep_rested (ps : list TaskPriority) (now : float) (w : World) :
  rested (sweep ps now w).
Proof.
  revert w. induction ps as [|p ps IH]; intros w; cbn [sweep].
  - intros _. cbn [manager]. apply check_waiting_tasks_cause.
  - destruct (_priority_queues (manager w) p) as [|id tail]; [apply IH|].
    destruct (get_task_info id _) as [x|]; [|apply IH].
    destruct (_semaphore _) as [v|]; [destruct (0 <? v)|]; intros S;
      discriminate S.
Qed.

Lemma cancel_task_rechecked (id : string) (w : World) :
  tasks_evolve rechecked (manager w) (manager (fst (cancel_task id w)))
  /\ scheduler (fst (cancel_task id w)) = scheduler w.
Proof.
  unfold cancel_task.
  destruct (get_task_info id (manager w)) as [x|];
    [|split; [apply tasks_evolve_refl|reflexivity]].
  destruct (state x), (task x);
    cbn [fst manager scheduler with_manager];
    (split; [|reflexivity]);
    first [apply tasks_evolve_refl | evolve_chain].
Qed.

Lemma view_eq_state (m m' : t) (k : string) :
  view m' k = view m k ->
  option_map state (get_task_info k m')
  = option_map state (get_task_info k m).
Proof.
  unfold view.
  destruct (get_task_info k m') as [y'|], (get_task_info k m) as [y|];
    cbn [option_map]; intros V; try discriminate; [|reflexivity].
  injection V as V _ _ _. now rewrite V.
Qed.

Lemma view_eq_lookup (m m' : t) (k : string) (x' : ManagedTask) :
  view m' k = view m k -> get_task_info k m' = Some x' ->
  exists x, get_task_info k m = Some x /\ state x = state x'
            /\ TaskConfig.dependencies (config x)
               = TaskConfig.dependencies (config x').
Proof.
  unfold view. intros V G. rewrite G in V.
  destruct (get_task_info k m) as [x|]; [|discriminate].
  cbn [option_map] in V. injection V as V D _ _. eauto.
Qed.

(** The task that [submit_task] adds is queued, or it waits and the
    dependency check has answered no. *)
Lemma submit_task_new
      (nm : option string) (cfg : option TaskConfig.t) (now : float)
      (millis : Z) (m m' : t) (id : string) (x' : ManagedTask) :
  submit_task nm cfg now millis m = inr (id, m') ->
  (forall k, k <> id -> view m' k = view m k) ->
  get_task_info id m' = Some x' ->
  state x' = QUEUED \/ (state x' = WAITING /\ unmet m' x').
Proof.
  intros Sub Fr. revert Sub. unfold submit_task.
  destruct (negb (_running m)); [discriminate|].
  set (c := S (_task_counter m)).
  set (cf := match cfg with Some k => k | None => TaskConfig.default end).
  set (x0 := mkManagedTask _ _ cf _ _ _ _ _ _ _ _ _ _).
  set (m3 := add_submitted 1 _).
  assert (G3 : forall k, get_task_info k m3
                         = if String.eqb (make_task_id c millis) k
                           then Some x0 else get_task_info k m).
  { intros k. unfold get_task_info. apply get_dict_set. }
  pose proof (G3 (make_task_id c millis)) as G0.
  rewrite String.eqb_refl in G0.
  destruct (TaskConfig.dependencies cf) as [|d ds] eqn:D.
  - intros Sub G. injection Sub as <- <-.
    pose proof (make_ready_state _ m3 x0 G0) as Q.
    rewrite G in Q. cbn [option_map] in Q. left. congruence.
  - pose proof (check_dependencies_false_unmet _ m3 x0 G0) as U.
    pose proof (check_dependencies_evolves (make_task_id c millis) m3) as E.
    destruct (_check_dependencies (make_task_id c millis) m3) as [m4 ok].
    cbn [fst snd] in U, E.
    pose proof (evolves_lookup _ _ _ (make_task_id c millis) E) as L.
    rewrite G0 in L.
    destruct (get_task_info (make_task_id c millis) m4) as [x4|] eqn:G4;
      [|contradiction].
    destruct ok.
    + intros Sub G. injection Sub as <- <-.
      pose proof (make_ready_state _ m4 x4 G4) as Q.
      rewrite G in Q. cbn [option_map] in Q. left. congruence.
    + intros Sub G. injection Sub as <- <-. right.
      destruct (U eq_refl) as (k & Hk & N).
      rewrite get_modify in G by reflexivity.
      rewrite G4, String.eqb_refl in G. cbn [option_map] in G.
      injection G as <-.
      split; [reflexivity|]. exists k. split.
      * cbn [set_state config]. destruct L as (_ & C & _). now rewrite C.
      * intros K. apply N. unfold completed_in in *.
        rewrite G3.
        destruct (String.eqb (make_task_id c millis) k) eqn:Ek.
        -- apply String.eqb_eq in Ek. subst k. exfalso. revert K.
           rewrite get_modify by reflexivity.
           rewrite G4, String.eqb_refl. cbn. discriminate.
        -- assert (Nk : k <> make_task_id c millis).
           { intros ->. rewrite String.eqb_refl in Ek. discriminate. }
           rewrite <- (view_eq_state _ _ k (Fr k Nk)). exact K.
Qed.

Lemma submit_task_cause
      (nm : option string) (cfg : option TaskConfig.t) (now : float)
      (millis : Z) (m m' : t) (id : string) :
  submit_task nm cfg now millis m = inr (id, m') ->
  (forall k, k <> id -> view m' k = view m k) ->
  waiting_have_cause m -> waiting_have_cause m'.
Proof.
  intros Sub Fr H k x' G W.
  pose proof (submit_task_new nm cfg now millis m m' id) as New.
  destruct (string_dec k id) as [->|Nk].
  - destruct (New x' Sub Fr G) as [Q|[_ U]]; [congruence|exact U].
  - destruct (view_eq_lookup m m' k x' (Fr k Nk) G) as (x & Gx & Sx & Dx).
    destruct (H k x Gx) as (d & Hd & N); [congruence|].
    exists d. split; [now rewrite <- Dx|].
    intros K. apply N. unfold completed_in in *.
    destruct (string_dec d id) as [->|Nd].
    + exfalso. destruct (get_task_info id m') as [y'|] eqn:Gy;
        [|discriminate].
      cbn [option_map] in K. injection K as K.
      destruct (New y' Sub Fr eq_refl) as [Q|[Q _]]; congruence.
    + rewrite <- (view_eq_state _ _ d (Fr d Nd)). exact K.
Qed.

Lemma step_rested (w : World) (ev : Event) :
  scheduler_inv w -> system_inv w -> rested w -> rested (step w ev).
Proof.
  intros SI [I Is] R. destruct ev as [|nm cfg now ms|id|now|o now|now|now];
    cbn [step].
  - unfold start. destruct (_running (manager w)) eqn:Ru; [exact R|].
    assert (T : _tasks (manager w) = []) by now apply (inv_stopped _ SI).
    assert (C : forall m', _tasks m' = [] -> waiting_have_cause m').
    { intros m' E k x G. unfold get_task_info in G. rewrite E in G.
      discriminate. }
    destruct (max_concurrent_tasks (manager w) <? 0); intros _; apply C;
      exact T.
  - destruct (submit_task nm cfg now ms (manager w)) as [e|[id m1]] eqn:Sub;
      [exact R|].
    destruct (submit_task_keeps nm cfg now ms _ _ _ id I Is Sub)
      as (_ & _ & _ & _ & Fr & _).
    intros S. cbn [manager with_manager].
    eapply submit_task_cause; [exact Sub|exact Fr|]. apply R. exact S.
  - destruct (cancel_task_rechecked id w) as [E S].
    intros L. eapply rechecked_cause; [exact E|]. apply R. congruence.
  - unfold scheduler_wake. destruct (scheduler w); try exact R.
    destruct (_running (manager w)); [apply sweep_rested|].
    intros S. discriminate S.
  - unfold settle. destruct (scheduler w) as [| |i r|i r|i r|]; try exact R.
    destruct (settle_handle i o now w) as [wd1 h2].
    destruct o as [v|e|]; try apply sweep_rested.
    destruct (_on_task_error i e now (manager w)) as [m1 [|]];
      [|apply sweep_rested].
    intros S. discriminate S.
  - unfold retry_wake. destruct (scheduler w); try exact R.
    apply sweep_rested.
  - unfold watchdog_tick. destruct (Watchdog._running (watchdog w));
      [|exact R].
    destruct (Watchdog._check_tasks now (watchdog w) (heap w)) as [wd1 h1].
    exact R.
Qed.

Lemma run_rested (evs : list Event) (w : World) :
  scheduler_inv w -> system_inv w -> rested w -> rested (run w evs).
Proof.
  revert w. induction evs as [|ev evs IH]; intros w SI Sy R;
    cbn [run fold_left]; [exact R|].
  apply IH.
  - now apply step_scheduler_inv.
  - now apply step_system_inv.
  - now apply step_rested.
Qed.

(** X20. No ready task waits across a round of the scheduler. In every run
    of a manager, whenever the scheduler coroutine sleeps between two rounds
    of its loop, every task in state [WAITING] has a dependency that is not
    a task of the table in state [COMPLETED]. *)
Theorem waiting_tasks_wait_for_an_uncompleted_dependency
        (max_concurrent : Z) (enable_wd : bool) (interval : float)
        (evs : list Event) (id : string) (x : ManagedTask) :
  let w := run (new_world max_concurrent enable_wd interval) evs in
  scheduler w = LoopTop ->
  get_task_info id (manager w) = Some x ->
  state x = WAITING ->
  exists d,
    In d (TaskConfig.dependencies (config x))
    /\ option_map state (get_task_info d (manager w)) <> Some COMPLETED.
Proof.
  cbv zeta. intros S G W.
  assert (R : rested (run (new_world max_concurrent enable_wd interval) evs)).
  { apply run_rested;
      [apply new_world_inv|apply new_world_system_inv|].
    intros _ k y Gy. discriminate Gy. }
  exact (R S id x G W).
Qed.

Lemma waiting_tasks_wait_witness :
  exists d,
    In d ["task_1_1000"%string]
    /\ option_map state
         (get_task_info d (manager (run plain_world waiting_events)))
       <> Some COMPLETED.
Proof.
  destruct (get_task_info "task_2_1000"%string
                          (manager (run plain_world waiting_events)))
    as [x|] eqn:G; [|vm_compute in G; discriminate].
  assert (Q : state x = WAITING
              /\ TaskConfig.dependencies (config x) = ["task_1_1000"%string])
    by (vm_compute in G; injection G as <-; split; reflexivity).
  destruct Q as [Q1 Q2].
  destruct (waiting_tasks_wait_for_an_uncompleted_dependency
              5 true 1%float waiting_events "task_2_1000"%string x
              eq_refl G Q1) as (d & Hd & N).
  exists d. split; [now rewrite <- Q2|exact N].
Defined.
(** ** Tasks the scheduler has done with *)

Lemma spares_refl (id : string) (m : t) : spares id m m.
Proof. split; auto. Qed.

Lemma spares_trans (id : string) (m1 m2 m3 : t) :
  spares id m1 m2 -> spares id m2 m3 -> spares id m1 m3.
Proof. intros [V1 Q1] [V2 Q2]. split; [congruence|auto]. Qed.

Lemma spares_same (id : string) (m m' : t) :
  _tasks m' = _tasks m ->
  (forall p, _priority_queues m' p = _priority_queues m p) ->
  spares id m m'.
Proof.
  intros T Q. split.
  - unfold view, get_task_info. now rewrite T.
  - now rewrite (queued_ids_ext _ _ Q).
Qed.

Lemma modify_spares (id k : string) (f : ManagedTask -> ManagedTask)
      (m : t) :
  k <> id -> (forall x, task_id (f x) = task_id x) ->
  spares id m (modify k f m).
Proof.
  intros N Hf. split; [|auto].
  rewrite view_modify by exact Hf.
  destruct (String.eqb id k) eqn:E; [|reflexivity].
  apply String.eqb_eq in E. congruence.
Qed.

Lemma check_dependencies_spares (id k : string) (m : t) :
  k <> id -> spares id m (fst (_check_dependencies k m)).
Proof.
  intros N. destruct (check_dependencies_view k m) as (Q & _ & V).
  split; [|now rewrite (queued_ids_ext _ _ Q)].
  destruct V as [V|(_ & a & a' & (_ & _ & _ & O) & _)]; [apply V|].
  apply O. congruence.
Qed.

Lemma make_ready_spares (id k : string) (m : t) :
  k <> id -> spares id m (make_ready k m).
Proof.
  intros N. destruct (get_task_info k m) as [x|] eqn:G.
  - destruct (make_ready_view k m x G) as ((_ & _ & _ & O) & P & _).
    split; [apply O; congruence|].
    intros H. apply (Permutation_in _ P) in H.
    destruct H as [H|H]; [congruence|exact H].
  - unfold make_ready.
    assert (G1 : get_task_info k (modify k (set_state QUEUED) m) = None).
    { rewrite get_modify by reflexivity. now rewrite G. }
    rewrite G1. now apply modify_spares.
Qed.

Lemma recheck_if_waiting_spares (id k : string) (m : t) :
  option_map f_state (view m id) <> Some WAITING ->
  spares id m (recheck_if_waiting m k).
Proof.
  intros W. unfold recheck_if_waiting.
  destruct (get_task_info k m) as [x|] eqn:G; [|apply spares_refl].
  destruct (state_eqb (state x) WAITING) eqn:S; [|apply spares_refl].
  apply state_eqb_eq in S.
  assert (N : k <> id).
  { intros ->. apply W. unfold view. rewrite G. cbn. now rewrite S. }
  pose proof (check_dependencies_spares id k m N) as C.
  destruct (_check_dependencies k m) as [m1 [|]]; cbn [fst] in C;
    [|exact C].
  eapply spares_trans; [exact C|now apply make_ready_spares].
Qed.

Lemma fold_recheck_spares (id : string) (l : list string) (m : t) :
  option_map f_state (view m id) <> Some WAITING ->
  spares id m (fold_left recheck_if_waiting l m).
Proof.
  revert m. induction l as [|k l IH]; intros m W; cbn [fold_left];
    [apply spares_refl|].
  pose proof (recheck_if_waiting_spares id k m W) as C.
  eapply spares_trans; [exact C|]. apply IH.
  destruct C as [V _]. now rewrite V.
Qed.

Lemma notify_dependents_spares (id k : string) (m : t) :
  option_map f_state (view m id) <> Some WAITING ->
  spares id m (_notify_dependents k m).
Proof.
  intros W. unfold _notify_dependents.
  destruct (get_task_info k m); [now apply fold_recheck_spares|].
  apply spares_refl.
Qed.

Lemma launch_spares (id k : string) (x x0 : ManagedTask) (now : float)
      (w : World) :
  k <> id -> get_task_info k (manager w) = Some x0 ->
  spares id (manager w) (manager (launch k x now w)).
Proof.
  intros N G.
  destruct (launch_view k x x0 now w G) as ((a' & (_ & _ & _ & O) & _) & Q & _).
  split; [apply O; congruence|now rewrite Q].
Qed.

(** The task the scheduler has done with is passed over by a round. *)
Lemma sweep_spares (id : string) (ps : list TaskPriority) (now : float)
      (w : World) :
  option_map f_state (view (manager w) id) <> Some WAITING ->
  ~ In id (queued_ids (manager w)) ->
  view (manager (sweep ps now w)) id = view (manager w) id
  /\ ~ In id (pending (queued_ids (manager (sweep ps now w)))
                      (position (scheduler (sweep ps now w)))).
Proof.
  revert w. induction ps as [|p ps IH]; intros w W NQ; cbn [sweep].
  - cbn [manager scheduler position pending held_id app].
    destruct (fold_recheck_spares id (map task_id (_tasks (manager w)))
                                  (manager w) W) as [V Q].
    split; [exact V|]. intros H. apply NQ. now apply Q.
  - destruct (_priority_queues (manager w) p) as [|k tail] eqn:Qp;
      [now apply IH|].
    pose proof (pop_perm p k tail (manager w) Qp) as P.
    set (m1 := with_queues _ (manager w)) in *.
    assert (N : k <> id).
    { intros ->. apply NQ. apply (Permutation_in _ (Permutation_sym P)).
      now left. }
    assert (NQ1 : ~ In id (queued_ids m1)).
    { intros H. apply NQ. apply (Permutation_in _ (Permutation_sym P)).
      now right. }
    assert (Held : ~ In id (k :: queued_ids m1)).
    { intros [H|H]; [congruence|contradiction]. }
    destruct (get_task_info k m1) as [x|] eqn:G.
    + assert (L : view (manager (launch k x now (with_manager m1 w))) id
                  = view (manager w) id
                  /\ ~ In id (k :: queued_ids
                                     (manager (launch k x now
                                                      (with_manager m1 w))))).
      { destruct (launch_spares id k x x now (with_manager m1 w) N G)
          as [V Q].
        split; [exact V|]. intros [H|H]; [congruence|].
        apply NQ1. now apply Q. }
      destruct (_semaphore m1) as [v|]; [destruct (0 <? v)|];
        cbn [manager scheduler with_scheduler with_manager position pending
             held_id app]; first [exact L | split; [reflexivity|exact Held]].
    + apply (IH (with_manager m1 w)); assumption.
Qed.

Lemma on_task_success_spares (id k : string) (v : PyValue) (now : float)
      (m : t) :
  k <> id -> option_map f_state (view m id) <> Some WAITING ->
  spares id m (_on_task_success k v now m).
Proof.
  intros N W. unfold _on_task_success.
  set (f := fun x => set_end_time (Some now) _).
  assert (C1 : spares id m (add_completed 1 (modify k f m)))
    by exact (modify_spares id k f m N (fun _ => eq_refl)).
  eapply spares_trans; [exact C1|]. apply notify_dependents_spares.
  now rewrite (proj1 C1).
Qed.

Lemma on_task_cancelled_spares (id k : string) (now : float) (m : t) :
  k <> id -> option_map f_state (view m id) <> Some WAITING ->
  spares id m (_on_task_cancelled k now m).
Proof.
  intros N W. unfold _on_task_cancelled.
  set (f := fun x => set_end_time (Some now) _).
  assert (C1 : spares id m (add_cancelled 1 (modify k f m)))
    by exact (modify_spares id k f m N (fun _ => eq_refl)).
  eapply spares_trans; [exact C1|]. apply notify_dependents_spares.
  now rewrite (proj1 C1).
Qed.

Lemma on_task_error_spares (id k : string) (e : Exception) (now : float)
      (m : t) :
  k <> id -> option_map f_state (view m id) <> Some WAITING ->
  spares id m (fst (_on_task_error k e now m)).
Proof.
  intros N W. unfold _on_task_error.
  set (g := fun x => set_end_time (Some now) (set_error (Some e) x)).
  pose proof (modify_spares id k g m N (fun _ => eq_refl)) as C1.
  destruct (get_task_info k (modify k g m)) as [x|]; [|exact C1].
  destruct (can_retry x); cbn [fst].
  - eapply spares_trans; [exact C1|].
    set (h := fun y => set_state RETRYING _).
    exact (modify_spares id k h _ N (fun _ => eq_refl)).
  - assert (C2 : spares id (modify k g m)
                        (add_failed 1 (modify k (set_state FAILED)
                                              (modify k g m))))
      by exact (modify_spares id k (set_state FAILED) _ N
                              (fun _ => eq_refl)).
    eapply spares_trans; [exact C1|].
    eapply spares_trans; [exact C2|]. apply notify_dependents_spares.
    now rewrite (proj1 C2), (proj1 C1).
Qed.

Lemma on_task_error_requeue_spares (id k : string) (m : t) :
  k <> id -> spares id m (_on_task_error_requeue k m).
Proof.
  intros N. unfold _on_task_error_requeue.
  set (r := fun x => set_error None _).
  pose proof (modify_spares id k r m N (fun _ => eq_refl)) as C1.
  destruct (get_task_info k (modify k r m)) as [x|] eqn:G; [|exact C1].
  eapply spares_trans; [exact C1|]. split; [reflexivity|].
  intros H. apply (Permutation_in _ (enqueue_perm x _)) in H.
  destruct H as [H|H]; [|exact H].
  rewrite (get_task_info_id _ _ _ G) in H. congruence.
Qed.

Lemma submit_task_spares
      (nm : option string) (cfg : option TaskConfig.t) (now : float)
      (millis : Z) (m m' : t) (id new : string) :
  submit_task nm cfg now millis m = inr (new, m') ->
  new <> id -> spares id m m'.
Proof.
  unfold submit_task. destruct (negb (_running m)); [discriminate|].
  set (c := S (_task_counter m)).
  set (cf := match cfg with Some k => k | None => TaskConfig.default end).
  set (x0 := mkManagedTask _ _ cf _ _ _ _ _ _ _ _ _ _).
  set (m3 := add_submitted 1 _).
  intros Sub N.
  assert (C3 : spares id m m3).
  { split; [|auto]. unfold view, get_task_info.
    change (_tasks m3) with (dict_set x0 (_tasks m)).
    rewrite get_dict_set.
    destruct (String.eqb (task_id x0) id) eqn:E; [|reflexivity].
    apply String.eqb_eq in E. change (task_id x0) with (make_task_id c millis)
      in E.
    destruct (TaskConfig.dependencies cf);
      [|destruct (_check_dependencies _ m3) as [m4 [|]]];
      injection Sub as Sub _; congruence. }
  destruct (TaskConfig.dependencies cf) as [|d ds].
  - injection Sub as <- <-.
    eapply spares_trans; [exact C3|now apply make_ready_spares].
  - pose proof (check_dependencies_spares id (make_task_id c millis) m3) as C4.
    destruct (_check_dependencies (make_task_id c millis) m3) as [m4 [|]];
      cbn [fst] in C4; injection Sub as <- <-.
    + eapply spares_trans; [exact C3|].
      eapply spares_trans; [now apply C4|now apply make_ready_spares].
    + eapply spares_trans; [exact C3|].
      eapply spares_trans; [now apply C4|].
      now apply modify_spares.
Qed.

Lemma cancel_task_spares (id k : string) (w : World) :
  option_map f_state (view (manager w) id) = Some CANCELLED ->
  spares id (manager w) (manager (fst (cancel_task k w)))
  /\ scheduler (fst (cancel_task k w)) = scheduler w.
Proof.
  intros C. unfold cancel_task.
  destruct (get_task_info k (manager w)) as [x|] eqn:G;
    [|split; [apply spares_refl|reflexivity]].
  assert (N : state x <> CANCELLED -> k <> id).
  { intros S ->. unfold view in C. rewrite G in C. cbn in C. congruence. }
  destruct (state x) eqn:S, (task x);
    cbn [fst manager scheduler with_manager];
    (split; [|reflexivity]);
    first [ apply spares_refl
          | apply (modify_spares id k _ _ (N ltac:(discriminate)));
            reflexivity ].
Qed.

Lemma spares_aside (id : string) (m m' : t) (pos : Position) :
  spares id m m' ->
  option_map f_state (view m id) = Some CANCELLED ->
  ~ In id (pending (queued_ids m) pos) ->
  option_map f_state (view m' id) = Some CANCELLED
  /\ ~ In id (pending (queued_ids m') pos).
Proof.
  intros [V Q] C NP. split; [now rewrite V|].
  unfold pending in *. intros H. apply NP. apply in_app_or in H.
  apply in_or_app. destruct H as [H|H]; [now left|right; now apply Q].
Qed.

Lemma aside_not_waiting (m : t) (id : string) :
  option_map f_state (view m id) = Some CANCELLED ->
  option_map f_state (view m id) <> Some WAITING.
Proof. intros C. rewrite C. discriminate. Qed.

Lemma step_aside (id : string) (w : World) (ev : Event) :
  system_inv w -> aside id w ->
  view (manager (step w ev)) id = view (manager w) id
  /\ aside id (step w ev).
Proof.
  intros [I Is] [C NP].
  pose proof (aside_not_waiting _ _ C) as W.
  assert (Same : view (manager w) id = view (manager w) id /\ aside id w)
    by (split; [reflexivity|split; assumption]).
  assert (Go : forall w',
             spares id (manager w) (manager w') ->
             scheduler w' = scheduler w ->
             view (manager w') id = view (manager w) id /\ aside id w').
  { intros w' Sp E. split; [apply Sp|]. unfold aside. rewrite E.
    eapply spares_aside; eassumption. }
  assert (Sw : forall rest now W0,
             view (manager W0) id = view (manager w) id ->
             ~ In id (queued_ids (manager W0)) ->
             view (manager (sweep rest now W0)) id = view (manager w) id
             /\ aside id (sweep rest now W0)).
  { intros rest now W0 V NQ.
    destruct (sweep_spares id rest now W0) as [V1 NP1];
      [now rewrite V|exact NQ|].
    split; [congruence|]. split; [|exact NP1]. rewrite V1, V. exact C. }
  destruct ev as [|nm cfg now ms|k|now|o now|now|now]; cbn [step].
  - unfold start. destruct (_running (manager w)); [exact Same|].
    destruct (max_concurrent_tasks (manager w) <? 0).
    + apply Go; [|reflexivity]. apply spares_same; reflexivity.
    + split; [reflexivity|]. split; [exact C|].
      cbn [manager scheduler position pending held_id app].
      intros H. apply NP. unfold pending. apply in_or_app. now right.
  - destruct (submit_task nm cfg now ms (manager w)) as [e|[new m1]] eqn:Sub;
      [exact Same|].
    destruct (submit_task_keeps nm cfg now ms _ _ _ new I Is Sub)
      as (_ & _ & Fr & _).
    apply Go; [|reflexivity]. cbn [manager with_manager].
    eapply submit_task_spares; [exact Sub|].
    intros ->. rewrite Fr in C. discriminate.
  - destruct (cancel_task_spares id k w C) as [Sp E]. now apply Go.
  - unfold scheduler_wake. destruct (scheduler w) eqn:P; try exact Same.
    destruct (_running (manager w)).
    + apply Sw; [reflexivity|exact NP].
    + split; [reflexivity|]. split; [exact C|exact NP].
  - unfold settle. destruct (scheduler w) as [| |? ?|k rest|? ?|] eqn:P;
      try exact Same.
    cbn [position pending held_id app] in NP.
    assert (N : k <> id) by (intros ->; apply NP; now left).
    assert (NQ : ~ In id (queued_ids (manager w)))
      by (intros H; apply NP; now right).
    destruct (settle_handle k o now w) as [wd1 h2].
    destruct o as [v|e|].
    + destruct (on_task_success_spares id k v now (manager w) N W) as [V Q].
      apply Sw; [exact V|]. intros H. apply NQ. now apply Q.
    + pose proof (on_task_error_spares id k e now (manager w) N W) as [V Q].
      destruct (_on_task_error k e now (manager w)) as [m1 [|]];
        cbn [fst] in V, Q.
      * split; [exact V|]. split; [cbn [manager]; now rewrite V|].
        cbn [manager scheduler position pending held_id app].
        intros [H|H]; [congruence|]. apply NQ. now apply Q.
      * apply Sw; [exact V|]. intros H. apply NQ. now apply Q.
    + destruct (on_task_cancelled_spares id k now (manager w) N W) as [V Q].
      apply Sw; [exact V|]. intros H. apply NQ. now apply Q.
  - unfold retry_wake. destruct (scheduler w) as [| |? ?|? ?|k rest|] eqn:P;
      try exact Same.
    cbn [position pending held_id app] in NP.
    assert (N : k <> id) by (intros ->; apply NP; now left).
    assert (NQ : ~ In id (queued_ids (manager w)))
      by (intros H; apply NP; now right).
    destruct (on_task_error_requeue_spares id k (manager w) N) as [V Q].
    apply Sw; [exact V|]. intros H. apply NQ. now apply Q.
  - unfold watchdog_tick.
    destruct (Watchdog._running (watchdog w)); [|exact Same].
    destruct (Watchdog._check_tasks now (watchdog w) (heap w)) as [wd1 h1].
    split; [reflexivity|]. split; [exact C|exact NP].
Qed.

Lemma run_aside (id : string) (evs : list Event) (w : World) :
  scheduler_inv w -> system_inv w -> aside id w ->
  view (manager (run w evs)) id = view (manager w) id.
Proof.
  revert w. induction evs as [|ev evs IH]; intros w SI Sy A;
    cbn [run fold_left]; [reflexivity|].
  destruct (step_aside id w ev Sy A) as [V A1].
  rewrite <- V. apply IH; [now apply step_scheduler_inv| |exact A1].
  now apply step_system_inv.
Qed.

Lemma view_lookup (m : t) (id : string) (x : ManagedTask) :
  get_task_info id m = Some x -> view m id = Some (facts x).
Proof. intros G. unfold view. now rewrite G. Qed.

Lemma lookup_view (m : t) (id : string) (a : Facts) :
  view m id = Some a ->
  exists x, get_task_info id m = Some x /\ state x = f_state a
            /\ result x = f_result a /\ error x = f_error a.
Proof.
  unfold view. destruct (get_task_info id m) as [x|]; [|discriminate].
  cbn [option_map]. intros E. injection E as <-. exists x. auto.
Qed.

(** X21. A cancelled task that is out of the queues stays cancelled. In
    every run of a manager, a task in state [CANCELLED] whose id is in no
    priority queue, and is not the id the scheduler is blocked with on the
    semaphore, keeps its state, its result and its error whatever happens
    afterwards: it is never run. *)
Theorem cancelled_task_out_of_the_queues_stays_cancelled
        (max_concurrent : Z) (enable_wd : bool) (interval : float)
        (evs later : list Event) (id : string) (x : ManagedTask) :
  let w := run (new_world max_concurrent enable_wd interval) evs in
  get_task_info id (manager w) = Some x ->
  state x = CANCELLED ->
  ~ In id (queued_ids (manager w)) ->
  (forall rest, scheduler w <> AwaitSemaphore id rest) ->
  exists x',
    get_task_info
      id (manager (run (new_world max_concurrent enable_wd interval)
                       (evs ++ later)))
    = Some x'
    /\ state x' = CANCELLED /\ result x' = result x /\ error x' = error x.
Proof.
  cbv zeta. intros G S NQ NS.
  destruct (reachable_invariants max_concurrent enable_wd interval evs)
    as (SI & Sy & _).
  set (w := run (new_world max_concurrent enable_wd interval) evs) in *.
  pose proof (view_lookup _ _ _ G) as V.
  assert (A : aside id w).
  { split; [rewrite V; cbn; now rewrite S|].
    unfold pending. intros H. apply in_app_or in H.
    destruct H as [H|H]; [|contradiction].
    destruct Sy as [I _].
    destruct (scheduler w) as [| |k rest|k rest|k rest|] eqn:P;
      cbn [position held_id] in H, I.
    - destruct H.
    - destruct H.
    - destruct H as [<-|[]]. now apply (NS rest).
    - destruct H as [<-|[]].
      pose proof (proj2 (q_running _ _ _ _ I k _ V) eq_refl) as R.
      cbn in R. congruence.
    - destruct H as [<-|[]].
      pose proof (proj2 (q_retrying _ _ _ _ I k _ V) eq_refl) as R.
      cbn in R. congruence.
    - destruct H. }
  rewrite run_app. fold w.
  pose proof (run_aside id later w SI Sy A) as E. rewrite V in E.
  destruct (lookup_view _ _ _ E) as (x' & G' & S' & R' & E').
  exists x'. cbn [facts f_state f_result f_error] in *.
  repeat split; congruence.
Qed.

Lemma cancelled_task_stays_cancelled_witness :
  exists x',
    get_task_info
      "task_1_1000"%string
      (manager (run plain_world
                    (cancelled_run_events ++ after_cancellation_events)))
    = Some x'
    /\ state x' = CANCELLED.
Proof.
  destruct (get_task_info
              "task_1_1000"%string
              (manager (run plain_world cancelled_run_events)))
    as [x|] eqn:G; [|vm_compute in G; discriminate].
  assert (Q : state x = CANCELLED)
    by (vm_compute in G; injection G as <-; reflexivity).
  destruct (cancelled_task_out_of_the_queues_stays_cancelled
              5 true 1%float cancelled_run_events after_cancellation_events
              "task_1_1000"%string x G Q)
    as (x' & G' & S' & _).
  - vm_compute. intros [].
  - intros rest. vm_compute. discriminate.
  - exists x'. split; [exact G'|exact S'].
Defined.

(** ** The end of an attempt *)

(** [_execute_task] after a final outcome: the dependents are notified, the
    permit is released and the scheduler goes on with its round. The task
    that has ended is left as it is. *)
Lemma finish_view (id : string) (a : Facts) (rest : list TaskPriority)
      (now : float) (wd : Watchdog.t) (h : Asyncio.Heap) (pc : SchedulerPC)
      (m : t) :
  view m id = Some a -> f_state a <> WAITING ->
  ~ In id (queued_ids m) ->
  let w1 :=
    sweep rest now (mkWorld (release_slot (_notify_dependents id m)) wd h pc)
  in
  view (manager w1) id = Some a
  /\ ~ In id (pending (queued_ids (manager w1)) (position (scheduler w1))).
Proof.
  intros V W NQ.
  assert (W0 : option_map f_state (view m id) <> Some WAITING).
  { rewrite V. cbn. congruence. }
  destruct (notify_dependents_spares id id m W0) as [V1 Q1].
  cbv zeta.
  match goal with
  | |- context [sweep rest now ?W1] =>
    destruct (sweep_spares id rest now W1) as [V2 NP2]
  end.
  - cbn [manager].
    change (view (release_slot ?X)) with (view X). now rewrite V1.
  - cbn [manager].
    change (queued_ids (release_slot ?X)) with (queued_ids X).
    intros H. apply NQ. now apply Q1.
  - split; [|exact NP2]. rewrite V2. cbn [manager].
    change (view (release_slot ?X)) with (view X). now rewrite V1.
Qed.

(** X22. The end of an attempt decides the task. In every run of a manager,
    when the scheduler is suspended in [await task] for the task [id], the
    task is [RUNNING], and when its handle settles:
    - with a returned value, the task is [COMPLETED] with this value as its
      result, whatever happens afterwards;
    - with an exception of class [Exception] ([Asyncio.Raised]) and no
      retry left, the task is [FAILED] with this exception as its error,
      whatever happens afterwards;
    - with an exception of class [Exception] and a retry left, the task is
      [RETRYING] with the exception as its error and one more retry
      counted;
    - with a cancellation, the task is [CANCELLED], whatever happens
      afterwards.
    Afterwards means: in the events of the model, which have no [stop] and
    no callbacks of the manager. *)
Theorem settled_attempt_decides_the_task
        (max_concurrent : Z) (enable_wd : bool) (interval : float)
        (evs later : list Event) (id : string) (rest : list TaskPriority)
        (o : Asyncio.Outcome) (now : float) :
  let w := run (new_world max_concurrent enable_wd interval) evs in
  scheduler w = AwaitTask id rest ->
  exists x x',
    get_task_info id (manager w) = Some x /\ state x = RUNNING
    /\ get_task_info id (manager (run w (Settle o now :: later))) = Some x'
    /\ match o with
       | Asyncio.Returned v => state x' = COMPLETED /\ result x' = v
       | Asyncio.Raised e _ =>
         if can_retry x
         then later = [] ->
              state x' = RETRYING /\ error x' = Some e
              /\ retry_count x' = retry_count x + 1
         else state x' = FAILED /\ error x' = Some e
       | Asyncio.WasCancelled => state x' = CANCELLED
       end.
Proof.
  cbv zeta. intros P.
  destruct (reachable_invariants max_concurrent enable_wd interval evs)
    as (SI & Sy & _).
  set (w := run (new_world max_concurrent enable_wd interval) evs) in *.
  pose proof Sy as [I _]. rewrite P in I. cbn [position] in I.
  destruct (executing_known _ _ id _ I (or_introl eq_refl)) as [x G].
  pose proof (view_lookup _ _ _ G) as V.
  assert (R : state x = RUNNING)
    by exact (proj2 (q_running _ _ _ _ I id _ V) eq_refl).
  assert (NQ : ~ In id (queued_ids (manager w))).
  { pose proof (q_nodup _ _ _ _ I) as ND.
    cbn [pending held_id app] in ND. now inversion ND. }
  exists x.
  pose proof (step_scheduler_inv w (Settle o now) SI) as SI1.
  destruct (step_system_inv w (Settle o now) SI Sy) as [Sy1 _].
  destruct (run_system_inv later _ SI1 Sy1) as [_ VM].
  assert (Final : forall a,
             view (manager (step w (Settle o now))) id = Some a ->
             final (f_state a) = true ->
             view (manager (run w (Settle o now :: later))) id = Some a).
  { intros a Va F. destruct (VM id a Va) as (a' & Va' & _ & _ & Fz).
    cbn [run fold_left]. rewrite (Fz F) in Va'. exact Va'. }
  revert SI1 Sy1 VM Final. cbn [run fold_left step]. unfold settle.
  rewrite P. destruct (settle_handle id o now w) as [wd1 h2].
  destruct o as [v|e|].
  - intros _ _ _ Final. unfold _on_task_success.
    set (f := fun y => set_end_time (Some now) _).
    destruct (finish_view id (facts (f x)) rest now wd1 h2 (AwaitTask id rest)
                          (add_completed 1 (modify id f (manager w))))
      as [V1 _]; [|discriminate|exact NQ|].
    { exact (proj1 (proj2 (changes_modify id f _ x (fun _ => eq_refl)
                                          eq_refl G))). }
    destruct (lookup_view _ _ _ (Final _ V1 eq_refl))
      as (x' & G' & S' & R' & _).
    exists x'. repeat split; assumption.
  - unfold _on_task_error.
    set (g := fun y => set_end_time (Some now) (set_error (Some e) y)).
    assert (G1 : get_task_info id (modify id g (manager w)) = Some (g x)).
    { rewrite get_modify by reflexivity. now rewrite G, String.eqb_refl. }
    rewrite G1. change (can_retry (g x)) with (can_retry x).
    destruct (can_retry x).
    + intros _ _ VM _.
      set (h := fun y => set_state RETRYING _) in *.
      assert (G2 : get_task_info
                     id (add_retries 1 (modify id h (modify id g (manager w))))
                   = Some (h (g x))).
      { change (get_task_info id (add_retries 1 ?X))
          with (get_task_info id X).
        rewrite get_modify by reflexivity.
        now rewrite G1, String.eqb_refl. }
      destruct later as [|ev later].
      * exists (h (g x)). cbn [fold_left manager].
        repeat split; try assumption.
      * destruct (VM id _ (view_lookup _ _ _ G2)) as (a' & Va' & _).
        destruct (lookup_view _ _ _ Va') as (x' & G' & _).
        exists x'. split; [exact G|]. split; [exact R|].
        split; [exact G'|]. intros H. discriminate H.
    + intros _ _ _ Final.
      destruct (finish_view id (facts (set_state FAILED (g x))) rest now wd1
                            h2 (AwaitTask id rest)
                            (add_failed 1
                               (modify id (set_state FAILED)
                                       (modify id g (manager w)))))
        as [V1 _]; [|discriminate|exact NQ|].
      { exact (proj1 (proj2 (changes_modify id (set_state FAILED) _ (g x)
                                            (fun _ => eq_refl) eq_refl G1))). }
      destruct (lookup_view _ _ _ (Final _ V1 eq_refl))
        as (x' & G' & S' & _ & E').
      exists x'. repeat split; assumption.
  - intros SI1 Sy1 _ _. unfold _on_task_cancelled.
    set (f := fun y => set_end_time (Some now) _).
    destruct (finish_view id (facts (f x)) rest now wd1 h2 (AwaitTask id rest)
                          (add_cancelled 1 (modify id f (manager w))))
      as [V1 NP1]; [|discriminate|exact NQ|].
    { exact (proj1 (proj2 (changes_modify id f _ x (fun _ => eq_refl)
                                          eq_refl G))). }
    unfold _on_task_cancelled in SI1, Sy1. fold f in SI1, Sy1.
    match type of V1 with
    | view (manager ?W1) id = _ =>
      assert (A1 : aside id W1)
        by (split; [rewrite V1; reflexivity|exact NP1]);
        pose proof (run_aside id later W1 SI1 Sy1 A1) as E
    end.
    rewrite V1 in E.
    destruct (lookup_view _ _ _ E) as (x' & G' & S' & _).
    exists x'. repeat split; assumption.
Qed.

Lemma settled_attempt_witness :
  exists x',
    get_task_info
      "task_1_1000"%string
      (manager (run (run plain_world dispatched_events)
                    [Settle (Asyncio.Returned (PyStr "done"%string)) 3%float;
                     Cancel "task_1_1000"%string; SchedulerWake 4%float]))
    = Some x'
    /\ state x' = COMPLETED /\ result x' = PyStr "done"%string.
Proof.
  destruct (settled_attempt_decides_the_task
              5 true 1%float dispatched_events
              [Cancel "task_1_1000"%string; SchedulerWake 4%float]
              "task_1_1000"%string [LOW]
              (Asyncio.Returned (PyStr "done"%string)) 3%float eq_refl)
    as (x & x' & _ & _ & G' & S' & R').
  exists x'. split; [exact G'|]. split; assumption.
Defined.

(** ** The counter of cancellations *)

Lemma pays_refl (m : t) : pays m m.
Proof. split; [reflexivity|lia]. Qed.

Lemma pays_trans (m1 m2 m3 : t) : pays m1 m2 -> pays m2 m3 -> pays m1 m3.
Proof. intros [I1 S1] [I2 S2]. split; [congruence|lia]. Qed.

Lemma pays_same (m m' : t) :
  _tasks m' = _tasks m ->
  total_cancelled (_stats m') = total_cancelled (_stats m) ->
  pays m m'.
Proof.
  intros T C. unfold pays, ids, cancelled_slack, count_state,
                get_tasks_by_state.
  rewrite T, C. split; [reflexivity|lia].
Qed.

Lemma pays_nodup (m m' : t) : pays m m' -> NoDup (ids m) -> NoDup (ids m').
Proof. intros [I _] N. now rewrite I. Qed.

(** A mutation that cancels nothing. *)
Lemma modify_pays (id : string) (f : ManagedTask -> ManagedTask) (m : t) :
  (forall x, task_id (f x) = task_id x) ->
  (forall x, state (f x) = CANCELLED -> state x = CANCELLED) ->
  pays m (modify id f m).
Proof.
  intros Hf Hs. split; [now apply ids_modify|].
  unfold cancelled_slack, count_state, get_tasks_by_state, modify.
  cbn [_tasks _stats with_tasks].
  assert (L : (List.length
                 (filter (fun x => state_eqb (state x) CANCELLED)
                         (map (fun i => if String.eqb (task_id i) id
                                        then f i else i) (_tasks m)))
               <= List.length
                    (filter (fun x => state_eqb (state x) CANCELLED)
                            (_tasks m)))%nat).
  { induction (_tasks m) as [|y l IH]; cbn [map filter]; [lia|].
    destruct (String.eqb (task_id y) id).
    - destruct (state_eqb (state (f y)) CANCELLED) eqn:E.
      + apply state_eqb_eq in E. rewrite (Hs y E). cbn [state_eqb List.length].
        lia.
      + destruct (state_eqb (state y) CANCELLED); cbn [List.length]; lia.
    - destruct (state_eqb (state y) CANCELLED); cbn [List.length]; lia. }
  lia.
Qed.

Lemma map_untouched (id : string) (f : ManagedTask -> ManagedTask)
      (l : list ManagedTask) :
  ~ In id (map task_id l) ->
  map (fun i => if String.eqb (task_id i) id then f i else i) l = l.
Proof.
  intros N. transitivity (map (fun i : ManagedTask => i) l); [|apply map_id].
  apply map_ext_in. intros y Hy.
  destruct (String.eqb (task_id y) id) eqn:E; [|reflexivity].
  apply String.eqb_eq in E. exfalso. apply N. rewrite <- E. now apply in_map.
Qed.

(** A mutation of one task that is counted as a cancellation. *)
Lemma modify_cancel_pays (id : string) (f : ManagedTask -> ManagedTask)
      (m : t) :
  NoDup (ids m) -> (forall x, task_id (f x) = task_id x) ->
  pays m (add_cancelled 1 (modify id f m)).
Proof.
  intros N Hf. split; [exact (ids_modify id f m Hf)|].
  unfold cancelled_slack, count_state, get_tasks_by_state, modify,
    add_cancelled.
  cbn [_tasks _stats with_tasks with_stats total_cancelled].
  assert (L : (List.length
                 (filter (fun x => state_eqb (state x) CANCELLED)
                         (map (fun i => if String.eqb (task_id i) id
                                        then f i else i) (_tasks m)))
               <= S (List.length
                       (filter (fun x => state_eqb (state x) CANCELLED)
                               (_tasks m))))%nat).
  { unfold ids in N. induction (_tasks m) as [|y l IH]; cbn [map filter];
      [lia|].
    cbn [map] in N. inversion N as [|? ? Ny N']; subst.
    destruct (String.eqb (task_id y) id) eqn:E.
    - apply String.eqb_eq in E. rewrite E in Ny.
      rewrite (map_untouched id f l Ny).
      destruct (state_eqb (state (f y)) CANCELLED),
               (state_eqb (state y) CANCELLED); cbn [List.length]; lia.
    - specialize (IH N').
      destruct (state_eqb (state y) CANCELLED); cbn [List.length]; lia. }
  lia.
Qed.

Ltac quiet_modify :=
  apply modify_pays;
  [ reflexivity
  | let x := fresh "x" in
    intros x; cbn; first [discriminate | tauto | congruence] ].

Lemma check_dependencies_loop_pays (id : string) (flag : bool)
      (deps : list string) (m : t) :
  NoDup (ids m) -> pays m (fst (check_dependencies_loop id flag deps m)).
Proof.
  revert m. induction deps as [|d deps IH]; intros m N; simpl.
  - apply pays_refl.
  - destruct (get_task_info d m) as [y|]; [|apply pays_refl].
    assert (H1 : pays m (modify d (add_dependent id) m)) by quiet_modify.
    pose proof (pays_nodup _ _ H1 N) as N1.
    destruct (state_eqb (state y) COMPLETED).
    + eapply pays_trans; [exact H1|now apply IH].
    + destruct (state_eqb (state y) FAILED && flag); simpl; [|exact H1].
      eapply pays_trans; [exact H1|].
      now apply modify_cancel_pays.
Qed.

Lemma check_dependencies_pays (id : string) (m : t) :
  NoDup (ids m) -> pays m (fst (_check_dependencies id m)).
Proof.
  intros N. unfold _check_dependencies.
  change (get_task_info id (with_dep_checks (dep_checks m ++ [id]) m))
    with (get_task_info id m).
  destruct (get_task_info id m) as [x|]; simpl.
  - eapply pays_trans; [|apply check_dependencies_loop_pays; exact N].
    apply pays_same; reflexivity.
  - apply pays_same; reflexivity.
Qed.

Lemma make_ready_pays (id : string) (m : t) : pays m (make_ready id m).
Proof.
  unfold make_ready.
  assert (H : pays m (modify id (set_state QUEUED) m)) by quiet_modify.
  destruct (get_task_info id _); [|exact H].
  eapply pays_trans; [exact H|]. apply pays_same; reflexivity.
Qed.

Lemma recheck_if_waiting_pays (m : t) (id : string) :
  NoDup (ids m) -> pays m (recheck_if_waiting m id).
Proof.
  intros N. unfold recheck_if_waiting.
  destruct (get_task_info id m) as [x|]; [|apply pays_refl].
  destruct (state_eqb (state x) WAITING); [|apply pays_refl].
  pose proof (check_dependencies_pays id m N) as H.
  destruct (_check_dependencies id m) as [m1 ok]. simpl in H.
  destruct ok; [|exact H].
  eapply pays_trans; [exact H|apply make_ready_pays].
Qed.

Lemma fold_recheck_pays (l : list string) (m : t) :
  NoDup (ids m) -> pays m (fold_left recheck_if_waiting l m).
Proof.
  revert m. induction l as [|id l IH]; intros m N; simpl.
  - apply pays_refl.
  - pose proof (recheck_if_waiting_pays m id N) as H.
    eapply pays_trans; [exact H|]. apply IH. exact (pays_nodup _ _ H N).
Qed.

Lemma notify_dependents_pays (id : string) (m : t) :
  NoDup (ids m) -> pays m (_notify_dependents id m).
Proof.
  intros N. unfold _notify_dependents.
  destruct (get_task_info id m); [now apply fold_recheck_pays|].
  apply pays_refl.
Qed.

Lemma launch_pays (id : string) (x : ManagedTask) (now : float) (w : World) :
  pays (manager w) (manager (launch id x now w)).
Proof.
  unfold launch.
  destruct (Asyncio.create_task (heap w)) as [h1 r].
  set (m2 := add_running 1 _).
  assert (H2 : pays (manager w) m2).
  { unfold m2.
    match goal with
    | |- pays ?A (add_running 1 (modify id ?f ?B)) =>
      apply (pays_trans A B); [apply pays_same; reflexivity|];
        apply (pays_trans B (modify id f B));
        [quiet_modify|apply pays_same; reflexivity]
    end. }
  assert (H3 : pays (manager w) (modify id (set_task (Some r)) m2)).
  { eapply pays_trans; [exact H2|quiet_modify]. }
  destruct (_watchdog (manager w) && TaskConfig.enable_watchdog (config x)).
  - destruct (Watchdog.register_task _ _ _ _ _ _ _) as [[wd1 h2] wid].
    cbn [manager]. eapply pays_trans; [exact H3|quiet_modify].
  - cbn [manager]. exact H3.
Qed.

Lemma sweep_pays (ps : list TaskPriority) (now : float) (w : World) :
  NoDup (ids (manager w)) -> pays (manager w) (manager (sweep ps now w)).
Proof.
  revert w. induction ps as [|p ps IH]; intros w N; cbn [sweep].
  - cbn [manager]. now apply fold_recheck_pays.
  - destruct (_priority_queues (manager w) p) as [|id tail]; [now apply IH|].
    set (m1 := with_queues _ (manager w)).
    assert (H1 : pays (manager w) m1) by (apply pays_same; reflexivity).
    destruct (get_task_info id m1) as [x|].
    + assert (HL : pays (manager w)
                        (manager (launch id x now (with_manager m1 w)))).
      { eapply pays_trans; [exact H1|].
        exact (launch_pays id x now (with_manager m1 w)). }
      destruct (_semaphore m1) as [v|]; [destruct (0 <? v)|];
        cbn [manager with_scheduler with_manager]; first [exact HL|exact H1].
    + eapply pays_trans; [exact H1|].
      apply (IH (with_manager m1 w)). exact N.
Qed.

Lemma on_task_success_pays (id : string) (v : PyValue) (now : float)
      (m : t) :
  NoDup (ids m) -> pays m (_on_task_success id v now m).
Proof.
  intros N. unfold _on_task_success.
  set (f := fun x => set_end_time (Some now) _).
  assert (H1 : pays m (add_completed 1 (modify id f m))).
  { eapply pays_trans; [|apply pays_same; reflexivity]. quiet_modify. }
  eapply pays_trans; [exact H1|]. apply notify_dependents_pays.
  exact (pays_nodup _ _ H1 N).
Qed.

Lemma on_task_cancelled_pays (id : string) (now : float) (m : t) :
  NoDup (ids m) -> pays m (_on_task_cancelled id now m).
Proof.
  intros N. unfold _on_task_cancelled.
  set (f := fun x => set_end_time (Some now) _).
  assert (H1 : pays m (add_cancelled 1 (modify id f m)))
    by (apply modify_cancel_pays; [exact N|reflexivity]).
  eapply pays_trans; [exact H1|]. apply notify_dependents_pays.
  exact (pays_nodup _ _ H1 N).
Qed.

Lemma on_task_error_pays (id : string) (e : Exception) (now : float)
      (m : t) :
  NoDup (ids m) -> pays m (fst (_on_task_error id e now m)).
Proof.
  intros N. unfold _on_task_error.
  set (g := fun x => set_end_time (Some now) (set_error (Some e) x)).
  assert (H1 : pays m (modify id g m)) by quiet_modify.
  destruct (get_task_info id (modify id g m)) as [x|]; [|exact H1].
  destruct (can_retry x); cbn [fst].
  - eapply pays_trans; [exact H1|].
    eapply pays_trans; [|apply pays_same; reflexivity]. quiet_modify.
  - assert (H2 : pays m (add_failed 1 (modify id (set_state FAILED)
                                              (modify id g m)))).
    { eapply pays_trans; [exact H1|].
      eapply pays_trans; [|apply pays_same; reflexivity]. quiet_modify. }
    eapply pays_trans; [exact H2|]. apply notify_dependents_pays.
    exact (pays_nodup _ _ H2 N).
Qed.

Lemma on_task_error_requeue_pays (id : string) (m : t) :
  pays m (_on_task_error_requeue id m).
Proof.
  unfold _on_task_error_requeue.
  set (r := fun x => set_error None _).
  assert (H1 : pays m (modify id r m)) by quiet_modify.
  destruct (get_task_info id (modify id r m)); [|exact H1].
  eapply pays_trans; [exact H1|]. apply pays_same; reflexivity.
Qed.

Lemma cancel_task_pays (id : string) (w : World) :
  NoDup (ids (manager w)) ->
  pays (manager w) (manager (fst (cancel_task id w))).
Proof.
  intros N. unfold cancel_task.
  destruct (get_task_info id (manager w)) as [x|]; [|apply pays_refl].
  destruct (state x), (task x); cbn [fst manager with_manager];
    first [ apply pays_refl
          | apply modify_cancel_pays; [exact N|reflexivity] ].
Qed.

Lemma submit_task_slack
      (nm : option string) (cfg : option TaskConfig.t) (now : float)
      (millis : Z) (m m' : t) (id : string) :
  submit_task nm cfg now millis m = inr (id, m') ->
  get_task_info id m = None -> NoDup (ids m) ->
  cancelled_slack m <= cancelled_slack m'.
Proof.
  unfold submit_task. destruct (negb (_running m)); [discriminate|].
  set (c := S (_task_counter m)).
  set (cf := match cfg with Some k => k | None => TaskConfig.default end).
  set (x0 := mkManagedTask _ _ cf _ _ _ _ _ _ _ _ _ _).
  set (m3 := add_submitted 1 _).
  intros Sub G N.
  assert (Id : id = make_task_id c millis).
  { destruct (TaskConfig.dependencies cf);
      [|destruct (_check_dependencies _ m3) as [m4 [|]]];
      injection Sub as Sub _; congruence. }
  assert (T3 : _tasks m3 = _tasks m ++ [x0]).
  { change (_tasks m3) with (dict_set x0 (_tasks m)). unfold dict_set.
    destruct (existsb _ (_tasks m)) eqn:E; [|reflexivity].
    exfalso. apply existsb_exists in E. destruct E as (y & Hy & E).
    unfold get_task_info in G.
    apply (find_none _ _ G) in Hy. rewrite Id in Hy.
    change (task_id x0) with (make_task_id c millis) in E. congruence. }
  assert (S3 : cancelled_slack m3 = cancelled_slack m).
  { unfold cancelled_slack, count_state, get_tasks_by_state. rewrite T3.
    rewrite filter_app, length_app. cbn. lia. }
  assert (N3 : NoDup (ids m3)).
  { unfold ids. change (_tasks m3) with (dict_set x0 (_tasks m)).
    now apply dict_set_ids. }
  rewrite <- S3.
  destruct (TaskConfig.dependencies cf) as [|d ds].
  - injection Sub as _ <-. apply make_ready_pays.
  - pose proof (check_dependencies_pays (make_task_id c millis) m3 N3) as H4.
    destruct (_check_dependencies (make_task_id c millis) m3) as [m4 [|]];
      cbn [fst] in H4; injection Sub as _ <-.
    + apply (pays_trans _ _ _ H4 (make_ready_pays _ m4)).
    + eapply pays_trans; [exact H4|]. quiet_modify.
Qed.

Lemma step_slack (w : World) (ev : Event) :
  scheduler_inv w -> system_inv w ->
  cancelled_slack (manager w) <= cancelled_slack (manager (step w ev)).
Proof.
  intros SI [I Is]. pose proof (inv_ids w SI) as N.
  assert (Rel : forall m0, pays (manager w) m0 ->
                           NoDup (ids (release_slot m0))
                           /\ pays (manager w) (release_slot m0)).
  { intros m0 H. split.
    - change (ids (release_slot m0)) with (ids m0).
      exact (pays_nodup _ _ H N).
    - eapply pays_trans; [exact H|]. apply pays_same; reflexivity. }
  assert (Sw : forall rest now wd h pc m0,
             pays (manager w) m0 ->
             cancelled_slack (manager w)
             <= cancelled_slack
                  (manager (sweep rest now
                                  (mkWorld (release_slot m0) wd h pc)))).
  { intros rest now wd h pc m0 H. destruct (Rel m0 H) as [N0 H0].
    apply (pays_trans _ _ _ H0).
    apply (sweep_pays rest now (mkWorld (release_slot m0) wd h pc)).
    exact N0. }
  destruct ev as [|nm cfg now millis|id|now|o now|now|now]; cbn [step].
  - unfold start. destruct (_running (manager w)); [lia|].
    destruct (max_concurrent_tasks (manager w) <? 0);
      cbn [manager with_manager];
      apply (pays_same (manager w)); reflexivity.
  - destruct (submit_task nm cfg now millis (manager w)) as [e|[id m']]
      eqn:Sub; [lia|].
    destruct (submit_task_keeps _ _ _ _ _ _ _ _ I Is Sub)
      as (_ & _ & Fr & _).
    cbn [manager with_manager].
    exact (submit_task_slack _ _ _ _ _ _ _ Sub (view_none _ _ Fr) N).
  - now apply cancel_task_pays.
  - unfold scheduler_wake. destruct (scheduler w); try lia.
    destruct (_running (manager w)); [|cbn [manager with_scheduler]; lia].
    now apply sweep_pays.
  - unfold settle. destruct (scheduler w) as [| |? ?|id rest|? ?|];
      try lia.
    destruct (settle_handle id o now w) as [wd1 h2].
    destruct o as [v|e|].
    + apply Sw. now apply on_task_success_pays.
    + pose proof (on_task_error_pays id e now (manager w) N) as H.
      destruct (_on_task_error id e now (manager w)) as [m1 [|]];
        cbn [fst] in H; [apply H|now apply Sw].
    + apply Sw. now apply on_task_cancelled_pays.
  - unfold retry_wake. destruct (scheduler w) as [| |? ?|? ?|id rest|];
      try lia.
    unfold with_manager. apply Sw. apply on_task_error_requeue_pays.
  - unfold watchdog_tick.
    destruct (Watchdog._running (watchdog w)); [|lia].
    destruct (Watchdog._check_tasks now (watchdog w) (heap w)).
    cbn [manager]. lia.
Qed.

Lemma run_slack (evs : list Event) (w : World) :
  scheduler_inv w -> system_inv w ->
  cancelled_slack (manager w) <= cancelled_slack (manager (run w evs)).
Proof.
  revert w. induction evs as [|ev evs IH]; intros w SI Sy;
    cbn [run fold_left]; [lia|].
  pose proof (step_slack w ev SI Sy) as H.
  destruct (step_system_inv w ev SI Sy) as [Sy1 _].
  pose proof (IH (step w ev) (step_scheduler_inv w ev SI) Sy1) as H1.
  unfold run in H1. lia.
Qed.

(** Every task is in one state. *)
Lemma tasks_by_state (l : list ManagedTask) :
  Z.of_nat (List.length l)
  = Z.of_nat (List.length
                (filter (fun x => state_eqb (state x) COMPLETED) l))
    + Z.of_nat (List.length
                  (filter (fun x => state_eqb (state x) FAILED) l))
    + Z.of_nat (List.length
                  (filter (fun x => state_eqb (state x) CANCELLED) l))
    + Z.of_nat (List.length
                  (filter (fun x => negb (is_terminal_state x)) l)).
Proof.
  induction l as [|x l IH]; [reflexivity|].
  cbn [filter]. unfold is_terminal_state at 1.
  destruct (state x); cbn [state_eqb negb List.length]; lia.
Qed.

(** X23. What the statistics add up to. In every run of a manager,
    [total_cancelled] is at least the number of tasks in state [CANCELLED],
    and [total_submitted] is [total_completed] plus [total_failed] plus the
    number of tasks in state [CANCELLED] plus the number of tasks in a
    state that is not terminal. So [total_submitted] is at most the sum of
    the three counters and of the number of unfinished tasks. *)
Theorem statistics_balance
        (max_concurrent : Z) (enable_wd : bool) (interval : float)
        (evs : list Event) :
  let m := manager (run (new_world max_concurrent enable_wd interval) evs) in
  let cancelled := Z.of_nat (List.length (get_tasks_by_state CANCELLED m)) in
  let live := Z.of_nat (List.length (unfinished m)) in
  cancelled <= r_total_cancelled (get_stats m)
  /\ r_total_submitted (get_stats m)
     = r_total_completed (get_stats m) + r_total_failed (get_stats m)
       + cancelled + live
  /\ r_total_submitted (get_stats m)
     <= r_total_completed (get_stats m) + r_total_failed (get_stats m)
        + r_total_cancelled (get_stats m) + live.
Proof.
  cbv zeta.
  destruct (reachable_invariants max_concurrent enable_wd interval evs)
    as (_ & _ & [_ Bs Bt]).
  pose proof (run_slack evs (new_world max_concurrent enable_wd interval)
                        (new_world_inv _ _ _) (new_world_system_inv _ _ _))
    as Sl.
  assert (C : counted (manager (run (new_world max_concurrent enable_wd
                                               interval) evs))).
  { apply run_counted;
      [apply new_world_inv|apply new_world_system_inv|].
    constructor; reflexivity. }
  destruct C as [C1 C2 _].
  set (m := manager (run (new_world max_concurrent enable_wd interval) evs))
    in *.
  pose proof (tasks_by_state (_tasks m)) as Sum.
  unfold cancelled_slack, count_state, get_tasks_by_state in *.
  cbn [new_world manager init _stats _tasks total_cancelled filter
       List.length] in Sl.
  unfold get_stats, unfinished.
  cbn [r_total_cancelled r_total_submitted r_total_completed r_total_failed].
  rewrite Bs in Sum. lia.
Qed.

(** ** Notification of the dependents *)





















(** ** Cancelling, with the handles *)

(** X8. What [cancel_task] does. The call succeeds exactly for a known task
    that is [QUEUED], [WAITING], or [RUNNING] with a handle; otherwise
    nothing at all changes. A queued or waiting task becomes [CANCELLED] at
    once and the counter of cancelled tasks goes up by one, while the
    priority queues and the handles stay as they are. For a running task
    with a handle, this handle is asked to cancel and no other handle is
    touched, and the manager, so the task's state and the counters, stays
    as it is. No other task is touched. *)
Theorem cancel_task_effect (id : string) (w : World) :
  let w' := fst (cancel_task id w) in
  let ok := snd (cancel_task id w) in
  (ok = true
   <-> exists x,
      get_task_info id (manager w) = Some x
      /\ (state x = QUEUED \/ state x = WAITING
          \/ (state x = RUNNING /\ task x <> None)))
  /\ (ok = false -> w' = w)
  /\ (forall q, _priority_queues (manager w') q
                = _priority_queues (manager w) q)
  /\ watchdog w' = watchdog w
  /\ scheduler w' = scheduler w
  /\ (forall k, k <> id ->
                get_task_info k (manager w') = get_task_info k (manager w))
  /\ (forall x, get_task_info id (manager w) = Some x ->
                state x = RUNNING -> manager w' = manager w)
  /\ (forall x r, get_task_info id (manager w) = Some x ->
                  state x = RUNNING -> task x = Some r ->
                  heap w' = Asyncio.update r Asyncio.cancel (heap w)
                  /\ Asyncio.get r (heap w')
                     = option_map Asyncio.cancel (Asyncio.get r (heap w))
                  /\ forall r', r' <> r ->
                                Asyncio.get r' (heap w')
                                = Asyncio.get r' (heap w))
  /\ (forall x, get_task_info id (manager w) = Some x ->
                state x = QUEUED \/ state x = WAITING ->
                heap w' = heap w
                /\ get_task_info id (manager w')
                   = Some (set_state CANCELLED x)
                /\ total_cancelled (_stats (manager w'))
                   = total_cancelled (_stats (manager w)) + 1).
Proof.
  cbv zeta.
  destruct (cancel_task_cases id w) as (A1 & A2 & A3 & A4 & A5 & A6 & A7 & A8).
  repeat (split; [assumption|]). split; [|exact A8].
  intros x r G S T. unfold cancel_task. rewrite G, S, T. cbn [fst heap].
  split; [reflexivity|]. split.
  - now rewrite asyncio_get_update, Nat.eqb_refl.
  - intros r' N. rewrite asyncio_get_update.
    apply Nat.eqb_neq in N. now rewrite N.
Qed.

(** ** One event *)

Ltac rel_cases :=
  let a := fresh "a" in
  let b := fresh "b" in
  let c := fresh "c" in
  intros a b c; destruct a, b; cbn; intros; try discriminate;
  destruct c; cbn in *; try reflexivity; try discriminate.

Ltac rel_refl :=
  let s := fresh "s" in intros s; destruct s; reflexivity.

Lemma vrel_comp (R1 R2 R3 : TaskState -> TaskState -> bool)
      (st0 st1 st2 : View) :
  (forall a b c, R1 a b = true -> R2 b c = true -> R3 a c = true) ->
  vrel R1 st0 st1 -> vrel R2 st1 st2 -> vrel R3 st0 st2.
Proof.
  intros H V1 V2 id a Ha.
  destruct (V1 id a Ha) as (b & Hb & Rb).
  destruct (V2 id b Hb) as (c & Hc & Rc).
  exists c. split; [exact Hc|]. eapply H; eassumption.
Qed.

Lemma vrel_same (R : TaskState -> TaskState -> bool) (st st' : View) :
  (forall s, R s s = true) -> (forall k, st' k = st k) -> vrel R st st'.
Proof. intros Rf E id a Ha. exists a. split; [now rewrite E|apply Rf]. Qed.

Lemma vrel_change (R : TaskState -> TaskState -> bool) (id : string)
      (a a' : Facts) (st st' : View) :
  (forall s, R s s = true) ->
  changes_at id a a' st st' -> R (f_state a) (f_state a') = true ->
  vrel R st st'.
Proof.
  intros Rf (H1 & H2 & _ & H4) Ra k b Hb.
  destruct (string_dec k id) as [->|N].
  - exists a'. split; [exact H2|]. congruence.
  - exists b. split; [now rewrite H4|apply Rf].
Qed.

Lemma recheck_if_waiting_rechecks (m : t) (k : string) :
  vrel rechecks (view m) (view (recheck_if_waiting m k)).
Proof.
  assert (Same : vrel rechecks (view m) (view m))
    by (apply vrel_same; [rel_refl|reflexivity]).
  unfold recheck_if_waiting.
  destruct (get_task_info k m) as [x|] eqn:G; [|exact Same].
  destruct (state_eqb (state x) WAITING) eqn:S; [|exact Same].
  apply state_eqb_eq in S.
  pose proof (check_dependencies_view k m) as (_ & _ & V).
  destruct (_check_dependencies k m) as [m1 ok]. cbn [fst snd] in V.
  assert (V1 : vrel rechecks (view m) (view m1)).
  { destruct V as [V|(_ & a & a' & Ch & T)].
    - apply vrel_same; [rel_refl|exact V].
    - apply (vrel_change rechecks k a a'); [rel_refl|exact Ch|].
      assert (a = facts x).
      { destruct Ch as (Ha & _). unfold view in Ha. rewrite G in Ha.
        cbn in Ha. congruence. }
      subst a. cbn [facts f_state]. now rewrite S, T. }
  destruct ok; [|exact V1].
  destruct V as [V|(F & _)]; [|discriminate].
  destruct (get_task_info k m1) as [x1|] eqn:G1.
  - destruct (make_ready_view k m1 x1 G1) as (Ch & _).
    apply (vrel_comp rechecks rechecks rechecks _ (view m1));
      [rel_cases|exact V1|].
    apply (vrel_change rechecks k _ _ _ _ ltac:(rel_refl) Ch).
    assert (E : facts x1 = facts x).
    { pose proof (V k) as E. unfold view in E. rewrite G, G1 in E.
      cbn in E. congruence. }
    rewrite E. cbn [facts f_state set_state state]. now rewrite S.
  - exfalso. pose proof (V k) as E. unfold view in E. rewrite G, G1 in E.
    discriminate.
Qed.

Lemma fold_recheck_rechecks (l : list string) (m : t) :
  vrel rechecks (view m) (view (fold_left recheck_if_waiting l m)).
Proof.
  revert m. induction l as [|k l IH]; intros m; cbn [fold_left].
  - apply vrel_same; [rel_refl|reflexivity].
  - apply (vrel_comp rechecks rechecks rechecks _
                     (view (recheck_if_waiting m k)));
      [rel_cases|apply recheck_if_waiting_rechecks|apply IH].
Qed.

Lemma notify_dependents_rechecks (id : string) (m : t) :
  vrel rechecks (view m) (view (_notify_dependents id m)).
Proof.
  unfold _notify_dependents.
  destruct (get_task_info id m); [apply fold_recheck_rechecks|].
  apply vrel_same; [rel_refl|reflexivity].
Qed.

(** A round of the scheduler dispatches one task, or checks the waiting
    tasks. *)
Lemma sweep_moves (ps : list TaskPriority) (now : float) (w : World) :
  qinv None (view (manager w)) (queued_ids (manager w)) Idle ->
  vrel rechecks (view (manager w)) (view (manager (sweep ps now w)))
  \/ vrel launches (view (manager w)) (view (manager (sweep ps now w))).
Proof.
  revert w. induction ps as [|p ps IH]; intros w I; cbn [sweep].
  - left. cbn [manager]. apply fold_recheck_rechecks.
  - destruct (_priority_queues (manager w) p) as [|id tail] eqn:Q;
      [now apply IH|].
    set (m1 := with_queues _ (manager w)).
    assert (I1 : qinv None (view m1) (queued_ids m1) (AtSemaphore id)).
    { apply qinv_pop. change (view m1) with (view (manager w)).
      eapply qinv_same; [reflexivity|exact (pop_perm p id tail _ Q)|exact I]. }
    assert (Same : vrel launches (view (manager w)) (view m1))
      by (apply vrel_same; [rel_refl|reflexivity]).
    destruct (get_task_info id m1) as [x|] eqn:G.
    + right.
      assert (L : vrel launches (view (manager w))
                       (view (manager (launch id x now (with_manager m1 w))))).
      { destruct (launch_view id x x now (with_manager m1 w) G)
          as ((a' & Ch & T) & _).
        cbn [manager with_manager] in Ch.
        assert (S0 : f_state (facts x) = QUEUED
                     \/ f_state (facts x) = CANCELLED).
        { apply (q_queued _ _ _ _ I1 id); [|now right].
          unfold view. now rewrite G. }
        change (view (manager w)) with (view m1).
        apply (vrel_change launches id _ _ _ _ ltac:(rel_refl) Ch).
        rewrite T. destruct S0 as [S0|S0]; now rewrite S0. }
      destruct (_semaphore m1) as [v|]; [destruct (0 <? v)|];
        cbn [manager with_scheduler with_manager]; first [exact L|exact Same].
    + exfalso. apply (q_known _ _ _ _ I1 id); [now left|].
      unfold view. now rewrite G.
Qed.

Lemma sweep_after (R : TaskState -> TaskState -> bool)
      (rest : list TaskPriority) (now : float) (w : World) (m1 : t)
      (wd : Watchdog.t) (h : Asyncio.Heap) (pc : SchedulerPC) :
  (forall a b c, R a b = true -> rechecks b c = true ->
                 event_move a c = true) ->
  (forall a b c, R a b = true -> launches b c = true ->
                 event_move a c = true) ->
  keeps_inv Idle (manager w) m1 ->
  vrel R (view (manager w)) (view m1) ->
  vrel event_move
       (view (manager w))
       (view (manager (sweep rest now (mkWorld (release_slot m1) wd h pc)))).
Proof.
  intros H1 H2 K V.
  destruct (sweep_moves rest now (mkWorld (release_slot m1) wd h pc))
    as [S|S]; [exact (proj1 K)| |].
  - eapply (vrel_comp R rechecks event_move); [exact H1|exact V|exact S].
  - eapply (vrel_comp R launches event_move); [exact H2|exact V|exact S].
Qed.

Lemma on_task_success_exits (id : string) (v : PyValue) (now : float)
      (m : t) :
  qinv None (view m) (queued_ids m) (Executing id) ->
  vrel exits_notifying (view m) (view (_on_task_success id v now m)).
Proof.
  intros I. unfold _on_task_success.
  destruct (executing_known m _ id _ I (or_introl eq_refl)) as [x G].
  set (f := fun x => set_end_time (Some now) _).
  pose proof (changes_modify id f m x (fun _ => eq_refl) eq_refl G) as Ch.
  assert (R : state x = RUNNING).
  { apply (q_running _ _ _ _ I id (facts x)); [|reflexivity].
    unfold view. now rewrite G. }
  apply (vrel_comp exits rechecks exits_notifying _
                   (view (add_completed 1 (modify id f m))));
    [rel_cases| |apply notify_dependents_rechecks].
  apply (vrel_change exits id _ _ _ _ ltac:(rel_refl) Ch).
  cbn [facts f_state f set_end_time set_result set_state state].
  now rewrite R.
Qed.

Lemma on_task_cancelled_exits (id : string) (now : float) (m : t) :
  qinv None (view m) (queued_ids m) (Executing id) ->
  vrel exits_notifying (view m) (view (_on_task_cancelled id now m)).
Proof.
  intros I. unfold _on_task_cancelled.
  destruct (executing_known m _ id _ I (or_introl eq_refl)) as [x G].
  set (f := fun x => set_end_time (Some now) _).
  pose proof (changes_modify id f m x (fun _ => eq_refl) eq_refl G) as Ch.
  assert (R : state x = RUNNING).
  { apply (q_running _ _ _ _ I id (facts x)); [|reflexivity].
    unfold view. now rewrite G. }
  apply (vrel_comp exits rechecks exits_notifying _
                   (view (add_cancelled 1 (modify id f m))));
    [rel_cases| |apply notify_dependents_rechecks].
  apply (vrel_change exits id _ _ _ _ ltac:(rel_refl) Ch).
  cbn [facts f_state f set_end_time set_state state].
  now rewrite R.
Qed.

Lemma on_task_error_exits (id : string) (e : Exception) (now : float)
      (m : t) :
  qinv None (view m) (queued_ids m) (Executing id) ->
  vrel exits_notifying (view m) (view (fst (_on_task_error id e now m))).
Proof.
  intros I. unfold _on_task_error.
  destruct (executing_known m _ id _ I (or_introl eq_refl)) as [x G].
  set (g := fun x => set_end_time (Some now) (set_error (Some e) x)).
  pose proof (changes_modify id g m x (fun _ => eq_refl) eq_refl G) as Ch1.
  assert (R : state x = RUNNING).
  { apply (q_running _ _ _ _ I id (facts x)); [|reflexivity].
    unfold view. now rewrite G. }
  assert (G1 : get_task_info id (modify id g m) = Some (g x)).
  { rewrite get_modify by reflexivity. now rewrite G, String.eqb_refl. }
  rewrite G1.
  destruct (can_retry (g x)); cbn [fst].
  - set (h := fun y => set_state RETRYING _).
    pose proof (changes_modify id h _ (g x) (fun _ => eq_refl) eq_refl G1)
      as Ch2.
    pose proof (changes_trans _ _ _ _ _ _ _ Ch1 Ch2) as Ch.
    apply (vrel_change exits_notifying id _ _ _ _ ltac:(rel_refl) Ch).
    cbn [facts f_state h set_state state]. now rewrite R.
  - pose proof (changes_modify id (set_state FAILED) _ (g x)
                               (fun _ => eq_refl) eq_refl G1) as Ch2.
    pose proof (changes_trans _ _ _ _ _ _ _ Ch1 Ch2) as Ch.
    apply (vrel_comp exits rechecks exits_notifying _
                     (view (add_failed 1 (modify id (set_state FAILED)
                                                 (modify id g m)))));
      [rel_cases| |apply notify_dependents_rechecks].
    apply (vrel_change exits id _ _ _ _ ltac:(rel_refl) Ch).
    cbn [facts f_state set_state state]. now rewrite R.
Qed.

Lemma on_task_error_requeue_requeues (id : string) (m : t) :
  qinv None (view m) (queued_ids m) (Sleeping id) ->
  vrel requeues (view m) (view (_on_task_error_requeue id m)).
Proof.
  intros I. unfold _on_task_error_requeue.
  destruct (executing_known m _ id _ I (or_introl eq_refl)) as [x G].
  set (r := fun x => set_error None _).
  pose proof (changes_modify id r m x (fun _ => eq_refl) eq_refl G) as Ch.
  assert (R : state x = RETRYING).
  { apply (q_retrying _ _ _ _ I id (facts x)); [|reflexivity].
    unfold view. now rewrite G. }
  assert (G1 : get_task_info id (modify id r m) = Some (r x)).
  { rewrite get_modify by reflexivity. now rewrite G, String.eqb_refl. }
  rewrite G1.
  change (view (_enqueue_task (r x) (modify id r m)))
    with (view (modify id r m)).
  apply (vrel_change requeues id _ _ _ _ ltac:(rel_refl) Ch).
  cbn [facts f_state r set_error set_end_time set_start_time set_task
       set_state state].
  now rewrite R.
Qed.

Lemma cancel_task_cancels (id : string) (w : World) :
  vrel cancels (view (manager w)) (view (manager (fst (cancel_task id w)))).
Proof.
  assert (Same : vrel cancels (view (manager w)) (view (manager w)))
    by (apply vrel_same; [rel_refl|reflexivity]).
  unfold cancel_task.
  destruct (get_task_info id (manager w)) as [x|] eqn:G; [|exact Same].
  pose proof (changes_modify id (set_state CANCELLED) (manager w) x
                             (fun _ => eq_refl) eq_refl G) as Ch.
  destruct (state x) eqn:S; [| |destruct (task x)| | | |];
    cbn [fst manager with_manager]; try exact Same;
      change (view (add_cancelled 1 ?X)) with (view X);
      apply (vrel_change cancels id _ _ _ _ ltac:(rel_refl) Ch);
      cbn [facts f_state set_state state]; now rewrite S.
Qed.

Lemma step_event_moves (w : World) (ev : Event) :
  scheduler_inv w -> system_inv w ->
  vrel event_move (view (manager w)) (view (manager (step w ev))).
Proof.
  intros SI Sy. pose proof Sy as [I Is].
  assert (Same : vrel event_move (view (manager w)) (view (manager w)))
    by (apply vrel_same; [rel_refl|reflexivity]).
  destruct ev as [|nm cfg now millis|id|now|o now|now|now]; cbn [step].
  - unfold start. destruct (_running (manager w)); [exact Same|].
    destruct (max_concurrent_tasks (manager w) <? 0); exact Same.
  - destruct (submit_task nm cfg now millis (manager w)) as [e|[id m']]
      eqn:Sub; [exact Same|].
    destruct (submit_task_keeps _ _ _ _ _ _ _ _ I Is Sub)
      as (_ & _ & Fr & _ & O & _).
    cbn [manager with_manager]. intros k a H.
    assert (N : k <> id) by (intros ->; congruence).
    exists a. rewrite O by exact N. split; [exact H|].
    now destruct (f_state a).
  - eapply (vrel_comp cancels rechecks event_move);
      [rel_cases|apply cancel_task_cancels|].
    apply vrel_same; [rel_refl|reflexivity].
  - unfold scheduler_wake. destruct (scheduler w) eqn:P; try exact Same.
    cbn [position] in I.
    destruct (_running (manager w)); [|exact Same].
    destruct (sweep_moves sweep_priorities now w I) as [S|S].
    + eapply (vrel_comp rechecks rechecks event_move);
        [rel_cases|exact S|]. apply vrel_same; [rel_refl|reflexivity].
    + eapply (vrel_comp launches rechecks event_move);
        [rel_cases|exact S|]. apply vrel_same; [rel_refl|reflexivity].
  - unfold settle. destruct (scheduler w) as [| |? ?|id rest|? ?|] eqn:P;
      try exact Same.
    cbn [position] in I.
    destruct (settle_handle id o now w) as [wd1 h2].
    destruct o as [v|e|].
    + apply (sweep_after exits_notifying); [rel_cases|rel_cases| |].
      * now apply on_task_success_keeps.
      * now apply on_task_success_exits.
    + pose proof (on_task_error_keeps id e now (manager w) I) as K1.
      pose proof (on_task_error_exits id e now (manager w) I) as V1.
      destruct (_on_task_error id e now (manager w)) as [m1 retry].
      cbn [fst snd] in K1, V1. destruct retry.
      * cbn [manager].
        eapply (vrel_comp exits_notifying rechecks event_move);
          [rel_cases|exact V1|]. apply vrel_same; [rel_refl|reflexivity].
      * apply (sweep_after exits_notifying); [rel_cases|rel_cases| |];
          assumption.
    + apply (sweep_after exits_notifying); [rel_cases|rel_cases| |].
      * now apply on_task_cancelled_keeps.
      * now apply on_task_cancelled_exits.
  - unfold retry_wake. destruct (scheduler w) as [| |? ?|? ?|id rest|] eqn:P;
      try exact Same.
    cbn [position] in I. unfold with_manager.
    apply (sweep_after requeues); [rel_cases|rel_cases| |].
    + now apply on_task_error_requeue_keeps.
    + now apply on_task_error_requeue_requeues.
  - unfold watchdog_tick.
    destruct (Watchdog._running (watchdog w)); [|exact Same].
    destruct (Watchdog._check_tasks now (watchdog w) (heap w)) as [wd1 h1].
    exact Same.
Qed.

(** X11. The states of a task. In every run of a manager, a task that is in
    the table stays in the table with the dependencies it has, and one
    event leaves its state as it is, or moves it along one of these edges:
    [WAITING] to [QUEUED] or [CANCELLED]; [QUEUED] to [RUNNING] or
    [CANCELLED]; [CANCELLED] to [RUNNING]; [RUNNING] to [COMPLETED],
    [FAILED], [CANCELLED] or [RETRYING]; [RETRYING] to [QUEUED]; or, when
    the event makes the task ready and dispatches it at once, along two of
    them, from [WAITING] or [RETRYING] through [QUEUED] to [RUNNING].
    Whatever events follow, a task that is not [WAITING] is never [WAITING]
    again. *)
Theorem task_states_move_along_the_edges
        (max_concurrent : Z) (enable_wd : bool) (interval : float)
        (evs : list Event) (ev : Event) (later : list Event) (id : string)
        (x : ManagedTask) :
  let w := run (new_world max_concurrent enable_wd interval) evs in
  get_task_info id (manager w) = Some x ->
  (exists x1,
      get_task_info id (manager (step w ev)) = Some x1
      /\ TaskConfig.dependencies (config x1)
         = TaskConfig.dependencies (config x)
      /\ (state x1 = state x
          \/ edge (state x) (state x1) = true
          \/ ((state x = WAITING \/ state x = RETRYING)
              /\ state x1 = RUNNING)))
  /\ (exists x',
         get_task_info id (manager (run w later)) = Some x'
         /\ TaskConfig.dependencies (config x')
            = TaskConfig.dependencies (config x)
         /\ (state x' = WAITING -> state x = WAITING)).
Proof.
  cbv zeta. intros G.
  destruct (reachable_invariants max_concurrent enable_wd interval evs)
    as (SI & Sy & _).
  set (w := run (new_world max_concurrent enable_wd interval) evs) in *.
  pose proof (view_lookup _ _ _ G) as V.
  split.
  - destruct (step_event_moves w ev SI Sy id _ V) as (a1 & V1 & M).
    destruct (step_system_inv w ev SI Sy) as [_ VM].
    destruct (VM id _ V) as (a2 & V2 & D & _).
    assert (a2 = a1) by congruence. subst a2.
    unfold view in V1.
    destruct (get_task_info id (manager (step w ev))) as [x1|];
      [|discriminate].
    cbn [option_map] in V1. injection V1 as <-.
    exists x1. split; [reflexivity|]. split; [exact D|].
    cbn [facts f_state] in M. revert M. unfold event_move.
    destruct (state x), (state x1); cbn; intros M; try discriminate M;
      auto.
  - destruct (run_system_inv later w SI Sy) as [_ VM].
    destruct (VM id _ V) as (a' & V' & D & M & _).
    destruct (lookup_view _ _ _ V') as (x' & G' & S' & _).
    exists x'. split; [exact G'|]. split.
    + unfold view in V'. rewrite G' in V'. cbn in V'. injection V' as <-.
      exact D.
    + intros W. cbn [facts f_state] in M. rewrite <- S' in M.
      now apply (moves_to_waiting _ _ M).
Qed.

Lemma task_states_move_along_the_edges_witness :
  exists x1,
    get_task_info
      "task_1_1000"%string
      (manager (step (run plain_world [Start; submit_plain])
                     (SchedulerWake 2%float)))
    = Some x1
    /\ edge QUEUED (state x1) = true.
Proof.
  destruct (get_task_info "task_1_1000"%string
                          (manager (run plain_world [Start; submit_plain])))
    as [x|] eqn:G; [|vm_compute in G; discriminate].
  assert (Q : state x = QUEUED)
    by (vm_compute in G; injection G as <-; reflexivity).
  destruct (task_states_move_along_the_edges
              5 true 1%float [Start; submit_plain] (SchedulerWake 2%float)
              [] "task_1_1000"%string x G) as ((x1 & G1 & _ & M) & _).
  exists x1. split; [exact G1|].
  assert (R : state x1 = RUNNING).
  { revert G1. vm_compute. intros G1. injection G1 as <-. reflexivity. }
  now rewrite R.
Defined.
